(* ===== verification/_CoqProject ===== *)
-Q . S2P
Prelude.v
PyStr.v
Domain.v
BookDomain.v
Citations.v
MessageRepo.v
MessageUseCases.v
ChatRepo.v
Retry.v
Store.v
Base.v
VectorStoreInit.v
Collections.v
ChatMemory.v
Annotations.v
Crud.v
MemoryVectorStore.v
Summarization.v
Vectorization.v
BookMemory.v
Books.v
BookTyping.v
Retrieval.v
PromptBuilder.v
MessageFlow.v
Routing.v
MessageApi.v
BookApi.v
ChatApi.v
HuggingFace.v
PodcastPrompts.v
Gemini.v
