(* ===== verification/Prelude.v ===== *)
(** * The memory and retrieval engine of bookwith, and the use cases around it

    A verification library for the Python API under
    [src/apps/api/src].  The engine ([infrastructure/memory/]) keeps a
    per-user ("tenant") long-term memory in a Weaviate vector database:
    chat messages are embedded and stored ([VectorizationService]),
    every 20 messages the unsummarized backlog of a chat is condensed
    by a language model into a summary record ([SummarizationService]),
    relevant memories are searched by vector ([ChatMemoryStore],
    [MemoryRetrievalService]) and assembled with the recent history
    into a prompt cut to 8192 tokens ([PromptBuilderService]).  Every
    store call carries the [@retry_on_error] decorator.  The use cases
    ([usecase/]) drive it: a chat turn ([CreateMessageUseCaseImpl])
    creates the chat, saves and vectorizes the user's message, asks for
    a summarization, builds the prompt and streams the answer, which is
    saved last; books, their blobs, annotations and vector memories are
    created and deleted by the book use cases.  The HTTP handlers
    ([presentation/api/]) route requests to the use cases and turn
    their exceptions into status codes.

    ** Files, in dependency order, and what they model
    - [Prelude]: Python exceptions with their classes ([exc_mro],
      [exc_isinstance] for [except C] clauses) and results, a state-and-exception
      monad [M S A := S -> res A * S] with [try_except], [for_each] and
      [lift_res]; Python strings as UTF-8 byte strings with [py_len]
      and [py_take] counting code points, [py_join], [py_split_char],
      [py_replace]; [strftime]; a stable [sort_by_key]; the rule
      libraries [respects], [preserves], [hoare], [ensures],
      [no_raise] and [raises] that the component proofs compose, and
      the hint database [pydb].
    - [Domain], [BookDomain]: the entities [Message], [Chat], [Book],
      [Annotation] and the value objects ([BookTitle], [BookId],
      [BookMetadata], [AnnotationId/Text/Type]) of [domain/]; the
      message and chat value objects, whose classes the repository
      lacks, are constructors that may raise ([MessageValueObjects],
      [ChatValueObjects]), parameters of the code that builds them.
    - [PyStr]: the Python string builtins the code uses
      ([str.strip], [in], [lower], slicing, [str(int)]) and
      [str.format] with its escapes and errors, on UTF-8 strings.
    - [Citations]: [CitationParser] ([usecase/message/citation_parser.py]),
      with the regular-expression matches as parameters.
    - [MessageRepo]: the [MessageRepository] interface as a type class
      with laws, and the Postgres implementation
      ([infrastructure/postgres/message/message_repository.py]) over its
      rows, proved to satisfy them, with [bulk_delete] equivalent to one
      [delete] per id.  [MessageUseCases]: the message deletion and
      query use cases, proved against the laws.
    - [ChatRepo]: the [ChatRepository] interface with laws, the six chat
      use cases proved against it, and a soft-deleting reference table.
    - [Retry]: [retry_on_error] ([retry_decorator.py]), its loop with
      fuel, and a refinement theorem against an abstract retry spec.
    - [Store]: the Weaviate client (a library, not repository code):
      collections, tenants, objects, filters, queries and writes, and
      the [World] of the Python process (database, pending connection
      faults, sleeps, log, embedding and generation models, clock).
    - [VectorStoreInit]: [BaseVectorStore.__init__], the process-wide
      shared Weaviate client (connected with 5 retries) and embedding
      model, [get_client] and [get_embedding_model].
    - [Base], [Collections], [ChatMemory], [Annotations], [Crud]: the
      stores ([base_vector_store.py], [collection_manager.py],
      [chat_memory_store.py], [book_annotation_store.py]), the
      [HighlightSearcher], and [VectorCrudService] (not in the
      repository; modelled from the spec, section 4.3).
      [MemoryVectorStore]: the integrated store's constructor, the five
      stores it builds, all sharing the client, and its delegating
      methods.
    - [Summarization], [Vectorization], [BookMemory], [Retrieval],
      [PromptBuilder]: the services of [infrastructure/memory/].
    - [Books]: the book use cases ([usecase/book/],
      [usecase/annotation/]) over a blob storage, a [BookRepository]
      type class with laws and a reference table.  [BookTyping]: the
      writing book use cases as a step relation [book_step], which keeps
      the [BookTitle] type pydantic gives every stored book.
    - [MessageFlow]: [MessageProcessor], [ChatManager],
      [AIResponseGenerator] and [CreateMessageUseCaseImpl.execute],
      against both repository interfaces and the value objects, with
      the turn relation [turn_step] over the whole application state,
      and which turns answer and which raise.  [execute] is the body
      [execute_turn] with its [process_summarization] step.
    - [Routing]: FastAPI's routers (framework behaviour): route tables
      in decorator order, Starlette's first-match dispatch, and the
      answer to a returned value or a raised [HTTPException].
      [MessageApi], [BookApi], [ChatApi]: the handlers of
      [message_api_route_handler.py], [book_api_route_handler.py] and
      [chat_api_route_handler.py] over the use cases, each router in
      front of its handlers.
    - [HuggingFace]: the prompt layout of [HuggingFaceChatClient]
      ([infrastructure/llm/huggingface_client.py]) per model family.
    - [PodcastPrompts], [Gemini]: the podcast prompt templates
      ([infrastructure/external/gemini/prompts/podcast_prompts.py]) and
      [GeminiClient] ([gemini_client.py]): the podcast prompt, the
      script with its function-call, text-parsing and simplified-prompt
      paths, and the summaries, with the Gemini API and [json.loads] as
      parameters.

    ** What is proved
    Retries: success within the budget, re-raise of the last error
    after exactly [max_retries + 1] calls, at most [max_retries + 1]
    calls and [max_retries] sleeps whatever the operation does,
    refinement of the loop by an abstract spec.  Stores: tenant isolation of the chat memory,
    collections created and never replaced, idempotent annotation
    deletion, a no-op update of an unknown annotation, the deletion of
    a book's vector data.  Summarization: its trigger, that it never
    raises and never loses a record.  Two code bugs: message records
    lack [is_summarized], so no summary is ever written
    ([Vectorization.summaries_never_written]); and the count is taken
    between the two saves of a turn, so after any conversation of
    completed turns the next turn runs exactly as the same turn without
    its summarization step ([MessageFlow.completed_turns_never_summarize],
    from an invariant of [turn_step] by rule induction).  Prompts: the frame, the bound with
    the character estimator and its overshoot by one token, the label
    of retrieved memories, the history order.  Use cases: correctness
    of chat and message deletion and title update against the
    interfaces, the atomicity of book creation when the storage works,
    its frame whatever the storage does, book deletion, the
    [BookMetadata] round trip and [Annotation.create]'s spine bug.
    [MemoryVectorStore()] is its own construction followed by
    [_ensure_collections] and nothing else: the stores it builds reuse
    the shared client and connect no more
    ([MemoryVectorStore.memory_vector_store_init_ready]); connecting
    takes at most six attempts, and the OpenAI provider without a key
    is fatal at construction.
    Chat turns: a turn without a book answers with the model's answer,
    whatever the store and the embedding model do, when the value
    objects accept its inputs ([MessageFlow.execute_answers]),
    while a turn about a book raises when the embedding model is down,
    against the spec's promise of an answer
    ([MessageFlow.book_turn_raises_without_embeddings]).  Citations:
    reference numbers always come from the superscript table, and
    [add_citation_links] breaks the link of a marker another marker
    prefixes ([★1] and [★12], [Citations.add_citation_links_prefix_marker]).
    HTTP: the message router never reaches [bulk_delete_messages],
    because [DELETE /{message_id}] is registered first and takes
    [DELETE /bulk] ([MessageApi.bulk_delete_messages_unreachable]);
    message deletion through the router answers [400] for an id
    [MessageId] rejects, [404] or [200], and book deletion [404], [200]
    or, for a malformed book id, the server error [500]
    ([MessageApi.message_api_delete], [BookApi.book_api_delete]);
    [POST] of a message always answers [200], its [except] being dead
    code around an async generator, so a failing turn only cuts the
    stream ([MessageApi.message_api_stream_200]); a book's file URL
    goes only to its owner ([BookApi.get_book_file_owner_only]); a
    chat's title update answers [422], [400], [404] or [200] as its
    schema, value objects and use case decide
    ([ChatApi.chat_api_update_title]).  The Hugging Face prompt
    flattens roles into text, so a question can spell out a whole
    exchange and get exactly its prompt
    ([HuggingFace.hf_prompt_spelled_exchange]).  Podcasts: the script
    prompt puts the title, the length and the summary in verbatim and
    never raises ([Gemini.create_podcast_prompt_verbatim]); the
    simplified prompt's path always gives a non-empty list of HOST and
    GUEST turns ([Gemini.generate_with_simplified_prompt_turns]); and a
    script is either the model's function-call argument, unchecked, or
    such a list ([Gemini.generate_podcast_script_result]).

    ** Bounds and fuel
    [retry_loop] runs on fuel [S max_retries], proved enough
    ([Retry.retry_loop_fuel_enough]): each iteration either returns or
    consumes one retry.  [py_replace] runs on the length of its string,
    which each step shortens; [str.format] runs on the length of its
    template, each step consuming at least one byte.  Integers are [Z]
    or [nat]; the only
    machine-width quantities of the code are token counts and
    timestamps, which Python keeps unbounded.

    ** Not modelled
    The podcast and RAG handlers and the podcast converter
    ([presentation/]): their use cases, repository and schemas are not
    in the repository, as are the use cases behind
    [get_books_by_user], [get_covers] and [put_book], which [BookApi]
    leaves to a parameter; the model calls (the Gemini API, the
    Inference API calls of [huggingface_client.py]) and the LangChain
    chains are the capabilities [generate_content], [w_llm] and
    [Generator]; [get_book_content_vector_store()] of the hybrid chain
    is [Generator]'s retriever; configuration,
    seeding and [infrastructure/vector.py] only call libraries; the
    regular expressions of [citation_parser.py] are the [re] library's
    and enter as parameters.  Files the code imports
    but the repository lacks ([memory_service.py],
    [vector_crud_service.py], [book_content_store.py], the book
    repository, the GCS client) are modelled from the spec where the
    modelled code calls them, and marked so in the manifest. *)

From stdpp Require Export base gmap strings list sorting pretty.
From Stdlib Require Export ZArith Lia.
From Stdlib Require String.

(** The development's hint database: resolution hints for the
    combinators below and rewrite rules for strings and stores. *)
Create HintDb pydb.
Create Rewrite HintDb pydb.

(** ** Exceptions and results *)

(** The exceptions the modelled code raises or catches.  [StoreError]
    stands for any exception the vector database client raises
    (connection loss, timeout, rejected request); [ServiceError] any
    exception of a language model client; [ValueError], [TypeError],
    [KeyError], [IndexError] and [AttributeError] are Python's; [DomainError] is any exception of the
    repository's [domain/*/exceptions] modules, with its class and the
    classes of the module it derives from, most derived first. *)
Inductive Exc :=
| StoreError (msg : string)
| ValueError (msg : string)
| TypeError (msg : string)
| KeyError (msg : string)
| IndexError (msg : string)
| AttributeError (msg : string)
| ServiceError (msg : string)
| DomainError (classes : list string) (msg : string).

#[export] Instance Exc_eq_dec : EqDecision Exc.
Proof. solve_decision. Defined.

(** [type(e).__mro__], the classes an exception is an instance of, most
    derived first, without [BaseException] and [object]; the client
    libraries' exceptions derive from [Exception] only. *)
Definition exc_mro (e : Exc) : list string :=
  match e with
  | ValueError _ => ["ValueError"; "Exception"]
  | TypeError _ => ["TypeError"; "Exception"]
  | KeyError _ => ["KeyError"; "LookupError"; "Exception"]
  | IndexError _ => ["IndexError"; "LookupError"; "Exception"]
  | AttributeError _ => ["AttributeError"; "Exception"]
  | StoreError _ | ServiceError _ => ["Exception"]
  | DomainError classes _ => classes ++ ["Exception"]
  end.

(** [isinstance(e, cls)], which an [except cls] clause tests. *)
Definition exc_isinstance (e : Exc) (cls : string) : bool := bool_decide (cls ∈ exc_mro e).

(** The outcome of a Python call: a returned value or a raised exception. *)
Inductive res (A : Type) := Ok (a : A) | Err (e : Exc).
Arguments Ok {A} a.
Arguments Err {A} e.

Definition is_ok {A} (r : res A) : bool :=
  match r with Ok _ => true | Err _ => false end.

(** A call that cannot touch any state: [res] as a monad. *)
#[export] Instance res_ret : MRet res := fun A a => Ok a.
#[export] Instance res_bind : MBind res := fun A B k r =>
  match r with Ok a => k a | Err e => Err e end.

(** Injectivity of [Ok] without reducing its argument. *)
Lemma Ok_inj {A} (a b : A) : Ok a = Ok b -> a = b.
Proof. by intros [=]. Qed.

(** ** State and exceptions *)

(** A computation over a state [S] that returns or raises.  The state is
    returned in both cases: an exception raised half-way through a
    Python method leaves the writes already done in place. *)
Definition M (S A : Type) : Type := S -> res A * S.

#[export] Instance M_ret S : MRet (M S) := fun A a s => (Ok a, s).
#[export] Instance M_bind S : MBind (M S) := fun A B k m s =>
  match m s with
  | (Ok a, s') => k a s'
  | (Err e, s') => (Err e, s')
  end.

Definition get {S} : M S S := fun s => (Ok s, s).
Definition put {S} (s : S) : M S unit := fun _ => (Ok tt, s).
Definition modify {S} (f : S -> S) : M S unit := fun s => (Ok tt, f s).
Definition raise {S A} (e : Exc) : M S A := fun s => (Err e, s).

(** A pure result that may be an exception, raised in the monad. *)
Definition lift_res {S A} (r : res A) : M S A := fun s => (r, s).

(** [try: m except Exception as e: h e]: the handler runs from the state
    the failing computation left behind. *)
Definition try_except {S A} (m : M S A) (h : Exc -> M S A) : M S A :=
  fun s => match m s with
           | (Ok a, s') => (Ok a, s')
           | (Err e, s') => h e s'
           end.

(** Python's [for x in xs: body(x)] over a state. *)
Fixpoint for_each {S A} (xs : list A) (body : A -> M S unit) : M S unit :=
  match xs with
  | [] => mret tt
  | x :: xs' => body x;; for_each xs' body
  end.

(** ** Python strings *)

(** Python's ["\n"]: Rocq string literals have no escapes. *)
Definition NL : string := String.String (Ascii.ascii_of_nat 10) "".

(** ["sep".join(l)]. *)
Fixpoint py_join (sep : string) (l : list string) : string :=
  match l with
  | [] => ""
  | [s] => s
  | s :: l' => s +:+ sep +:+ py_join sep l'
  end.

(** Python strings are sequences of code points, Rocq strings of bytes:
    a string here is the UTF-8 encoding of the Python string.  A byte
    [10xxxxxx] continues a code point; every other byte starts one. *)
Definition is_cont (c : Ascii.ascii) : bool :=
  let n := Ascii.nat_of_ascii c in Nat.leb 128 n && Nat.ltb n 192.

(** [len(s)]: the number of code points. *)
Fixpoint py_len (s : string) : nat :=
  match s with
  | "" => 0
  | String.String c s' => (if is_cont c then 0 else 1) + py_len s'
  end.

(** [s[:n]] for [n >= 0]: the first [n] code points. *)
Fixpoint py_take (n : nat) (s : string) : string :=
  match s with
  | "" => ""
  | String.String c s' =>
      if is_cont c then String.String c (py_take n s')
      else match n with O => "" | S n' => String.String c (py_take n' s') end
  end.

(** *** Lengths and shapes of strings *)

Lemma str_app_nil_l b : "" +:+ b = b.
Proof. reflexivity. Qed.

Lemma str_app_cons c a b : String.String c a +:+ b = String.String c (a +:+ b).
Proof. reflexivity. Qed.

Lemma py_len_app a b : py_len (a +:+ b) = py_len a + py_len b.
Proof. induction a as [|c a IH]; [done|]. rewrite str_app_cons. cbn [py_len]. lia. Qed.

Lemma str_app_assoc a b c : (a +:+ b) +:+ c = a +:+ (b +:+ c).
Proof. induction a as [|x a IH]; [done|]. rewrite !str_app_cons. congruence. Qed.

Lemma str_app_nil_r a : a +:+ "" = a.
Proof. induction a as [|x a IH]; [done|]. rewrite str_app_cons. congruence. Qed.

Lemma str_app_inj_l a b c : a +:+ b = a +:+ c -> b = c.
Proof. induction a as [|x a IH]; [done|]. rewrite !str_app_cons. intros [= H]. by apply IH. Qed.

(** [s.split(c)] for a one-character separator. *)
Fixpoint py_split_char (c : Ascii.ascii) (s : string) : list string :=
  match s with
  | EmptyString => [""]
  | String.String x rest =>
      let parts := py_split_char c rest in
      if Ascii.eqb x c then "" :: parts
      else match parts with p :: ps => String.String x p :: ps | [] => [String.String x ""] end
  end.

(** [s.replace(old, new)]: every occurrence, left to right, without
    overlaps.  The code's patterns are never empty; with an empty [old]
    the model leaves [s] as it is. *)
Fixpoint py_replace_fuel (fuel : nat) (old new s : string) : string :=
  match fuel with
  | O => s
  | S fuel' =>
      match s with
      | EmptyString => EmptyString
      | String.String x rest =>
          if negb (String.eqb old "") && String.prefix old s
          then new +:+ py_replace_fuel fuel' old new (String.substring (String.length old)
                                                      (String.length s - String.length old) s)
          else String.String x (py_replace_fuel fuel' old new rest)
      end
  end.

Definition py_replace (s old new : string) : string := py_replace_fuel (String.length s) old new s.

Lemma py_take_len n s : py_len (py_take n s) = Nat.min n (py_len s).
Proof.
  revert n. induction s as [|c s IH]; intros n; [cbn; lia|]. cbn [py_take py_len].
  destruct (is_cont c) eqn:Hc.
  - cbn [py_len]. rewrite Hc. apply IH.
  - destruct n as [|n]; [done|]. cbn [py_len]. rewrite Hc, IH. lia.
Qed.

Lemma py_join_cons2 sep a b l : py_join sep (a :: b :: l) = a +:+ sep +:+ py_join sep (b :: l).
Proof. reflexivity. Qed.

(** Joining starts with the first piece. *)
Lemma py_join_head sep a l :
  py_join sep (a :: l) = a +:+ match l with [] => "" | _ => sep +:+ py_join sep l end.
Proof. destruct l; [by rewrite str_app_nil_r|done]. Qed.

(** Joining ends with the last piece. *)
Lemma py_join_snoc sep l b :
  py_join sep (l ++ [b]) = match l with [] => b | _ => py_join sep l +:+ sep +:+ b end.
Proof.
  induction l as [|a l IH]; [done|]. destruct l as [|a' l]; [done|].
  cbn [app] in *. rewrite py_join_cons2, IH, py_join_cons2. by rewrite !str_app_assoc.
Qed.

(** Joining two non-empty lists puts one separator between them. *)
Lemma py_join_app sep l1 l2 :
  l1 <> [] -> l2 <> [] -> py_join sep (l1 ++ l2) = py_join sep l1 +:+ sep +:+ py_join sep l2.
Proof.
  intros H1 H2. induction l1 as [|a l IH]; [done|]. destruct l as [|a' l].
  - destruct l2; [done|]. reflexivity.
  - cbn [app]. rewrite py_join_cons2. change (a' :: l ++ l2) with ((a' :: l) ++ l2).
    rewrite (IH ltac:(done)). by rewrite py_join_cons2, !str_app_assoc.
Qed.

(** The total length of a list of strings. *)
Definition py_len_sum (l : list string) : nat := foldr (fun s n => py_len s + n) 0 l.

Lemma py_join_len sep l :
  py_len (py_join sep l) = py_len_sum l + (length l - 1) * py_len sep.
Proof.
  induction l as [|a l IH]; [done|]. destruct l as [|b l].
  - cbn. lia.
  - rewrite py_join_cons2, !py_len_app, IH. cbn [py_len_sum foldr length]. lia.
Qed.

Lemma py_len_NL : py_len NL = 1.
Proof. reflexivity. Qed.

#[export] Hint Rewrite py_len_app py_take_len py_len_NL str_app_assoc : pydb.

(** Joining keeps the first and the last piece in place. *)
Lemma py_join_frame sep first middle final :
  exists mid, py_join sep (first :: middle ++ [final]) = first +:+ mid +:+ final.
Proof.
  exists ((match middle with [] => "" | _ => sep +:+ py_join sep middle end) +:+ sep).
  rewrite app_comm_cons, py_join_snoc. cbv iota beta.
  rewrite py_join_head, !str_app_assoc. reflexivity.
Qed.

(** The total length of pieces each at most [B] long. *)
Lemma py_len_sum_map_le {A} (f : A -> string) (l : list A) (B : Z) :
  (forall x, In x l -> Z.of_nat (py_len (f x)) <= B)%Z ->
  (Z.of_nat (py_len_sum (map f l)) <= Z.of_nat (length l) * B)%Z.
Proof.
  induction l as [|x l IH]; intros Hb; [cbn; lia|]. cbn [map py_len_sum foldr length].
  pose proof (Hb x (or_introl eq_refl)) as Hx.
  assert (IH' := IH (fun y Hy => Hb y (or_intror Hy))). unfold py_len_sum in *. lia.
Qed.

(** [a // b] on Python ints is floor division, which [Z.div] is. *)
Definition py_floordiv (a b : Z) : Z := Z.div a b.

(** ** Dates: [strftime("%Y-%m-%dT%H:%M:%SZ")] of seconds since 1970 *)

Definition digit_char (d : Z) : Ascii.ascii := Ascii.ascii_of_nat (48 + Z.to_nat d).

(** The last [n] decimal digits of [z >= 0], zero padded. *)
Fixpoint pad_digits (n : nat) (z : Z) : string :=
  match n with
  | O => ""
  | S n' => pad_digits n' (z / 10)%Z +:+ String.String (digit_char (z mod 10)%Z) ""
  end.

(** Year, month and day of a day count since 1970-01-01 (the proleptic
    Gregorian calendar, by 400-year eras). *)
Definition civil_from_days (days : Z) : Z * Z * Z :=
  let z := (days + 719468)%Z in
  let era := (z / 146097)%Z in
  let doe := (z - era * 146097)%Z in
  let yoe := ((doe - doe / 1460 + doe / 36524 - doe / 146096) / 365)%Z in
  let doy := (doe - (365 * yoe + yoe / 4 - yoe / 100))%Z in
  let mp := ((5 * doy + 2) / 153)%Z in
  let d := (doy - (153 * mp + 2) / 5 + 1)%Z in
  let m := (if (mp <? 10)%Z then mp + 3 else mp - 9)%Z in
  let y := (yoe + era * 400 + (if (m <=? 2)%Z then 1 else 0))%Z in
  (y, m, d).

Definition strftime_iso (t : Z) : string :=
  let '(y, m, d) := civil_from_days (t / 86400)%Z in
  let secs := (t mod 86400)%Z in
  pad_digits 4 y +:+ "-" +:+ pad_digits 2 m +:+ "-" +:+ pad_digits 2 d +:+ "T" +:+
  pad_digits 2 (secs / 3600)%Z +:+ ":" +:+ pad_digits 2 (secs mod 3600 / 60)%Z +:+ ":" +:+
  pad_digits 2 (secs mod 60)%Z +:+ "Z".

(** [str(dt)] of an aware UTC datetime: ["YYYY-MM-DD HH:MM:SS+00:00"]. *)
Definition py_str_datetime (t : Z) : string :=
  let '(y, m, d) := civil_from_days (t / 86400)%Z in
  let secs := (t mod 86400)%Z in
  pad_digits 4 y +:+ "-" +:+ pad_digits 2 m +:+ "-" +:+ pad_digits 2 d +:+ " " +:+
  pad_digits 2 (secs / 3600)%Z +:+ ":" +:+ pad_digits 2 (secs mod 3600 / 60)%Z +:+ ":" +:+
  pad_digits 2 (secs mod 60)%Z +:+ "+00:00".

(** ** Stable sort by key: Python's [list.sort(key=...)] *)

Section SortByKey.
  Context {A : Type} (key : A -> Z).

Fixpoint insert_by_key (x : A) (l : list A) : list A :=
    match l with
    | [] => [x]
    | y :: l' => if Z.leb (key x) (key y) then x :: y :: l'
                 else y :: insert_by_key x l'
    end.

  (** Insertion from the back keeps equal keys in their input order. *)
Definition sort_by_key (l : list A) : list A :=
    fold_right insert_by_key [] l.

Definition key_le (a b : A) : Prop := (key a <= key b)%Z.
End SortByKey.

Lemma filter_cons_bool {A} (f : A -> bool) x l :
  List.filter f (x :: l) = if f x then x :: List.filter f l else List.filter f l.
Proof. reflexivity. Qed.

Lemma list_filter_none {A} (P : A -> Prop) `{!forall x, Decision (P x)} (l : list A) :
  (forall x, x ∈ l -> ~ P x) -> filter P l = [].
Proof.
  induction l as [|x l IH]; intros Hl; [done|]. rewrite filter_cons.
  rewrite decide_False by (apply Hl; set_solver). apply IH. set_solver.
Qed.

Section SortByKeyFacts.
Context {A : Type} (key : A -> Z).

Lemma insert_by_key_perm x l : insert_by_key key x l ≡ₚ x :: l.
Proof.
  induction l as [|y l IH]; [done|]. cbn [insert_by_key].
  destruct (key x <=? key y)%Z; [done|]. rewrite IH. apply perm_swap.
Qed.

Lemma sort_by_key_perm l : sort_by_key key l ≡ₚ l.
Proof.
  induction l as [|x l IH]; [done|]. unfold sort_by_key; cbn [fold_right].
  fold (sort_by_key key l). by rewrite insert_by_key_perm, IH.
Qed.

Lemma insert_by_key_sorted x l :
  StronglySorted (key_le key) l -> StronglySorted (key_le key) (insert_by_key key x l).
Proof.
  unfold key_le. induction l as [|y l IH]; intros Hs; cbn [insert_by_key].
  - repeat constructor.
  - apply StronglySorted_inv in Hs as [Hl Hy]. destruct (Z.leb_spec (key x) (key y)).
    + constructor; [by constructor|]. constructor; [done|].
      eapply Forall_impl; [exact Hy|]. cbn. lia.
    + constructor; [by apply IH|].
      apply Forall_forall. intros z Hz. apply list_elem_of_In in Hz.
      rewrite insert_by_key_perm in Hz. destruct Hz as [<-|Hz]; [lia|].
      apply list_elem_of_In in Hz. by eapply Forall_forall in Hy.
Qed.

Lemma sort_by_key_sorted l : StronglySorted (key_le key) (sort_by_key key l).
Proof.
  induction l as [|x l IH]; [constructor|]. unfold sort_by_key; cbn [fold_right].
  by apply insert_by_key_sorted.
Qed.
End SortByKeyFacts.

Lemma StronglySorted_weaken {A} (R R' : relation A) l :
  (forall a b, R a b -> R' a b) -> StronglySorted R l -> StronglySorted R' l.
Proof.
  intros HR. induction 1 as [|a l Hl IH Ha]; constructor; [done|].
  eapply Forall_impl; [exact Ha|]. intros b. apply HR.
Qed.

Lemma StronglySorted_take {A} (R : relation A) n l :
  StronglySorted R l -> StronglySorted R (take n l).
Proof. intros Hs. rewrite <- (take_drop n l) in Hs. by apply StronglySorted_app_1_l in Hs. Qed.

(** *** [find] *)

Lemma find_none_intro {A} (f : A -> bool) l :
  (forall x, In x l -> f x = false) -> find f l = None.
Proof.
  induction l as [|x l IH]; intros Hf; [done|]. cbn [find].
  rewrite (Hf x (or_introl eq_refl)). apply IH. intros y Hy. apply Hf. by right.
Qed.

(** [find] on an append: the first part's answer, if it has one. *)
Lemma find_app_l_none {A} (f : A -> bool) l1 l2 :
  find f l1 = None -> find f (l1 ++ l2) = find f l2.
Proof. induction l1 as [|x l1 IH]; [done|]. cbn. by destruct (f x). Qed.

Lemma find_app_l_none' {A} (f : A -> bool) l1 l2 :
  find f (l1 ++ l2) = match find f l1 with Some x => Some x | None => find f l2 end.
Proof. induction l1 as [|x l1 IH]; [done|]. cbn. by destruct (f x). Qed.

(** Dropping elements [find] rejects anyway does not change its answer. *)
Lemma find_filter_irrelevant {A} (f g : A -> bool) l :
  (forall x, g x = false -> f x = false) -> find f (List.filter g l) = find f l.
Proof.
  intros Hg. induction l as [|x l IH]; [done|]. cbn [List.filter find].
  destruct (g x) eqn:Hx; cbn [find]; [by destruct (f x); [|apply IH]|].
  by rewrite (Hg x Hx).
Qed.

(** Changing elements [find] rejects before and after does not either. *)
Lemma find_map_irrelevant {A} (f : A -> bool) (h : A -> A) l :
  (forall x, h x = x \/ (f x = false /\ f (h x) = false)) -> find f (map h l) = find f l.
Proof.
  intros Hh. induction l as [|x l IH]; [done|]. cbn [map find].
  destruct (Hh x) as [->|[-> ->]]; [|done]. by destruct (f x).
Qed.

(** Reversing a sorted list sorts it the other way. *)
Lemma StronglySorted_rev {A} (R : relation A) l :
  StronglySorted R l -> StronglySorted (flip R) (rev l).
Proof.
  induction 1 as [|a l Hl IH Ha]; cbn [rev]; [constructor|].
  apply StronglySorted_app_2; [|done|repeat constructor].
  intros x y Hx Hy%list_elem_of_singleton. subst y.
  apply list_elem_of_In in Hx. rewrite <- List.in_rev in Hx.
  by apply (proj1 (List.Forall_forall _ _) Ha).
Qed.

Lemma StronglySorted_filter_bool {A} (R : relation A) (f : A -> bool) l :
  StronglySorted R l -> StronglySorted R (List.filter f l).
Proof.
  induction 1 as [|a l Hl IH Ha]; cbn [List.filter]; [constructor|].
  destruct (f a); [|done]. constructor; [done|].
  apply List.Forall_forall. intros x [Hx _]%List.filter_In.
  by apply (proj1 (List.Forall_forall _ _) Ha).
Qed.

(** ** Automation *)


(** Unfold the monad's plumbing on a concrete program. *)
Ltac unfold_m :=
  cbv [mbind mret M_bind M_ret get put modify raise try_except] in *.

(** A bound computation that returned: both parts returned. *)
Lemma bind_run_inv {S A B} (m : M S A) (k : A -> M S B) s b s' :
  (m ≫= k) s = (Ok b, s') -> exists a s1, m s = (Ok a, s1) /\ k a s1 = (Ok b, s').
Proof.
  unfold mbind, M_bind. destruct (m s) as [[a|e] s1]; [|discriminate]. intros Hk. by exists a, s1.
Qed.

(** Split the first bind of a run hypothesis. *)
(** A bound computation that raised: the first part raised, or it
    returned and the rest raised. *)
Lemma bind_err_inv {S A B} (m : M S A) (k : A -> M S B) s e s' :
  (m ≫= k) s = (Err e, s') ->
  m s = (Err e, s') \/ exists a s1, m s = (Ok a, s1) /\ k a s1 = (Err e, s').
Proof.
  unfold mbind, M_bind. destruct (m s) as [[a|e0] s1]; [intros Hk; right; by exists a, s1|intros [= -> ->]; by left].
Qed.

Ltac run_step H a s1 Ha :=
  apply bind_run_inv in H as (a & s1 & Ha & H).

(** ** Computations that only look at part of the state

    [respects R m]: on states related by [R], [m] returns the same
    outcome and leaves related states.  Used to show that an operation
    reads only one tenant's partition (and so cannot see another's). *)
Definition respects {S A} (R : S -> S -> Prop) (m : M S A) : Prop :=
  forall s s', R s s' -> fst (m s) = fst (m s') /\ R (snd (m s)) (snd (m s')).

Section Respects.
  Context {S : Type} (R : S -> S -> Prop).

Lemma mret_respects {A} (a : A) : respects R (mret a).
  Proof. by intros s s' HR. Qed.

Lemma raise_respects {A} e : respects R (raise (A:=A) e).
  Proof. by intros s s' HR. Qed.

Lemma bind_respects {A B} (m : M S A) (k : A -> M S B) :
    respects R m -> (forall a, respects R (k a)) -> respects R (m ≫= k).
  Proof.
    intros Hm Hk s s' HR. destruct (Hm s s' HR) as [Hfst Hsnd].
    unfold mbind, M_bind.
    destruct (m s) as [[a|e] s1], (m s') as [[a'|e'] s1']; simplify_eq/=; [|done].
    by apply Hk.
  Qed.

Lemma try_except_respects {A} (m : M S A) (h : Exc -> M S A) :
    respects R m -> (forall e, respects R (h e)) -> respects R (try_except m h).
  Proof.
    intros Hm Hh s s' HR. destruct (Hm s s' HR) as [Hfst Hsnd]. unfold try_except.
    destruct (m s) as [[a|e] s1], (m s') as [[a'|e'] s1']; simplify_eq/=; [done|].
    by apply Hh.
  Qed.

Lemma for_each_respects {A} (xs : list A) (body : A -> M S unit) :
    (forall x, respects R (body x)) -> respects R (for_each xs body).
  Proof.
    intros Hb. induction xs as [|x xs IH]; cbn [for_each];
      [apply mret_respects | by apply bind_respects].
  Qed.
End Respects.

#[export] Hint Resolve mret_respects raise_respects bind_respects
  try_except_respects for_each_respects : pydb.

(** [preserves P m]: whatever [m] returns or raises, it keeps [P]. *)
Definition preserves {S A} (P : S -> Prop) (m : M S A) : Prop :=
  forall s, P s -> P (snd (m s)).

Section Preserves.
  Context {S : Type} (P : S -> Prop).

Lemma mret_preserves {A} (a : A) : preserves P (mret a).
  Proof. by intros s HP. Qed.

Lemma raise_preserves {A} e : preserves P (raise (A:=A) e).
  Proof. by intros s HP. Qed.

Lemma bind_preserves {A B} (m : M S A) (k : A -> M S B) :
    preserves P m -> (forall a, preserves P (k a)) -> preserves P (m ≫= k).
  Proof.
    intros Hm Hk s HP. specialize (Hm s HP). unfold mbind, M_bind.
    destruct (m s) as [[a|e] s1]; [by apply Hk|done].
  Qed.

Lemma try_except_preserves {A} (m : M S A) (h : Exc -> M S A) :
    preserves P m -> (forall e, preserves P (h e)) -> preserves P (try_except m h).
  Proof.
    intros Hm Hh s HP. specialize (Hm s HP). unfold try_except.
    destruct (m s) as [[a|e] s1]; [done|by apply Hh].
  Qed.

Lemma for_each_preserves {A} (xs : list A) (body : A -> M S unit) :
    (forall x, preserves P (body x)) -> preserves P (for_each xs body).
  Proof.
    intros Hb. induction xs as [|x xs IH]; cbn [for_each];
      [apply mret_preserves | by apply bind_preserves].
  Qed.
End Preserves.

#[export] Hint Resolve mret_preserves raise_preserves bind_preserves
  try_except_preserves for_each_preserves : pydb.

Lemma get_preserves {S} (P : S -> Prop) : preserves P get.
Proof. by intros s HP. Qed.

Lemma lift_res_bind_ok {S A B} (a : A) (k : A -> M S B) s : (lift_res (Ok a) ≫= k) s = k a s.
Proof. reflexivity. Qed.

Lemma lift_res_bind_err {S A B} e (k : A -> M S B) s : (lift_res (Err e) ≫= k) s = (Err e, s).
Proof. reflexivity. Qed.

Lemma get_bind {S B} (k : S -> M S B) s : (get ≫= k) s = k s s.
Proof. reflexivity. Qed.

Lemma modify_bind {S B} (f : S -> S) (k : unit -> M S B) s : (modify f ≫= k) s = k tt (f s).
Proof. reflexivity. Qed.

Lemma bind_err_l {S A B} (m : M S A) (k : A -> M S B) s e s1 :
  m s = (Err e, s1) -> (m ≫= k) s = (Err e, s1).
Proof. intros Hm. unfold mbind, M_bind. by rewrite Hm. Qed.

Lemma ret_bind {S A B} (a : A) (k : A -> M S B) s : (mret a ≫= k) s = k a s.
Proof. reflexivity. Qed.

Lemma lift_res_preserves {S A} (P : S -> Prop) (r : res A) : preserves P (lift_res r).
Proof. by intros s HP. Qed.

#[export] Hint Resolve get_preserves lift_res_preserves : pydb.

(** Push [preserves] through a monadic program: binds, [try], loops,
    conditionals and matches, closing the leaves with [pydb]. *)
Ltac solve_preserves :=
  repeat first
    [ lazymatch goal with |- preserves _ _ => fail | |- forall _, _ => intro end
    | solve [eauto with pydb]
    | apply bind_preserves | apply try_except_preserves | apply for_each_preserves
    | apply mret_preserves | apply raise_preserves | apply get_preserves
    | match goal with
      | |- preserves _ (if ?b then _ else _) => destruct b
      | |- preserves _ (match ?x with _ => _ end) => destruct x
      end ].

(** ** Triples: an invariant kept and a postcondition on returned values *)

Definition hoare {S A} (P : S -> Prop) (m : M S A) (Q : A -> Prop) : Prop :=
  forall s, P s -> P (snd (m s)) /\ forall a, fst (m s) = Ok a -> Q a.

Lemma preserves_True {S A} (m : M S A) : preserves (fun _ => True) m.
Proof. done. Qed.
#[export] Hint Resolve preserves_True : pydb.

Section Hoare.
Context {S : Type} (P : S -> Prop).

Lemma hoare_ret {A} (Q : A -> Prop) a : Q a -> hoare P (mret a) Q.
Proof. intros HQ s HP. split; [done|]. by intros ? [= <-]. Qed.

Lemma hoare_raise {A} (Q : A -> Prop) e : hoare P (raise e) Q.
Proof. by intros s HP. Qed.

Lemma hoare_get (Q : S -> Prop) : (forall s, P s -> Q s) -> hoare P get Q.
Proof. intros HQ s HP. split; [done|]. intros ? [= <-]. auto. Qed.

Lemma hoare_bind {A B} (m : M S A) (k : A -> M S B) Q1 Q2 :
  hoare P m Q1 -> (forall a, Q1 a -> hoare P (k a) Q2) -> hoare P (m ≫= k) Q2.
Proof.
  intros Hm Hk s HP. destruct (Hm s HP) as [HP' HQ]. unfold mbind, M_bind.
  destruct (m s) as [[a|e] s1]; [|done]. apply (Hk a (HQ a eq_refl) s1 HP').
Qed.

Lemma hoare_try {A} (m : M S A) h Q :
  hoare P m Q -> (forall e, hoare P (h e) Q) -> hoare P (try_except m h) Q.
Proof.
  intros Hm Hh s HP. destruct (Hm s HP) as [HP' HQ]. unfold try_except.
  destruct (m s) as [[a|e] s1]; [done|]. by apply Hh.
Qed.

Lemma hoare_weaken {A} (m : M S A) (Q Q' : A -> Prop) :
  hoare P m Q -> (forall a, Q a -> Q' a) -> hoare P m Q'.
Proof. intros Hm HQ s HP. destruct (Hm s HP) as [HP' HQ']. eauto. Qed.

Lemma hoare_preserves {A} (m : M S A) : preserves P m -> hoare P m (fun _ => True).
Proof. intros Hm s HP. by split; [apply Hm|]. Qed.

Lemma preserves_of_hoare {A} (m : M S A) Q : hoare P m Q -> preserves P m.
Proof. intros Hm s HP. apply (Hm s HP). Qed.

(** A continuation that only needs what the first step guarantees. *)
Lemma bind_preserves_hoare {A B} (m : M S A) (k : A -> M S B) Q :
  hoare P m Q -> (forall a, Q a -> preserves P (k a)) -> preserves P (m ≫= k).
Proof.
  intros Hm Hk. apply (preserves_of_hoare _ (fun _ => True)).
  eapply hoare_bind; [exact Hm|]. intros a Ha. by apply hoare_preserves, Hk.
Qed.
End Hoare.

(** ** What a computation guarantees about the state when it returns

    [ensures m Q]: whenever [m] returns normally, its final state
    satisfies [Q] (nothing is claimed when it raises). *)
Definition ensures {S A} (m : M S A) (Q : S -> Prop) : Prop :=
  forall s a s', m s = (Ok a, s') -> Q s'.

Section Ensures.
Context {S : Type} (Q : S -> Prop).

Lemma ret_ensures {A} (a : A) : (forall s, Q s) -> ensures (mret a) Q.
Proof. intros HQ s a' s' [= _ <-]. apply HQ. Qed.

Lemma raise_ensures {A} e : ensures (raise (A := A) e) Q.
Proof. by intros s a s'. Qed.

(** What the first step guarantees, and the rest keeps. *)
Lemma bind_ensures_l {A B} (m : M S A) (k : A -> M S B) :
  ensures m Q -> (forall a, preserves Q (k a)) -> ensures (m ≫= k) Q.
Proof.
  intros Hm Hk s b s'. unfold mbind, M_bind. destruct (m s) as [[a|e] s1] eqn:E; [|done].
  intros Hk'. pose proof (Hk a s1 (Hm s a s1 E)) as H. by rewrite Hk' in H.
Qed.

(** What the last step guarantees. *)
Lemma bind_ensures_r {A B} (m : M S A) (k : A -> M S B) :
  (forall a, ensures (k a) Q) -> ensures (m ≫= k) Q.
Proof.
  intros Hk s b s'. unfold mbind, M_bind. destruct (m s) as [[a|e] s1]; [|done]. apply Hk.
Qed.

Lemma try_except_ensures {A} (m : M S A) h :
  ensures m Q -> (forall e, ensures (h e) Q) -> ensures (try_except m h) Q.
Proof.
  intros Hm Hh s a s'. unfold try_except. destruct (m s) as [[a'|e] s1] eqn:E; [|apply Hh].
  intros [= <- <-]. by apply (Hm s a').
Qed.
End Ensures.

Lemma ensures_conj {S A} (m : M S A) (Q1 Q2 : S -> Prop) :
  ensures m Q1 -> ensures m Q2 -> ensures m (fun s => Q1 s /\ Q2 s).
Proof. intros H1 H2 s a s' E. split; [by apply (H1 s a)|by apply (H2 s a)]. Qed.

(** ** Computations that never raise, and computations that raise [e]

    [no_raise m]: [m] returns normally from every state.  [raises P m e]:
    from every state satisfying [P], [m] raises [e]. *)
Definition no_raise {S A} (m : M S A) : Prop := forall s, is_ok (fst (m s)) = true.

Definition raises {S A} (P : S -> Prop) (m : M S A) (e : Exc) : Prop :=
  forall s, P s -> fst (m s) = Err e.

Section NoRaise.
Context {S : Type}.

Lemma no_raise_ret {A} (a : A) : no_raise (S:=S) (mret a).
Proof. done. Qed.

Lemma no_raise_get : no_raise (S:=S) get.
Proof. done. Qed.

Lemma no_raise_modify f : no_raise (S:=S) (modify f).
Proof. done. Qed.

Lemma no_raise_lift_ok {A} (a : A) : no_raise (S:=S) (lift_res (Ok a)).
Proof. done. Qed.

Lemma no_raise_bind {A B} (m : M S A) (k : A -> M S B) :
  no_raise m -> (forall a, no_raise (k a)) -> no_raise (m ≫= k).
Proof.
  intros Hm Hk s. specialize (Hm s). unfold mbind, M_bind.
  destruct (m s) as [[a|e] s1]; [apply Hk|done].
Qed.

(** [try]: a handler that returns is enough. *)
Lemma no_raise_try {A} (m : M S A) h : (forall e, no_raise (h e)) -> no_raise (try_except m h).
Proof. intros Hh s. unfold try_except. destruct (m s) as [[a|e] s1]; [done|apply Hh]. Qed.

Lemma no_raise_run {A} (m : M S A) s : no_raise m -> exists a s', m s = (Ok a, s').
Proof. intros Hm. specialize (Hm s). destruct (m s) as [[a|e] s']; [by eexists _, _|done]. Qed.

Lemma no_raise_unit (m : M S unit) s : no_raise m -> fst (m s) = Ok tt.
Proof. intros Hm. destruct (no_raise_run m s Hm) as ([] & s' & ->). done. Qed.

(** A first step that returns leaves the rest to run. *)
Lemma bind_ok_l {A B} (m : M S A) (k : A -> M S B) s a s1 :
  m s = (Ok a, s1) -> (m ≫= k) s = k a s1.
Proof. intros Hm. unfold mbind, M_bind. by rewrite Hm. Qed.

(** [try] around a body that returns is the body; around one that raises
    [e], the handler of [e] on the state the body left. *)
Lemma try_except_ok {A} (m : M S A) (h : Exc -> M S A) s a s1 :
  m s = (Ok a, s1) -> try_except m h s = (Ok a, s1).
Proof. intros Hm. unfold try_except. by rewrite Hm. Qed.

Lemma try_except_err {A} (m : M S A) (h : Exc -> M S A) s e s1 :
  m s = (Err e, s1) -> try_except m h s = h e s1.
Proof. intros Hm. unfold try_except. by rewrite Hm. Qed.

Lemma raises_bind_l {A B} P (m : M S A) (k : A -> M S B) e :
  raises P m e -> raises P (m ≫= k) e.
Proof. intros Hm s HP. specialize (Hm s HP). unfold mbind, M_bind. destruct (m s) as [r s1]. by cbn in Hm; subst r. Qed.

(** A step that returns and keeps [P], then a rest that raises [e]. *)
Lemma raises_bind_r {A B} P (m : M S A) (k : A -> M S B) e :
  no_raise m -> preserves P m -> (forall a, raises P (k a) e) -> raises P (m ≫= k) e.
Proof.
  intros Hn Hp Hk s HP. destruct (no_raise_run m s Hn) as (a & s1 & Hm).
  rewrite (bind_ok_l _ _ _ _ _ Hm). apply Hk. specialize (Hp s HP). by rewrite Hm in Hp.
Qed.

Lemma raises_run {A} P (m : M S A) e s : raises P m e -> P s -> exists s', m s = (Err e, s').
Proof. intros Hm HP. specialize (Hm s HP). destruct (m s) as [r s']. cbn in Hm. subst r. by eexists. Qed.
End NoRaise.

#[export] Hint Resolve no_raise_ret no_raise_get no_raise_modify no_raise_lift_ok : pydb.

(** Push [no_raise] through a program, like [solve_preserves]. *)
Ltac solve_no_raise :=
  repeat first
    [ lazymatch goal with |- no_raise _ => fail | |- forall _, _ => intro end
    | solve [eauto with pydb]
    | apply no_raise_bind | apply no_raise_try
    | match goal with
      | |- no_raise (if ?b then _ else _) => destruct b
      | |- no_raise (match ?x with _ => _ end) => destruct x
      end ].

(** ** Reachability *)

(** Zero or more steps of a transition relation. *)
Inductive star {A} (R : A -> A -> Prop) : A -> A -> Prop :=
| star_refl a : star R a a
| star_step a b c : R a b -> star R b c -> star R a c.

Lemma star_invariant {A} (R : A -> A -> Prop) (I : A -> Prop) a b :
  (forall x y, I x -> R x y -> I y) -> I a -> star R a b -> I b.
Proof. intros Hstep Ha Hs. induction Hs; eauto. Qed.

Lemma star_trans {A} (R : A -> A -> Prop) a b c : star R a b -> star R b c -> star R a c.
Proof. induction 1; eauto using star. Qed.
