(* ===== verification/PyStr.v ===== *)
(** * PyStr: the [str] methods the code calls, on UTF-8 byte strings

    A Python string is a sequence of code points; a string here is its
    UTF-8 encoding ([Prelude]).  [py_codepoints] cuts it into code
    points, on which [str.strip] ([py_strip], with [str.isspace]'s
    whitespace), slicing ([py_drop]) and [in] ([py_in]) work as Python's;
    [str.lower] ([py_lower]) is given on ASCII, the only text it is
    applied to; [str.format] with keyword arguments ([py_format]) reads
    [{name}] fields and the [{{] and [}}] escapes; [str(n)] of an [int]
    is [py_str_int]. *)

From S2P Require Import Prelude.

(** The double quote character. *)
Definition DQ : string := String.String (Ascii.ascii_of_nat 34) "".

(** ** Code points *)

(** The code points of a string, each as its bytes: a lead byte and the
    continuation bytes after it. *)
Fixpoint py_codepoints (s : string) : list string :=
  match s with
  | "" => []
  | String.String c s' =>
      match py_codepoints s' with
      | (String.String c' _ as h) :: t =>
          if is_cont c' then String.String c h :: t else String.String c "" :: h :: t
      | l => String.String c "" :: l
      end
  end.

(** The bytes of a string. *)
Definition bytes (l : list nat) : string := String.concat "" (map (fun n => String.String (Ascii.ascii_of_nat n) "") l).

(** The code points [str.isspace] accepts: ASCII 9 to 13 and 28 to 32,
    U+0085, U+00A0, U+1680, U+2000 to U+200A, U+2028, U+2029, U+202F,
    U+205F and U+3000. *)
Definition whitespace_codepoints : list string :=
  map (fun n => bytes [n]) [9; 10; 11; 12; 13; 28; 29; 30; 31; 32] ++
  [bytes [194; 133]; bytes [194; 160]; bytes [225; 154; 128]] ++
  map (fun n => bytes [226; 128; n]) [128; 129; 130; 131; 132; 133; 134; 135; 136; 137; 138; 168; 169; 175] ++
  [bytes [226; 129; 159]; bytes [227; 128; 128]].

Definition py_isspace (cp : string) : bool := bool_decide (cp ∈ whitespace_codepoints).

Fixpoint drop_while {A} (p : A -> bool) (l : list A) : list A :=
  match l with
  | [] => []
  | x :: l' => if p x then drop_while p l' else l
  end.

(** [s.strip()]. *)
Definition py_strip (s : string) : string :=
  String.concat "" (rev (drop_while py_isspace (rev (drop_while py_isspace (py_codepoints s))))).

(** [s[n:]] for [n >= 0]: drop the first [n] code points. *)
Fixpoint skip_cont (s : string) : string :=
  match s with
  | String.String c s' => if is_cont c then skip_cont s' else s
  | "" => ""
  end.

Fixpoint py_drop (n : nat) (s : string) : string :=
  match n, s with
  | O, _ => s
  | S _, "" => ""
  | S n', String.String _ s' => py_drop n' (skip_cont s')
  end.

(** [sub in s]. *)
Fixpoint py_in (sub s : string) : bool :=
  String.prefix sub s ||
  match s with
  | "" => false
  | String.String _ s' => py_in sub s'
  end.

(** [s.lower()] on ASCII. *)
Fixpoint py_lower (s : string) : string :=
  match s with
  | "" => ""
  | String.String c s' =>
      let n := Ascii.nat_of_ascii c in
      String.String (if Nat.leb 65 n && Nat.leb n 90 then Ascii.ascii_of_nat (n + 32) else c) (py_lower s')
  end.

(** ** [str(n)] of an [int] *)

Fixpoint nat_digits (fuel : nat) (n : Z) : string :=
  match fuel with
  | O => ""
  | S fuel' => (if (n <? 10)%Z then "" else nat_digits fuel' (n / 10)%Z) +:+ String.String (digit_char (n mod 10)%Z) ""
  end.

Definition py_str_int (n : Z) : string :=
  if (n <? 0)%Z then "-" +:+ nat_digits (S (Z.to_nat (Z.log2_up (- n)))) (- n)%Z
  else nat_digits (S (Z.to_nat (Z.log2_up n))) n.

(** ** [template.format(name=value, ...)] *)

Definition LBRACE : Ascii.ascii := Ascii.ascii_of_nat 123.
Definition RBRACE : Ascii.ascii := Ascii.ascii_of_nat 125.

(** The field name up to the closing brace, and the rest. *)
Fixpoint field_name (s : string) : option (string * string) :=
  match s with
  | "" => None
  | String.String c s' =>
      if Ascii.eqb c RBRACE then Some ("", s')
      else (fun '(n, r) => (String.String c n, r)) <$> field_name s'
  end.


(** Each step consumes at least one byte, so the length is enough fuel. *)
Fixpoint py_format_fuel (fuel : nat) (s : string) (kwargs : list (string * string)) : res string :=
  match fuel with
  | O => Ok ""
  | S fuel' =>
    match s with
    | "" => Ok ""
    | String.String c s' =>
        if Ascii.eqb c LBRACE then
          match s' with
          | String.String c2 s'' =>
              if Ascii.eqb c2 LBRACE then
                match py_format_fuel fuel' s'' kwargs with Ok r => Ok (String.String LBRACE r) | Err e => Err e end
              else
                match field_name s' with
                | None => Err (ValueError "expected '}' before end of string")
                | Some (name, rest) =>
                    if bool_decide (name = "") then
                      Err (IndexError "Replacement index 0 out of range for positional args tuple") else
                    match list_find (fun kv => kv.1 = name) kwargs with
                    | None => Err (KeyError ("'" +:+ name +:+ "'"))
                    | Some (_, (_, v)) =>
                        match py_format_fuel fuel' rest kwargs with Ok r => Ok (v +:+ r) | Err e => Err e end
                    end
                end
          | "" => Err (ValueError "Single '{' encountered in format string")
          end
        else if Ascii.eqb c RBRACE then
          match s' with
          | String.String c2 s'' =>
              if Ascii.eqb c2 RBRACE then
                match py_format_fuel fuel' s'' kwargs with Ok r => Ok (String.String RBRACE r) | Err e => Err e end
              else Err (ValueError "Single '}' encountered in format string")
          | "" => Err (ValueError "Single '}' encountered in format string")
          end
        else match py_format_fuel fuel' s' kwargs with Ok r => Ok (String.String c r) | Err e => Err e end
    end
  end.

Definition py_format (s : string) (kwargs : list (string * string)) : res string :=
  py_format_fuel (String.length s) s kwargs.

(** ** Templates: literal text and fields *)

Inductive TemplatePiece := TLit (s : string) | TField (name : string).

(** The template's text: a field [name] is written [{name}]. *)
Definition render_piece (p : TemplatePiece) : string :=
  match p with TLit s => s | TField n => String.String LBRACE (n +:+ String.String RBRACE "") end.

Definition render_template (ps : list TemplatePiece) : string := foldr (fun p acc => render_piece p +:+ acc) "" ps.

Definition kwarg (kwargs : list (string * string)) (name : string) : option string :=
  (fun x => x.2.2) <$> list_find (fun kv => kv.1 = name) kwargs.

(** What formatting is meant to give: each field replaced by its value. *)
Definition fill_template (kwargs : list (string * string)) (ps : list TemplatePiece) : string :=
  foldr (fun p acc => match p with TLit s => s | TField n => default "" (kwarg kwargs n) end +:+ acc) "" ps.

Fixpoint no_braces (s : string) : bool :=
  match s with
  | "" => true
  | String.String c s' => negb (Ascii.eqb c LBRACE) && negb (Ascii.eqb c RBRACE) && no_braces s'
  end.

Definition piece_ok (kwargs : list (string * string)) (p : TemplatePiece) : Prop :=
  match p with
  | TLit s => no_braces s = true
  | TField n => n <> "" /\ no_braces n = true /\ is_Some (kwarg kwargs n)
  end.

Lemma no_braces_app s t : no_braces (s +:+ t) = no_braces s && no_braces t.
Proof. induction s as [|c s IH]; [done|]. rewrite str_app_cons. cbn [no_braces]. rewrite IH. by rewrite !andb_assoc. Qed.

Lemma str_length_app s t : String.length (s +:+ t) = String.length s + String.length t.
Proof. induction s as [|c s IH]; [done|]. rewrite str_app_cons. cbn [String.length]. by rewrite IH. Qed.

(** Literal text is copied. *)
Lemma py_format_fuel_lit fuel s t kwargs :
  no_braces s = true -> String.length s + String.length t <= fuel ->
  py_format_fuel fuel (s +:+ t) kwargs =
  match py_format_fuel (fuel - String.length s) t kwargs with Ok r => Ok (s +:+ r) | Err e => Err e end.
Proof.
  revert fuel. induction s as [|c s IH]; intros fuel Hs Hf.
  - rewrite Nat.sub_0_r, str_app_nil_l. by destruct (py_format_fuel fuel t kwargs).
  - cbn in Hs. apply andb_prop in Hs as [Hc Hs]. apply andb_prop in Hc as [Hl Hr].
    apply negb_true_iff in Hl, Hr. destruct fuel as [|fuel]; [cbn in Hf; lia|].
    rewrite str_app_cons. cbn [py_format_fuel]. rewrite Hl, Hr. cbn in Hf.
    rewrite (IH fuel Hs ltac:(lia)). cbn [String.length]. rewrite Nat.sub_succ.
    by destruct (py_format_fuel (fuel - String.length s) t kwargs).
Qed.

Lemma field_name_app n t : no_braces n = true -> field_name (n +:+ String.String RBRACE t) = Some (n, t).
Proof.
  induction n as [|c n IH]; intros Hn; [by rewrite str_app_nil_l|].
  cbn in Hn. apply andb_prop in Hn as [Hc Hn]. apply andb_prop in Hc as [_ Hr]. apply negb_true_iff in Hr.
  rewrite str_app_cons. cbn [field_name]. rewrite Hr, (IH Hn). done.
Qed.

Lemma lbrace_eqb : Ascii.eqb LBRACE LBRACE = true /\ Ascii.eqb LBRACE RBRACE = false.
Proof. done. Qed.

(** A field is replaced by its value. *)
Lemma py_format_fuel_field fuel n v t kwargs :
  n <> "" -> no_braces n = true -> kwarg kwargs n = Some v -> 1 <= fuel ->
  py_format_fuel fuel (render_piece (TField n) +:+ t) kwargs =
  match py_format_fuel (fuel - 1) t kwargs with Ok r => Ok (v +:+ r) | Err e => Err e end.
Proof.
  intros Hne Hn Hv Hf. destruct fuel as [|fuel]; [lia|]. rewrite Nat.sub_1_r. cbn [Nat.pred].
  destruct n as [|c n']; [done|]. pose proof Hn as Hn0. cbn in Hn.
  apply andb_prop in Hn as [Hc _]. apply andb_prop in Hc as [Hl _]. apply negb_true_iff in Hl.
  unfold render_piece. rewrite !str_app_cons. cbn [py_format_fuel]. rewrite (proj1 lbrace_eqb), Hl.
  rewrite str_app_assoc, str_app_cons, str_app_nil_l, <- str_app_cons, field_name_app by done.
  rewrite bool_decide_eq_false_2 by done.
  unfold kwarg in Hv. destruct (list_find _ kwargs) as [[i [k v']]|]; [|done]. cbn in Hv. by injection Hv as ->.
Qed.

(** [str.format] fills a template whose fields all have values, and puts
    each value in as it is: braces in a value are not read again. *)
Lemma py_format_fuel_template fuel kwargs ps :
  Forall (piece_ok kwargs) ps -> String.length (render_template ps) <= fuel ->
  py_format_fuel fuel (render_template ps) kwargs = Ok (fill_template kwargs ps).
Proof.
  revert fuel. induction ps as [|p ps IH]; intros fuel Hok Hlen; [by destruct fuel|].
  apply Forall_cons in Hok as [Hp Hps]. cbn [render_template foldr] in *. cbn [fill_template foldr].
  fold (render_template ps) in *. fold (fill_template kwargs ps).
  rewrite str_length_app in Hlen. destruct p as [s|n]; cbn [piece_ok] in Hp.
  - cbn [render_piece] in Hlen |- *. rewrite py_format_fuel_lit by (done || lia).
    rewrite IH by (done || lia). done.
  - destruct Hp as (Hne & Hn & [v Hv]).
    assert (Hp2 : 2 <= String.length (render_piece (TField n))).
    { cbn [render_piece String.length]. rewrite str_length_app. cbn [String.length]. lia. }
    rewrite (py_format_fuel_field fuel n v) by (done || lia). rewrite IH by (done || lia).
    by rewrite Hv.
Qed.

Lemma py_format_template kwargs ps :
  Forall (piece_ok kwargs) ps -> py_format (render_template ps) kwargs = Ok (fill_template kwargs ps).
Proof. intros Hok. by apply py_format_fuel_template. Qed.
