(* ===== verification/Domain.v ===== *)
(** * Domain: the entities of [domain/message] and [domain/chat]

    [Message] and [Chat] are pydantic models with value objects; here
    they are records whose fields are the values the value objects hold.
    The value objects of [domain/message/value_objects] ([MessageContent],
    [MessageId], [SenderType]) are not in the repository: [SenderType] is
    modelled from the spec (roles user, assistant, system); a message
    holds the plain strings the other two carry.  Identifiers and
    timestamps that the code draws from [uuid4()] and [datetime.now()]
    are arguments. *)

From S2P Require Import Prelude.

Inductive SenderType := SUser | SAssistant | SSystem.

#[export] Instance SenderType_eq_dec : EqDecision SenderType.
Proof. solve_decision. Defined.

(** [sender_type.value]. *)
Definition sender_type_value (s : SenderType) : string :=
  match s with SUser => "user" | SAssistant => "assistant" | SSystem => "system" end.

(** [class Message(BaseModel)]. *)
Record Message := mkMessage {
  msg_id : string;
  msg_content : string;
  msg_sender_type : SenderType;
  msg_chat_id : string;
  msg_sender_id : string;
  msg_created_at : Z;
  msg_updated_at : Z;
  msg_deleted_at : option Z
}.

(** [Message.create]: a fresh id and [created_at = updated_at = now]. *)
Definition message_create (id : string) (now : Z) (content : string) (sender_type : SenderType)
    (chat_id sender_id : string) : Message :=
  mkMessage id content sender_type chat_id sender_id now now None.

(** [Message.is_deleted]. *)
Definition message_is_deleted (m : Message) : bool :=
  match msg_deleted_at m with Some _ => true | None => false end.

(** The classes of [domain/message/exceptions/message_exceptions.py]. *)
Definition MessageNotFoundException : list string := ["MessageNotFoundException"; "MessageDomainException"].

Definition MessageAlreadyDeletedException : list string :=
  ["MessageAlreadyDeletedException"; "MessageDomainException"].

(** [Message.mark_as_deleted]: a second deletion raises. *)
Definition message_mark_as_deleted (now : Z) (m : Message) : res Message :=
  if message_is_deleted m then Err (DomainError MessageAlreadyDeletedException "This message has already been deleted")
  else Ok (mkMessage (msg_id m) (msg_content m) (msg_sender_type m) (msg_chat_id m)
                     (msg_sender_id m) (msg_created_at m) now (Some now)).

(** [class Chat(BaseModel)]. *)
Record Chat := mkChat {
  chat_id : string;
  chat_user_id : string;
  chat_title : string;
  chat_book_id : option string;
  chat_created_at : Z;
  chat_updated_at : Z;
  chat_deleted_at : option Z
}.

(** [Chat.update_title]. *)
Definition chat_update_title (now : Z) (title : string) (c : Chat) : Chat :=
  mkChat (chat_id c) (chat_user_id c) title (chat_book_id c) (chat_created_at c) now (chat_deleted_at c).

(** ** Value objects

    The repository's value objects are frozen dataclasses that keep the
    string they are given and raise [ValueError] from [__post_init__]
    when it is not valid ([domain/book/value_objects/book_title.py]).
    Those of [domain/message] and [domain/chat] are not in the sources:
    their constructors are parameters of the code that builds them. *)

(** [MessageId(value)] and [MessageContent(value)]: the check of
    [__post_init__]; the object keeps the string. *)
Record MessageValueObjects := mkMessageValueObjects {
  message_id_valid : string -> res unit;
  message_content_valid : string -> res unit
}.

(** [UserId(value=...)], [ChatTitle(value=...)], [BookId(value=...)],
    [ChatId(value=...)]: the value the object holds, or the exception. *)
Record ChatValueObjects := mkChatValueObjects {
  user_id_mk : string -> res string;
  chat_title_mk : string -> res string;
  chat_book_id_mk : string -> res string;
  chat_id_mk : string -> res string
}.

(** A constructor that raises [ValueError] only, as every value object
    of the repository does. *)
Definition raises_value_error_only {A} (mk : string -> res A) : Prop :=
  forall v e, mk v = Err e -> exc_isinstance e "ValueError" = true.

(** A constructor whose only exception is a builtin [ValueError], as
    [raise ValueError(...)] in [__post_init__] gives. *)
Definition raises_value_error {A} (mk : string -> res A) : Prop :=
  forall v e, mk v = Err e -> exists msg, e = ValueError msg.

Definition value_objects_ok (vo : ChatValueObjects) : Prop :=
  raises_value_error_only (user_id_mk vo) /\ raises_value_error_only (chat_title_mk vo) /\
  raises_value_error_only (chat_book_id_mk vo) /\ raises_value_error_only (chat_id_mk vo).
