(* ===== verification/BookDomain.v ===== *)
(** * BookDomain: the entities and value objects of [domain/book] and [domain/annotation]

    [Book] and [Annotation] are pydantic models whose fields hold value
    objects; here they are records of the values, and each value
    object's validation ([__post_init__]) is a function returning the
    value or the [ValueError] it raises.  [uuid.UUID(str(val))], the
    library parser behind [BookId], is a parameter ([is_valid_uuid]);
    [AnnotationCfi] and [AnnotationColor] are imported by the code but
    their files are not in the repository, so the cfi and colour are
    kept as given.  The book's fourteen [metadata_*] fields, its
    reading progress and [configuration] are left out of [Book];
    [BookMetadata] models them as a value object of its own. *)

From S2P Require Import Prelude.

(** ** [BookTitle] and [BookId] *)

(** [BookTitle.__post_init__]: non-empty, at most 100 code points. *)
Definition book_title_mk (value : string) : res string :=
  if bool_decide (value = "") then Err (ValueError "Title is required")
  else if Nat.ltb 100 (py_len value) then Err (ValueError "Title must be 100 characters or less")
  else Ok value.

(** [BookId.__post_init__], given the library's UUID parser. *)
Definition book_id_mk (is_valid_uuid : string -> bool) (value : string) : res string :=
  if bool_decide (value = "") then Err (ValueError "BookId is required")
  else if negb (is_valid_uuid value) then Err (ValueError "BookId must be a valid UUID format")
  else Ok value.

(** The classes of [domain/book/exceptions/book_exceptions.py]. *)
Definition BookNotFoundException : list string := ["BookNotFoundException"; "BookDomainException"].

Definition BookPermissionDeniedException : list string := ["BookPermissionDeniedException"; "BookDomainException"].

Definition BookFileNotFoundException : list string := ["BookFileNotFoundException"; "BookDomainException"].

Definition BookAlreadyStartedException : list string := ["BookAlreadyStartedException"; "BookDomainException"].

Definition BookAlreadyCompletedException : list string := ["BookAlreadyCompletedException"; "BookDomainException"].

(** [BookPermissionDeniedException()] and [BookFileNotFoundException()]. *)
Definition book_permission_denied : Exc :=
  DomainError BookPermissionDeniedException "You do not have permission to access this book".

Definition book_file_not_found : Exc := DomainError BookFileNotFoundException "File for this book was not found".

(** [BookNotFoundException(book_id)]. *)
Definition book_not_found (book_id : string) : Exc :=
  DomainError BookNotFoundException ("Book with ID " +:+ book_id +:+ " not found").

(** ** [Annotation] and its value objects *)

Definition HIGHLIGHT : string := "highlight".

(** [AnnotationId.from_string]: an empty or missing id draws a fresh one. *)
Definition annotation_id_from_string (fresh : string) (id_str : option string) : string :=
  match id_str with Some s => if bool_decide (s = "") then fresh else s | None => fresh end.

(** [AnnotationText.from_string]. *)
Definition annotation_text_from_string (text_str : string) : res string :=
  if bool_decide (text_str = "") then Err (ValueError "Annotation text is required") else Ok text_str.

(** [AnnotationType.from_string]: missing or empty is [highlight], the
    only member of [AnnotationTypeEnum]. *)
Definition annotation_type_from_string (type_str : option string) : res string :=
  match type_str with
  | None => Ok HIGHLIGHT
  | Some t =>
      if bool_decide (t = "") then Ok HIGHLIGHT
      else if bool_decide (t = HIGHLIGHT) then Ok t
      else Err (ValueError ("Invalid annotation type: " +:+ t))
  end.

(** [class Annotation(BaseModel)]: [notes] is [None] or an
    [AnnotationNotes] whose value may itself be [None]. *)
Record Annotation := mkAnnotation {
  ann_id : string;
  ann_book_id : string;
  ann_cfi : string;
  ann_color : option string;
  ann_notes : option (option string);
  ann_spine : option (gmap string string);
  ann_text : string;
  ann_type : string;
  ann_created_at : option Z;
  ann_updated_at : option Z
}.

(** [Annotation.create]: the arguments are converted in order, then the
    model's validators run; [_validate_spine] raises [TypeError] on
    anything that is not a dict, [None] included, and pydantic lets a
    [TypeError] through unchanged. *)
Definition annotation_create (fresh : string) (book_id cfi text : string) (notes color type_ : option string)
    (spine : option (gmap string string)) (id : option string) : res Annotation :=
  let ann_id := annotation_id_from_string fresh id in
  match annotation_text_from_string text with
  | Err e => Err e
  | Ok text =>
      match annotation_type_from_string type_ with
      | Err e => Err e
      | Ok type_ =>
          match spine with
          | None => Err (TypeError "spine must be a dict")
          | Some sp => Ok (mkAnnotation ann_id book_id cfi color (Some notes) (Some sp) text type_ None None)
          end
      end
  end.

(** ** [Book] *)

Record Book := mkBook {
  book_id : string;
  book_name : string;
  book_user_id : string;
  book_file_path : string;
  book_author : option string;
  book_cover_path : option string;
  book_size : nat;
  book_created_at : Z;
  book_updated_at : Z;
  book_deleted_at : option Z;
  book_annotations : list Annotation
}.

(** [Book.create]: the timestamps are [datetime.now()]. *)
Definition book_create (id name user_id file_path : string) (author cover_path : option string) (size : nat)
    (now : Z) : Book :=
  mkBook id name user_id file_path author cover_path size now now None [].

(** [Book.update_title]. *)
Definition book_update_title (now : Z) (name : string) (b : Book) : Book :=
  mkBook (book_id b) name (book_user_id b) (book_file_path b) (book_author b) (book_cover_path b)
         (book_size b) (book_created_at b) now (book_deleted_at b) (book_annotations b).

(** [Book.mark_as_deleted]: only the first call stamps the book. *)
Definition book_mark_as_deleted (now : Z) (b : Book) : Book :=
  match book_deleted_at b with
  | Some _ => b
  | None => mkBook (book_id b) (book_name b) (book_user_id b) (book_file_path b) (book_author b)
                   (book_cover_path b) (book_size b) (book_created_at b) now (Some now) (book_annotations b)
  end.

(** [Book.is_deleted]. *)
Definition book_is_deleted (b : Book) : bool :=
  match book_deleted_at b with Some _ => true | None => false end.

Lemma book_id_mark_as_deleted now b : book_id (book_mark_as_deleted now b) = book_id b.
Proof. unfold book_mark_as_deleted. by destruct (book_deleted_at b). Qed.

Lemma book_mark_as_deleted_is_deleted now b : book_is_deleted (book_mark_as_deleted now b) = true.
Proof. unfold book_mark_as_deleted, book_is_deleted. by destruct (book_deleted_at b) eqn:E; cbn; rewrite ?E. Qed.

(** ** [BookMetadata] *)

Record BookMetadata := mkBookMetadata {
  bm_title : option string; bm_creator : option string; bm_description : option string;
  bm_pubdate : option string; bm_publisher : option string; bm_identifier : option string;
  bm_language : option string; bm_rights : option string; bm_modified_date : option string;
  bm_layout : option string; bm_orientation : option string; bm_flow : option string;
  bm_viewport : option string; bm_spread : option string
}.

(** [asdict(self).items()], in the dataclass's field order. *)
Definition book_metadata_fields (m : BookMetadata) : list (string * option string) :=
  [("title", bm_title m); ("creator", bm_creator m); ("description", bm_description m);
   ("pubdate", bm_pubdate m); ("publisher", bm_publisher m); ("identifier", bm_identifier m);
   ("language", bm_language m); ("rights", bm_rights m); ("modified_date", bm_modified_date m);
   ("layout", bm_layout m); ("orientation", bm_orientation m); ("flow", bm_flow m);
   ("viewport", bm_viewport m); ("spread", bm_spread m)].

(** [to_dict]: the fields that are not [None]. *)
Definition book_metadata_to_dict (m : BookMetadata) : gmap string string :=
  list_to_map (omap (fun kv => pair kv.1 <$> kv.2) (book_metadata_fields m)).

(** [from_dict]: a JSON object's members ([None] for [null]); the fields
    the object lacks keep their default [None]. *)
Definition book_metadata_from_dict (data : gmap string (option string)) : BookMetadata :=
  let field k := default None (data !! k) in
  mkBookMetadata (field "title") (field "creator") (field "description") (field "pubdate")
    (field "publisher") (field "identifier") (field "language") (field "rights") (field "modified_date")
    (field "layout") (field "orientation") (field "flow") (field "viewport") (field "spread").

Definition book_metadata_default : BookMetadata :=
  mkBookMetadata None None None None None None None None None None None None None None.

(** ** Lemmas *)

Lemma lookup_list_to_map_omap (l : list (string * option string)) k v :
  NoDup l.*1 -> (k, v) ∈ l ->
  (list_to_map (omap (fun kv => pair kv.1 <$> kv.2) l) : gmap string string) !! k = v.
Proof.
  induction l as [|[k' v'] l IH]; intros Hnd Hin; [by apply elem_of_nil in Hin|].
  apply NoDup_cons in Hnd as [Hk' Hnd]. apply elem_of_cons in Hin as [[= -> ->]|Hin].
  - destruct v' as [v'|]; cbn.
    + by rewrite lookup_insert_eq.
    + apply not_elem_of_list_to_map_1. intros ([x y] & Hx & Hin)%list_elem_of_fmap.
      apply list_elem_of_omap in Hin as ([a [b|]] & Hab & Hf); [|done].
      injection Hf as <- <-. cbn in Hx. subst. apply Hk', (list_elem_of_fmap_2 fst _ (a, Some b)), Hab.
  - assert (k <> k') by (intros ->; apply Hk', (list_elem_of_fmap_2 fst _ (k', v)), Hin).
    destruct v'; cbn; [rewrite lookup_insert_ne by congruence|]; by apply IH.
Qed.

(** (C11) [BookMetadata.from_dict(m.to_dict())] is [m]: dropping the
    [None] fields loses nothing, since [from_dict] restores them as
    defaults. *)
Theorem book_metadata_roundtrip m :
  book_metadata_from_dict (Some <$> book_metadata_to_dict m) = m.
Proof.
  assert (Hnd : NoDup (book_metadata_fields m).*1)
    by (apply (bool_decide_unpack _); vm_compute; reflexivity).
  assert (Hf : forall k v, (k, v) ∈ book_metadata_fields m ->
            default None ((Some <$> book_metadata_to_dict m) !! k) = v).
  { intros k v Hin. rewrite lookup_fmap. unfold book_metadata_to_dict.
    rewrite (lookup_list_to_map_omap _ k v Hnd Hin). by destruct v. }
  destruct m. unfold book_metadata_from_dict. cbn zeta.
  f_equal; apply Hf; apply list_elem_of_In; cbn; repeat (first [left; reflexivity | right]).
Qed.

(** (C25) [Annotation.create] with its default [spine=None] never returns
    an annotation: the text and type checks raise [ValueError], and when
    they pass the spine validator raises [TypeError]. *)
Theorem annotation_create_without_spine fresh book_id cfi text notes color type_ id :
  exists e, annotation_create fresh book_id cfi text notes color type_ None id = Err e /\
    (text <> "" -> is_ok (annotation_type_from_string type_) = true -> e = TypeError "spine must be a dict").
Proof.
  unfold annotation_create, annotation_text_from_string.
  case_bool_decide as Ht; [eexists; split; [reflexivity|done]|].
  destruct (annotation_type_from_string type_) as [t|e] eqn:Hty; eexists; (split; [reflexivity|]); [done|].
  intros _ Hok. discriminate.
Qed.

(** [BookTitle] accepts exactly the non-empty titles of at most 100
    code points, unchanged. *)
Theorem book_title_mk_ok value v :
  book_title_mk value = Ok v <-> v = value /\ value <> "" /\ py_len value <= 100.
Proof.
  unfold book_title_mk. case_bool_decide as He; [split; [done|intros (_ & Hne & _); done]|].
  destruct (Nat.ltb 100 (py_len value)) eqn:Hl.
  - apply Nat.ltb_lt in Hl. split; [done|lia].
  - apply Nat.ltb_ge in Hl. split; [intros [= <-]; done|intros (-> & _ & _); done].
Qed.

Lemma annotation_create_without_spine_witness :
  annotation_create "a1" "b1" "epubcfi(/6/2)" "highlighted" None None None None None =
  Err (TypeError "spine must be a dict").
Proof.
  destruct (annotation_create_without_spine "a1" "b1" "epubcfi(/6/2)" "highlighted" None None None None)
    as (e & He & Hty).
  rewrite He, Hty; [reflexivity|discriminate|reflexivity].
Defined.
