(* ===== verification/Citations.v ===== *)
(** * Citations: [CitationParser] of [usecase/message/citation_parser.py]

    [extract_citations] reads the citation markers of an answer: the
    superscripts [¹]..[⁹] of the text, the lines of its ["参照箇所:"]
    section ([¹ chapter（約25%の位置）]) and the [★n chapter（location）]
    highlight references.  The regular expressions are the [re] library's
    and are parameters here ([CitationRegex]: the matches of each pattern,
    as the groups the code reads), as are [str.strip] (Python strips
    Unicode whitespace) and [float] ([None] for its [ValueError]); the
    warning logged for an unparsable percentage is not modelled.
    [add_citation_links] wraps each citation's marker in a
    [<citation-link>] tag with [str.replace], citation after citation;
    its [isinstance] checks always hold for the typed arguments here.
    Strings are UTF-8 byte strings, on which replacing a whole code point
    sequence is the same as on code points. *)

From S2P Require Import Prelude PyStr.
From Stdlib Require QArith_base.

(** A Python [float]. *)
Abbreviation Float := QArith_base.Q.

(** ** The data *)

(** [class CitationData(TypedDict)]. *)
Record CitationData := mkCitationData {
  cd_marker : string;
  cd_number : string;
  cd_chapter : string;
  cd_position_percent : option Float;
  cd_cfi : option string;
  cd_location_info : option string;
  cd_is_highlight : option bool
}.

(** [class CitationResult(TypedDict)]: [list(set(...))] lists the markers
    in no specified order, so they are kept as a set. *)
Record CitationResult := mkCitationResult {
  cr_citations : list CitationData;
  cr_has_citations : bool;
  cr_markers_found : gset string
}.

(** [SUPERSCRIPT_MAP], item by item, and [REVERSE_SUPERSCRIPT_MAP], the
    comprehension [{v: k for k, v in SUPERSCRIPT_MAP.items()}]. *)
Definition superscript_items : list (string * string) :=
  [("¹", "1"); ("²", "2"); ("³", "3"); ("⁴", "4"); ("⁵", "5");
   ("⁶", "6"); ("⁷", "7"); ("⁸", "8"); ("⁹", "9")].

Definition SUPERSCRIPT_MAP : gmap string string := list_to_map superscript_items.

Definition REVERSE_SUPERSCRIPT_MAP : gmap string string :=
  list_to_map ((fun kv => (kv.2, kv.1)) <$> map_to_list SUPERSCRIPT_MAP).

(** The characters of the class [[¹²³⁴⁵⁶⁷⁸⁹]]. *)
Definition superscript_chars : list string := ["¹"; "²"; "³"; "⁴"; "⁵"; "⁶"; "⁷"; "⁸"; "⁹"].

(** What the three patterns match, as the groups the code reads:
    [re.findall] of the superscripts, group 1 of the [re.search] for the
    reference section, and groups 1 to 3 of each [re.finditer] match. *)
Record CitationRegex := mkCitationRegex {
  re_superscripts : string -> list string;
  re_reference_section : string -> option string;
  re_reference_matches : string -> list (string * string * string);
  re_highlight_matches : string -> list (string * string * string)
}.

(** ** [extract_citations] *)

Section Extract.
Context (rx : CitationRegex) (py_strip : string -> string) (py_float : string -> option Float).

(** One line of the reference section: [float] or [0.0] on [ValueError]. *)
Definition reference_citation (m : string * string * string) : CitationData :=
  let '(marker, chapter, percent) := m in
  let position_percent := match py_float percent with Some f => f | None => QArith_base.inject_Z 0 end in
  mkCitationData marker (default "?" (SUPERSCRIPT_MAP !! marker)) (py_strip chapter)
    (Some position_percent) None None None.

(** One [★] reference: the number is the marker without its [★]. *)
Definition highlight_citation (m : string * string * string) : CitationData :=
  let '(marker, chapter, location_info) := m in
  mkCitationData marker (py_drop 1 marker) (py_strip chapter) None None (Some location_info) (Some true).

Definition extract_citations (text : string) : CitationResult :=
  let markers_in_text := re_superscripts rx text in
  let references :=
    match re_reference_section rx text with
    | Some reference_section => reference_citation <$> re_reference_matches rx reference_section
    | None => []
    end in
  let citations := references ++ (highlight_citation <$> re_highlight_matches rx text) in
  mkCitationResult citations (bool_decide (0 < length citations)) (list_to_set markers_in_text).
End Extract.

(** ** [add_citation_links] *)

(** [f'<citation-link marker="{marker}" number="{number}">{marker}</citation-link>']. *)
Definition citation_replacement (c : CitationData) : string :=
  "<citation-link marker=" +:+ DQ +:+ cd_marker c +:+ DQ +:+ " number=" +:+ DQ +:+ cd_number c +:+ DQ
  +:+ ">" +:+ cd_marker c +:+ "</citation-link>".

Definition add_citation_links (text : string) (citations : list CitationData) : string :=
  fold_left (fun result c => py_replace result (cd_marker c) (citation_replacement c)) citations text.

(** ** Lemmas *)

(** The superscript table: every character of the pattern's class has its
    digit, and the reverse table maps the digit back. *)
Lemma superscript_lookup m :
  m ∈ superscript_chars ->
  exists d, SUPERSCRIPT_MAP !! m = Some d /\ d ∈ ["1"; "2"; "3"; "4"; "5"; "6"; "7"; "8"; "9"] /\
            REVERSE_SUPERSCRIPT_MAP !! d = Some m.
Proof.
  intros Hm. repeat (apply elem_of_cons in Hm as [->|Hm];
    [eexists; split; [vm_compute; reflexivity|split; [by repeat constructor|vm_compute; reflexivity]]|]).
  by apply elem_of_nil in Hm.
Qed.

Lemma elem_of_extract_citations rx py_strip py_float text c :
  c ∈ cr_citations (extract_citations rx py_strip py_float text) ->
  (exists sec m, re_reference_section rx text = Some sec /\ m ∈ re_reference_matches rx sec /\
                 c = reference_citation py_strip py_float m) \/
  (exists m, m ∈ re_highlight_matches rx text /\ c = highlight_citation py_strip m).
Proof.
  cbn [extract_citations cr_citations]. intros [Hc|Hc]%elem_of_app.
  - left. destruct (re_reference_section rx text) as [sec|]; [|by apply elem_of_nil in Hc].
    apply list_elem_of_fmap in Hc as (m & -> & Hm). by exists sec, m.
  - right. apply list_elem_of_fmap in Hc as (m & -> & Hm). by exists m.
Qed.

(** Every citation of the reference section carries the digit of
    its superscript, never the fallback ["?"], and that digit maps back to
    the marker: the pattern's class and the table list the same nine
    characters. *)
Theorem reference_citation_numbers rx py_strip py_float text c :
  (forall sec m, re_reference_section rx text = Some sec -> m ∈ re_reference_matches rx sec ->
     m.1.1 ∈ superscript_chars) ->
  c ∈ cr_citations (extract_citations rx py_strip py_float text) -> cd_is_highlight c = None ->
  cd_number c <> "?" /\ REVERSE_SUPERSCRIPT_MAP !! cd_number c = Some (cd_marker c).
Proof.
  intros Hrx Hc Hh. apply elem_of_extract_citations in Hc as [(sec & m & Hs & Hm & ->)|(m & _ & ->)];
    [|by destruct m as [[??]?]].
  specialize (Hrx sec m Hs Hm). destruct m as [[marker chapter] percent]. cbn [fst] in Hrx.
  unfold reference_citation. cbv beta iota zeta. cbn [cd_number cd_marker].
  destruct (superscript_lookup marker Hrx) as (d & Hd & Hdig & Hrev). rewrite Hd. cbn.
  split; [|done]. intros ->. repeat (apply elem_of_cons in Hdig as [Hdig|Hdig]; [done|]).
  by apply elem_of_nil in Hdig.
Qed.

(** A highlight marker that is a prefix of a later one breaks its
    link: with citations [★1] and [★1d] for a digit [d], in the order
    [extract_citations] finds them in ["★1d"], the first [replace] turns
    [★1d] into the [★1] link followed by [d], and [★1d] never gets its
    own link. *)
Lemma add_citation_links_prefix_marker py_strip d ch loc ch' loc' :
  d ∈ ["0"; "1"; "2"; "3"; "4"; "5"; "6"; "7"; "8"; "9"] ->
  add_citation_links ("★1" +:+ d)
    [highlight_citation py_strip ("★1", ch, loc); highlight_citation py_strip ("★1" +:+ d, ch', loc')] =
  citation_replacement (highlight_citation py_strip ("★1", ch, loc)) +:+ d.
Proof.
  intros Hd. repeat (apply elem_of_cons in Hd as [->|Hd]; [vm_compute; reflexivity|]).
  by apply elem_of_nil in Hd.
Qed.

(** ** Witnesses *)

Lemma example_prefix_marker :
  add_citation_links "★12" [highlight_citation (fun s => s) ("★1", "Ch", "p. 3");
                              highlight_citation (fun s => s) ("★12", "Ch", "p. 9")] =
  citation_replacement (highlight_citation (fun s => s) ("★1", "Ch", "p. 3")) +:+ "2".
Proof. apply (add_citation_links_prefix_marker (fun s => s) "2"). by do 2 right; left. Qed.
