(* ===== verification/MessageRepo.v ===== *)
(** * MessageRepo: the [MessageRepository] interface and its Postgres implementation

    [domain/message/repositories/message_repository.py] declares the
    repository as an abstract class; [MessageRepository] below is that
    interface as a type class over the repository's state, with the laws
    its clients rely on in [MessageRepositoryLaws].  The only
    implementation, [MessageRepositoryImpl] of
    [infrastructure/postgres/message/message_repository.py], is the
    instance [pg_message_repository] over the [messages] table, modelled
    as its rows in insertion order.  Deletion is logical: it sets
    [deleted_at], and every read skips deleted rows.  [ORDER BY
    created_at] leaves ties to the database; the model breaks them by
    insertion order. *)

From S2P Require Import Prelude Domain.

Class MessageRepository (R : Type) := {
  repo_save : Message -> R -> R;
  repo_find_by_id : string -> R -> option Message;
  repo_find_all : R -> list Message;
  repo_find_by_chat_id : string -> R -> list Message;
  repo_find_latest_by_chat_id : string -> nat -> R -> list Message;
  repo_find_by_sender_id : string -> R -> list Message;
  repo_delete : string -> Z -> R -> R;
  repo_bulk_delete : list string -> Z -> R -> list string * R;
  repo_count_by_chat_id : string -> R -> nat;
  repo_find_chat_ids_by_user_id : string -> R -> list string
}.

(** What the message use cases rely on.  [repo_wf] is the repository's
    well-formedness (for a table: its primary key), kept by every write;
    on a well-formed repository, saving a message whose id is not live
    adds one live message to its chat, and the latest messages come
    newest first, at most as many as asked. *)
Class MessageRepositoryLaws (R : Type) `{MessageRepository R} := {
  repo_wf : R -> Prop;
  repo_wf_save m r : repo_wf r -> repo_wf (repo_save m r);
  repo_wf_delete id now r : repo_wf r -> repo_wf (repo_delete id now r);
  repo_count_save_new m c r :
    repo_wf r -> repo_find_by_id (msg_id m) r = None -> message_is_deleted m = false ->
    repo_count_by_chat_id c (repo_save m r) =
    repo_count_by_chat_id c r + (if bool_decide (msg_chat_id m = c) then 1 else 0);
  repo_latest_sorted c n r :
    StronglySorted (fun a b => msg_created_at b <= msg_created_at a)%Z
      (repo_find_latest_by_chat_id c n r);
  repo_latest_bound c n r : length (repo_find_latest_by_chat_id c n r) <= n;
  repo_find_save m r :
    repo_find_by_id (msg_id m) (repo_save m r) = if message_is_deleted m then None else Some m;
  repo_find_save_ne m i r :
    i <> msg_id m -> repo_find_by_id i (repo_save m r) = repo_find_by_id i r;
  repo_find_some i r m :
    repo_find_by_id i r = Some m -> msg_id m = i /\ message_is_deleted m = false
}.

(** ** The Postgres implementation *)

Record PgMessages := mkPgMessages { pg_rows : list Message }.

Definition live_in_chat (c : string) (m : Message) : bool :=
  bool_decide (msg_chat_id m = c) && negb (message_is_deleted m).

(** [save]: overwrite the row with the message's id, whether deleted or
    not, or add a row. *)
Definition pg_save (m : Message) (r : PgMessages) : PgMessages :=
  if bool_decide (Exists (fun x => msg_id x = msg_id m) (pg_rows r))
  then mkPgMessages (map (fun x => if bool_decide (msg_id x = msg_id m) then m else x) (pg_rows r))
  else mkPgMessages (pg_rows r ++ [m]).

(** [find_by_id]: the live row with that id. *)
Definition pg_find_by_id (id : string) (r : PgMessages) : option Message :=
  find (fun x => bool_decide (msg_id x = id) && negb (message_is_deleted x)) (pg_rows r).

(** [find_all]: the live rows. *)
Definition pg_find_all (r : PgMessages) : list Message :=
  List.filter (fun x => negb (message_is_deleted x)) (pg_rows r).

(** [find_by_chat_id]: live rows of the chat, oldest first. *)
Definition pg_find_by_chat_id (c : string) (r : PgMessages) : list Message :=
  sort_by_key msg_created_at (List.filter (live_in_chat c) (pg_rows r)).

(** [find_latest_by_chat_id]: live rows of the chat, newest first, at
    most [limit]. *)
Definition pg_find_latest_by_chat_id (c : string) (limit : nat) (r : PgMessages) : list Message :=
  take limit (sort_by_key (fun m => - msg_created_at m)%Z (List.filter (live_in_chat c) (pg_rows r))).

(** [find_by_sender_id]: the live rows the sender wrote. *)
Definition pg_find_by_sender_id (sender_id : string) (r : PgMessages) : list Message :=
  List.filter (fun x => bool_decide (msg_sender_id x = sender_id) && negb (message_is_deleted x)) (pg_rows r).

(** [find_chat_ids_by_user_id]: [SELECT DISTINCT chat_id] of the live
    rows the user wrote; [DISTINCT] fixes no order, the model keeps the
    first occurrence of each. *)
Definition pg_find_chat_ids_by_user_id (user_id : string) (r : PgMessages) : list string :=
  remove_dups (map msg_chat_id (pg_find_by_sender_id user_id r)).

Definition pg_soft_delete (now : Z) (ids : list string) (x : Message) : Message :=
  if bool_decide (msg_id x ∈ ids) && negb (message_is_deleted x)
  then mkMessage (msg_id x) (msg_content x) (msg_sender_type x) (msg_chat_id x)
                 (msg_sender_id x) (msg_created_at x) now (Some now)
  else x.

(** [delete]: mark the live row deleted; nothing to update rolls back. *)
Definition pg_delete (id : string) (now : Z) (r : PgMessages) : PgMessages :=
  mkPgMessages (map (pg_soft_delete now [id]) (pg_rows r)).

(** [bulk_delete]: mark every listed live row deleted and, when at
    least one row changed, return every requested id. *)
Definition pg_bulk_delete (ids : list string) (now : Z) (r : PgMessages) : list string * PgMessages :=
  match ids with
  | [] => ([], r)
  | _ =>
    let update_count := length (List.filter (fun x => bool_decide (msg_id x ∈ ids) && negb (message_is_deleted x))
                                       (pg_rows r)) in
    if Nat.ltb 0 update_count then (ids, mkPgMessages (map (pg_soft_delete now ids) (pg_rows r)))
    else ([], r)
  end.

(** [count_by_chat_id]: live rows of the chat. *)
Definition pg_count_by_chat_id (c : string) (r : PgMessages) : nat :=
  length (List.filter (live_in_chat c) (pg_rows r)).

#[export] Instance pg_message_repository : MessageRepository PgMessages := {
  repo_save := pg_save;
  repo_find_by_id := pg_find_by_id;
  repo_find_all := pg_find_all;
  repo_find_by_chat_id := pg_find_by_chat_id;
  repo_find_latest_by_chat_id := pg_find_latest_by_chat_id;
  repo_find_by_sender_id := pg_find_by_sender_id;
  repo_delete := pg_delete;
  repo_bulk_delete := pg_bulk_delete;
  repo_count_by_chat_id := pg_count_by_chat_id;
  repo_find_chat_ids_by_user_id := pg_find_chat_ids_by_user_id
}.

(** ** The implementation satisfies the interface's laws *)

(** The primary key: no two rows share an id. *)
Definition pg_wf (r : PgMessages) : Prop := NoDup (map msg_id (pg_rows r)).

Definition replace_row (m x : Message) : Message :=
  if bool_decide (msg_id x = msg_id m) then m else x.

Lemma map_id_replace_row m rows : map msg_id (map (replace_row m) rows) = map msg_id rows.
Proof.
  induction rows as [|x rows IH]; [done|]. cbn [map]. rewrite IH. unfold replace_row.
  case_bool_decide; congruence.
Qed.

Lemma map_id_soft_delete now ids rows : map msg_id (map (pg_soft_delete now ids) rows) = map msg_id rows.
Proof.
  induction rows as [|x rows IH]; [done|]. cbn [map]. rewrite IH. unfold pg_soft_delete.
  by destruct (_ && _).
Qed.

Lemma pg_wf_save m r : pg_wf r -> pg_wf (pg_save m r).
Proof.
  unfold pg_wf, pg_save. intros Hnd. case_bool_decide as Hex; cbn [pg_rows].
  - fold (replace_row m). by rewrite map_id_replace_row.
  - rewrite map_app. apply NoDup_app. split; [done|split; [|constructor; [set_solver|constructor]]].
    intros i Hi Hm%list_elem_of_singleton. subst i. apply Hex.
    apply list_elem_of_In, in_map_iff in Hi as (x & Hx & Hin). apply Exists_exists.
    exists x. split; [by apply list_elem_of_In|done].
Qed.

Lemma pg_wf_delete id now r : pg_wf r -> pg_wf (pg_delete id now r).
Proof. unfold pg_wf, pg_delete. cbn [pg_rows]. by rewrite map_id_soft_delete. Qed.

Lemma live_in_chat_new c m :
  message_is_deleted m = false -> live_in_chat c m = bool_decide (msg_chat_id m = c).
Proof. intros Hm. unfold live_in_chat. by rewrite Hm, andb_true_r. Qed.

(** Replacing the one (deleted) row that carries the message's id. *)
Lemma count_replace_row m c rows :
  NoDup (map msg_id rows) ->
  (forall x, In x rows -> msg_id x = msg_id m -> message_is_deleted x = true) ->
  Exists (fun x => msg_id x = msg_id m) rows ->
  message_is_deleted m = false ->
  length (List.filter (live_in_chat c) (map (replace_row m) rows)) =
  length (List.filter (live_in_chat c) rows) + (if bool_decide (msg_chat_id m = c) then 1 else 0).
Proof.
  intros Hnd Hdel Hex Hm. induction rows as [|x rows IH]; [by inversion Hex|].
  cbn [map] in *. apply NoDup_cons in Hnd as [Hnotin Hnd].
  unfold replace_row at 1. destruct (decide (msg_id x = msg_id m)) as [Hid|Hid].
  - rewrite bool_decide_eq_true_2 by done. assert (Hx : message_is_deleted x = true) by (apply Hdel; [by left|exact Hid]).
    assert (Hrest : map (replace_row m) rows = rows).
    { rewrite <- (List.map_id rows) at 2. apply List.map_ext_in. intros y Hy.
      unfold replace_row. destruct (decide (msg_id y = msg_id m)) as [Hy'|Hy'];
        [|by rewrite bool_decide_eq_false_2].
      exfalso. apply Hnotin. rewrite Hid, <- Hy'. apply list_elem_of_In, in_map, Hy. }
    rewrite Hrest, !filter_cons_bool.
    replace (live_in_chat c x) with false by (unfold live_in_chat; by rewrite Hx, andb_false_r).
    rewrite live_in_chat_new by done. destruct (bool_decide _); cbn; lia.
  - rewrite bool_decide_eq_false_2 by done. apply Exists_cons in Hex as [Hx|Hex]; [done|].
    rewrite !filter_cons_bool.
    assert (IH' := IH Hnd ltac:(intros; apply Hdel; [by right|done]) Hex).
    destruct (live_in_chat c x); cbn [length]; lia.
Qed.

Lemma pg_count_save_new m c r :
  pg_wf r -> pg_find_by_id (msg_id m) r = None -> message_is_deleted m = false ->
  pg_count_by_chat_id c (pg_save m r) =
  pg_count_by_chat_id c r + (if bool_decide (msg_chat_id m = c) then 1 else 0).
Proof.
  unfold pg_wf, pg_find_by_id, pg_count_by_chat_id, pg_save. intros Hnd Hnone Hm.
  case_bool_decide as Hex; cbn [pg_rows].
  - fold (replace_row m). apply count_replace_row; [done| |done|done].
    intros x Hx Hid. pose proof (find_none _ _ Hnone x Hx) as Hf. cbn in Hf.
    rewrite bool_decide_eq_true_2 in Hf by done. by destruct (message_is_deleted x).
  - rewrite List.filter_app, length_app, filter_cons_bool.
    rewrite live_in_chat_new by done. destruct (bool_decide _); cbn; lia.
Qed.

Lemma pg_latest_sorted c n r :
  StronglySorted (fun a b => msg_created_at b <= msg_created_at a)%Z
    (pg_find_latest_by_chat_id c n r).
Proof.
  apply StronglySorted_take.
  eapply StronglySorted_weaken; [|apply sort_by_key_sorted]. unfold key_le. intros a b. lia.
Qed.

Lemma pg_latest_bound c n r : length (pg_find_latest_by_chat_id c n r) <= n.
Proof. unfold pg_find_latest_by_chat_id. rewrite length_take. lia. Qed.

Definition live_with_id (i : string) (x : Message) : bool :=
  bool_decide (msg_id x = i) && negb (message_is_deleted x).

Lemma find_replace_row m rows :
  find (live_with_id (msg_id m)) (map (replace_row m) rows) =
  if message_is_deleted m then None
  else if bool_decide (Exists (fun x => msg_id x = msg_id m) rows) then Some m else None.
Proof.
  induction rows as [|x rows IH].
  - cbn [map find]. destruct (message_is_deleted m); [done|]. rewrite bool_decide_eq_false_2; [done|]. inversion 1.
  - cbn [map find]. rewrite IH. unfold replace_row at 1 2.
    destruct (decide (msg_id x = msg_id m)) as [Hx|Hx].
    + rewrite !(bool_decide_eq_true_2 (msg_id x = msg_id m)) by done.
      unfold live_with_id. rewrite bool_decide_eq_true_2 by done.
      destruct (message_is_deleted m); [done|]. cbn.
      rewrite bool_decide_eq_true_2; [done|]. by constructor.
    + rewrite !(bool_decide_eq_false_2 (msg_id x = msg_id m)) by done.
      unfold live_with_id at 1. rewrite bool_decide_eq_false_2 by done. cbn [andb].
      destruct (message_is_deleted m); [done|].
      rewrite (bool_decide_ext (Exists (fun y => msg_id y = msg_id m) (x :: rows))
                 (Exists (fun y => msg_id y = msg_id m) rows)); [done|].
      rewrite Exists_cons. split; [by intros [?|?]|by right].
Qed.

Lemma pg_find_save m r :
  pg_find_by_id (msg_id m) (pg_save m r) = if message_is_deleted m then None else Some m.
Proof.
  unfold pg_find_by_id, pg_save. fold (live_with_id (msg_id m)).
  case_bool_decide as Hex; cbn [pg_rows].
  - fold (replace_row m). rewrite find_replace_row, bool_decide_eq_true_2 by done.
    by destruct (message_is_deleted m).
  - rewrite find_app_l_none.
    + cbn. unfold live_with_id. rewrite bool_decide_eq_true_2 by done. by destruct (message_is_deleted m).
    + apply find_none_intro. intros x Hx. unfold live_with_id.
      rewrite bool_decide_eq_false_2; [done|]. intros Hid. apply Hex, Exists_exists.
      exists x. split; [by apply list_elem_of_In|done].
Qed.

Lemma pg_find_save_ne m i r :
  i <> msg_id m -> pg_find_by_id i (pg_save m r) = pg_find_by_id i r.
Proof.
  intros Hne. unfold pg_find_by_id, pg_save. fold (live_with_id i).
  case_bool_decide; cbn [pg_rows].
  - apply find_map_irrelevant. intros x. destruct (decide (msg_id x = msg_id m)) as [Hx|Hx].
    + right. rewrite (bool_decide_eq_true_2 (msg_id x = msg_id m)) by done. unfold live_with_id.
      by rewrite !(bool_decide_eq_false_2 (_ = i)) by congruence.
    + left. by rewrite bool_decide_eq_false_2.
  - rewrite find_app_l_none'. cbn [find].
    replace (live_with_id i m) with false
      by (unfold live_with_id; by rewrite bool_decide_eq_false_2 by congruence).
    by destruct (find _ _).
Qed.

Lemma pg_find_some i r m :
  pg_find_by_id i r = Some m -> msg_id m = i /\ message_is_deleted m = false.
Proof.
  unfold pg_find_by_id. intros Hf. apply find_some in Hf as [_ Hm].
  apply andb_prop in Hm as [Hi Hl]. apply bool_decide_eq_true in Hi. split; [done|].
  by apply negb_true_iff.
Qed.

#[export] Instance pg_message_repository_laws : MessageRepositoryLaws PgMessages := {
  repo_wf := pg_wf;
  repo_wf_save := pg_wf_save;
  repo_wf_delete := pg_wf_delete;
  repo_count_save_new := pg_count_save_new;
  repo_latest_sorted := pg_latest_sorted;
  repo_latest_bound := pg_latest_bound;
  repo_find_save := pg_find_save;
  repo_find_save_ne := pg_find_save_ne;
  repo_find_some := pg_find_some
}.

(** ** [bulk_delete] *)

Definition live_requested (ids : list string) (x : Message) : Prop :=
  msg_id x ∈ ids /\ message_is_deleted x = false.

#[export] Instance live_requested_dec ids x : Decision (live_requested ids x).
Proof. unfold live_requested. apply _. Defined.

Lemma filter_length_pos_Exists {A} (f : A -> bool) l :
  Nat.ltb 0 (length (List.filter f l)) = bool_decide (Exists (fun x => f x = true) l).
Proof.
  induction l as [|x l IH]; [done|]. rewrite filter_cons_bool.
  destruct (f x) eqn:Hf; cbn [length].
  - rewrite bool_decide_eq_true_2; [done|]. by constructor.
  - rewrite IH. apply bool_decide_ext. rewrite Exists_cons, Hf. split; [by right|by intros [?|?]].
Qed.

(** [update_count > 0] holds exactly when a requested row is live. *)
Lemma pg_bulk_delete_spec ids now r :
  pg_bulk_delete ids now r =
  if bool_decide (Exists (live_requested ids) (pg_rows r))
  then (ids, mkPgMessages (map (pg_soft_delete now ids) (pg_rows r))) else ([], r).
Proof.
  unfold pg_bulk_delete. destruct ids as [|i ids'].
  - rewrite bool_decide_eq_false_2; [done|]. intros (x & _ & [Hx _])%Exists_exists. set_solver.
  - rewrite filter_length_pos_Exists.
    replace (bool_decide (Exists (fun x => _ = true) _)) with
      (bool_decide (Exists (live_requested (i :: ids')) (pg_rows r))); [done|].
    apply bool_decide_ext. split; intros H; (eapply Exists_impl; [exact H|]); intros x;
      unfold live_requested; by rewrite andb_true_iff, bool_decide_eq_true, negb_true_iff.
Qed.

Lemma soft_delete_deleted now ids x :
  msg_id x ∈ ids -> message_is_deleted (pg_soft_delete now ids x) = true.
Proof.
  intros Hx. unfold pg_soft_delete. rewrite bool_decide_eq_true_2 by done.
  destruct (message_is_deleted x) eqn:Hd; [done|]. reflexivity.
Qed.

Lemma soft_delete_id now ids x : msg_id (pg_soft_delete now ids x) = msg_id x.
Proof. unfold pg_soft_delete. by destruct (_ && _). Qed.

(** After [bulk_delete] none of the requested messages is live:
    either a requested row was live and every requested row is now
    marked deleted, or none was and nothing changed. *)
Theorem pg_bulk_delete_none_live ids now r id :
  id ∈ ids -> pg_find_by_id id (snd (pg_bulk_delete ids now r)) = None.
Proof.
  intros Hid. rewrite pg_bulk_delete_spec. unfold pg_find_by_id.
  case_bool_decide as Hex; cbn [snd pg_rows]; apply find_none_intro.
  - intros y (x & <- & _)%in_map_iff. rewrite soft_delete_id.
    destruct (decide (msg_id x = id)) as [<-|Hne]; [|by rewrite bool_decide_eq_false_2].
    rewrite soft_delete_deleted by done. by rewrite andb_false_r.
  - intros x Hx. destruct (decide (msg_id x = id)) as [<-|Hne]; [|by rewrite bool_decide_eq_false_2].
    destruct (message_is_deleted x) eqn:Hd; [by rewrite andb_false_r|].
    exfalso. apply Hex, Exists_exists. exists x. split; [by apply list_elem_of_In|done].
Qed.

(** (C40) [bulk_delete] reports every requested id as soon as one
    requested message was live, ids that name no message included,
    although [MessageRepository.bulk_delete] is documented to return the
    ids that failed to delete. *)
Theorem pg_bulk_delete_reports_all ids now r :
  Exists (live_requested ids) (pg_rows r) -> fst (pg_bulk_delete ids now r) = ids.
Proof. intros Hex. rewrite pg_bulk_delete_spec. by rewrite bool_decide_eq_true_2. Qed.

(** ** [bulk_delete] against one [delete] per id *)

Lemma soft_delete_unchanged now ids x : ~ live_requested ids x -> pg_soft_delete now ids x = x.
Proof.
  intros Hx. unfold pg_soft_delete, live_requested in *.
  destruct (bool_decide _) eqn:Hi; [|done]. apply bool_decide_eq_true in Hi.
  destruct (message_is_deleted x); [done|tauto].
Qed.

(** Marking the rows of [i :: ids] is marking those of [i], then those of [ids]. *)
Lemma soft_delete_cons now i ids x :
  pg_soft_delete now (i :: ids) x = pg_soft_delete now ids (pg_soft_delete now [i] x).
Proof.
  unfold pg_soft_delete at 1 3. destruct (decide (msg_id x = i)) as [<-|Hne].
  - rewrite (bool_decide_eq_true_2 (msg_id x ∈ msg_id x :: ids)),
      (bool_decide_eq_true_2 (msg_id x ∈ [msg_id x])) by set_solver.
    destruct (message_is_deleted x) eqn:Hd; cbn [negb andb].
    + symmetry. apply soft_delete_unchanged. unfold live_requested. rewrite Hd. by intros [_ ?].
    + symmetry. apply soft_delete_unchanged. unfold live_requested. cbn. by intros [_ ?].
  - rewrite (bool_decide_eq_false_2 (msg_id x ∈ [i])) by set_solver. cbn [andb].
    unfold pg_soft_delete. by rewrite (bool_decide_ext (msg_id x ∈ i :: ids) (msg_id x ∈ ids)) by set_solver.
Qed.

Lemma map_soft_delete_unchanged now ids rows :
  (forall x, x ∈ rows -> ~ live_requested ids x) -> map (pg_soft_delete now ids) rows = rows.
Proof.
  induction rows as [|x rows IH]; intros Hx; [done|]. cbn [map].
  rewrite soft_delete_unchanged, IH by (intros; apply Hx; set_solver). done.
Qed.

Lemma fold_pg_delete now ids rows :
  fold_left (fun r i => pg_delete i now r) ids (mkPgMessages rows) =
  mkPgMessages (map (pg_soft_delete now ids) rows).
Proof.
  revert rows. induction ids as [|i ids IH]; intros rows; cbn [fold_left].
  - f_equal. symmetry. apply map_soft_delete_unchanged. intros x _ [Hx _]. set_solver.
  - unfold pg_delete at 2. cbn [pg_rows]. rewrite IH, map_map. f_equal.
    apply map_ext. intros x. symmetry. apply soft_delete_cons.
Qed.

(** (C13) [bulk_delete]'s single [UPDATE ... WHERE id IN ids AND
    deleted_at IS NULL], committed or rolled back as a whole, leaves the
    table as [delete] called on each id in turn. *)
Theorem pg_bulk_delete_sequential ids now r :
  snd (pg_bulk_delete ids now r) = fold_left (fun r i => pg_delete i now r) ids r.
Proof.
  destruct r as [rows]. rewrite pg_bulk_delete_spec, fold_pg_delete. cbn [pg_rows].
  case_bool_decide as Hex; [done|]. cbn [snd]. f_equal. symmetry. apply map_soft_delete_unchanged.
  intros x Hx Hl. apply Hex, Exists_exists. by exists x.
Qed.

Definition example_rows : PgMessages :=
  mkPgMessages [message_create "m1" 1 "hello" SUser "c" "u"].

Lemma pg_bulk_delete_reports_all_witness :
  fst (pg_bulk_delete ["m1"; "no-such-id"] 5 example_rows) = ["m1"; "no-such-id"].
Proof.
  apply pg_bulk_delete_reports_all. apply Exists_cons_hd. split; [|reflexivity].
  apply list_elem_of_here.
Defined.
