(* ===== verification/MessageUseCases.v ===== *)
(** * MessageUseCases: reading and deleting messages

    [usecase/message/delete_message_usecase.py],
    [find_message_by_id_usecase.py] and [find_messages_usecase.py],
    proved against the [MessageRepository] interface and its laws.
    [DeleteMessageUseCaseImpl.execute] builds the [MessageId] (a check
    that may raise, [MessageValueObjects]), finds the live message, marks it
    deleted ([Message.mark_as_deleted]) and saves it back; a missing
    message raises [MessageNotFoundException].  [execute_bulk] returns what the
    repository's [bulk_delete] returns. *)

From S2P Require Import Prelude Domain MessageRepo.

(** [MessageNotFoundException(message_id)]. *)
Definition message_not_found (message_id : string) : Exc :=
  DomainError MessageNotFoundException ("Message with ID " +:+ message_id +:+ " not found").

Section UseCases.
Context `{MessageRepository R} (mvo : MessageValueObjects).

(** [DeleteMessageUseCaseImpl.execute]: a logical deletion. *)
Definition delete_message (now : Z) (message_id : string) : M R unit :=
  lift_res (message_id_valid mvo message_id);;
  r ← get;
  match repo_find_by_id message_id r with
  | None => raise (message_not_found message_id)
  | Some message =>
      deleted ← lift_res (message_mark_as_deleted now message);
      modify (repo_save deleted)
  end.

(** [DeleteMessageUseCaseImpl.execute_bulk]. *)
Definition delete_messages_bulk (now : Z) (message_ids : list string) : M R (list string) :=
  lift_res (mapM (message_id_valid mvo) message_ids);;
  r ← get;
  let '(failed_ids, r') := repo_bulk_delete message_ids now r in
  put r';; mret failed_ids.

(** [FindMessageByIdUseCaseImpl.execute]. *)
Definition find_message_by_id (message_id : string) : M R Message :=
  r ← get;
  match repo_find_by_id message_id r with
  | None => raise (message_not_found message_id)
  | Some message => mret message
  end.

(** [FindMessagesUseCaseImpl]: the three listings. *)
Definition execute_find_all : M R (list Message) := r ← get; mret (repo_find_all r).

Definition execute_find_by_chat_id (chat_id : string) : M R (list Message) :=
  r ← get; mret (repo_find_by_chat_id chat_id r).

Definition execute_find_by_sender_id (sender_id : string) : M R (list Message) :=
  r ← get; mret (repo_find_by_sender_id sender_id r).
End UseCases.

(** ** The use cases against the repository's laws *)

Section Laws.
Context `{MessageRepositoryLaws R} (mvo : MessageValueObjects).

(** Marking a live message deleted keeps its id and makes it deleted. *)
Lemma mark_as_deleted_live now m :
  message_is_deleted m = false ->
  exists m', message_mark_as_deleted now m = Ok m' /\ msg_id m' = msg_id m /\ message_is_deleted m' = true.
Proof. intros Hd. unfold message_mark_as_deleted. rewrite Hd. by eexists. Qed.

Lemma delete_message_run now i r m :
  message_id_valid mvo i = Ok tt -> repo_find_by_id i r = Some m ->
  exists m', message_mark_as_deleted now m = Ok m' /\ msg_id m' = i /\ message_is_deleted m' = true /\
    delete_message mvo now i r = (Ok tt, repo_save m' r).
Proof.
  intros Hv Hf. destruct (repo_find_some i r m Hf) as [Hid Hlive].
  destruct (mark_as_deleted_live now m Hlive) as (m' & Hm' & Hid' & Hdel).
  exists m'. split_and!; [done|congruence|done|].
  unfold delete_message. rewrite Hv, lift_res_bind_ok. unfold_m. rewrite Hf. cbv [lift_res]. by rewrite Hm'.
Qed.

(** An id the [MessageId] check rejects: its exception, and nothing changes. *)
Lemma delete_message_invalid now i r e :
  message_id_valid mvo i = Err e -> delete_message mvo now i r = (Err e, r).
Proof. intros Hv. unfold delete_message. by rewrite Hv, lift_res_bind_err. Qed.

Lemma delete_message_missing now i r :
  message_id_valid mvo i = Ok tt -> repo_find_by_id i r = None ->
  delete_message mvo now i r = (Err (message_not_found i), r).
Proof. intros Hv Hf. unfold delete_message. rewrite Hv, lift_res_bind_ok. unfold_m. by rewrite Hf. Qed.

(** (C9) [DeleteMessageUseCaseImpl.execute]: an id the [MessageId]
    check rejects raises the check's exception; otherwise a live message
    is no longer found afterwards and every other message is found as
    before, and a missing or already deleted message raises
    [MessageNotFoundException]; nothing changes when it raises. *)
Theorem delete_message_correct now i r :
  match message_id_valid mvo i with
  | Err e => delete_message mvo now i r = (Err e, r)
  | Ok _ =>
    match repo_find_by_id i r with
    | Some _ =>
        exists r', delete_message mvo now i r = (Ok tt, r') /\ repo_find_by_id i r' = None /\
          forall j, j <> i -> repo_find_by_id j r' = repo_find_by_id j r
    | None => delete_message mvo now i r = (Err (message_not_found i), r)
    end
  end.
Proof.
  destruct (message_id_valid mvo i) as [[]|e] eqn:Hv; [|by apply delete_message_invalid].
  destruct (repo_find_by_id i r) as [m|] eqn:Hf; [|by apply delete_message_missing].
  destruct (delete_message_run now i r m Hv Hf) as (m' & _ & Hid & Hdel & ->).
  eexists. split; [reflexivity|]. split.
  - rewrite <- Hid, repo_find_save. by rewrite Hdel.
  - intros j Hj. apply repo_find_save_ne. congruence.
Qed.

(** After a deletion the message is gone for both use cases: finding
    it and deleting it again raise [MessageNotFoundException], never
    [MessageAlreadyDeletedException], and change nothing. *)
Lemma delete_message_then_not_found now now' i r r' :
  delete_message mvo now i r = (Ok tt, r') ->
  find_message_by_id i r' = (Err (message_not_found i), r') /\
  delete_message mvo now' i r' = (Err (message_not_found i), r').
Proof.
  intros Hrun. destruct (message_id_valid mvo i) as [[]|e] eqn:Hv;
    [|by rewrite (delete_message_invalid now i r e Hv) in Hrun].
  destruct (repo_find_by_id i r) as [m|] eqn:Hf;
    [|by rewrite (delete_message_missing now i r Hv Hf) in Hrun].
  destruct (delete_message_run now i r m Hv Hf) as (m' & _ & Hid & Hdel & Hrun').
  rewrite Hrun' in Hrun. injection Hrun as <-.
  assert (Hgone : repo_find_by_id i (repo_save m' r) = None)
    by (rewrite <- Hid, repo_find_save; by rewrite Hdel).
  split; [unfold find_message_by_id; unfold_m; by rewrite Hgone|by apply delete_message_missing].
Qed.
End Laws.

(** ** On the Postgres implementation *)

(** A [MessageId] check that rejects the empty id only. *)
Definition example_message_vo : MessageValueObjects :=
  let nonempty := fun v => if bool_decide (v = "") then Err (ValueError "Message ID cannot be empty") else Ok tt in
  mkMessageValueObjects nonempty nonempty.

Definition example_messages : PgMessages :=
  mkPgMessages [message_create "m1" 1 "hello" SUser "c" "u"; message_create "m2" 2 "hi" SAssistant "c" "u"].

Lemma delete_message_correct_witness :
  pg_find_by_id "m2" (snd (delete_message example_message_vo 7 "m1" example_messages)) =
  Some (message_create "m2" 2 "hi" SAssistant "c" "u").
Proof.
  pose proof (delete_message_correct example_message_vo 7 "m1" example_messages) as H. simpl in H.
  destruct H as (r' & Hrun & _ & Hother). rewrite Hrun. apply Hother. discriminate.
Defined.

