(* ===== verification/ChatRepo.v ===== *)
(** * ChatRepo: the [ChatRepository] interface and the chat use cases

    [domain/chat/repositories/chat_repository.py] declares the chat
    repository; no implementation of it is part of the repository's
    sources, so the use cases of [usecase/chat/] are proved against the
    interface and its laws ([ChatRepositoryLaws]): what is saved is found
    by its id, a deleted chat is no longer found, and other chats are
    left alone.  [chat_table], an association list with soft deletion,
    is the reference implementation the spec describes for relational
    persistence (CRUD by id, by-owner listing, soft delete); it
    discharges the laws.  The value objects [ChatId], [ChatTitle],
    [UserId] and the chat [BookId] are not in the sources: the use cases
    here receive the values they hold, and the handlers and the message
    flow build them with [ChatValueObjects] ([Domain.v]).  The class
    [ChatNotFoundError], whose module is not in the sources either, is
    [chat_not_found]'s class. *)

From S2P Require Import Prelude Domain.

Class ChatRepository (C : Type) := {
  chat_save : Chat -> C -> C;
  chat_find_by_id : string -> C -> option Chat;
  chat_find_by_user_id : string -> C -> list Chat;
  chat_find_by_book_id : string -> C -> list Chat;
  chat_find_by_user_id_and_book_id : string -> string -> C -> list Chat;
  chat_delete : string -> Z -> C -> C
}.

Class ChatRepositoryLaws (C : Type) `{ChatRepository C} := {
  chat_find_save c r :
    chat_deleted_at c = None -> chat_find_by_id (chat_id c) (chat_save c r) = Some c;
  chat_find_save_ne c i r :
    i <> chat_id c -> chat_find_by_id i (chat_save c r) = chat_find_by_id i r;
  chat_find_delete i now r : chat_find_by_id i (chat_delete i now r) = None;
  chat_find_delete_ne i j now r :
    i <> j -> chat_find_by_id i (chat_delete j now r) = chat_find_by_id i r;
  chat_find_live i r c :
    chat_find_by_id i r = Some c -> chat_id c = i /\ chat_deleted_at c = None
}.

(** ** The chat use cases *)

Definition chat_not_found (chat_id : string) : Exc :=
  DomainError ["ChatNotFoundError"] ("Chat with ID " +:+ chat_id +:+ " not found").

(** [Chat.create]: a fresh id, [created_at = updated_at = now]. *)
Definition chat_create (id : string) (now : Z) (user_id title : string) (book_id : option string) : Chat :=
  mkChat id user_id title book_id now now None.

Section UseCases.
Context `{ChatRepository C}.

(** [CreateChatUseCaseImpl.execute]. *)
Definition create_chat (id : string) (now : Z) (user_id title : string) (book_id : option string)
    : M C Chat :=
  let chat := chat_create id now user_id title book_id in
  modify (chat_save chat);;
  mret chat.

(** [DeleteChatUseCaseImpl.execute]. *)
Definition delete_chat (now : Z) (chat_id : string) : M C unit :=
  r ← get;
  match chat_find_by_id chat_id r with
  | None => raise (chat_not_found chat_id)
  | Some _ => modify (chat_delete chat_id now)
  end.

(** [FindChatByIdUseCaseImpl.execute]. *)
Definition find_chat_by_id (chat_id : string) : M C Chat :=
  r ← get;
  match chat_find_by_id chat_id r with
  | None => raise (chat_not_found chat_id)
  | Some chat => mret chat
  end.

(** [FindChatsByUserIdUseCaseImpl.execute]. *)
Definition find_chats_by_user_id (user_id : string) : M C (list Chat) :=
  r ← get; mret (chat_find_by_user_id user_id r).

(** [FindChatsByUserIdAndBookIdUseCaseImpl.execute]. *)
Definition find_chats_by_user_id_and_book_id (user_id book_id : string) : M C (list Chat) :=
  r ← get; mret (chat_find_by_user_id_and_book_id user_id book_id r).

(** [UpdateChatTitleUseCaseImpl.execute]: the found entity gets the
    title and a new [updated_at], and is saved back. *)
Definition update_chat_title (now : Z) (chat_id : string) (title : string) : M C unit :=
  r ← get;
  match chat_find_by_id chat_id r with
  | None => raise (chat_not_found chat_id)
  | Some chat => modify (chat_save (chat_update_title now title chat))
  end.
End UseCases.

(** ** A reference implementation: a table with soft deletion *)

Record ChatTable := mkChatTable { chat_rows : list Chat }.

Definition chat_live (c : Chat) : bool :=
  match chat_deleted_at c with None => true | Some _ => false end.

Definition table_save (c : Chat) (r : ChatTable) : ChatTable :=
  mkChatTable (c :: List.filter (fun x => negb (bool_decide (chat_id x = chat_id c))) (chat_rows r)).

Definition table_find_by_id (i : string) (r : ChatTable) : option Chat :=
  find (fun x => bool_decide (chat_id x = i) && chat_live x) (chat_rows r).

Definition table_find_by (p : Chat -> bool) (r : ChatTable) : list Chat :=
  List.filter (fun x => p x && chat_live x) (chat_rows r).

Definition table_delete (i : string) (now : Z) (r : ChatTable) : ChatTable :=
  mkChatTable (map (fun x => if bool_decide (chat_id x = i)
                            then mkChat (chat_id x) (chat_user_id x) (chat_title x) (chat_book_id x)
                                        (chat_created_at x) now (Some now)
                            else x) (chat_rows r)).

#[export] Instance chat_table_repository : ChatRepository ChatTable := {
  chat_save := table_save;
  chat_find_by_id := table_find_by_id;
  chat_find_by_user_id u := table_find_by (fun x => bool_decide (chat_user_id x = u));
  chat_find_by_book_id b := table_find_by (fun x => bool_decide (chat_book_id x = Some b));
  chat_find_by_user_id_and_book_id u b :=
    table_find_by (fun x => bool_decide (chat_user_id x = u) && bool_decide (chat_book_id x = Some b));
  chat_delete := table_delete
}.

Lemma table_find_save c r :
  chat_deleted_at c = None -> table_find_by_id (chat_id c) (table_save c r) = Some c.
Proof.
  intros Hd. unfold table_find_by_id, table_save, chat_live. cbn [chat_rows find].
  by rewrite Hd, bool_decide_eq_true_2.
Qed.

Lemma table_find_save_ne c i r :
  i <> chat_id c -> table_find_by_id i (table_save c r) = table_find_by_id i r.
Proof.
  intros Hne. unfold table_find_by_id, table_save. cbn [chat_rows find].
  rewrite bool_decide_eq_false_2 by congruence. cbn [andb].
  apply find_filter_irrelevant. intros x Hx. apply negb_false_iff, bool_decide_eq_true in Hx.
  rewrite bool_decide_eq_false_2; [done|congruence].
Qed.

Lemma table_find_delete i now r : table_find_by_id i (table_delete i now r) = None.
Proof.
  unfold table_find_by_id, table_delete. cbn [chat_rows]. apply find_none_intro.
  intros y (x & <- & _)%in_map_iff. destruct (decide (chat_id x = i)) as [Hx|Hx].
  - rewrite (bool_decide_eq_true_2 (chat_id x = i)) by done. cbn [chat_live chat_deleted_at]. by rewrite andb_false_r.
  - rewrite (bool_decide_eq_false_2 (chat_id x = i)) by done. by rewrite bool_decide_eq_false_2.
Qed.

Lemma table_find_delete_ne i j now r :
  i <> j -> table_find_by_id i (table_delete j now r) = table_find_by_id i r.
Proof.
  intros Hne. unfold table_find_by_id, table_delete. cbn [chat_rows].
  apply find_map_irrelevant. intros x. destruct (decide (chat_id x = j)) as [Hx|Hx].
  - right. rewrite (bool_decide_eq_true_2 (chat_id x = j)) by done. cbn [chat_id].
    by rewrite !(bool_decide_eq_false_2 (chat_id x = i)) by congruence.
  - left. by rewrite (bool_decide_eq_false_2 (chat_id x = j)).
Qed.

Lemma table_find_live i r c :
  table_find_by_id i r = Some c -> chat_id c = i /\ chat_deleted_at c = None.
Proof.
  unfold table_find_by_id. intros Hf. apply find_some in Hf as [_ Hc].
  apply andb_prop in Hc as [Hi Hl]. apply bool_decide_eq_true in Hi. split; [done|].
  unfold chat_live in Hl. by destruct (chat_deleted_at c).
Qed.

#[export] Instance chat_table_laws : ChatRepositoryLaws ChatTable := {
  chat_find_save := table_find_save;
  chat_find_save_ne := table_find_save_ne;
  chat_find_delete := table_find_delete;
  chat_find_delete_ne := table_find_delete_ne;
  chat_find_live := table_find_live
}.

(** ** The use cases against the interface *)

Section UseCaseLaws.
Context `{ChatRepositoryLaws C}.

(** [UpdateChatTitleUseCaseImpl.execute]: on a chat that exists, the
    chat is found afterwards with the new title and [updated_at], and no
    other chat changes; on a missing one it raises [ChatNotFoundError]
    and changes nothing. *)
Lemma update_chat_title_correct now i title r :
  match chat_find_by_id i r with
  | Some c =>
      exists r', update_chat_title now i title r = (Ok tt, r') /\
        chat_find_by_id i r' = Some (chat_update_title now title c) /\
        forall j, j <> i -> chat_find_by_id j r' = chat_find_by_id j r
  | None => update_chat_title now i title r = (Err (chat_not_found i), r)
  end.
Proof.
  unfold update_chat_title. unfold_m. destruct (chat_find_by_id i r) as [c|] eqn:Hf; [|done].
  destruct (chat_find_live i r c Hf) as [Hid Hdel].
  eexists. split; [reflexivity|]. split.
  - replace i with (chat_id (chat_update_title now title c)) at 1 by done.
    apply chat_find_save. by cbn.
  - intros j Hj. apply chat_find_save_ne. by cbn; rewrite Hid.
Qed.

(** [DeleteChatUseCaseImpl.execute]: an existing chat is no longer
    found afterwards and the others are untouched; deleting a missing
    chat raises [ChatNotFoundError]. *)
Theorem delete_chat_correct now i r :
  match chat_find_by_id i r with
  | Some _ =>
      exists r', delete_chat now i r = (Ok tt, r') /\ chat_find_by_id i r' = None /\
        forall j, j <> i -> chat_find_by_id j r' = chat_find_by_id j r
  | None => delete_chat now i r = (Err (chat_not_found i), r)
  end.
Proof.
  unfold delete_chat. unfold_m. destruct (chat_find_by_id i r) as [c|] eqn:Hf; [|done].
  eexists. split; [reflexivity|]. split; [apply chat_find_delete|].
  intros j Hj. by apply chat_find_delete_ne.
Qed.

(** A created chat is found by its id. *)
Lemma create_chat_found id now user_id title book_id r :
  chat_find_by_id id (snd (create_chat id now user_id title book_id r)) =
  Some (chat_create id now user_id title book_id).
Proof. apply (chat_find_save (chat_create id now user_id title book_id)). done. Qed.
End UseCaseLaws.

(** ** A concrete table *)

Definition example_chat_table : ChatTable :=
  mkChatTable [mkChat "c" "u" "title" None 0 0 None; mkChat "d" "u" "other" (Some "b") 0 0 None].
