(* ===== verification/Retry.v ===== *)
(** * Retry: [retry_on_error] of [infrastructure/memory/retry_decorator.py]

    The decorator wraps a call in a [while True] loop: call the
    function, return its value; on an exception count the retry, re-raise
    once the count exceeds [max_retries], otherwise sleep [delay] seconds
    and multiply the delay by [backoff_factor].  The loop is modelled
    literally with a fuel argument; [retry_on_error] starts it with fuel
    [max_retries + 1] and [retry_loop_fuel_enough] shows that more fuel
    changes nothing, so the loop leaves through its own guard.  Sleeping
    is an effect on the caller's world, given by the [Clock] class. *)

From S2P Require Import Prelude.

(** A world in which [time.sleep] can be observed. *)
Class Clock (S : Type) := sleep : Z -> S -> S.

(** The error returned when the fuel runs out: never reached from
    [retry_on_error] (lemma [retry_loop_fuel_enough]). *)
Definition out_of_fuel : Exc := StoreError "retry loop out of fuel".

Section RetryLoop.
  Context {W A : Type} `{Clock W}.
  Context (max_retries : nat) (backoff_factor : Z) (func : M W A).

  (** One turn of [while True: try: return func() except Exception as e: ...],
      with [retries] and [delay] the loop variables. *)
Fixpoint retry_loop (fuel : nat) (retries : nat) (delay : Z) : M W A :=
    match fuel with
    | O => raise out_of_fuel
    | S fuel' =>
        try_except func (fun e =>
          let retries' := S retries in
          if Nat.ltb max_retries retries' then raise e
          else modify (sleep delay);;
               retry_loop fuel' retries' (delay * backoff_factor)%Z)
    end.

Lemma retry_loop_S fuel retries delay :
    retry_loop (S fuel) retries delay =
    try_except func (fun e =>
      if Nat.ltb max_retries (S retries) then raise e
      else modify (sleep delay);;
           retry_loop fuel (S retries) (delay * backoff_factor)%Z).
  Proof. reflexivity. Qed.
End RetryLoop.

(** [@retry_on_error(max_retries, initial_delay, backoff_factor)] applied
    to [func]: [retries = 0], [delay = initial_delay]. *)
Definition retry_on_error {W A} `{Clock W} (max_retries : nat)
    (initial_delay backoff_factor : Z) (func : M W A) : M W A :=
  retry_loop max_retries backoff_factor func (S max_retries) 0 initial_delay.

(** The decorator's default arguments: [max_retries=3, initial_delay=1,
    backoff_factor=2]. *)
Definition retry_default {W A} `{Clock W} (max_retries : nat) (func : M W A) : M W A :=
  retry_on_error max_retries 1 2 func.

(** A first attempt that returns is the decorated call's result. *)
Lemma retry_on_error_first_ok {W A} `{Clock W} max_retries initial_delay backoff_factor
    (func : M W A) s a s' :
  func s = (Ok a, s') -> retry_on_error max_retries initial_delay backoff_factor func s = (Ok a, s').
Proof. intros Hf. unfold retry_on_error. rewrite retry_loop_S. unfold try_except. by rewrite Hf. Qed.

(** The decorated call returns only when an attempt of [func] returned. *)
Lemma retry_on_error_ensures {W A} `{Clock W} (Q : W -> Prop)
    max_retries initial_delay backoff_factor (func : M W A) :
  ensures func Q -> ensures (retry_on_error max_retries initial_delay backoff_factor func) Q.
Proof.
  intros Hf. unfold retry_on_error. generalize (S max_retries) 0 initial_delay. intros fuel.
  induction fuel as [|fuel IH]; intros r d; cbn [retry_loop]; [apply raise_ensures|].
  apply try_except_ensures; [done|]. intros e.
  destruct (Nat.ltb _ _); [apply raise_ensures|]. apply bind_ensures_r. intros _. apply IH.
Qed.

(** The retry loop reads the world only through [func] and [sleep]:
    whatever relation both respect, the whole decorated call respects. *)
Lemma retry_on_error_respects {W A} `{Clock W} (R : W -> W -> Prop)
    max_retries initial_delay backoff_factor (func : M W A) :
  respects R func -> (forall d, respects R (modify (sleep d))) ->
  respects R (retry_on_error max_retries initial_delay backoff_factor func).
Proof.
  intros Hf Hs. unfold retry_on_error.
  generalize (S max_retries) 0 initial_delay. intros fuel.
  induction fuel as [|fuel IH]; intros r d; cbn [retry_loop];
    [apply raise_respects|].
  apply try_except_respects; [done|]. intros e.
  destruct (Nat.ltb max_retries (S r)); [apply raise_respects|].
  apply bind_respects; [done|]. intros _. apply IH.
Qed.

Lemma retry_on_error_hoare {W A} `{Clock W} (P : W -> Prop) (Q : A -> Prop)
    max_retries initial_delay backoff_factor (func : M W A) :
  hoare P func Q -> (forall d, preserves P (modify (sleep d))) ->
  hoare P (retry_on_error max_retries initial_delay backoff_factor func) Q.
Proof.
  intros Hf Hs. unfold retry_on_error.
  generalize (S max_retries) 0 initial_delay. intros fuel.
  induction fuel as [|fuel IH]; intros r d; cbn [retry_loop]; [apply hoare_raise|].
  apply hoare_try; [done|]. intros e.
  destruct (Nat.ltb max_retries (S r)); [apply hoare_raise|].
  eapply hoare_bind; [apply hoare_preserves, Hs|]. intros _ _. apply IH.
Qed.

Lemma retry_on_error_preserves {W A} `{Clock W} (P : W -> Prop)
    max_retries initial_delay backoff_factor (func : M W A) :
  preserves P func -> (forall d, preserves P (modify (sleep d))) ->
  preserves P (retry_on_error max_retries initial_delay backoff_factor func).
Proof.
  intros Hf Hs w HP. apply (retry_on_error_hoare P (fun _ => True)); [|done|done].
  by apply hoare_preserves.
Qed.

#[export] Hint Resolve retry_on_error_respects retry_on_error_preserves : pydb.

(** An operation that raises [e] from every state of an invariant kept
    by the operation and by [sleep] makes the decorated call raise [e]:
    the [max_retries + 1] attempts all fail, and the last error is
    re-raised, never the fuel's. *)
Lemma retry_on_error_raises {W A} `{Clock W} (P : W -> Prop) e
    max_retries initial_delay backoff_factor (func : M W A) :
  raises P func e -> preserves P func -> (forall d, preserves P (modify (sleep d))) ->
  raises P (retry_on_error max_retries initial_delay backoff_factor func) e.
Proof.
  intros Hr Hp Hs. unfold retry_on_error.
  enough (Hk : forall k r d, r + k = max_retries ->
            raises P (retry_loop max_retries backoff_factor func (S k) r d) e) by (apply Hk; lia).
  induction k as [|k IH]; intros r d Hk s HP; rewrite retry_loop_S; unfold try_except;
    pose proof (Hr s HP) as He; pose proof (Hp s HP) as HP';
    destruct (func s) as [o s1]; cbn in He, HP'; subst o.
  - destruct (Nat.ltb_spec max_retries (S r)); [done|lia].
  - destruct (Nat.ltb_spec max_retries (S r)); [lia|]. rewrite modify_bind. cbv beta.
    apply (IH (S r) _ ltac:(lia)). exact (Hs d s1 HP').
Qed.

(** ** Abstract specification of the retry loop

    [retry_spec retries delay s out s'] holds when the loop, entered with
    these loop variables in world [s], ends with outcome [out] in world
    [s']: the first successful call returns, a failure once the retry
    count exceeds [max_retries] re-raises that failure, and any other
    failure sleeps [delay] and goes round again with the delay scaled. *)
Section RetrySpec.
  Context {W A : Type} `{Clock W}.
  Context (max_retries : nat) (backoff_factor : Z) (func : M W A).

Inductive retry_spec : nat -> Z -> W -> res A -> W -> Prop :=
  | retry_spec_ok retries delay s a s' :
      func s = (Ok a, s') ->
      retry_spec retries delay s (Ok a) s'
  | retry_spec_give_up retries delay s e s' :
      func s = (Err e, s') -> max_retries < S retries ->
      retry_spec retries delay s (Err e) s'
  | retry_spec_again retries delay s e s' out s'' :
      func s = (Err e, s') -> S retries <= max_retries ->
      retry_spec (S retries) (delay * backoff_factor)%Z (sleep delay s') out s'' ->
      retry_spec retries delay s out s''.

  (** Extra fuel does not change the loop: once [retries] exceeds
      [max_retries] the guard exits, so [max_retries - retries + 1]
      turns are all the loop ever takes. *)
Lemma retry_loop_fuel_enough fuel retries delay s :
    max_retries - retries < fuel ->
    retry_loop max_retries backoff_factor func fuel retries delay s =
    retry_loop max_retries backoff_factor func (S (max_retries - retries)) retries delay s.
  Proof.
    revert retries delay s.
    induction fuel as [|fuel IH]; intros retries delay s Hfuel; [lia|].
    cbn [retry_loop]. unfold try_except.
    destruct (func s) as [[a|e] s']; [done|].
    destruct (Nat.ltb_spec max_retries (S retries)); [done|].
    unfold_m. rewrite IH by lia.
    replace (max_retries - retries) with (S (max_retries - S retries)) by lia.
    done.
  Qed.

Lemma retry_loop_sound n retries delay s out s' :
    max_retries - retries <= n ->
    retry_loop max_retries backoff_factor func (S n) retries delay s = (out, s') ->
    retry_spec retries delay s out s'.
  Proof.
    revert retries delay s.
    induction n as [|n IH]; intros retries delay s Hn Hrun;
      cbn [retry_loop] in Hrun; unfold try_except in Hrun;
      destruct (func s) as [[a|e] s1] eqn:Hf; simplify_eq;
      try (by econstructor);
      destruct (Nat.ltb_spec max_retries (S retries)); unfold_m; simplify_eq;
      try (by eapply retry_spec_give_up); try lia.
    eapply retry_spec_again; [done|lia|]. apply (IH (S retries)); [lia|done].
  Qed.

Lemma retry_loop_complete retries delay s out s' :
    retry_spec retries delay s out s' ->
    retry_loop max_retries backoff_factor func (S (max_retries - retries)) retries delay s = (out, s').
  Proof.
    induction 1 as [? ? ? ? ? Hf|? ? ? ? ? Hf Hlt|? ? ? ? ? ? ? Hf Hle _ IH];
      cbn [retry_loop]; unfold try_except; rewrite Hf; [done| |].
    - by destruct (Nat.ltb_spec max_retries (S retries)); [|lia].
    - destruct (Nat.ltb_spec max_retries (S retries)); [lia|]. unfold_m.
      replace (max_retries - retries) with (S (max_retries - S retries)) by lia.
      exact IH.
  Qed.
End RetrySpec.

(** (C21) [retry_on_error] implements the abstract retry specification:
    it returns [out] in world [s'] exactly when the relational
    specification, entered with [retries = 0] and
    [delay = initial_delay], does. *)
Theorem retry_on_error_refines {W A} `{Clock W} max_retries initial_delay
    backoff_factor (func : M W A) s out s' :
  retry_on_error max_retries initial_delay backoff_factor func s = (out, s') <->
  retry_spec max_retries backoff_factor func 0 initial_delay s out s'.
Proof.
  unfold retry_on_error. split.
  - apply retry_loop_sound. lia.
  - intros Hspec. apply retry_loop_complete in Hspec.
    by rewrite Nat.sub_0_r in Hspec.
Qed.

(** ** A flaky operation

    The world of the spec's test: an operation that raises on its
    first [n_fail] calls and then returns [a].  [calls] counts the calls
    and [slept] logs every [time.sleep]. *)
Record Flaky := mkFlaky { calls : nat; slept : list Z }.

#[export] Instance Flaky_clock : Clock Flaky :=
  fun d w => mkFlaky (calls w) (slept w ++ [d]).

(** The [k]-th call (from 0) raises [errs k] while [k < n_fail]. *)
Definition flaky {A} (n_fail : nat) (errs : nat -> Exc) (a : A) : M Flaky A :=
  fun w => let w' := mkFlaky (S (calls w)) (slept w) in
           if Nat.ltb (calls w) n_fail then (Err (errs (calls w)), w') else (Ok a, w').

(** The delays slept by [n] consecutive retries: [d, d*f, d*f^2, ...]. *)
Definition backoff_delays (d f : Z) (n : nat) : list Z :=
  map (fun i => d * f ^ Z.of_nat i)%Z (seq 0 n).

Lemma backoff_delays_S d f n :
  backoff_delays d f (S n) = d :: backoff_delays (d * f)%Z f n.
Proof.
  unfold backoff_delays. cbn [seq map]. rewrite Z.pow_0_r, Z.mul_1_r.
  f_equal. rewrite <- seq_shift, map_map. apply map_ext. intros i.
  rewrite Nat2Z.inj_succ, Z.pow_succ_r by lia. lia.
Qed.

Section FlakyRuns.
  Context {A : Type} (n_fail max_retries : nat) (errs : nat -> Exc) (a : A) (f : Z).

#[local] Abbreviation loop := (retry_loop max_retries f (flaky n_fail errs a)).

  (** From call [r] on, with enough retries left, the loop ends with
      [a] after [n_fail - r] more sleeps. *)
Lemma flaky_loop_ok r d l :
    r <= n_fail -> n_fail <= max_retries ->
    loop (S (max_retries - r)) r d (mkFlaky r l) =
      (Ok a, mkFlaky (S n_fail) (l ++ backoff_delays d f (n_fail - r))).
  Proof.
    intros Hr. remember (n_fail - r) as k eqn:Hk.
    revert r d l Hr Hk. induction k as [|k IH]; intros r d l Hr Hk Hmax;
      cbn [retry_loop]; unfold try_except, flaky; cbn [calls slept].
    - replace r with n_fail by lia. rewrite Nat.ltb_irrefl.
      by rewrite app_nil_r.
    - destruct (Nat.ltb_spec r n_fail); [|lia].
      destruct (Nat.ltb_spec max_retries (S r)); [lia|]. unfold_m.
      replace (max_retries - r) with (S (max_retries - S r)) by lia.
      unfold sleep, Flaky_clock; cbn [calls slept].
      rewrite (IH (S r)) by lia. cbn [calls slept].
      by rewrite backoff_delays_S, <- app_assoc.
  Qed.

  (** From call [r] on, when the failures outlast the retries, the loop
      re-raises the error of call [max_retries]. *)
Lemma flaky_loop_exhausted r d l :
    r <= max_retries -> max_retries < n_fail ->
    loop (S (max_retries - r)) r d (mkFlaky r l) =
      (Err (errs max_retries),
       mkFlaky (S max_retries) (l ++ backoff_delays d f (max_retries - r))).
  Proof.
    intros Hr Hmax. remember (max_retries - r) as k eqn:Hk.
    revert r d l Hr Hk. induction k as [|k IH]; intros r d l Hr Hk;
      rewrite retry_loop_S; unfold try_except, flaky; cbn [calls slept];
      (destruct (Nat.ltb_spec r n_fail); [|lia]).
    - destruct (Nat.ltb_spec max_retries (S r)); [|lia]. unfold_m.
      replace r with max_retries by lia. by rewrite app_nil_r.
    - destruct (Nat.ltb_spec max_retries (S r)); [lia|]. unfold_m.
      unfold sleep, Flaky_clock; cbn [calls slept].
      rewrite (IH (S r)) by lia.
      by rewrite backoff_delays_S, <- app_assoc.
  Qed.
End FlakyRuns.

(** Whatever the operation does, each turn of the loop calls it once and
    sleeps at most once, and [retries] grows at every sleep. *)
Lemma retry_loop_bounded {A} max_retries f (func : M Flaky A) fuel r d w :
  (forall w, calls (snd (func w)) = S (calls w) /\ slept (snd (func w)) = slept w) ->
  calls (snd (retry_loop max_retries f func fuel r d w)) <= calls w + S (max_retries - r) /\
  length (slept (snd (retry_loop max_retries f func fuel r d w))) <= length (slept w) + (max_retries - r).
Proof.
  intros Hf. revert r d w. induction fuel as [|fuel IH]; intros r d w; cbn [retry_loop]; [cbn; lia|].
  unfold try_except. destruct (Hf w) as [Hc Hs].
  destruct (func w) as [[a|e] w1]; cbv beta iota; cbn [snd] in Hc, Hs |- *; [rewrite Hc, Hs; lia|].
  destruct (Nat.ltb_spec max_retries (S r)); [cbv [raise]; cbn [snd]; rewrite Hc, Hs; lia|].
  rewrite modify_bind. cbv beta. destruct (IH (S r) (d * f)%Z (sleep d w1)) as [IH1 IH2].
  unfold sleep, Flaky_clock in *. cbn [calls slept] in IH1, IH2.
  rewrite length_app in IH2. cbn [length] in IH2.
  assert (length (slept w1) = length (slept w)) by now rewrite Hs. lia.
Qed.

(** (C4) An operation that fails [n_fail] times and then succeeds, called
    through [retry_on_error] with [n_fail <= max_retries], returns its
    value after exactly [n_fail + 1] calls, having slept
    [initial_delay * backoff_factor ^ i] before retry [i + 1]. *)
Theorem retry_succeeds_within_budget {A} (n_fail max_retries : nat)
    (errs : nat -> Exc) (a : A) (initial_delay backoff_factor : Z) :
  n_fail <= max_retries ->
  retry_on_error max_retries initial_delay backoff_factor
    (flaky n_fail errs a) (mkFlaky 0 []) =
  (Ok a, mkFlaky (S n_fail) (backoff_delays initial_delay backoff_factor n_fail)).
Proof.
  intros Hle. unfold retry_on_error.
  rewrite <- (Nat.sub_0_r max_retries) at 2.
  rewrite flaky_loop_ok by lia. by rewrite Nat.sub_0_r.
Qed.

(** (C5) When the operation fails more than [max_retries] times, the
    wrapper re-raises the error of the last call after exactly
    [max_retries + 1] calls and [max_retries] sleeps. *)
Theorem retry_exhausted_reraises_last {A} (n_fail max_retries : nat)
    (errs : nat -> Exc) (a : A) (initial_delay backoff_factor : Z) :
  max_retries < n_fail ->
  retry_on_error max_retries initial_delay backoff_factor
    (flaky n_fail errs a) (mkFlaky 0 []) =
  (Err (errs max_retries),
   mkFlaky (S max_retries) (backoff_delays initial_delay backoff_factor max_retries)).
Proof.
  intros Hlt. unfold retry_on_error.
  rewrite <- (Nat.sub_0_r max_retries) at 2.
  rewrite flaky_loop_exhausted by lia. by rewrite Nat.sub_0_r.
Qed.

(** (C18) The retry loop always ends within its budget: whatever the
    decorated operation does (each call counted once, no sleeping of its
    own), [retry_on_error] calls it at most [max_retries + 1] times and
    sleeps at most [max_retries] times. *)
Theorem retry_on_error_bounded {A} max_retries initial_delay backoff_factor (func : M Flaky A) w :
  (forall w, calls (snd (func w)) = S (calls w) /\ slept (snd (func w)) = slept w) ->
  calls (snd (retry_on_error max_retries initial_delay backoff_factor func w)) <= calls w + S max_retries /\
  length (slept (snd (retry_on_error max_retries initial_delay backoff_factor func w)))
    <= length (slept w) + max_retries.
Proof.
  intros Hf. unfold retry_on_error.
  pose proof (retry_loop_bounded max_retries backoff_factor func (S max_retries) 0 initial_delay w Hf) as Hb.
  by rewrite Nat.sub_0_r in Hb.
Qed.

(** The spec's scenario with the decorator's defaults
    ([max_retries=3, initial_delay=1, backoff_factor=2]): two failures,
    then success after sleeping 1 and 2 seconds. *)
Lemma retry_succeeds_within_budget_witness :
  retry_on_error 3 1 2 (flaky 2 (fun _ => StoreError "timeout") 7) (mkFlaky 0 []) =
  (Ok 7, mkFlaky 3 [1; 2]%Z).
Proof.
  rewrite (retry_succeeds_within_budget 2 3 (fun _ => StoreError "timeout") 7 1 2)
    by lia.
  reflexivity.
Defined.

(** Five failures against three retries: four calls, sleeps 1, 2, 4,
    and the error of call 3 is re-raised. *)
Lemma retry_exhausted_reraises_last_witness :
  retry_on_error 3 1 2 (flaky 5 (fun k => StoreError (if Nat.eqb k 3 then "last" else "earlier")) 7)
    (mkFlaky 0 []) =
  (Err (StoreError "last"), mkFlaky 4 [1; 2; 4]%Z).
Proof.
  rewrite (retry_exhausted_reraises_last 5 3
             (fun k => StoreError (if Nat.eqb k 3 then "last" else "earlier")) 7 1 2)
    by lia.
  reflexivity.
Defined.

(** An operation that always fails, with the defaults: four calls and
    three sleeps. *)
Lemma retry_on_error_bounded_witness :
  calls (snd (retry_on_error 3 1 2 (flaky 10 (fun _ => StoreError "down") 7) (mkFlaky 0 []))) <= 4 /\
  length (slept (snd (retry_on_error 3 1 2 (flaky 10 (fun _ => StoreError "down") 7) (mkFlaky 0 [])))) <= 3.
Proof.
  apply (retry_on_error_bounded 3 1 2 (flaky 10 (fun _ => StoreError "down") 7) (mkFlaky 0 [])).
  intros w. unfold flaky. destruct (Nat.ltb _ _); split; reflexivity.
Defined.
