(* ===== verification/Store.v ===== *)
(** * Store: the vector database as the memory stores see it

    A model of the part of the Weaviate client API that
    [infrastructure/memory/*_store.py] and [collection_manager.py] call:
    named collections with a property schema, each split into tenant
    partitions ([with_tenant(user_id)]), objects with a uuid, a
    properties dict and a vector, and the calls
    [collections.exists/create], [data.insert], [query.fetch_objects],
    [query.near_vector], [data.update], [data.delete_many] and
    [tenants.exists/create].  The Python process sees the database
    through a [World] that also holds the transient faults of the
    connection (each remote call consumes one entry of [faults]; [true]
    makes that call raise), the sleeps of the retry loop, the log, and
    the external capabilities: the embedding model and the text
    generation model.  This file models a library, not code of the
    repository; the code that calls it is modelled in [Base.v],
    [Collections.v], [ChatMemory.v], [Annotations.v], [Crud.v] and
    [BookMemory.v]. *)

From S2P Require Import Prelude Retry.

(** ** Values, properties and filters *)

(** A property value as the client returns it.  Dates are seconds since
    the epoch: the code writes them as ["%Y-%m-%dT%H:%M:%SZ"] strings,
    which the DATE schema type parses, and reads them back as datetimes. *)
Inductive Val := VStr (s : string) | VBool (b : bool) | VDate (t : Z).

#[export] Instance Val_eq_dec : EqDecision Val.
Proof. solve_decision. Defined.

(** A properties dict: a property that was never written is absent. *)
Abbreviation Props := (gmap string Val).

Definition Vec := list Z.

(** [Filter.by_property(p).equal(v)], [.contains_any(vs)] and [&].  A
    filter on a property the object does not have does not match. *)
Inductive Filter :=
| FEq (p : string) (v : Val)
| FContainsAny (p : string) (vs : list Val)
| FAnd (f g : Filter).

Fixpoint filter_ok (f : Filter) (props : Props) : bool :=
  match f with
  | FEq p v => bool_decide (props !! p = Some v)
  | FContainsAny p vs =>
      match props !! p with Some v => bool_decide (v ∈ vs) | None => false end
  | FAnd f g => filter_ok f props && filter_ok g props
  end.

(** ** Objects, collections, database *)

Record Obj := mkObj { obj_uuid : nat; obj_props : Props; obj_vec : Vec }.

(** [DataType] and [Property] of [weaviate.classes.config]: a property's
    name, its type and its [index_searchable] argument, if given. *)
Inductive DataType := TEXT | DATE | BOOL.

Record Property := mkProperty { prop_name : string; prop_type : DataType; prop_searchable : option bool }.

(** A multi-tenant collection: its schema and its tenant partitions. *)
Record Collection := mkCollection {
  coll_schema : list Property;
  coll_tenants : gmap string (list Obj)
}.

(** [metric] is the collection's vector distance (cosine by default),
    in fixed point: [dist_one] stands for the float [1.0]. *)
Record DB := mkDB {
  db_collections : gmap string Collection;
  db_next_uuid : nat;
  db_metric : Vec -> Vec -> Z
}.

Definition dist_one : Z := 1000000.

(** The objects of one tenant of one collection, in storage order. *)
Definition tenant_objs (name tenant : string) (db : DB) : list Obj :=
  match db_collections db !! name with
  | Some c => default [] (coll_tenants c !! tenant)
  | None => []
  end.

Definition set_tenant_objs (name tenant : string) (objs : list Obj) (db : DB) : DB :=
  match db_collections db !! name with
  | Some c =>
      mkDB (<[name := mkCollection (coll_schema c) (<[tenant := objs]> (coll_tenants c))]>
              (db_collections db))
           (db_next_uuid db) (db_metric db)
  | None => db
  end.

Definition tenant_exists (name tenant : string) (db : DB) : bool :=
  match db_collections db !! name with
  | Some c => bool_decide (is_Some (coll_tenants c !! tenant))
  | None => false
  end.

(** ** The client calls, on the database alone *)

Definition set_next_uuid (u : nat) (db : DB) : DB := mkDB (db_collections db) u (db_metric db).

Definition store_err {A} (msg : string) (db : DB) : res A * DB := (Err (StoreError msg), db).

Definition collections_exists (name : string) (db : DB) : bool :=
  bool_decide (is_Some (db_collections db !! name)).

(** [client.collections.create]: an existing name is refused. *)
Definition collections_create (name : string) (schema : list Property) (db : DB) : res unit * DB :=
  if collections_exists name db then store_err "collection already exists" db
  else (Ok tt, mkDB (<[name := mkCollection schema ∅]> (db_collections db))
                    (db_next_uuid db) (db_metric db)).

(** [collection.with_tenant(t).data.insert(properties, vector)]: the
    tenant is created on first use ([auto_tenant_creation]); the new
    object goes to the end of the partition under a fresh uuid. *)
Definition data_insert (name tenant : string) (props : Props) (vec : Vec) (db : DB)
    : res nat * DB :=
  if collections_exists name db then
    let u := db_next_uuid db in
    (Ok u, set_next_uuid (S u)
             (set_tenant_objs name tenant (tenant_objs name tenant db ++ [mkObj u props vec]) db))
  else store_err "collection not found" db.

(** A query on a tenant that does not exist is refused by the server. *)
Definition query_guard {A} (name tenant : string) (q : list Obj -> A) (db : DB) : res A * DB :=
  if tenant_exists name tenant db then (Ok (q (tenant_objs name tenant db)), db)
  else store_err "tenant not found" db.

(** [query.fetch_objects(filters, limit, sort)]: filter in storage
    order, optionally sort ascending by a date property, then cut at
    [limit] ([None]: no limit given). *)
Definition obj_date (p : string) (o : Obj) : Z :=
  match obj_props o !! p with Some (VDate t) => t | _ => 0%Z end.

Definition fetch_objects (name tenant : string) (f : Filter) (limit : option nat)
    (sort_by : option string) (db : DB) : res (list Obj) * DB :=
  query_guard name tenant (fun objs =>
    let hits := filter (fun o => filter_ok f (obj_props o) = true) objs in
    let sorted := match sort_by with Some p => sort_by_key (obj_date p) hits | None => hits end in
    match limit with Some n => take n sorted | None => sorted end) db.

(** [query.near_vector(v, filters, limit)]: the matching objects with
    their distance, nearest first, ties in storage order. *)
Definition near_vector (name tenant : string) (v : Vec) (f : Filter) (limit : nat) (db : DB)
    : res (list (Obj * Z)) * DB :=
  query_guard name tenant (fun objs =>
    let hits := filter (fun o => filter_ok f (obj_props o) = true) objs in
    let scored := map (fun o => (o, db_metric db v (obj_vec o))) hits in
    take limit (sort_by_key snd scored)) db.

(** [data.update(uuid, properties, vector)]: the given properties are
    merged into the object's, the vector replaced when one is given. *)
Definition update_obj (props : Props) (vec : option Vec) (o : Obj) : Obj :=
  mkObj (obj_uuid o) (props ∪ obj_props o) (default (obj_vec o) vec).

Definition data_update (name tenant : string) (u : nat) (props : Props) (vec : option Vec)
    (db : DB) : res unit * DB :=
  let objs := tenant_objs name tenant db in
  if bool_decide (Exists (fun o => obj_uuid o = u) objs) then
    (Ok tt, set_tenant_objs name tenant
              (map (fun o => if Nat.eqb (obj_uuid o) u then update_obj props vec o else o) objs) db)
  else store_err "object not found" db.

(** [data.delete_many(where)]: removes every match; no match is fine,
    a tenant that does not exist is refused like a query. *)
Definition delete_many (name tenant : string) (f : Filter) (db : DB) : res unit * DB :=
  if tenant_exists name tenant db then
    (Ok tt, set_tenant_objs name tenant
              (filter (fun o => filter_ok f (obj_props o) = false) (tenant_objs name tenant db)) db)
  else store_err "tenant not found" db.

(** [client.collections.exists(name)]. *)
Definition collections_exists_q (name : string) (db : DB) : res bool * DB :=
  (Ok (collections_exists name db), db).

(** [collection.tenants.exists(t)]. *)
Definition tenants_exists (name tenant : string) (db : DB) : res bool * DB :=
  if collections_exists name db then (Ok (tenant_exists name tenant db), db)
  else store_err "collection not found" db.

(** [collection.tenants.create(t)]. *)
Definition tenants_create (name tenant : string) (db : DB) : res unit * DB :=
  if collections_exists name db then
    if tenant_exists name tenant db then (Ok tt, db)
    else (Ok tt, set_tenant_objs name tenant [] db)
  else store_err "collection not found" db.

(** ** The world of the Python process *)

Inductive LogEntry :=
| LogDebug (s : string) | LogInfo (s : string) | LogWarning (s : string) | LogError (s : string).

(** [w_embed] is [embedding_model.embed_query] ([None]: it raises);
    [w_llm] is the chat model behind [_get_llm_summary] ([None]: it
    raises); [w_now] is [datetime.now()]. *)
Record World := mkWorld {
  w_db : DB;
  w_faults : list bool;
  w_slept : list Z;
  w_log : list LogEntry;
  w_embed : string -> option Vec;
  w_llm : string -> option string;
  w_now : Z
}.

Definition set_db (db : DB) (w : World) : World :=
  mkWorld db (w_faults w) (w_slept w) (w_log w) (w_embed w) (w_llm w) (w_now w).
Definition set_faults (fs : list bool) (w : World) : World :=
  mkWorld (w_db w) fs (w_slept w) (w_log w) (w_embed w) (w_llm w) (w_now w).

#[export] Instance World_clock : Clock World :=
  fun d w => mkWorld (w_db w) (w_faults w) (w_slept w ++ [d]) (w_log w)
                     (w_embed w) (w_llm w) (w_now w).

Definition log (e : LogEntry) : M World unit :=
  modify (fun w => mkWorld (w_db w) (w_faults w) (w_slept w) (w_log w ++ [e])
                           (w_embed w) (w_llm w) (w_now w)).

(** One request to the database server.  A pending fault makes the
    request raise before it reaches the server. *)
Definition remote {A} (op : DB -> res A * DB) : M World A := fun w =>
  match w_faults w with
  | true :: fs => (Err (StoreError "connection error"), set_faults fs w)
  | false :: fs => let '(r, db') := op (w_db w) in (r, set_db db' (set_faults fs w))
  | [] => let '(r, db') := op (w_db w) in (r, set_db db' w)
  end.

(** A query: a request that does not change the database. *)
Definition remote_query {A} (q : DB -> res A) : M World A := remote (fun db => (q db, db)).

(** [embedding_model.embed_query(text)]. *)
Definition embed_query (text : string) : M World Vec := fun w =>
  match w_embed w text with
  | Some v => (Ok v, w)
  | None => (Err (ValueError "embedding failed"), w)
  end.

(** ** Tenant partitions *)

(** What a query on tenant [t] of collection [n] can observe. *)
Definition view (n t : string) (db : DB) : bool * list Obj :=
  (tenant_exists n t db, tenant_objs n t db).

Lemma set_tenant_objs_metric n t objs db :
  db_metric (set_tenant_objs n t objs db) = db_metric db.
Proof. unfold set_tenant_objs. by destruct (db_collections db !! n). Qed.

Lemma view_set_tenant_objs_ne n t n' t' objs db :
  (n, t) <> (n', t') -> view n' t' (set_tenant_objs n t objs db) = view n' t' db.
Proof.
  intros Hne. unfold view, tenant_exists, tenant_objs, set_tenant_objs.
  destruct (db_collections db !! n) as [c|] eqn:Hc; [|done]; cbn [db_collections].
  destruct (decide (n = n')) as [<-|Hn].
  - rewrite lookup_insert_eq, Hc; cbn [coll_tenants].
    rewrite lookup_insert_ne; [done|]. by intros ->.
  - by rewrite lookup_insert_ne.
Qed.

(** Writing the partition of an existing collection. *)
Lemma lookup_set_tenant_objs n t objs db c :
  db_collections db !! n = Some c ->
  db_collections (set_tenant_objs n t objs db) !! n =
    Some (mkCollection (coll_schema c) (<[t := objs]> (coll_tenants c))).
Proof. intros Hc. unfold set_tenant_objs. rewrite Hc. apply lookup_insert_eq. Qed.

Lemma tenant_objs_set_eq n t objs db :
  collections_exists n db = true -> tenant_objs n t (set_tenant_objs n t objs db) = objs.
Proof.
  intros [c Hc]%bool_decide_eq_true. unfold tenant_objs.
  rewrite (lookup_set_tenant_objs _ _ _ _ c Hc); cbn [coll_tenants].
  by rewrite lookup_insert_eq.
Qed.

Lemma tenant_exists_set_eq n t objs db :
  collections_exists n db = true -> tenant_exists n t (set_tenant_objs n t objs db) = true.
Proof.
  intros [c Hc]%bool_decide_eq_true. unfold tenant_exists.
  rewrite (lookup_set_tenant_objs _ _ _ _ c Hc); cbn [coll_tenants].
  rewrite lookup_insert_eq. by apply bool_decide_eq_true.
Qed.

Lemma tenant_exists_objs n t db :
  tenant_exists n t db = false -> tenant_objs n t db = [].
Proof.
  unfold tenant_exists, tenant_objs. destruct (db_collections db !! n) as [c|]; [|done].
  intros Hn%bool_decide_eq_false. destruct (coll_tenants c !! t); [|done].
  exfalso. apply Hn. by eexists.
Qed.

Lemma tenant_exists_collection n t db :
  tenant_exists n t db = true -> collections_exists n db = true.
Proof.
  unfold tenant_exists, collections_exists. intros H. apply bool_decide_eq_true.
  destruct (db_collections db !! n); [by eexists|done].
Qed.

#[export] Hint Rewrite set_tenant_objs_metric : pydb.

(** Every write to a tenant leaves the other partitions as they were. *)
Definition writes_only (n t : string) (op : DB -> DB) : Prop :=
  forall n' t' db, (n, t) <> (n', t') ->
    view n' t' (op db) = view n' t' db /\ db_metric (op db) = db_metric db.

Lemma data_insert_writes_only n t props vec :
  writes_only n t (fun db => snd (data_insert n t props vec db)).
Proof.
  intros n' t' db Hne. unfold data_insert.
  destruct (collections_exists n db); [|done]. cbn [snd].
  split; [by apply view_set_tenant_objs_ne | apply set_tenant_objs_metric].
Qed.

Lemma data_update_writes_only n t u props vec :
  writes_only n t (fun db => snd (data_update n t u props vec db)).
Proof.
  intros n' t' db Hne. unfold data_update. case_bool_decide; [|done].
  split; [by apply view_set_tenant_objs_ne | apply set_tenant_objs_metric].
Qed.

Lemma delete_many_writes_only n t f :
  writes_only n t (fun db => snd (delete_many n t f db)).
Proof.
  intros n' t' db Hne. unfold delete_many. destruct (tenant_exists n t db); [|done].
  split; [by apply view_set_tenant_objs_ne | apply set_tenant_objs_metric].
Qed.

Lemma tenants_create_writes_only n t :
  writes_only n t (fun db => snd (tenants_create n t db)).
Proof.
  intros n' t' db Hne. unfold tenants_create.
  destruct (collections_exists n db), (tenant_exists n t db); try done.
  split; [by apply view_set_tenant_objs_ne | apply set_tenant_objs_metric].
Qed.

(** A query reads nothing but its own partition and the metric. *)
Lemma query_guard_view {A} n t (q : list Obj -> A) db db' :
  view n t db = view n t db' ->
  fst (query_guard n t q db) = fst (query_guard n t q db').
Proof. unfold view, query_guard. intros [= -> ->]. by destruct (tenant_exists n t db'). Qed.

Lemma near_vector_view n t v f k db db' :
  view n t db = view n t db' -> db_metric db = db_metric db' ->
  fst (near_vector n t v f k db) = fst (near_vector n t v f k db').
Proof. intros Hv Hm. unfold near_vector. rewrite Hm. by apply query_guard_view. Qed.

Lemma fetch_objects_view n t f lim s db db' :
  view n t db = view n t db' ->
  fst (fetch_objects n t f lim s db) = fst (fetch_objects n t f lim s db').
Proof. intros Hv. by apply query_guard_view. Qed.

(** ** Worlds that agree on one partition *)

(** Two worlds a call on tenant [t] of collection [n] cannot tell apart:
    same partition, same metric, same pending faults, same embedding. *)
Definition agree (n t : string) (w w' : World) : Prop :=
  view n t (w_db w) = view n t (w_db w') /\ db_metric (w_db w) = db_metric (w_db w') /\
  w_faults w = w_faults w' /\ w_embed w = w_embed w'.

(** A read-only request whose answer depends on that partition alone. *)
Definition reads_only (n t : string) {A} (op : DB -> res A * DB) : Prop :=
  forall db db', view n t db = view n t db' -> db_metric db = db_metric db' ->
    fst (op db) = fst (op db') /\ snd (op db) = db /\ snd (op db') = db'.

Lemma near_vector_reads_only n t v f k : reads_only n t (near_vector n t v f k).
Proof.
  intros db db' Hv Hm. split; [by apply near_vector_view|].
  unfold near_vector, query_guard, store_err.
  by split; [destruct (tenant_exists n t db)|destruct (tenant_exists n t db')].
Qed.

Lemma fetch_objects_reads_only n t f lim s : reads_only n t (fetch_objects n t f lim s).
Proof.
  intros db db' Hv Hm. split; [by apply fetch_objects_view|].
  unfold fetch_objects, query_guard, store_err.
  by split; [destruct (tenant_exists n t db)|destruct (tenant_exists n t db')].
Qed.

Lemma remote_respects {A} n t (op : DB -> res A * DB) :
  reads_only n t op -> respects (agree n t) (remote op).
Proof.
  intros Hop w w' (Hv & Hm & Hf & He). unfold remote. rewrite <- Hf.
  destruct (Hop (w_db w) (w_db w') Hv Hm) as (Hr & Hs & Hs').
  destruct (w_faults w) as [|[] fs] eqn:Hw; try destruct (op (w_db w)), (op (w_db w'));
    cbn in *; subst; unfold agree; cbn; repeat split; congruence.
Qed.

Lemma sleep_respects n t d : respects (agree n t) (modify (sleep d)).
Proof. intros w w' H. by unfold modify, sleep, World_clock, agree in *. Qed.

Lemma log_respects n t e : respects (agree n t) (log e).
Proof. intros w w' H. by unfold log, modify, agree in *. Qed.

Lemma embed_query_respects n t text : respects (agree n t) (embed_query text).
Proof.
  intros w w' (Hv & Hm & Hf & He). unfold embed_query. rewrite <- He.
  by destruct (w_embed w text).
Qed.

#[export] Hint Resolve near_vector_reads_only fetch_objects_reads_only remote_respects
  sleep_respects log_respects embed_query_respects : pydb.

(** ** Invariants of the database *)

(** The external capabilities, which no operation changes. *)
Definition Caps : Type := (string -> option Vec) * (string -> option string) * Z.
Definition caps (w : World) : Caps := (w_embed w, w_llm w, w_now w).

(** A property of the database, with the capabilities fixed. *)
Definition on_db (P : DB -> Prop) (c : Caps) (w : World) : Prop := P (w_db w) /\ caps w = c.

(** The embedding model is down: every [embed_query] fails. *)
Definition no_embed (w : World) : Prop := forall t, w_embed w t = None.

(** A computation that keeps some invariant of the database with the
    capabilities fixed keeps the embedding model as it is. *)
Lemma no_embed_of_on_db {A} (m : M World A) :
  (forall w, exists P, P (w_db w) /\ preserves (on_db P (caps w)) m) -> preserves no_embed m.
Proof.
  intros Hm w Hw t. destruct (Hm w) as (P & HP & Hp). destruct (Hp w (conj HP eq_refl)) as [_ Hc].
  unfold caps in Hc. injection Hc as He _ _. rewrite He. apply Hw.
Qed.

Lemma remote_preserves {A} (P : DB -> Prop) c (op : DB -> res A * DB) :
  (forall db, P db -> P (snd (op db))) -> preserves (on_db P c) (remote op).
Proof.
  intros Hop w [HP Hc]. unfold remote, on_db in *.
  destruct (w_faults w) as [|[] fs]; [| done |];
    specialize (Hop (w_db w) HP); by destruct (op (w_db w)).
Qed.

(** The same for a property of the database alone. *)
Lemma remote_preserves_db {A} (P : DB -> Prop) (op : DB -> res A * DB) :
  (forall db, P db -> P (snd (op db))) -> preserves (fun w => P (w_db w)) (remote op).
Proof.
  intros Hop w HP. unfold remote.
  destruct (w_faults w) as [|[] fs]; [| done |];
    specialize (Hop (w_db w) HP); by destruct (op (w_db w)).
Qed.

Lemma sleep_preserves_db (P : DB -> Prop) d : preserves (fun w => P (w_db w)) (modify (sleep d)).
Proof. by intros w. Qed.

Lemma log_preserves_db (P : DB -> Prop) e : preserves (fun w => P (w_db w)) (log e).
Proof. by intros w. Qed.

#[export] Hint Resolve sleep_preserves_db log_preserves_db : pydb.

Lemma sleep_preserves P c d : preserves (on_db P c) (modify (sleep d)).
Proof. intros w HP. by unfold modify, sleep, World_clock, on_db in *. Qed.

Lemma log_preserves P c e : preserves (on_db P c) (log e).
Proof. intros w HP. by unfold log, modify, on_db in *. Qed.

Lemma log_no_raise e : no_raise (log e).
Proof. done. Qed.

#[export] Hint Resolve log_no_raise : pydb.

Lemma embed_query_preserves P c text : preserves (on_db P c) (embed_query text).
Proof. intros w HP. unfold embed_query. by destruct (w_embed w text). Qed.

#[export] Hint Resolve remote_preserves sleep_preserves log_preserves embed_query_preserves : pydb.

(** The view of a partition other than [(n, t)] and the metric. *)
Definition other_view (n t n' t' : string) (v : bool * list Obj) (m : Vec -> Vec -> Z) (db : DB) : Prop :=
  view n' t' db = v /\ db_metric db = m.

Lemma writes_only_other {A} n t n' t' v m (op : DB -> res A * DB) :
  (n, t) <> (n', t') -> writes_only n t (fun db => snd (op db)) ->
  forall db, other_view n t n' t' v m db -> other_view n t n' t' v m (snd (op db)).
Proof. intros Hne Hw db [Hv Hm]. destruct (Hw n' t' db Hne). split; congruence. Qed.

(** ** A small concrete world for running the model *)

(** The metric of the examples: squared euclidean distance. *)
Definition sq_dist (v v' : Vec) : Z :=
  foldr Z.add 0%Z (zip_with (fun a b => (a - b) * (a - b))%Z v v').

Definition empty_world : World :=
  mkWorld (mkDB ∅ 0 sq_dist) [] [] [] (fun s => Some [Z.of_nat (String.length s)])
          (fun _ => Some "summary") 0.

(** ** Writes seen partition by partition *)

Lemma tenant_objs_set n t n' t' objs db :
  tenant_objs n' t' (set_tenant_objs n t objs db) =
  if bool_decide ((n, t) = (n', t')) && collections_exists n db then objs
  else tenant_objs n' t' db.
Proof.
  case_bool_decide as Heq.
  - simplify_eq. destruct (collections_exists n' db) eqn:He; cbn [andb].
    + by apply tenant_objs_set_eq.
    + unfold set_tenant_objs, collections_exists in *.
      by destruct (db_collections db !! n'); [apply bool_decide_eq_false in He; destruct He|].
  - exact (f_equal snd (view_set_tenant_objs_ne n t n' t' objs db Heq)).
Qed.

Lemma tenant_objs_set_next_uuid n t u db :
  tenant_objs n t (set_next_uuid u db) = tenant_objs n t db.
Proof. reflexivity. Qed.

(** What [data_insert] leaves in each partition. *)
Lemma tenant_objs_data_insert n t props vec db n' t' :
  tenant_objs n' t' (snd (data_insert n t props vec db)) =
  if bool_decide ((n, t) = (n', t')) && collections_exists n db
  then tenant_objs n t db ++ [mkObj (db_next_uuid db) props vec]
  else tenant_objs n' t' db.
Proof.
  unfold data_insert. destruct (collections_exists n db) eqn:He.
  - cbn [snd]. rewrite tenant_objs_set_next_uuid, tenant_objs_set, He. done.
  - by rewrite andb_false_r.
Qed.

Lemma tenant_objs_data_update n t u props vec db n' t' :
  tenant_objs n' t' (snd (data_update n t u props vec db)) =
  if bool_decide ((n, t) = (n', t')) && collections_exists n db &&
     bool_decide (Exists (fun o => obj_uuid o = u) (tenant_objs n t db))
  then map (fun o => if Nat.eqb (obj_uuid o) u then update_obj props vec o else o)
           (tenant_objs n t db)
  else tenant_objs n' t' db.
Proof.
  unfold data_update. case_bool_decide as Hex; cbn [snd].
  - rewrite tenant_objs_set. by rewrite andb_true_r.
  - by rewrite andb_false_r.
Qed.

Lemma query_guard_db {A} n t (q : list Obj -> A) db : snd (query_guard n t q db) = db.
Proof. unfold query_guard. by destruct (tenant_exists n t db). Qed.

Lemma fetch_objects_db n t f lim s db : snd (fetch_objects n t f lim s db) = db.
Proof. apply query_guard_db. Qed.

Lemma near_vector_db n t v f k db : snd (near_vector n t v f k db) = db.
Proof. apply query_guard_db. Qed.

(** A read-only request keeps every invariant of the database. *)
Lemma remote_query_preserves {A} (P : DB -> Prop) c (op : DB -> res A * DB) :
  (forall db, snd (op db) = db) -> preserves (on_db P c) (remote op).
Proof. intros Hop. apply remote_preserves. intros db HP. by rewrite Hop. Qed.

#[export] Hint Resolve fetch_objects_db near_vector_db remote_query_preserves : pydb.

(** ** Calls that leave the database as it is *)

(** A fetch whose filter matches nothing in the partition returns nothing. *)
Lemma fetch_objects_none n t f lim sort_by db objs :
  (forall o, o ∈ tenant_objs n t db -> filter_ok f (obj_props o) = false) ->
  fst (fetch_objects n t f lim sort_by db) = Ok objs -> objs = [].
Proof.
  intros Hnone. unfold fetch_objects, query_guard, store_err.
  destruct (tenant_exists _ _ _); [|discriminate]. intros [= <-].
  rewrite list_filter_none; [|intros o Ho; rewrite (Hnone o Ho); discriminate].
  destruct sort_by, lim; cbn; try done; [cbv [sort_by_key fold_right]|]; by rewrite take_nil.
Qed.

Lemma fetch_objects_nil n t f lim sort_by db :
  tenant_exists n t db = true ->
  (forall o, o ∈ tenant_objs n t db -> filter_ok f (obj_props o) = false) ->
  fetch_objects n t f lim sort_by db = (Ok [], db).
Proof.
  intros Ht Hnone. pose proof (fetch_objects_none n t f lim sort_by db) as Hn.
  unfold fetch_objects, query_guard in *. rewrite Ht in *. f_equal. f_equal. by apply Hn.
Qed.

Lemma set_tenant_objs_twice n t objs objs' db :
  set_tenant_objs n t objs (set_tenant_objs n t objs' db) = set_tenant_objs n t objs db.
Proof.
  unfold set_tenant_objs. destruct (db_collections db !! n) as [c|] eqn:Hc; [|by rewrite Hc].
  cbn [db_collections db_next_uuid db_metric]. rewrite lookup_insert_eq. cbn [coll_schema coll_tenants].
  by rewrite !insert_insert_eq.
Qed.

Lemma list_filter_idem {A} (P : A -> Prop) `{!forall x, Decision (P x)} (l : list A) :
  filter P (filter P l) = filter P l.
Proof.
  induction l as [|x l IH]; [done|]. rewrite filter_cons.
  destruct (decide (P x)); [|done]. rewrite filter_cons, decide_True by done. by rewrite IH.
Qed.

(** Deleting by a filter twice deletes nothing the second time. *)
Lemma delete_many_idem n t f db :
  tenant_exists n t db = true ->
  delete_many n t f (snd (delete_many n t f db)) = (Ok tt, snd (delete_many n t f db)).
Proof.
  intros Ht. unfold delete_many. rewrite Ht. cbn [snd].
  pose proof (tenant_exists_collection n t db Ht) as Hc.
  rewrite tenant_exists_set_eq, tenant_objs_set_eq by done.
  by rewrite list_filter_idem, set_tenant_objs_twice.
Qed.

(** A request either fails before reaching the server, or is served. *)
Lemma remote_cases {A} (op : DB -> res A * DB) w r w' :
  remote op w = (r, w') ->
  (r = Err (StoreError "connection error") /\ w_db w' = w_db w) \/ op (w_db w) = (r, w_db w').
Proof.
  unfold remote. destruct (w_faults w) as [|[] fs].
  - destruct (op (w_db w)) as [r0 db'] eqn:E. intros [= <- <-]. by right.
  - intros [= <- <-]. by left.
  - destruct (op (w_db w)) as [r0 db'] eqn:E. intros [= <- <-]. by right.
Qed.

Definition db_is (db0 : DB) (w : World) : Prop := w_db w = db0.

Lemma remote_query_hoare {A} db0 (op : DB -> res A * DB) (Q : A -> Prop) :
  snd (op db0) = db0 -> (forall a, fst (op db0) = Ok a -> Q a) ->
  hoare (db_is db0) (remote op) Q.
Proof.
  intros Hdb HQ w Hw. unfold db_is in *. unfold remote. rewrite Hw.
  destruct (w_faults w) as [|[] fs]; [| done |];
    destruct (op db0) as [r db'] eqn:E; cbn in *; subst; split; eauto.
Qed.

(** What a request returns when it succeeds, whatever the state. *)
Lemma remote_returns {A} (op : DB -> res A * DB) (Q : A -> Prop) :
  (forall db a, fst (op db) = Ok a -> Q a) -> hoare (fun _ => True) (remote op) Q.
Proof.
  intros HQ w _. split; [done|]. unfold remote.
  destruct (w_faults w) as [|[] fs]; [| done |];
    destruct (op (w_db w)) as [r db'] eqn:E; cbn; intros a ->; eapply HQ; by rewrite E.
Qed.

Lemma sleep_db_is db0 d : preserves (db_is db0) (modify (sleep d)).
Proof. by intros w Hw. Qed.

Lemma log_db_is db0 e : preserves (db_is db0) (log e).
Proof. by intros w Hw. Qed.

Lemma embed_query_db_is db0 text : preserves (db_is db0) (embed_query text).
Proof. intros w Hw. unfold embed_query. by destruct (w_embed w text). Qed.

#[export] Hint Resolve sleep_db_is log_db_is embed_query_db_is : pydb.

(** ** Deletions by filter *)

(** No object of partition [(n, t)] matches [f]. *)
Definition no_match (n t : string) (f : Filter) (db : DB) : Prop :=
  forall o, o ∈ tenant_objs n t db -> filter_ok f (obj_props o) = false.

Lemma delete_many_no_match n t f db db' :
  delete_many n t f db = (Ok tt, db') -> no_match n t f db'.
Proof.
  unfold delete_many. destruct (tenant_exists n t db) eqn:Ht; [|discriminate].
  intros [= <-] o. rewrite tenant_objs_set_eq by by apply (tenant_exists_collection n t db).
  by intros [Ho _]%list_elem_of_filter.
Qed.

Lemma delete_many_other n t f db n' t' :
  (n, t) <> (n', t') -> tenant_objs n' t' (snd (delete_many n t f db)) = tenant_objs n' t' db.
Proof.
  intros Hne. unfold delete_many. destruct (tenant_exists n t db); [|done].
  cbn [snd]. rewrite tenant_objs_set. by rewrite bool_decide_eq_false_2.
Qed.

(** A request [delete_many] that returns leaves nothing matching. *)
Lemma remote_delete_many_ensures n t f : ensures (remote (delete_many n t f)) (fun w => no_match n t f (w_db w)).
Proof.
  intros w [] w' E. apply remote_cases in E as [[? _]|E]; [discriminate|].
  by apply delete_many_no_match in E.
Qed.

(** A deletion elsewhere keeps a partition as it is. *)
Lemma remote_delete_many_other n t f n' t' P :
  (n, t) <> (n', t') -> preserves (fun w => P (tenant_objs n' t' (w_db w))) (remote (delete_many n t f)).
Proof.
  intros Hne. apply (remote_preserves_db (fun db => P (tenant_objs n' t' db))).
  intros db HP. by rewrite delete_many_other.
Qed.
