(* ===== verification/Base.v ===== *)
(** * Base: [BaseVectorStore] of [infrastructure/memory/base_vector_store.py]

    The constants every store shares (collection names and memory
    types) and [encode_text], the embedding call every component makes
    through the store.  The shared client and embedding model are
    process-wide singletons in the code; here they are the database and
    the [w_embed] capability of the [World], which every operation
    receives explicitly. *)

From S2P Require Import Prelude Retry Store.

Definition CHAT_MEMORY_COLLECTION_NAME : string := "ChatMemory".
Definition BOOK_CONTENT_COLLECTION_NAME : string := "BookContent".
Definition BOOK_ANNOTATION_COLLECTION_NAME : string := "BookAnnotation".

Definition TYPE_MESSAGE : string := "message".
Definition TYPE_SUMMARY : string := "summary".

(** [encode_text], decorated [@retry_on_error(max_retries=2)]. *)
Definition encode_text (text : string) : M World Vec :=
  retry_default 2 (embed_query text).

(** [str(e)] of an exception. *)
Definition exc_str (e : Exc) : string :=
  match e with
  | StoreError s | ValueError s | TypeError s | KeyError s | IndexError s | AttributeError s
  | ServiceError s | DomainError _ s => s
  end.

(** [dict(obj.properties)] for a query that names its [return_properties]. *)
Definition restrict (keys : list string) (props : Props) : Props :=
  filter (fun kv => kv.1 ∈ keys) props.

(** A result dict of a store query: the returned properties, ["id"] and,
    for vector searches, ["_additional"] with the distance and the
    certainty [1.0 - (distance or 0.0)]. *)
Record Item := mkItem {
  item_props : Props;
  item_id : nat;
  item_additional : option (option Z * Z)
}.

(** [msg.get(key, default)] on a result dict, for a string property. *)
Definition item_str (key default : string) (it : Item) : string :=
  match item_props it !! key with Some (VStr s) => s | _ => default end.

Definition hit_item (keys : list string) (hit : Obj * Z) : Item :=
  mkItem (restrict keys (obj_props hit.1)) (obj_uuid hit.1) (Some (Some hit.2, (dist_one - hit.2)%Z)).

Lemma encode_text_preserves P c text : preserves (on_db P c) (encode_text text).
Proof. unfold encode_text, retry_default. solve_preserves. Qed.

Lemma encode_text_db_is db0 text : preserves (db_is db0) (encode_text text).
Proof. unfold encode_text, retry_default. solve_preserves. Qed.

#[export] Hint Resolve encode_text_preserves encode_text_db_is : pydb.

(** With the embedding model down, [encode_text] raises the embedding
    error after its three attempts. *)
Lemma encode_text_raises text : raises no_embed (encode_text text) (ValueError "embedding failed").
Proof.
  unfold encode_text, retry_default. apply retry_on_error_raises.
  - intros w Hw. unfold embed_query. by rewrite Hw.
  - intros w Hw. unfold embed_query. by destruct (w_embed w text).
  - intros d w Hw t. apply Hw.
Qed.
