(* ===== verification/VectorStoreInit.v ===== *)
(** * VectorStoreInit: the shared client and embedding model of [BaseVectorStore]

    [infrastructure/memory/base_vector_store.py] keeps the Weaviate
    client and the embedding model as class attributes shared by every
    store of the process.  [BaseVectorStore.__init__] connects on the
    first construction ([_create_client], retried 5 times from a delay
    of 2 seconds) and builds the embedding model the configuration
    names on the first construction that gets that far; OpenAI needs a
    key.  The process state is [VectorStoreProcess]: the two shared
    attributes, the [HF_TOKEN] environment variable and the [World] the
    connection goes through.  [weaviate.connect_to_local] is one request
    to the server, which fails when a connection fault is pending; the
    embedding model classes are the LangChain constructors' arguments.
    [encode_text] is in [Base.v]. *)

From S2P Require Import Prelude Retry Store Base.

(** ** The data *)

(** [weaviate.connect_to_local(additional_config=AdditionalConfig(timeout=Timeout(init=30, query=60, insert=120)))]. *)
Inductive WeaviateClient := WeaviateLocal (init_timeout query_timeout insert_timeout : Z).

Definition local_client : WeaviateClient := WeaviateLocal 30 60 120.

Inductive EmbeddingModel :=
| OpenAIEmbeddings (model : string) (max_retries : nat)
| OllamaEmbeddings (base_url model : string)
| HuggingFaceEmbeddings (model_name : string) (device : string) (normalize_embeddings : bool).

(** The fields of [AppConfig] the constructor reads. *)
Record EmbeddingConfig := mkEmbeddingConfig {
  embedding_provider : string;
  openai_api_key : option string;
  ollama_base_url : string;
  ollama_embedding_model : string;
  huggingface_api_key : option string;
  huggingface_embedding_model : string
}.

(** The class attributes, the environment and the world. *)
Record VectorStoreProcess := mkVectorStoreProcess {
  shared_client : option WeaviateClient;
  shared_embedding_model : option EmbeddingModel;
  hf_token_env : option string;
  vsp_world : World
}.

(** An instance: [self.config], [self.client], [self.embedding_model]. *)
Record BaseVectorStore := mkBaseVectorStore {
  bvs_config : EmbeddingConfig;
  bvs_client : option WeaviateClient;
  bvs_embedding_model : option EmbeddingModel
}.

(** [bool(s)] of an optional string. *)
Definition py_truthy (o : option string) : bool :=
  match o with Some s => negb (bool_decide (s = "")) | None => false end.

(** ** The process state *)

Definition in_vsp_world {X} (m : M World X) : M VectorStoreProcess X := fun p =>
  let '(r, w') := m (vsp_world p) in
  (r, mkVectorStoreProcess (shared_client p) (shared_embedding_model p) (hf_token_env p) w').

Definition set_shared_client (c : WeaviateClient) : M VectorStoreProcess unit :=
  modify (fun p => mkVectorStoreProcess (Some c) (shared_embedding_model p) (hf_token_env p) (vsp_world p)).

Definition set_shared_embedding_model (e : EmbeddingModel) : M VectorStoreProcess unit :=
  modify (fun p => mkVectorStoreProcess (shared_client p) (Some e) (hf_token_env p) (vsp_world p)).

Definition set_hf_token (t : string) : M VectorStoreProcess unit :=
  modify (fun p => mkVectorStoreProcess (shared_client p) (shared_embedding_model p) (Some t) (vsp_world p)).

(** ** The operations *)

Definition connect_to_local : M World WeaviateClient := remote_query (fun _ => Ok local_client).

(** One attempt of [_create_client]: the error is logged and re-raised. *)
Definition create_client_attempt : M World WeaviateClient :=
  try_except connect_to_local
    (fun e => log (LogError ("Weaviate connection error: " +:+ exc_str e));; raise e).

(** [@retry_on_error(max_retries=5, initial_delay=2)] [_create_client]. *)
Definition create_client : M World WeaviateClient := retry_on_error 5 2 2 create_client_attempt.

Definition OPENAI_KEY_REQUIRED : string := "OPENAI_API_KEY is required when using OpenAI embeddings".

(** The embedding model branch of [__init__]. *)
Definition create_embedding_model (cfg : EmbeddingConfig) : M VectorStoreProcess unit :=
  if bool_decide (embedding_provider cfg = "openai") then
    if negb (py_truthy (openai_api_key cfg)) then raise (ValueError OPENAI_KEY_REQUIRED)
    else set_shared_embedding_model (OpenAIEmbeddings "text-embedding-3-small" 2);;
         in_vsp_world (log (LogInfo "Using OpenAI embeddings: text-embedding-3-small"))
  else if bool_decide (embedding_provider cfg = "ollama") then
    set_shared_embedding_model (OllamaEmbeddings (ollama_base_url cfg) (ollama_embedding_model cfg));;
    in_vsp_world (log (LogInfo ("Using Ollama embeddings: " +:+ ollama_embedding_model cfg +:+ " at "
                                +:+ ollama_base_url cfg)))
  else
    (match huggingface_api_key cfg with
     | Some k => if py_truthy (Some k) then set_hf_token k else mret tt
     | None => mret tt
     end);;
    set_shared_embedding_model (HuggingFaceEmbeddings (huggingface_embedding_model cfg) "cpu" true);;
    in_vsp_world (log (LogInfo ("Using Hugging Face embeddings: " +:+ huggingface_embedding_model cfg))).

(** [BaseVectorStore.__init__]: the instance it builds. *)
Definition base_vector_store_init (cfg : EmbeddingConfig) : M VectorStoreProcess BaseVectorStore :=
  p ← get;
  (match shared_client p with
   | None => c ← in_vsp_world create_client; set_shared_client c
   | Some _ => mret tt
   end);;
  p ← get;
  (match shared_embedding_model p with
   | None => create_embedding_model cfg
   | Some _ => mret tt
   end);;
  p ← get;
  mret (mkBaseVectorStore cfg (shared_client p) (shared_embedding_model p)).

(** [get_client] and [get_embedding_model]: construct once if needed. *)
Definition get_client (cfg : EmbeddingConfig) : M VectorStoreProcess (option WeaviateClient) :=
  p ← get;
  (match shared_client p with None => base_vector_store_init cfg;; mret tt | Some _ => mret tt end);;
  p ← get;
  mret (shared_client p).

Definition get_embedding_model (cfg : EmbeddingConfig) : M VectorStoreProcess (option EmbeddingModel) :=
  p ← get;
  (match shared_embedding_model p with None => base_vector_store_init cfg;; mret tt | Some _ => mret tt end);;
  p ← get;
  mret (shared_embedding_model p).

(** ** Connecting *)

Lemma create_client_attempt_fault w fs :
  w_faults w = true :: fs ->
  exists w', create_client_attempt w = (Err (StoreError "connection error"), w') /\ w_faults w' = fs.
Proof.
  intros Hw. unfold create_client_attempt, try_except, connect_to_local, remote_query, remote.
  rewrite Hw. by eexists.
Qed.

Lemma create_client_attempt_ok w :
  hd_error (w_faults w) <> Some true -> exists w', create_client_attempt w = (Ok local_client, w').
Proof.
  intros Hw. unfold create_client_attempt, try_except, connect_to_local, remote_query, remote.
  destruct (w_faults w) as [|[] fs]; [by eexists|done|by eexists].
Qed.

(** With [k] refused connections ahead and retries left for them, the
    loop connects. *)
Lemma create_client_loop_ok k r d fs w :
  r + k <= 5 -> w_faults w = repeat true k ++ fs -> hd_error fs <> Some true ->
  fst (retry_loop 5 2 create_client_attempt (S (5 - r)) r d w) = Ok local_client.
Proof.
  revert r d w. induction k as [|k IH]; intros r d w Hk Hw Hfs; rewrite retry_loop_S; unfold try_except.
  - destruct (create_client_attempt_ok w) as [w' ->]; [by rewrite Hw|done].
  - destruct (create_client_attempt_fault w (repeat true k ++ fs) Hw) as (w' & -> & Hw').
    destruct (Nat.ltb_spec 5 (S r)); [lia|]. rewrite modify_bind. cbv beta.
    replace (5 - r) with (S (5 - S r)) by lia. by apply IH; [lia| |].
Qed.

(** With more refusals than retries, the loop re-raises the last one. *)
Lemma create_client_loop_fail k r d fs w :
  r + k = 5 -> w_faults w = repeat true (S k) ++ fs ->
  fst (retry_loop 5 2 create_client_attempt (S k) r d w) = Err (StoreError "connection error").
Proof.
  revert r d w. induction k as [|k IH]; intros r d w Hk Hw; rewrite retry_loop_S; unfold try_except;
    destruct (create_client_attempt_fault w _ Hw) as (w' & -> & Hw').
  - by destruct (Nat.ltb_spec 5 (S r)); [|lia].
  - destruct (Nat.ltb_spec 5 (S r)); [lia|]. rewrite modify_bind. cbv beta. by apply IH; [lia|].
Qed.

(** ** Constructing a store *)

Lemma create_embedding_model_openai_fails cfg p :
  embedding_provider cfg = "openai" -> py_truthy (openai_api_key cfg) = false ->
  create_embedding_model cfg p = (Err (ValueError OPENAI_KEY_REQUIRED), p).
Proof. intros Hp Hk. unfold create_embedding_model. rewrite bool_decide_eq_true_2 by done. by rewrite Hk. Qed.

(** (C20) Connecting to Weaviate is given six attempts: when the server
    refuses the first [k] connections and accepts the next, the client is
    created if [k <= 5], and otherwise the sixth refusal is raised. *)
Theorem create_client_budget k fs w :
  hd_error fs <> Some true -> w_faults w = repeat true k ++ fs ->
  fst (create_client w) = if Nat.leb k 5 then Ok local_client else Err (StoreError "connection error").
Proof.
  intros Hfs Hw. unfold create_client, retry_on_error. destruct (Nat.leb_spec k 5).
  - by apply (create_client_loop_ok k 0 2 fs).
  - apply (create_client_loop_fail 5 0 2 (repeat true (k - 6) ++ fs)); [lia|].
    rewrite Hw. replace k with (6 + (k - 6)) at 1 by lia. by rewrite repeat_app, <- app_assoc.
Qed.

(** The client and the embedding model are shared: once both
    exist, constructing a store neither connects nor changes anything,
    whatever the configuration, and the instance gets the shared
    objects. *)
Lemma base_vector_store_init_reuse cfg p c e :
  shared_client p = Some c -> shared_embedding_model p = Some e ->
  base_vector_store_init cfg p = (Ok (mkBaseVectorStore cfg (Some c) (Some e)), p).
Proof.
  intros Hc He. unfold base_vector_store_init.
  rewrite get_bind, Hc, ret_bind, get_bind, He, ret_bind, get_bind, Hc, He. reflexivity.
Qed.

(** (C39) The OpenAI provider without a key is fatal: a construction that
    must build the embedding model raises, installs no model, and when
    the shared client exists afterwards (it was there, or this
    construction connected) the error is the missing key's. *)
Theorem openai_without_key_fatal cfg p :
  shared_embedding_model p = None -> embedding_provider cfg = "openai" -> py_truthy (openai_api_key cfg) = false ->
  exists e p', base_vector_store_init cfg p = (Err e, p') /\ shared_embedding_model p' = None /\
    (shared_client p' <> None -> e = ValueError OPENAI_KEY_REQUIRED).
Proof.
  intros He Hp Hk. unfold base_vector_store_init. rewrite get_bind.
  destruct (shared_client p) as [c|] eqn:Hc.
  - rewrite ret_bind, get_bind, He, (bind_err_l _ _ _ _ _ (create_embedding_model_openai_fails cfg p Hp Hk)).
    by eexists _, _.
  - destruct (create_client (vsp_world p)) as [[c|e'] w'] eqn:Ecc.
    + rewrite (bind_ok_l _ _ _ tt (mkVectorStoreProcess (Some c) (shared_embedding_model p) (hf_token_env p) w'))
        by (cbv [mbind M_bind in_vsp_world]; by rewrite Ecc).
      rewrite get_bind. cbn [shared_embedding_model]. rewrite He.
      rewrite (bind_err_l _ _ _ _ _ (create_embedding_model_openai_fails cfg _ Hp Hk)). by eexists _, _.
    + rewrite (bind_err_l _ _ _ e' (mkVectorStoreProcess (shared_client p) (shared_embedding_model p) (hf_token_env p) w'))
        by (cbv [mbind M_bind in_vsp_world]; by rewrite Ecc).
      eexists _, _. split; [reflexivity|]. cbn. by rewrite Hc.
Qed.

(** ** Witnesses *)

Definition example_openai_config (key : option string) : EmbeddingConfig :=
  mkEmbeddingConfig "openai" key "http://localhost:11434" "nomic-embed-text" None "intfloat/multilingual-e5-large".

Definition example_fresh_process : VectorStoreProcess := mkVectorStoreProcess None None None empty_world.

Lemma create_client_budget_witness :
  fst (create_client (set_faults [true; true] empty_world)) = Ok local_client.
Proof. rewrite (create_client_budget 2 []); [reflexivity|discriminate|reflexivity]. Defined.

Lemma openai_without_key_fatal_witness :
  exists e p', base_vector_store_init (example_openai_config (Some "")) example_fresh_process = (Err e, p') /\
    shared_embedding_model p' = None /\ (shared_client p' <> None -> e = ValueError OPENAI_KEY_REQUIRED).
Proof. by apply openai_without_key_fatal. Defined.
