(* ===== verification/Collections.v ===== *)
(** * Collections: [CollectionManager] of [infrastructure/memory/collection_manager.py]

    At construction the manager makes sure the three collections exist:
    for each, it asks whether the collection exists and creates it with
    its fixed schema when it does not.  The three checks run in one
    attempt of [_ensure_collections], decorated
    [@retry_on_error(max_retries=3, initial_delay=1)]; an exception is
    logged and re-raised to the decorator.  Every collection is created
    multi-tenant with automatic tenant creation and activation and no
    vectorizer; the model records the properties (name, data type and
    the [index_searchable] argument when given; descriptions left out). *)

From S2P Require Import Prelude Retry Store Base.

Definition text_prop (name : string) (searchable : option bool) : Property :=
  mkProperty name TEXT searchable.

(** The [ChatMemory] schema. *)
Definition chat_memory_schema : list Property :=
  [text_prop "chat_id" (Some true); text_prop "content" None; mkProperty "created_at" DATE None;
   mkProperty "is_summarized" BOOL None; text_prop "memory_type" (Some true);
   text_prop "message_id" None; text_prop "sender" (Some true); text_prop "user_id" (Some true)].

(** The [BookContent] schema. *)
Definition book_content_schema : list Property :=
  [text_prop "content" None; text_prop "book_id" (Some true)].

(** The [BookAnnotation] schema. *)
Definition book_annotation_schema : list Property :=
  [text_prop "annotation_id" (Some true); text_prop "book_id" (Some true);
   text_prop "book_title" (Some true); text_prop "content" None; mkProperty "created_at" DATE None;
   text_prop "notes" None; text_prop "user_id" (Some true)].

(** [if not self.client.collections.exists(name): self.client.collections.create(...)]:
    two requests, so another process may create the collection in between. *)
Definition create_collection_if_missing (name : string) (schema : list Property) : M World unit :=
  exists_ ← remote (collections_exists_q name);
  if (exists_ : bool) then mret tt else remote (collections_create name schema).

Definition create_chat_memory_collection : M World unit :=
  create_collection_if_missing CHAT_MEMORY_COLLECTION_NAME chat_memory_schema.

Definition create_book_content_collection : M World unit :=
  create_collection_if_missing BOOK_CONTENT_COLLECTION_NAME book_content_schema.

Definition create_book_annotation_collection : M World unit :=
  create_collection_if_missing BOOK_ANNOTATION_COLLECTION_NAME book_annotation_schema.

(** [_ensure_collections]. *)
Definition ensure_collections : M World unit :=
  retry_on_error 3 1 2
    (try_except
       (create_chat_memory_collection;;
        create_book_content_collection;;
        create_book_annotation_collection)
       (fun e => log (LogError ("Collection creation error: " +:+ exc_str e));; raise e)).

(** ** Collections are created, never replaced *)

Definition has_collection (name : string) (w : World) : Prop := collections_exists name (w_db w) = true.

(** [collections.create] leaves every existing collection as it was. *)
Lemma collections_create_keeps name schema db n c :
  db_collections db !! n = Some c ->
  db_collections (snd (collections_create name schema db)) !! n = Some c.
Proof.
  intros Hc. unfold collections_create. destruct (collections_exists name db) eqn:He; [done|].
  cbn [snd db_collections]. destruct (decide (name = n)) as [<-|Hne].
  - exfalso. apply bool_decide_eq_false in He. apply He. by eexists.
  - by rewrite lookup_insert_ne.
Qed.

Lemma create_collection_if_missing_keeps name schema n c :
  preserves (fun w => db_collections (w_db w) !! n = Some c) (create_collection_if_missing name schema).
Proof.
  unfold create_collection_if_missing.
  apply bind_preserves; [apply (remote_preserves_db (fun db => db_collections db !! n = Some c));
    by intros db ?|].
  intros [|]; [apply mret_preserves|].
  apply (remote_preserves_db (fun db => db_collections db !! n = Some c)).
  intros db. apply collections_create_keeps.
Qed.

Lemma has_collection_of_lookup name w :
  (exists c, db_collections (w_db w) !! name = Some c) <-> has_collection name w.
Proof. unfold has_collection, collections_exists. by rewrite bool_decide_eq_true. Qed.

Lemma create_collection_if_missing_has name schema n :
  preserves (has_collection n) (create_collection_if_missing name schema).
Proof.
  intros w [c Hc]%has_collection_of_lookup. apply has_collection_of_lookup.
  exists c. by apply create_collection_if_missing_keeps.
Qed.

(** When the check-then-create returns, the collection exists. *)
Lemma create_collection_if_missing_ensures name schema :
  ensures (create_collection_if_missing name schema) (has_collection name).
Proof.
  intros w a w'. unfold create_collection_if_missing, mbind, M_bind.
  destruct (remote (collections_exists_q name) w) as [r w1] eqn:E1.
  apply remote_cases in E1 as [[-> _]|E1]; [done|].
  unfold collections_exists_q in E1. injection E1 as <- Hdb1.
  destruct (collections_exists name (w_db w)) eqn:He.
  - intros [= _ <-]. unfold has_collection. by rewrite <- Hdb1.
  - intros E2. apply remote_cases in E2 as [[? _]|E2]; [done|].
    unfold collections_create in E2. rewrite <- Hdb1, He in E2. injection E2 as _ Hw'.
    apply has_collection_of_lookup. rewrite <- Hw'. cbn. eexists. apply lookup_insert_eq.
Qed.

#[local] Hint Resolve create_collection_if_missing_has create_collection_if_missing_keeps : pydb.

Lemma ensure_body_ensures name :
  name ∈ [CHAT_MEMORY_COLLECTION_NAME; BOOK_CONTENT_COLLECTION_NAME; BOOK_ANNOTATION_COLLECTION_NAME] ->
  ensures (create_chat_memory_collection;; create_book_content_collection;;
           create_book_annotation_collection) (has_collection name).
Proof.
  intros Hn. rewrite !elem_of_cons, elem_of_nil in Hn.
  unfold create_chat_memory_collection, create_book_content_collection, create_book_annotation_collection.
  destruct Hn as [->|[->|[->|[]]]].
  - apply bind_ensures_l; [apply create_collection_if_missing_ensures|].
    intros _. apply bind_preserves; auto with pydb.
  - apply bind_ensures_r. intros _.
    apply bind_ensures_l; [apply create_collection_if_missing_ensures|]. auto with pydb.
  - apply bind_ensures_r. intros _. apply bind_ensures_r. intros _.
    apply create_collection_if_missing_ensures.
Qed.

(** When [_ensure_collections] returns, each of the three collections exists. *)
Lemma ensure_collections_ensures name :
  name ∈ [CHAT_MEMORY_COLLECTION_NAME; BOOK_CONTENT_COLLECTION_NAME; BOOK_ANNOTATION_COLLECTION_NAME] ->
  ensures ensure_collections (has_collection name).
Proof.
  intros Hn. apply retry_on_error_ensures.
  apply try_except_ensures; [by apply ensure_body_ensures|].
  intros e. apply bind_ensures_r. intros _. apply raise_ensures.
Qed.

(** (C35) When [_ensure_collections] returns, the three collections
    exist, whatever faults and retries happened on the way. *)
Theorem ensure_collections_establishes w :
  fst (ensure_collections w) = Ok tt ->
  forall name, name ∈ [CHAT_MEMORY_COLLECTION_NAME; BOOK_CONTENT_COLLECTION_NAME;
                       BOOK_ANNOTATION_COLLECTION_NAME] ->
  has_collection name (snd (ensure_collections w)).
Proof.
  intros Hok name Hn. destruct (ensure_collections w) as [r w'] eqn:E. cbn in Hok |- *. subst r.
  revert E. by apply ensure_collections_ensures.
Qed.

(** [_ensure_collections] never replaces or alters a collection
    that already exists, with its schema and all its tenants' data. *)
Theorem ensure_collections_keeps_existing w n c :
  db_collections (w_db w) !! n = Some c ->
  db_collections (w_db (snd (ensure_collections w))) !! n = Some c.
Proof.
  revert w. set (P := fun db => db_collections db !! n = Some c).
  change (preserves (fun w => P (w_db w)) ensure_collections).
  assert (Hc : forall name schema, preserves (fun w => P (w_db w)) (create_collection_if_missing name schema))
    by (intros name schema; exact (create_collection_if_missing_keeps name schema n c)).
  unfold ensure_collections, create_chat_memory_collection, create_book_content_collection,
    create_book_annotation_collection.
  apply retry_on_error_preserves; [|auto with pydb].
  apply try_except_preserves; [|intros e; apply bind_preserves; auto with pydb].
  apply bind_preserves; [apply Hc|intros _; apply bind_preserves; [apply Hc|intros _; apply Hc]].
Qed.

(** An empty store whose first two requests fail. *)
Definition example_flaky_world : World := set_faults [true; false; true] empty_world.

Lemma ensure_collections_establishes_witness :
  has_collection BOOK_ANNOTATION_COLLECTION_NAME (snd (ensure_collections example_flaky_world)).
Proof.
  apply ensure_collections_establishes; [vm_compute; reflexivity|].
  rewrite !elem_of_cons. right. right. by left.
Defined.
