(* ===== verification/ChatMemory.v ===== *)
(** * ChatMemory: [ChatMemoryStore] of [infrastructure/memory/chat_memory_store.py]

    The four methods of the chat memory store, each wrapped in its
    [@retry_on_error] decorator: [add_memory], [mark_messages_as_summarized],
    [search_chat_memories] and [get_unsummarized_messages].  All of them
    address the [ChatMemory] collection through the tenant of the
    caller's [user_id] and filter on the stored [user_id] and [chat_id]
    properties as well.  The [MemoryVectorStore] facade
    ([memory_vector_store.py]) forwards to these methods unchanged. *)

From S2P Require Import Prelude Retry Store Base.

Definition str_prop (p s : string) : Filter := FEq p (VStr s).

(** [Filter.by_property("user_id").equal(user_id) & Filter.by_property("chat_id").equal(chat_id)]. *)
Definition chat_scope (user_id chat_id : string) : Filter :=
  FAnd (str_prop "user_id" user_id) (str_prop "chat_id" chat_id).

(** [add_memory]: insert into the tenant of [user_id], return the new uuid. *)
Definition add_memory (vector : Vec) (metadata : Props) (user_id : string) : M World nat :=
  retry_default 3
    (try_except (remote (data_insert CHAT_MEMORY_COLLECTION_NAME user_id metadata vector))
       (fun e => log (LogError ("Chat memory addition error: " +:+ exc_str e));; raise e)).

Definition summarized_filter (user_id chat_id : string) (message_ids : list string) : Filter :=
  FAnd (FAnd (chat_scope user_id chat_id) (str_prop "memory_type" TYPE_MESSAGE))
       (FContainsAny "message_id" (map VStr message_ids)).

Definition set_summarized (user_id : string) (o : Obj) : M World unit :=
  remote (data_update CHAT_MEMORY_COLLECTION_NAME user_id (obj_uuid o)
            {["is_summarized" := VBool true]} None).

(** [mark_messages_as_summarized]: fetch the message records of the chat
    whose [message_id] is listed (at most [len(message_ids) + 10]) and set
    [is_summarized] on each, one update per record. *)
Definition mark_messages_as_summarized (user_id chat_id : string) (message_ids : list string)
    : M World unit :=
  retry_default 2
    (match message_ids with
     | [] => mret tt
     | _ =>
       try_except
         (objs ← remote (fetch_objects CHAT_MEMORY_COLLECTION_NAME user_id
                           (summarized_filter user_id chat_id message_ids)
                           (Some (length message_ids + 10)) None);
          for_each objs (set_summarized user_id))
         (fun e => log (LogError ("Error updating summarized mark for messages (Tenant: "
                                   +:+ user_id +:+ "): " +:+ exc_str e));; raise e)
     end).

Definition search_return_properties : list string :=
  ["content"; "memory_type"; "user_id"; "chat_id"; "message_id"; "sender"; "created_at"].

Definition memory_types_filter : Filter :=
  FContainsAny "memory_type" [VStr TYPE_MESSAGE; VStr TYPE_SUMMARY].

(** [search_chat_memories]: nearest message and summary records of the
    chat, each with its distance and certainty. *)
Definition search_chat_memories (user_id chat_id : string) (query_vector : Vec) (limit : nat)
    : M World (list Item) :=
  retry_default 2
    (hits ← remote (near_vector CHAT_MEMORY_COLLECTION_NAME user_id query_vector
                      (FAnd (chat_scope user_id chat_id) memory_types_filter) limit);
     mret (map (hit_item search_return_properties) hits)).

Definition unsummarized_filter (user_id chat_id : string) : Filter :=
  FAnd (FAnd (chat_scope user_id chat_id) (str_prop "memory_type" TYPE_MESSAGE))
       (FEq "is_summarized" (VBool false)).

Definition unsummarized_return_properties : list string :=
  ["content"; "message_id"; "sender"; "created_at"].

(** [get_unsummarized_messages]: the oldest [max_count] message records
    of the chat whose [is_summarized] is [False]. *)
Definition get_unsummarized_messages (user_id chat_id : string) (max_count : nat)
    : M World (list Item) :=
  retry_default 2
    (objs ← remote (fetch_objects CHAT_MEMORY_COLLECTION_NAME user_id
                      (unsummarized_filter user_id chat_id) (Some max_count) (Some "created_at"));
     mret (map (fun o => mkItem (restrict unsummarized_return_properties (obj_props o))
                                (obj_uuid o) None) objs)).

(** ** Tenant isolation *)

Lemma search_chat_memories_respects user_id chat_id qv limit :
  respects (agree CHAT_MEMORY_COLLECTION_NAME user_id)
    (search_chat_memories user_id chat_id qv limit).
Proof. unfold search_chat_memories, retry_default. eauto 10 with pydb. Qed.

Lemma get_unsummarized_messages_respects user_id chat_id max_count :
  respects (agree CHAT_MEMORY_COLLECTION_NAME user_id)
    (get_unsummarized_messages user_id chat_id max_count).
Proof. unfold get_unsummarized_messages, retry_default. eauto 10 with pydb. Qed.

(** [add_memory] for one user leaves every other partition, the metric
    and the capabilities as they were. *)
Lemma add_memory_frame vector metadata user_id n' t' v m c :
  (CHAT_MEMORY_COLLECTION_NAME, user_id) <> (n', t') ->
  preserves (on_db (other_view CHAT_MEMORY_COLLECTION_NAME user_id n' t' v m) c)
    (add_memory vector metadata user_id).
Proof.
  intros Hne. unfold add_memory, retry_default.
  apply retry_on_error_preserves; [|auto with pydb].
  apply try_except_preserves; [|auto with pydb].
  apply remote_preserves. apply writes_only_other; [done|apply data_insert_writes_only].
Qed.

(** Worlds whose partition [(n, t)] has not moved agree on it once the
    same faults are pending. *)
Lemma agree_of_frame n t n0 t0 w w' :
  on_db (other_view n0 t0 n t (view n t (w_db w)) (db_metric (w_db w))) (caps w) w' ->
  forall fs, agree n t (set_faults fs w') (set_faults fs w).
Proof.
  intros [[Hv Hm] Hc] fs. unfold caps in Hc. injection Hc as He _ _.
  unfold agree; cbn. by repeat split.
Qed.

(** (C3) Tenant isolation: whatever [add_memory] does for user [t1]
    (insert, fail, retry), a later [search_chat_memories] for another
    user [t2] returns exactly what it returned before, even with the
    same chat id and query. *)
Theorem chat_memory_tenant_isolation t1 t2 vector metadata chat_id qv limit fs w :
  t1 <> t2 ->
  fst (search_chat_memories t2 chat_id qv limit
         (set_faults fs (snd (add_memory vector metadata t1 w)))) =
  fst (search_chat_memories t2 chat_id qv limit (set_faults fs w)).
Proof.
  intros Hne. apply search_chat_memories_respects.
  eapply agree_of_frame, add_memory_frame; [congruence|]. done.
Qed.

Lemma chat_memory_tenant_isolation_witness :
  "alice" <> "bob" /\
  fst (search_chat_memories "bob" "c1" [1%Z] 3
         (set_faults [] (snd (add_memory [1%Z] {["chat_id" := VStr "c1"]} "alice" empty_world)))) =
  fst (search_chat_memories "bob" "c1" [1%Z] 3 (set_faults [] empty_world)).
Proof. split; [done|]. apply chat_memory_tenant_isolation. done. Defined.
