(* ===== verification/Annotations.v ===== *)
(** * Annotations: [BookAnnotationStore] and [HighlightSearcher]

    [infrastructure/memory/book_annotation_store.py] keeps the user's
    highlights in the [BookAnnotation] collection, one tenant per user:
    [add_annotation] inserts, [search_highlights] creates the tenant when
    it is missing and then searches near a vector within one book,
    [update_annotation] looks the annotation up by its [annotation_id]
    and updates the first match or logs a warning when there is none,
    and the two deletions remove by filter.  Each method carries its
    [@retry_on_error] decorator.  [usecase/message/highlight_searcher.py]
    formats the highlights found for a question for the hybrid answer
    prompt. *)

From S2P Require Import Prelude Retry Store Base ChatMemory.

(** [add_annotation]. *)
Definition add_annotation (vector : Vec) (metadata : Props) (user_id : string) : M World nat :=
  retry_default 3
    (try_except (remote (data_insert BOOK_ANNOTATION_COLLECTION_NAME user_id metadata vector))
       (fun e => log (LogError ("Annotation addition error: " +:+ exc_str e));; raise e)).

Definition highlight_return_properties : list string :=
  ["content"; "notes"; "created_at"; "book_title"; "annotation_id"; "user_id"; "book_id"].

(** [search_highlights]: create the tenant if it does not exist, then
    search the book's annotations. *)
Definition search_highlights (user_id book_id : string) (query_vector : Vec) (limit : nat)
    : M World (list Item) :=
  retry_default 2
    (has_tenant ← remote (tenants_exists BOOK_ANNOTATION_COLLECTION_NAME user_id);
     (if (has_tenant : bool) then mret tt else remote (tenants_create BOOK_ANNOTATION_COLLECTION_NAME user_id));;
     hits ← remote (near_vector BOOK_ANNOTATION_COLLECTION_NAME user_id query_vector
                      (str_prop "book_id" book_id) limit);
     mret (map (hit_item highlight_return_properties) hits)).

Definition annotation_filter (annotation_id : string) : Filter := str_prop "annotation_id" annotation_id.

(** [update_annotation]: update the first object whose [annotation_id]
    matches, or log a warning. *)
Definition update_annotation (user_id annotation_id : string) (properties : Props) (vector : Vec)
    : M World unit :=
  retry_default 2
    (try_except
       (objs ← remote (fetch_objects BOOK_ANNOTATION_COLLECTION_NAME user_id
                         (annotation_filter annotation_id) None None);
        match objs with
        | o :: _ =>
            remote (data_update BOOK_ANNOTATION_COLLECTION_NAME user_id (obj_uuid o) properties
                      (Some vector));;
            log (LogInfo ("Updated annotation " +:+ annotation_id +:+ " for user " +:+ user_id))
        | [] => log (LogWarning ("Annotation " +:+ annotation_id +:+ " not found for user " +:+ user_id))
        end)
       (fun e => log (LogError ("Annotation update error: " +:+ exc_str e));; raise e)).

(** [delete_annotation]. *)
Definition delete_annotation (user_id annotation_id : string) : M World unit :=
  retry_default 2
    (try_except
       (remote (delete_many BOOK_ANNOTATION_COLLECTION_NAME user_id (annotation_filter annotation_id));;
        log (LogInfo ("Deleted annotation " +:+ annotation_id +:+ " for user " +:+ user_id)))
       (fun e => log (LogError ("Annotation deletion error: " +:+ exc_str e));; raise e)).

(** [delete_book_annotations]. *)
Definition delete_book_annotations (user_id book_id : string) : M World unit :=
  retry_default 2
    (try_except
       (remote (delete_many BOOK_ANNOTATION_COLLECTION_NAME user_id (str_prop "book_id" book_id));;
        log (LogInfo ("Deleted book annotations from vector DB for book_id: " +:+ book_id)))
       (fun e => log (LogError ("Error deleting book annotations from vector DB: " +:+ exc_str e));;
                 raise e)).

(** ** [HighlightSearcher] *)

(** [f"{value}"] of a property value. *)
Definition val_str (v : Val) : string :=
  match v with
  | VStr s => s
  | VBool b => if b then "True" else "False"
  | VDate t => py_str_datetime t
  end.

(** A property value is truthy unless it is missing, empty or [False]. *)
Definition val_truthy (v : option Val) : bool :=
  match v with
  | Some (VStr s) => negb (bool_decide (s = ""))
  | Some (VBool b) => b
  | Some (VDate _) => true
  | None => false
  end.

(** The loop body: [h["content"]] raises [KeyError] when the result has
    no content. *)
Definition format_highlight (h : Item) : res string :=
  match item_props h !! "content" with
  | None => Err (KeyError "'content'")
  | Some c =>
      let text := val_str c +:+
        (if val_truthy (item_props h !! "notes")
         then NL +:+ default "" (val_str <$> item_props h !! "notes") else "") in
      Ok ("[Highlight]" +:+ text)
  end.

Fixpoint format_highlights (hs : list Item) : res (list string) :=
  match hs with
  | [] => Ok []
  | h :: hs' =>
      match format_highlight h with
      | Err e => Err e
      | Ok s => match format_highlights hs' with Err e => Err e | Ok l => Ok (s :: l) end
      end
  end.

(** [search_relevant_highlights]: only the search is inside the [try];
    the embedding and the formatting raise to the caller. *)
Definition search_relevant_highlights (question user_id book_id : string) (limit : nat)
    : M World (list string) :=
  if bool_decide (user_id = "") || bool_decide (book_id = "") then mret ["No highlights found"] else
  query_vector ← encode_text question;
  found ← try_except (hs ← search_highlights user_id book_id query_vector limit; mret (Some hs))
            (fun e => log (LogError ("Failed to search highlights: " +:+ exc_str e));; mret None);
  match found with
  | None => mret ["Search error occurred"]
  | Some [] => mret ["No highlights found"]
  | Some highlights => lift_res (format_highlights highlights)
  end.

(** ** Updates and deletions of missing annotations *)

(** No annotation of the user's partition has the id. *)
Definition annotation_absent (user_id annotation_id : string) (db : DB) : Prop :=
  forall o, o ∈ tenant_objs BOOK_ANNOTATION_COLLECTION_NAME user_id db ->
    obj_props o !! "annotation_id" <> Some (VStr annotation_id).

Lemma annotation_filter_absent user_id annotation_id db :
  annotation_absent user_id annotation_id db ->
  forall o, o ∈ tenant_objs BOOK_ANNOTATION_COLLECTION_NAME user_id db ->
    filter_ok (annotation_filter annotation_id) (obj_props o) = false.
Proof. intros Habs o Ho. cbn. by apply bool_decide_eq_false, Habs. Qed.

Lemma update_annotation_keeps_db user_id annotation_id properties vector db0 :
  annotation_absent user_id annotation_id db0 ->
  preserves (db_is db0) (update_annotation user_id annotation_id properties vector).
Proof.
  intros Habs. unfold update_annotation, retry_default.
  apply retry_on_error_preserves; [|auto with pydb].
  apply try_except_preserves; [|auto with pydb].
  apply bind_preserves_hoare with (Q := fun objs => objs = []).
  - apply remote_query_hoare; [apply fetch_objects_db|].
    intros objs. apply fetch_objects_none, annotation_filter_absent, Habs.
  - intros objs ->. auto with pydb.
Qed.

Lemma set_db_same w : set_db (w_db w) w = w.
Proof. by destruct w. Qed.

(** An update of an annotation id the user does not have changes no
    record, whatever faults occur on the way; when the store answers, it
    returns normally and logs one warning. *)
Lemma update_annotation_unknown_noop user_id annotation_id properties vector w :
  annotation_absent user_id annotation_id (w_db w) ->
  w_db (snd (update_annotation user_id annotation_id properties vector w)) = w_db w /\
  (w_faults w = [] -> tenant_exists BOOK_ANNOTATION_COLLECTION_NAME user_id (w_db w) = true ->
   fst (update_annotation user_id annotation_id properties vector w) = Ok tt /\
   w_log (snd (update_annotation user_id annotation_id properties vector w)) =
     w_log w ++ [LogWarning ("Annotation " +:+ annotation_id +:+ " not found for user " +:+ user_id)]).
Proof.
  intros Habs. split; [exact (update_annotation_keeps_db _ _ _ _ (w_db w) Habs w eq_refl)|].
  intros Hf Ht. unfold update_annotation, retry_default.
  erewrite retry_on_error_first_ok.
  2: { unfold try_except, mbind, M_bind, remote. rewrite Hf.
       rewrite fetch_objects_nil by (done || apply annotation_filter_absent, Habs).
       cbn [fst snd]. rewrite set_db_same. reflexivity. }
  split; reflexivity.
Qed.

(** A user with one highlight, ["a1"]. *)
Definition example_annotation_world : World :=
  set_db (snd (data_insert BOOK_ANNOTATION_COLLECTION_NAME "u"
                 {[ "annotation_id" := VStr "a1"; "book_id" := VStr "b"; "content" := VStr "hi" ]} [1%Z]
                 (snd (collections_create BOOK_ANNOTATION_COLLECTION_NAME [] (w_db empty_world)))))
         empty_world.

Lemma tenant_exists_delete_many n t f db :
  tenant_exists n t db = true -> tenant_exists n t (snd (delete_many n t f db)) = true.
Proof.
  intros Ht. unfold delete_many. rewrite Ht. cbn [snd].
  apply tenant_exists_set_eq, (tenant_exists_collection n t db Ht).
Qed.

(** With the store answering, [delete_annotation] runs [delete_many] once
    and returns. *)
Lemma delete_annotation_run user_id annotation_id w :
  w_faults w = [] -> tenant_exists BOOK_ANNOTATION_COLLECTION_NAME user_id (w_db w) = true ->
  exists w', delete_annotation user_id annotation_id w = (Ok tt, w') /\ w_faults w' = [] /\
    w_db w' = snd (delete_many BOOK_ANNOTATION_COLLECTION_NAME user_id (annotation_filter annotation_id) (w_db w)).
Proof.
  intros Hf Ht. unfold delete_annotation, retry_default.
  eexists. erewrite retry_on_error_first_ok.
  2: { unfold try_except, mbind, M_bind, remote. rewrite Hf.
       unfold delete_many at 1. rewrite Ht. cbn [fst snd]. reflexivity. }
  split; [reflexivity|]. split; [cbn; exact Hf|cbn; unfold delete_many; by rewrite Ht].
Qed.

(** (C36) Deleting an annotation is idempotent: with the store answering,
    a second [delete_annotation] of the same id returns normally and
    leaves the store as the first left it, whether or not the first
    found anything to delete. *)
Theorem delete_annotation_idempotent user_id annotation_id w :
  w_faults w = [] -> tenant_exists BOOK_ANNOTATION_COLLECTION_NAME user_id (w_db w) = true ->
  fst (delete_annotation user_id annotation_id w) = Ok tt /\
  fst (delete_annotation user_id annotation_id (snd (delete_annotation user_id annotation_id w))) = Ok tt /\
  w_db (snd (delete_annotation user_id annotation_id (snd (delete_annotation user_id annotation_id w)))) =
    w_db (snd (delete_annotation user_id annotation_id w)).
Proof.
  intros Hf Ht. destruct (delete_annotation_run user_id annotation_id w Hf Ht) as (w1 & -> & Hf1 & Hdb1).
  cbn [fst snd]. assert (Ht1 : tenant_exists BOOK_ANNOTATION_COLLECTION_NAME user_id (w_db w1) = true)
    by (rewrite Hdb1; by apply tenant_exists_delete_many).
  destruct (delete_annotation_run user_id annotation_id w1 Hf1 Ht1) as (w2 & -> & _ & Hdb2).
  cbn [fst snd]. split; [done|split; [done|]].
  rewrite Hdb2, Hdb1, delete_many_idem by done. reflexivity.
Qed.

Lemma delete_annotation_idempotent_witness :
  fst (delete_annotation "u" "a1" example_annotation_world) = Ok tt /\
  fst (delete_annotation "u" "a1" (snd (delete_annotation "u" "a1" example_annotation_world))) = Ok tt /\
  w_db (snd (delete_annotation "u" "a1" (snd (delete_annotation "u" "a1" example_annotation_world)))) =
    w_db (snd (delete_annotation "u" "a1" example_annotation_world)).
Proof. apply delete_annotation_idempotent; vm_compute; reflexivity. Defined.

(** ** The highlights the hybrid prompt receives *)

Lemma format_highlights_length hs l : format_highlights hs = Ok l -> length l = length hs.
Proof.
  revert l. induction hs as [|h hs IH]; intros l; cbn [format_highlights]; [by intros [= <-]|].
  destruct (format_highlight h); [|done]. destruct (format_highlights hs) eqn:E; [|done].
  intros [= <-]. cbn. by rewrite (IH _ eq_refl).
Qed.

Lemma hoare_lift_res {S A} (P : S -> Prop) (r : res A) (Q : A -> Prop) :
  (forall a, r = Ok a -> Q a) -> hoare P (lift_res r) Q.
Proof. intros HQ s HP. split; [done|]. intros a Ha. by apply HQ. Qed.

(** [search_relevant_highlights] never hands the prompt an empty
    list: when it returns, the list holds the formatted highlights or one
    of the placeholders ["No highlights found"] and ["Search error
    occurred"]. *)
Theorem search_relevant_highlights_nonempty question user_id book_id limit w l :
  fst (search_relevant_highlights question user_id book_id limit w) = Ok l -> l <> [].
Proof.
  intros Hl. enough (H : hoare (fun _ : World => True)
    (search_relevant_highlights question user_id book_id limit) (fun l => l <> []))
    by exact (proj2 (H w I) l Hl).
  unfold search_relevant_highlights. destruct (_ || _); [by apply hoare_ret|].
  eapply hoare_bind; [apply hoare_preserves; auto with pydb|]. intros qv _.
  eapply hoare_bind; [apply hoare_preserves; auto with pydb|]. intros [[|h hs]|] _.
  - by apply hoare_ret.
  - apply hoare_lift_res. intros l' Hf%format_highlights_length ->. discriminate.
  - by apply hoare_ret.
Qed.
