(* ===== verification/Crud.v ===== *)
(** * Crud: [VectorCrudService], the generic store operations

    [MemoryVectorStore] forwards [add_memory], [update_memory],
    [delete_memory] and [delete_book_data] to [VectorCrudService]
    ([memory_vector_store.py]), whose source file is not part of the
    repository.  Its operations are modelled from the spec (section 4.3):
    an insert that raises once its retries are exhausted, an update by
    a target property that is a logged no-op when nothing matches, and
    deletions by filter that succeed when nothing matches (on a
    partition that exists).  Each is retried like [add_memory]; the
    decorator's parameters are not known and are taken from it. *)

From S2P Require Import Prelude Retry Store Base ChatMemory.

(** [add_memory(vector, metadata, user_id, collection_name)]. *)
Definition crud_add_memory (vector : Vec) (metadata : Props) (user_id collection_name : string)
    : M World nat :=
  retry_default 3 (remote (data_insert collection_name user_id metadata vector)).

(** [update_memory(user_id, collection_name, target, key, properties, vector)]:
    replace the first object whose [target] property is [key]; a missing
    one is a logged no-op (spec 4.3). *)
Definition crud_update_memory (user_id collection_name target key : string) (properties : Props)
    (vector : Vec) : M World unit :=
  retry_default 3
    (objs ← remote (fetch_objects collection_name user_id (str_prop target key) None None);
     match objs with
     | o :: _ => remote (data_update collection_name user_id (obj_uuid o) properties (Some vector))
     | [] => log (LogWarning ("Memory " +:+ key +:+ " not found in " +:+ collection_name))
     end).

(** [delete_memory(user_id, collection_name, target, key)]: removal by
    filter, idempotent (spec 4.3). *)
Definition crud_delete_memory (user_id collection_name target key : string) : M World unit :=
  retry_default 3 (remote (delete_many collection_name user_id (str_prop target key))).

(** [delete_book_data(user_id, book_id)]: the book's content chunks and
    annotations, by filter on [book_id] (spec 3 and 4.3). *)
Definition crud_delete_book_data (user_id book_id : string) : M World unit :=
  retry_default 3
    (remote (delete_many BOOK_CONTENT_COLLECTION_NAME user_id (str_prop "book_id" book_id));;
     remote (delete_many BOOK_ANNOTATION_COLLECTION_NAME user_id (str_prop "book_id" book_id))).

(** ** Deleting a book's data *)

(** Neither the book's content nor its annotations remain in the user's partitions. *)
Definition book_data_absent (user_id book_id : string) (db : DB) : Prop :=
  no_match BOOK_CONTENT_COLLECTION_NAME user_id (str_prop "book_id" book_id) db /\
  no_match BOOK_ANNOTATION_COLLECTION_NAME user_id (str_prop "book_id" book_id) db.

Lemma crud_delete_book_data_ensures user_id book_id :
  ensures (crud_delete_book_data user_id book_id) (fun w => book_data_absent user_id book_id (w_db w)).
Proof.
  unfold crud_delete_book_data, retry_default. apply retry_on_error_ensures.
  apply ensures_conj.
  - apply bind_ensures_l; [apply remote_delete_many_ensures|]. intros _.
    apply (remote_delete_many_other BOOK_ANNOTATION_COLLECTION_NAME user_id _ BOOK_CONTENT_COLLECTION_NAME
             user_id (fun l => forall o, o ∈ l -> filter_ok (str_prop "book_id" book_id) (obj_props o) = false)).
    intros Heq. apply (f_equal fst) in Heq. vm_compute in Heq. discriminate.
  - apply bind_ensures_r. intros _. apply remote_delete_many_ensures.
Qed.
