(* ===== verification/MemoryVectorStore.v ===== *)
(** * MemoryVectorStore: the constructor of the integrated store

    [infrastructure/memory/memory_vector_store.py] builds, on top of its
    own [BaseVectorStore.__init__], a [CollectionManager] (which
    constructs a [BaseVectorStore] again and runs [_ensure_collections]),
    a [ChatMemoryStore], a [BookContentStore], a [BookAnnotationStore]
    and a [VectorCrudService].  Every one of them is a [BaseVectorStore]
    whose constructor only calls [super().__init__()]; [BookContentStore]
    and [VectorCrudService] are not in the repository and are taken to
    be such subclasses like their siblings.  The stores share the
    process's client and embedding model ([VectorStoreInit.v]).  The
    facade's other methods delegate to the stores' operations, modelled
    in their files. *)

From S2P Require Import Prelude Retry Store Base VectorStoreInit Collections ChatMemory Annotations Crud.

(** ** The constructors *)

(** [CollectionManager.__init__]. *)
Definition collection_manager_init (cfg : EmbeddingConfig) : M VectorStoreProcess unit :=
  base_vector_store_init cfg;; in_vsp_world ensure_collections.

(** [ChatMemoryStore.__init__] and [BookAnnotationStore.__init__]. *)
Definition chat_memory_store_init (cfg : EmbeddingConfig) : M VectorStoreProcess unit :=
  base_vector_store_init cfg;; mret tt.

Definition book_annotation_store_init (cfg : EmbeddingConfig) : M VectorStoreProcess unit :=
  base_vector_store_init cfg;; mret tt.

(** [BookContentStore()] and [VectorCrudService()] (files not in the repository). *)
Definition book_content_store_init (cfg : EmbeddingConfig) : M VectorStoreProcess unit :=
  base_vector_store_init cfg;; mret tt.

Definition vector_crud_service_init (cfg : EmbeddingConfig) : M VectorStoreProcess unit :=
  base_vector_store_init cfg;; mret tt.

(** [MemoryVectorStore.__init__]: the instance of its [super().__init__()]. *)
Definition memory_vector_store_init (cfg : EmbeddingConfig) : M VectorStoreProcess BaseVectorStore :=
  inst ← base_vector_store_init cfg;
  collection_manager_init cfg;;
  chat_memory_store_init cfg;;
  book_content_store_init cfg;;
  book_annotation_store_init cfg;;
  vector_crud_service_init cfg;;
  mret inst.

(** ** The delegating methods

    Each method hands its arguments to the store that owns the data;
    an omitted argument takes the method's default ([limit: int = 5],
    [max_count: int = 100], [limit: int = 3]).
    [create_book_vector_index] delegates to [BookContentStore], whose
    file is not in the repository, and is not modelled. *)

Definition mvs_search_chat_memories (user_id chat_id : string) (query_vector : Vec) (limit : option nat)
    : M World (list Item) :=
  search_chat_memories user_id chat_id query_vector (default 5 limit).

Definition mvs_get_unsummarized_messages (user_id chat_id : string) (max_count : option nat)
    : M World (list Item) :=
  get_unsummarized_messages user_id chat_id (default 100 max_count).

Definition mvs_mark_messages_as_summarized (user_id chat_id : string) (message_ids : list string) : M World unit :=
  mark_messages_as_summarized user_id chat_id message_ids.

Definition mvs_search_highlights (user_id book_id : string) (query_vector : Vec) (limit : option nat) :=
  search_highlights user_id book_id query_vector (default 3 limit).

Definition mvs_add_memory (vector : Vec) (metadata : Props) (user_id collection_name : string) :=
  crud_add_memory vector metadata user_id collection_name.

Definition mvs_delete_memory (user_id collection_name target key : string) : M World unit :=
  crud_delete_memory user_id collection_name target key.

Definition mvs_update_memory (user_id collection_name target key : string) (properties : Props) (vector : Vec) :=
  crud_update_memory user_id collection_name target key properties vector.

Definition mvs_delete_book_data (user_id book_id : string) : M World unit := crud_delete_book_data user_id book_id.

(** The class methods [get_client] and [get_embedding_model] call the
    base class's. *)
Definition mvs_get_client (cfg : EmbeddingConfig) : M VectorStoreProcess (option WeaviateClient) :=
  get_client cfg.

Definition mvs_get_embedding_model (cfg : EmbeddingConfig) : M VectorStoreProcess (option EmbeddingModel) :=
  get_embedding_model cfg.

(** ** What the constructors keep *)

Definition shared_ready (p : VectorStoreProcess) : Prop :=
  shared_client p <> None /\ shared_embedding_model p <> None.

Definition db_holds (P : DB -> Prop) (p : VectorStoreProcess) : Prop := P (w_db (vsp_world p)).

Lemma in_vsp_world_db (P : DB -> Prop) {X} (m : M World X) :
  preserves (fun w => P (w_db w)) m -> preserves (db_holds P) (in_vsp_world m).
Proof. intros Hm p Hp. specialize (Hm _ Hp). unfold in_vsp_world, db_holds. by destruct (m (vsp_world p)). Qed.

Lemma connect_to_local_db (P : DB -> Prop) : preserves (fun w => P (w_db w)) connect_to_local.
Proof. by apply remote_preserves_db. Qed.

Lemma create_client_db (P : DB -> Prop) : preserves (fun w => P (w_db w)) create_client.
Proof.
  unfold create_client. apply retry_on_error_preserves; [|auto with pydb].
  unfold create_client_attempt. solve_preserves. apply connect_to_local_db.
Qed.

Lemma set_shared_db P c : preserves (db_holds P) (set_shared_client c).
Proof. by intros p. Qed.

Lemma set_embedding_db P e : preserves (db_holds P) (set_shared_embedding_model e).
Proof. by intros p. Qed.

Lemma set_hf_token_db P t : preserves (db_holds P) (set_hf_token t).
Proof. by intros p. Qed.

#[local] Hint Resolve in_vsp_world_db create_client_db set_shared_db set_embedding_db set_hf_token_db : pydb.

(** A construction reads and writes no collection. *)
Lemma base_vector_store_init_db P cfg : preserves (db_holds P) (base_vector_store_init cfg).
Proof. unfold base_vector_store_init, create_embedding_model. solve_preserves. Qed.

(** Installing a model and logging keeps the client. *)
Lemma set_model_then_log e l p u p' :
  (set_shared_embedding_model e;; in_vsp_world (log l)) p = (Ok u, p') ->
  shared_client p' = shared_client p /\ shared_embedding_model p' = Some e.
Proof. cbv [mbind M_bind set_shared_embedding_model modify in_vsp_world log]. by intros [= _ <-]. Qed.

Lemma create_embedding_model_sets cfg p u p' :
  create_embedding_model cfg p = (Ok u, p') ->
  shared_client p' = shared_client p /\ shared_embedding_model p' <> None.
Proof.
  unfold create_embedding_model. intros H. case_bool_decide; [destruct (negb _); [done|]|case_bool_decide].
  - apply set_model_then_log in H as [-> ->]. done.
  - apply set_model_then_log in H as [-> ->]. done.
  - run_step H u0 p0 Hhf. apply set_model_then_log in H as [-> ->]. split; [|done].
    destruct (huggingface_api_key cfg) as [k|]; [destruct (py_truthy (Some k))|];
      cbv [set_hf_token modify mret M_ret] in Hhf; by injection Hhf as _ <-.
Qed.

(** A construction that returns leaves both shared objects set, and
    the instance holds them. *)
Lemma base_vector_store_init_ready cfg p inst p' :
  base_vector_store_init cfg p = (Ok inst, p') ->
  shared_ready p' /\ inst = mkBaseVectorStore cfg (shared_client p') (shared_embedding_model p').
Proof.
  unfold base_vector_store_init. rewrite get_bind. intros Hrun.
  run_step Hrun u1 p1 H1. rewrite get_bind in Hrun. run_step Hrun u2 p2 H2.
  rewrite get_bind in Hrun. injection Hrun as <- <-. split; [|done]. unfold shared_ready.
  assert (Hc1 : shared_client p1 <> None).
  { destruct (shared_client p) eqn:Hc; [by injection H1 as _ <-; rewrite Hc|].
    run_step H1 c p0 Hcl. cbv [set_shared_client modify] in H1. by injection H1 as _ <-. }
  destruct (shared_embedding_model p1) eqn:He1.
  - injection H2 as _ <-. split; [done|by rewrite He1].
  - apply create_embedding_model_sets in H2 as [-> ?]. by split.
Qed.

(** The shared objects are [c] and [e]. *)
Definition shared_are (c : WeaviateClient) (e : EmbeddingModel) (p : VectorStoreProcess) : Prop :=
  shared_client p = Some c /\ shared_embedding_model p = Some e.

(** Once both are set, constructing again changes nothing. *)
Lemma base_vector_store_init_shared_are cfg c e : preserves (shared_are c e) (base_vector_store_init cfg).
Proof. intros p [Hc He]. by rewrite (base_vector_store_init_reuse cfg p c e Hc He). Qed.

Lemma in_vsp_world_shared_are c e {X} (m : M World X) : preserves (shared_are c e) (in_vsp_world m).
Proof. intros p Hp. unfold in_vsp_world. by destruct (m (vsp_world p)). Qed.

Lemma in_vsp_world_ensures (Q : World -> Prop) {X} (m : M World X) :
  ensures m Q -> ensures (in_vsp_world m) (fun p => Q (vsp_world p)).
Proof.
  intros Hm p a p'. unfold in_vsp_world. destruct (m (vsp_world p)) as [r w'] eqn:E.
  intros [= -> <-]. exact (Hm _ _ _ E).
Qed.

#[local] Hint Resolve base_vector_store_init_shared_are in_vsp_world_shared_are base_vector_store_init_db : pydb.

(** Once the shared objects are set, a store's construction is a no-op. *)
Lemma store_init_noop cfg p c e :
  shared_client p = Some c -> shared_embedding_model p = Some e ->
  (base_vector_store_init cfg;; mret tt) p = (Ok tt, p).
Proof. intros Hc He. by rewrite (bind_ok_l _ _ _ _ _ (base_vector_store_init_reuse cfg p c e Hc He)). Qed.

(** (C38) [MemoryVectorStore()] builds the shared client and embedding
    model once: the run is its own [super().__init__()] followed by
    [_ensure_collections] and nothing else, so the [CollectionManager]
    and the four stores it builds afterwards reuse the shared objects,
    connect no more and change no other state; the instance holds the
    shared objects and the three collections exist. *)
Theorem memory_vector_store_init_ready cfg p inst p' :
  memory_vector_store_init cfg p = (Ok inst, p') ->
  exists p1, base_vector_store_init cfg p = (Ok inst, p1) /\ shared_ready p1 /\
    in_vsp_world ensure_collections p1 = (Ok tt, p') /\
    bvs_client inst = shared_client p' /\ bvs_embedding_model inst = shared_embedding_model p' /\
    forall name, name ∈ [CHAT_MEMORY_COLLECTION_NAME; BOOK_CONTENT_COLLECTION_NAME; BOOK_ANNOTATION_COLLECTION_NAME] ->
      has_collection name (vsp_world p').
Proof.
  unfold memory_vector_store_init. intros Hrun. run_step Hrun inst0 p1 H1. exists p1.
  pose proof H1 as H1'. apply base_vector_store_init_ready in H1' as [[Hc He] Hinst].
  destruct (shared_client p1) as [c|] eqn:Hc1; [|done]. destruct (shared_embedding_model p1) as [e|] eqn:He1; [|done].
  run_step Hrun u2 p2 H2. unfold collection_manager_init in H2.
  rewrite (bind_ok_l _ _ _ _ _ (base_vector_store_init_reuse cfg p1 c e Hc1 He1)) in H2. destruct u2.
  assert (Hc2 : shared_client p2 = Some c /\ shared_embedding_model p2 = Some e).
  { pose proof (in_vsp_world_shared_are c e ensure_collections p1 (conj Hc1 He1)) as Hp. by rewrite H2 in Hp. }
  destruct Hc2 as [Hc2 He2].
  unfold chat_memory_store_init, book_content_store_init, book_annotation_store_init, vector_crud_service_init in Hrun.
  do 4 (rewrite (bind_ok_l _ _ _ _ _ (store_init_noop cfg p2 c e Hc2 He2)) in Hrun).
  injection Hrun as <- <-. subst inst0. split_and!; [done|unfold shared_ready; by rewrite Hc1, He1|done|cbn; by rewrite Hc2|cbn; by rewrite He2|].
  intros name Hn. exact (in_vsp_world_ensures _ _ (ensure_collections_ensures name Hn) p1 tt p2 H2).
Qed.

(** ** On a fresh process *)

Definition example_hf_config : EmbeddingConfig :=
  mkEmbeddingConfig "huggingface" None "http://localhost:11434" "nomic-embed-text" None "intfloat/multilingual-e5-large".

Definition example_store_instance : BaseVectorStore :=
  mkBaseVectorStore example_hf_config (Some local_client)
    (Some (HuggingFaceEmbeddings "intfloat/multilingual-e5-large" "cpu" true)).

(** On a fresh process, the construction is the first connection and the
    collections' creation. *)
Lemma memory_vector_store_init_ready_witness :
  in_vsp_world ensure_collections (snd (base_vector_store_init example_hf_config example_fresh_process)) =
  (Ok tt, snd (memory_vector_store_init example_hf_config example_fresh_process)).
Proof.
  destruct (memory_vector_store_init_ready example_hf_config example_fresh_process example_store_instance
              (snd (memory_vector_store_init example_hf_config example_fresh_process))
              ltac:(vm_compute; reflexivity)) as (p1 & H1 & _ & Hens & _).
  rewrite H1. exact Hens.
Defined.
