(* ===== verification/Summarization.v ===== *)
(** * Summarization: [SummarizationService] of [infrastructure/memory/summarization_service.py]

    [summarize_chat] checks the message count of a chat against the
    threshold (20) and, on a multiple of it, runs
    [_summarize_and_vectorize_background] inline: fetch the oldest
    unsummarized message records of the chat, give up when fewer than
    half the threshold come back, render them as ["sender: content"]
    lines in creation order, ask the language model for a summary, store
    the summary as a new [summary] record and only then mark the source
    messages as summarized.  Every exception of the sequence is caught,
    logged and dropped. *)

From S2P Require Import Prelude Retry Store Base ChatMemory Crud.

Definition memory_summarize_threshold : nat := 20.

Definition item_created_at (it : Item) : option Z :=
  match item_props it !! "created_at" with Some (VDate t) => Some t | _ => None end.

(** [unsummarized_messages.sort(key=lambda msg: msg.get("created_at", ""))]:
    Python's stable sort; a list mixing dates with the default [""]
    makes the comparison raise [TypeError]. *)
Definition sort_by_created_at (msgs : list Item) : M World (list Item) :=
  if bool_decide (Exists (fun m => item_created_at m = None) msgs /\
                  Exists (fun m => item_created_at m <> None) msgs)
  then raise (TypeError "'<' not supported between instances of 'str' and 'datetime.datetime'")
  else mret (sort_by_key (fun m => default 0%Z (item_created_at m)) msgs).

Definition convert_sender_to_japanese (sender : string) : string :=
  if bool_decide (sender = "user") then "User"
  else if bool_decide (sender = "assistant") then "AI"
  else "システム".

Definition message_text (m : Item) : string :=
  convert_sender_to_japanese (item_str "sender" "unknown" m) +:+ ": " +:+ item_str "content" "" m.

(** [_get_llm_summary]: the model's answer, or [None] after logging
    when the call raises. *)
Definition get_llm_summary (text_to_summarize : string) : M World (option string) :=
  w ← get;
  match w_llm w text_to_summarize with
  | Some s => mret (Some s)
  | None => log (LogError "要約生成中にエラー発生: LLM call failed");; mret None
  end.

(** [_save_summary_to_vector_store]. *)
Definition summary_metadata (summary chat_id user_id : string) (timestamp : Z) : Props :=
  {[ "chat_id" := VStr chat_id; "content" := VStr summary; "created_at" := VDate timestamp;
     "memory_type" := VStr TYPE_SUMMARY;
     "message_id" := VStr ("summary_" +:+ chat_id +:+ "_" +:+ strftime_iso timestamp);
     "sender" := VStr "system"; "user_id" := VStr user_id ]}.

Definition save_summary_to_vector_store (summary chat_id user_id : string) : M World unit :=
  vector ← encode_text summary;
  w ← get;
  crud_add_memory vector (summary_metadata summary chat_id user_id (w_now w)) user_id
    CHAT_MEMORY_COLLECTION_NAME;;
  mret tt.

(** [_summarize_and_vectorize_background]. *)
Definition summarize_and_vectorize_background (chat_id user_id : string) : M World unit :=
  try_except
    (msgs ← get_unsummarized_messages user_id chat_id memory_summarize_threshold;
     if Nat.ltb (length msgs) (memory_summarize_threshold / 2) then mret tt else
     sorted ← sort_by_created_at msgs;
     let message_texts := map message_text sorted in
     let message_ids := filter (fun s => s <> "") (map (item_str "message_id" "") sorted) in
     match message_texts with
     | [] => mret tt
     | _ =>
       summary ← get_llm_summary (py_join NL message_texts);
       match summary with
       | None | Some "" => log (LogError "要約生成に失敗しました")
       | Some s =>
           save_summary_to_vector_store s chat_id user_id;;
           match message_ids with
           | [] => mret tt
           | _ => mark_messages_as_summarized user_id chat_id message_ids
           end
       end
     end)
    (fun e => log (LogError ("チャット要約中にエラーが発生: " +:+ exc_str e))).

(** The trigger: [message_count > 0 and message_count % threshold == 0]. *)
Definition summarization_due (message_count : nat) : bool :=
  Nat.ltb 0 message_count && Nat.eqb (message_count mod memory_summarize_threshold) 0.

(** [summarize_chat]. *)
Definition summarize_chat (chat_id user_id : string) (message_count : nat) : M World unit :=
  if summarization_due message_count then summarize_and_vectorize_background chat_id user_id
  else mret tt.

(** ** Summarization never loses data *)

(** [o'] is [o], except perhaps for its [is_summarized] flag. *)
Definition obj_le (o o' : Obj) : Prop :=
  obj_uuid o' = obj_uuid o /\ obj_vec o' = obj_vec o /\
  forall k, k <> "is_summarized" -> obj_props o' !! k = obj_props o !! k.

Definition is_summary (o : Obj) : Prop := obj_props o !! "memory_type" = Some (VStr TYPE_SUMMARY).

(** Partition [l] became [l']: every object is still there up to its
    flag, and every object there is an old one up to its flag or a
    summary record. *)
Definition part_evolves (l l' : list Obj) : Prop :=
  (forall o, o ∈ l -> exists o', o' ∈ l' /\ obj_le o o') /\
  (forall o', o' ∈ l' -> (exists o, o ∈ l /\ obj_le o o') \/ is_summary o').

Definition evolves (db db' : DB) : Prop :=
  forall n t, part_evolves (tenant_objs n t db) (tenant_objs n t db').

Lemma obj_le_refl o : obj_le o o.
Proof. by repeat split. Qed.

Lemma obj_le_trans o1 o2 o3 : obj_le o1 o2 -> obj_le o2 o3 -> obj_le o1 o3.
Proof.
  intros (H1 & H2 & H3) (H1' & H2' & H3'). split; [congruence|split; [congruence|]].
  intros k Hk. rewrite H3', H3 by done. done.
Qed.

Lemma is_summary_le o o' : obj_le o o' -> is_summary o -> is_summary o'.
Proof. intros (_ & _ & Hp) Hs. unfold is_summary. by rewrite Hp. Qed.

Lemma part_evolves_refl l : part_evolves l l.
Proof. split; intros o Ho; [|left]; exists o; eauto using obj_le_refl. Qed.

Lemma part_evolves_trans l1 l2 l3 :
  part_evolves l1 l2 -> part_evolves l2 l3 -> part_evolves l1 l3.
Proof.
  intros [Hf1 Hb1] [Hf2 Hb2]. split.
  - intros o Ho. destruct (Hf1 o Ho) as (o2 & Ho2 & Hle2).
    destruct (Hf2 o2 Ho2) as (o3 & Ho3 & Hle3). eauto using obj_le_trans.
  - intros o3 Ho3. destruct (Hb2 o3 Ho3) as [(o2 & Ho2 & Hle)|Hs]; [|by right].
    destruct (Hb1 o2 Ho2) as [(o1 & Ho1 & Hle1)|Hs]; [left|right]; eauto using obj_le_trans, is_summary_le.
Qed.

Lemma evolves_refl db : evolves db db.
Proof. intros n t. apply part_evolves_refl. Qed.

Lemma evolves_trans db1 db2 db3 : evolves db1 db2 -> evolves db2 db3 -> evolves db1 db3.
Proof. intros H12 H23 n t. eapply part_evolves_trans; eauto. Qed.

(** Appending a summary record. *)
Lemma part_evolves_snoc l o : is_summary o -> part_evolves l (l ++ [o]).
Proof.
  intros Hs. split.
  - intros o1 Ho1. exists o1. split; [set_solver|apply obj_le_refl].
  - intros o1 [Ho1|Ho1%list_elem_of_singleton]%elem_of_app; [left|by subst; right].
    exists o1. split; [done|apply obj_le_refl].
Qed.

(** Setting flags in place. *)
Lemma part_evolves_map l (f : Obj -> Obj) :
  (forall o, obj_le o (f o)) -> part_evolves l (map f l).
Proof.
  intros Hf. split.
  - intros o Ho. exists (f o).
    split; [apply list_elem_of_In, in_map, list_elem_of_In, Ho|done].
  - intros o' Ho'. apply list_elem_of_In, in_map_iff in Ho' as (o & <- & Ho).
    left. exists o. split; [by apply list_elem_of_In|done].
Qed.

Lemma data_insert_evolves n t props vec db :
  props !! "memory_type" = Some (VStr TYPE_SUMMARY) ->
  evolves db (snd (data_insert n t props vec db)).
Proof.
  intros Hs n' t'. rewrite tenant_objs_data_insert.
  destruct (_ && _) eqn:Hc; [|apply part_evolves_refl].
  apply andb_prop in Hc as [Heq%bool_decide_eq_true _]. simplify_eq.
  by apply part_evolves_snoc.
Qed.

Lemma update_summarized_le u o :
  obj_le o (if Nat.eqb (obj_uuid o) u
            then update_obj {["is_summarized" := VBool true]} None o else o).
Proof.
  destruct (Nat.eqb (obj_uuid o) u); [|apply obj_le_refl].
  split; [done|split; [done|]]. intros k Hk. cbn [obj_props update_obj].
  rewrite lookup_union, lookup_singleton_ne by done. by destruct (obj_props o !! k).
Qed.

Lemma data_update_summarized_evolves n t u db :
  evolves db (snd (data_update n t u {["is_summarized" := VBool true]} None db)).
Proof.
  intros n' t'. rewrite tenant_objs_data_update.
  destruct (_ && _ && _) eqn:Hc; [|apply part_evolves_refl].
  repeat (apply andb_prop in Hc as [Hc ?]). apply bool_decide_eq_true in Hc. simplify_eq.
  apply part_evolves_map. intros o. apply update_summarized_le.
Qed.

#[export] Hint Resolve evolves_refl : pydb.

Section NoDataLoss.
Context (db0 : DB) (c : Caps).

#[local] Abbreviation Inv := (on_db (evolves db0) c).

Lemma remote_evolves {A} (op : DB -> res A * DB) :
  (forall db, evolves db (snd (op db))) -> preserves Inv (remote op).
Proof. intros Hop. apply remote_preserves. intros db Hdb. eapply evolves_trans; eauto. Qed.

Lemma get_unsummarized_messages_evolves u ch k :
  preserves Inv (get_unsummarized_messages u ch k).
Proof. unfold get_unsummarized_messages, retry_default. solve_preserves. Qed.

Lemma set_summarized_evolves u o : preserves Inv (set_summarized u o).
Proof. apply remote_evolves, data_update_summarized_evolves. Qed.

#[local] Hint Resolve set_summarized_evolves : pydb.

Lemma mark_messages_as_summarized_evolves u ch ids :
  preserves Inv (mark_messages_as_summarized u ch ids).
Proof. unfold mark_messages_as_summarized, retry_default. solve_preserves. Qed.

Lemma add_summary_evolves v s ch u t :
  preserves Inv (crud_add_memory v (summary_metadata s ch u t) u CHAT_MEMORY_COLLECTION_NAME).
Proof.
  unfold crud_add_memory, retry_default. apply retry_on_error_preserves; [|auto with pydb].
  apply remote_evolves. intros db. by apply data_insert_evolves.
Qed.

#[local] Hint Resolve add_summary_evolves : pydb.

Lemma save_summary_evolves s ch u : preserves Inv (save_summary_to_vector_store s ch u).
Proof. unfold save_summary_to_vector_store. solve_preserves. Qed.

Lemma get_llm_summary_evolves text : preserves Inv (get_llm_summary text).
Proof. unfold get_llm_summary. solve_preserves. Qed.

Lemma sort_by_created_at_evolves msgs : preserves Inv (sort_by_created_at msgs).
Proof. unfold sort_by_created_at. solve_preserves. Qed.

#[local] Hint Resolve get_unsummarized_messages_evolves mark_messages_as_summarized_evolves
  save_summary_evolves get_llm_summary_evolves sort_by_created_at_evolves : pydb.

Lemma summarize_chat_evolves ch u n : preserves Inv (summarize_chat ch u n).
Proof. unfold summarize_chat, summarize_and_vectorize_background. solve_preserves. Qed.
End NoDataLoss.

(** (C22) Summarization never loses data: whatever happens on the way
    (faults, retries, a failing model, an exception swallowed half-way),
    every record of every partition is still there afterwards with the
    same uuid, vector and properties except perhaps [is_summarized], and
    every record there is such an old record or a [summary] record. *)
Theorem summarize_chat_no_data_loss chat_id user_id message_count w :
  evolves (w_db w) (w_db (snd (summarize_chat chat_id user_id message_count w))).
Proof. apply (summarize_chat_evolves (w_db w) (caps w)). split; [apply evolves_refl|done]. Qed.

(** ** The trigger and the error boundary *)

Lemma summarization_due_iff n :
  summarization_due n = true <-> exists k, 0 < k /\ n = memory_summarize_threshold * k.
Proof.
  unfold summarization_due, memory_summarize_threshold.
  rewrite andb_true_iff, Nat.ltb_lt, Nat.eqb_eq. split.
  - intros [Hpos Hmod]. exists (n / 20). split; [|]; pose proof (Nat.div_mod_eq n 20); lia.
  - intros (k & Hk & ->). split; [lia|]. by rewrite Nat.mul_comm, Nat.Div0.mod_mul.
Qed.

(** (C6) [summarize_chat] runs the summarization exactly on the positive
    multiples of the threshold (20, 40, ...); on any other count it
    returns at once and leaves the world as it was. *)
Theorem summarize_chat_trigger chat_id user_id message_count :
  ((exists k, 0 < k /\ message_count = memory_summarize_threshold * k) ->
   summarize_chat chat_id user_id message_count =
   summarize_and_vectorize_background chat_id user_id) /\
  ((~ exists k, 0 < k /\ message_count = memory_summarize_threshold * k) ->
   forall w, summarize_chat chat_id user_id message_count w = (Ok tt, w)).
Proof.
  unfold summarize_chat. split.
  - intros Hk. by rewrite (proj2 (summarization_due_iff _) Hk).
  - intros Hk w. destruct (summarization_due message_count) eqn:Hd; [|done].
    exfalso. by apply Hk, summarization_due_iff.
Qed.

Lemma summarize_chat_trigger_witness :
  summarize_chat "c" "u" 40 = summarize_and_vectorize_background "c" "u" /\
  summarize_chat "c" "u" 7 empty_world = (Ok tt, empty_world).
Proof.
  split.
  - apply (proj1 (summarize_chat_trigger "c" "u" 40)). exists 2. split; [lia|reflexivity].
  - apply (proj2 (summarize_chat_trigger "c" "u" 7)). intros (k & Hk & Heq).
    unfold memory_summarize_threshold in Heq. lia.
Defined.

Lemma summarize_chat_no_raise chat_id user_id message_count :
  no_raise (summarize_chat chat_id user_id message_count).
Proof. unfold summarize_chat, summarize_and_vectorize_background. solve_no_raise. Qed.

(** (C7) Summarization is best effort: [summarize_chat] never raises,
    whatever the store, the embedding model or the language model do. *)
Theorem summarize_chat_never_raises chat_id user_id message_count w :
  fst (summarize_chat chat_id user_id message_count w) = Ok tt.
Proof. apply no_raise_unit, summarize_chat_no_raise. Qed.

(** When fewer than [threshold / 2] unsummarized messages come back,
    the run stops right after the fetch: no summary, no flag changes. *)
Lemma summarization_aborts_below_half chat_id user_id w msgs w1 :
  get_unsummarized_messages user_id chat_id memory_summarize_threshold w = (Ok msgs, w1) ->
  length msgs < memory_summarize_threshold / 2 ->
  summarize_and_vectorize_background chat_id user_id w = (Ok tt, w1).
Proof.
  intros Hget Hlen. unfold summarize_and_vectorize_background, try_except.
  unfold mbind at 1, M_bind. rewrite Hget.
  by destruct (Nat.ltb_spec (length msgs) (memory_summarize_threshold / 2)); [|lia].
Qed.

(** ** Concrete runs *)

(** Message record [i] of chat ["c"] of user ["u"], not yet summarized. *)
Definition example_message (i : nat) : Props :=
  {[ "chat_id" := VStr "c"; "content" := VStr "hello"; "created_at" := VDate (Z.of_nat i);
     "memory_type" := VStr TYPE_MESSAGE; "message_id" := VStr ("m" +:+ pad_digits 2 (Z.of_nat i));
     "sender" := VStr "user"; "user_id" := VStr "u"; "is_summarized" := VBool false ]}.

(** The chat memory collection holding [n] such records. *)
Definition example_chat_world (n : nat) : World :=
  set_db (fold_left (fun db i => snd (data_insert CHAT_MEMORY_COLLECTION_NAME "u" (example_message i) [0%Z] db))
            (seq 0 n) (snd (collections_create CHAT_MEMORY_COLLECTION_NAME [] (w_db empty_world))))
         empty_world.

Definition example_fetch (n : nat) : res (list Item) * World :=
  get_unsummarized_messages "u" "c" memory_summarize_threshold (example_chat_world n).

