(* ===== verification/Vectorization.v ===== *)
(** * Vectorization: [VectorizationService] of [infrastructure/memory/vectorization_service.py]

    [vectorize_message] turns a saved chat message into a record of the
    [ChatMemory] collection: it embeds the message text and inserts the
    vector with the message's metadata under the sender's tenant.  Every
    exception is caught and logged ([ValueError] as a warning, anything
    else as an error), so a failed vectorization never reaches the
    caller.  The record it writes has no [is_summarized] property, which
    [get_unsummarized_messages] filters on (see [Findings] below). *)

From S2P Require Import Prelude Domain Retry Store Base ChatMemory Crud Summarization.

(** The metadata dict of [_vectorize_message_background]. *)
Definition message_metadata (m : Message) : Props :=
  {[ "chat_id" := VStr (msg_chat_id m); "content" := VStr (msg_content m);
     "created_at" := VDate (msg_created_at m); "memory_type" := VStr TYPE_MESSAGE;
     "message_id" := VStr (msg_id m); "sender" := VStr (sender_type_value (msg_sender_type m));
     "user_id" := VStr (msg_sender_id m) ]}.

(** [_vectorize_message_background]. *)
Definition vectorize_message_background (m : Message) : M World unit :=
  try_except
    (vector ← encode_text (msg_content m);
     memory_id ← crud_add_memory vector (message_metadata m) (msg_sender_id m)
                   CHAT_MEMORY_COLLECTION_NAME;
     log (LogInfo ("メッセージID " +:+ msg_id m +:+ " をベクトル化して保存 (memory_id: "
                   +:+ pretty memory_id +:+ ")")))
    (fun e => match e with
              | ValueError s => log (LogWarning ("メッセージベクトル化中に値エラー: " +:+ s))
              | _ => log (LogError ("メッセージベクトル化中にエラーが発生: " +:+ exc_str e))
              end).

(** [vectorize_message]. *)
Definition vectorize_message (m : Message) : M World unit :=
  vectorize_message_background m;;
  log (LogDebug ("Executing vectorization for message ID " +:+ msg_id m)).

(** Vectorization is best effort: every exception is caught and logged. *)
Lemma vectorize_message_no_raise m : no_raise (vectorize_message m).
Proof. unfold vectorize_message, vectorize_message_background. solve_no_raise. Qed.

(** ** Records written by [vectorize_message] are never summarized *)

(** No record says [is_summarized = False] and none is a summary. *)
Definition flagless (db : DB) : Prop :=
  forall n t o, o ∈ tenant_objs n t db ->
    obj_props o !! "is_summarized" <> Some (VBool false) /\ ~ is_summary o.

Lemma data_insert_flagless n t props vec db :
  props !! "is_summarized" <> Some (VBool false) ->
  props !! "memory_type" <> Some (VStr TYPE_SUMMARY) ->
  flagless db -> flagless (snd (data_insert n t props vec db)).
Proof.
  intros Hf Hm Hdb n' t' o Ho. rewrite tenant_objs_data_insert in Ho.
  destruct (_ && _); [|by eapply Hdb].
  apply elem_of_app in Ho as [Ho|Ho%list_elem_of_singleton]; [by eapply Hdb|subst o].
  done.
Qed.

Lemma message_metadata_flag m : message_metadata m !! "is_summarized" = None.
Proof. reflexivity. Qed.

Lemma message_metadata_type m : message_metadata m !! "memory_type" = Some (VStr TYPE_MESSAGE).
Proof. reflexivity. Qed.

Lemma add_message_flagless c v m u :
  preserves (on_db flagless c) (crud_add_memory v (message_metadata m) u CHAT_MEMORY_COLLECTION_NAME).
Proof.
  unfold crud_add_memory, retry_default. apply retry_on_error_preserves; [|auto with pydb].
  apply remote_preserves. intros db Hdb. apply data_insert_flagless; [| |done].
  - by rewrite message_metadata_flag.
  - by rewrite message_metadata_type.
Qed.

#[local] Hint Resolve add_message_flagless : pydb.

Lemma vectorize_message_flagless c m : preserves (on_db flagless c) (vectorize_message m).
Proof. unfold vectorize_message, vectorize_message_background. solve_preserves. Qed.

Section Flagless.
Context (db0 : DB) (Hdb0 : flagless db0).

(** Nothing matches [is_summarized == False]. *)
Lemma fetch_unsummarized_empty u ch k objs :
  fst (fetch_objects CHAT_MEMORY_COLLECTION_NAME u (unsummarized_filter u ch)
         (Some k) (Some "created_at") db0) = Ok objs -> objs = [].
Proof.
  apply fetch_objects_none. intros o Ho. cbn [unsummarized_filter filter_ok].
  destruct (Hdb0 _ _ _ Ho) as [Hf _].
  rewrite (bool_decide_eq_false_2 (obj_props o !! "is_summarized" = Some (VBool false))) by done.
  by rewrite andb_false_r.
Qed.

Lemma get_unsummarized_empty u ch k :
  hoare (db_is db0) (get_unsummarized_messages u ch k) (fun l => l = []).
Proof.
  unfold get_unsummarized_messages, retry_default.
  apply retry_on_error_hoare; [|auto with pydb].
  eapply hoare_bind; [apply remote_query_hoare; [apply fetch_objects_db|]|].
  - intros objs Hobjs. exact (fetch_unsummarized_empty u ch k objs Hobjs).
  - intros objs ->. by apply hoare_ret.
Qed.

(** With nothing to fetch, the run stops at the threshold check. *)
Lemma summarize_chat_keeps_db ch u n :
  hoare (db_is db0) (summarize_chat ch u n) (fun _ => True).
Proof.
  unfold summarize_chat. destruct (summarization_due n); [|by apply hoare_ret].
  unfold summarize_and_vectorize_background. apply hoare_try.
  - eapply hoare_bind; [apply get_unsummarized_empty|]. intros l ->. by apply hoare_ret.
  - intros e. by apply hoare_preserves, log_db_is.
Qed.
End Flagless.

(** ** The memory engine as a transition system *)

(** What the message flow does to the chat memory: vectorize a saved
    message, or check a message count for summarization. *)
Inductive memory_step : World -> World -> Prop :=
| step_vectorize_message m w : memory_step w (snd (vectorize_message m w))
| step_summarize_chat ch u n w : memory_step w (snd (summarize_chat ch u n w)).

Lemma memory_step_flagless w w' : flagless (w_db w) -> memory_step w w' -> flagless (w_db w').
Proof.
  intros Hw Hstep. destruct Hstep as [m w|ch u n w].
  - exact (proj1 (vectorize_message_flagless (caps w) m w (conj Hw eq_refl))).
  - destruct (summarize_chat_keeps_db (w_db w) Hw ch u n w eq_refl) as [Hdb _].
    unfold db_is in Hdb. by rewrite Hdb.
Qed.

(** (C1) Summaries are never written.  Starting from a chat memory in
    which no record says [is_summarized = False] (an empty one, say),
    every record [vectorize_message] adds lacks the property, so the
    [is_summarized == False] filter of [get_unsummarized_messages]
    matches nothing, the summarization stops at its threshold check
    every time, and no summary record ever appears, whatever sequence of
    vectorizations and summarization checks runs. *)
Theorem summaries_never_written w0 w :
  flagless (w_db w0) -> star memory_step w0 w ->
  forall n t o, o ∈ tenant_objs n t (w_db w) -> ~ is_summary o.
Proof.
  intros H0 Hs n t o Ho.
  apply (star_invariant memory_step (fun w => flagless (w_db w)) w0 w
           memory_step_flagless H0 Hs n t o Ho).
Qed.

(** ** Concrete runs *)

Definition example_chat_message (i : nat) : Message :=
  message_create ("m" +:+ pretty i) (Z.of_nat i) "hello" SUser "c" "u".

Fixpoint vectorize_all (ms : list Message) (w : World) : World :=
  match ms with [] => w | m :: ms' => vectorize_all ms' (snd (vectorize_message m w)) end.

Lemma vectorize_all_star ms w : star memory_step w (vectorize_all ms w).
Proof.
  revert w. induction ms as [|m ms IH]; intros w; cbn [vectorize_all]; [constructor|].
  eapply star_step; [constructor|apply IH].
Qed.

(** [flagless], decided by walking the collections and partitions. *)
Definition flagless_obj (o : Obj) : bool :=
  bool_decide (obj_props o !! "is_summarized" <> Some (VBool false)) && bool_decide (~ is_summary o).

Definition flagless_b (db : DB) : bool :=
  forallb (fun nc => forallb (fun tobjs => forallb flagless_obj tobjs.2)
                             (map_to_list (coll_tenants nc.2)))
          (map_to_list (db_collections db)).

Lemma flagless_b_sound db : flagless_b db = true -> flagless db.
Proof.
  unfold flagless_b. intros Hb n t o Ho. unfold tenant_objs in Ho.
  destruct (db_collections db !! n) as [c|] eqn:Hc; [|set_solver].
  destruct (coll_tenants c !! t) as [objs|] eqn:Ht; cbn in Ho; [|set_solver].
  apply forallb_forall with (x := (n, c)) in Hb; [|by apply list_elem_of_In, elem_of_map_to_list].
  apply forallb_forall with (x := (t, objs)) in Hb; [|by apply list_elem_of_In, elem_of_map_to_list].
  apply forallb_forall with (x := o) in Hb; [|by apply list_elem_of_In].
  unfold flagless_obj in Hb. apply andb_prop in Hb as [H1 H2].
  by apply bool_decide_eq_true in H1, H2.
Qed.

(** Twenty messages vectorized, then the check at count 20. *)
Lemma summaries_never_written_witness :
  flagless (w_db (example_chat_world 0)) /\
  star memory_step (example_chat_world 0)
    (snd (summarize_chat "c" "u" 20
            (vectorize_all (map example_chat_message (seq 0 20)) (example_chat_world 0)))) /\
  forall n t o, o ∈ tenant_objs n t
      (w_db (snd (summarize_chat "c" "u" 20
                    (vectorize_all (map example_chat_message (seq 0 20)) (example_chat_world 0))))) ->
    ~ is_summary o.
Proof.
  assert (Hstar : star memory_step (example_chat_world 0)
    (snd (summarize_chat "c" "u" 20
            (vectorize_all (map example_chat_message (seq 0 20)) (example_chat_world 0))))).
  { eapply star_trans; [apply vectorize_all_star|].
    eapply star_step; [apply step_summarize_chat|constructor]. }
  assert (H0 : flagless (w_db (example_chat_world 0))) by (apply flagless_b_sound; vm_compute; reflexivity).
  split; [exact H0|split; [exact Hstar|]].
  exact (summaries_never_written _ _ H0 Hstar).
Defined.
