(* ===== verification/BookMemory.v ===== *)
(** * BookMemory: the book methods of [VectorizationService]

    [infrastructure/memory/vectorization_service.py] also indexes a
    book's annotations in the [BookAnnotation] collection: each
    annotation's highlighted text, followed by its note when the
    annotation has an [AnnotationNotes] object, is embedded and stored
    with the book's metadata ([add_book_annotations]); an update replaces
    the record found by [annotation_id] ([update_book_annotations]); the
    deletions go by filter.  [delete_book_memories] swallows every error,
    so that deleting a book goes on when the vector store fails.  The
    [MemoryVectorStore] methods these call are the [VectorCrudService]
    operations of [Crud.v].  A property whose value is [None] is not
    stored (Weaviate keeps no null properties). *)

From S2P Require Import Prelude Retry Store Base ChatMemory Crud BookDomain.

(** [f"{value}"] of an optional string. *)
Definition py_str_opt (v : option string) : string :=
  match v with Some s => s | None => "None" end.

(** [text_for_vector]: [if annotation.notes:] holds for every
    [AnnotationNotes] object, whose value may be [None]. *)
Definition annotation_vector_text (a : Annotation) : string :=
  ann_text a +:+ match ann_notes a with Some n => NL +:+ py_str_opt n | None => "" end.

(** The [metadata] dict, without its [None] values. *)
Definition annotation_metadata (b : Book) (a : Annotation) : Props :=
  let base : Props :=
    {[ "annotation_id" := VStr (ann_id a); "book_id" := VStr (book_id b);
       "book_title" := VStr (book_name b); "content" := VStr (ann_text a);
       "user_id" := VStr (book_user_id b) ]} in
  let with_notes := match ann_notes a with Some (Some n) => <["notes" := VStr n]> base | _ => base end in
  match ann_created_at a with Some t => <["created_at" := VDate t]> with_notes | None => with_notes end.

(** [add_book_annotations]: no [try]; the first failure stops the loop. *)
Definition add_book_annotations (b : Book) (annotations : list Annotation) : M World unit :=
  for_each annotations (fun a =>
    vector ← encode_text (annotation_vector_text a);
    _ ← crud_add_memory vector (annotation_metadata b a) (book_user_id b) BOOK_ANNOTATION_COLLECTION_NAME;
    mret tt).

(** [update_book_annotations]. *)
Definition update_book_annotations (b : Book) (annotations : list Annotation) : M World unit :=
  for_each annotations (fun a =>
    vector ← encode_text (annotation_vector_text a);
    crud_update_memory (book_user_id b) BOOK_ANNOTATION_COLLECTION_NAME "annotation_id" (ann_id a)
      (annotation_metadata b a) vector).

(** [delete_book_annotation]. *)
Definition delete_book_annotation (user_id annotation_id : string) : M World unit :=
  crud_delete_memory user_id BOOK_ANNOTATION_COLLECTION_NAME "annotation_id" annotation_id.

(** [delete_book_memories]: the error is logged and not re-raised. *)
Definition delete_book_memories (user_id book_id : string) : M World unit :=
  try_except
    (crud_delete_book_data user_id book_id;;
     log (LogInfo ("Book " +:+ book_id +:+ " memories deleted for user " +:+ user_id)))
    (fun e => log (LogError ("Error deleting book memories: " +:+ exc_str e))).

(** ** Deleting a book's memories *)

Definition last_log_error (w : World) : Prop :=
  exists msg, last (w_log w) = Some (LogError msg).

Lemma log_last e : ensures (log e) (fun w => last (w_log w) = Some e).
Proof. intros w [] w' [= <-]. cbn. by rewrite last_snoc. Qed.

(** (C34) [delete_book_memories] always returns, and afterwards either no
    content chunk or annotation of the book is left in the user's
    partitions, or an error was logged as the last line. *)
Theorem delete_book_memories_outcome user_id book_id w :
  fst (delete_book_memories user_id book_id w) = Ok tt /\
  (book_data_absent user_id book_id (w_db (snd (delete_book_memories user_id book_id w))) \/
   last_log_error (snd (delete_book_memories user_id book_id w))).
Proof.
  unfold delete_book_memories, try_except.
  destruct ((crud_delete_book_data user_id book_id;; log _) w) as [[[]|e] w1] eqn:E.
  - split; [done|left].
    refine (bind_ensures_l (fun w => book_data_absent user_id book_id (w_db w)) _ _
              (crud_delete_book_data_ensures user_id book_id) _ w tt w1 E).
    intros _. apply (log_preserves_db (book_data_absent user_id book_id)).
  - destruct (log _ w1) as [r w2] eqn:El. pose proof El as El'. injection El as <- <-. split; [done|right].
    eexists. apply (log_last _ w1 tt). exact El'.
Qed.
