(* ===== verification/Books.v ===== *)
(** * Books: the book use cases of [usecase/book] and [usecase/annotation]

    [CreateBookUseCaseImpl.execute] decodes the uploaded EPUB, uploads it
    (and a [data:image/] cover, whose failures are only logged) to blob
    storage under [books/<user>/<book id>/], validates the title and
    saves the book; any exception after the first upload makes it delete
    the blobs uploaded so far, ignoring deletion errors, and re-raise.
    [DeleteBookUseCaseImpl.execute] marks the book deleted, then deletes
    its blobs and its vector memories, swallowing every error of those
    three steps; [BulkDeleteBooksUseCaseImpl] does the same for several
    books around the repository's [bulk_delete].  [FindBookByIdUseCaseImpl]
    and [SyncAnnotationsUseCaseImpl] look the book up first.

    The book and annotation repositories ([domain/book/repositories],
    [domain/annotation/repositories/annotation_repository.py]) and the
    storage client ([infrastructure/external/gcs]) are collaborators:
    the first is a type class with laws and a reference table, the
    storage a map from blob names to contents with the store's fault
    list.  [base64.b64decode], [json.loads] and [uuid.UUID] are library
    functions and are parameters of the use cases. *)

From S2P Require Import Prelude Retry Store Base ChatMemory Crud BookDomain BookMemory.

(** ** Blob storage *)

Record Storage := mkStorage {
  st_blobs : gmap string string;
  st_faults : list bool;
  st_url : string;
  st_bucket : string
}.

(** One request to the storage service; a pending fault makes it raise. *)
Definition storage_request {A} (op : Storage -> res A * Storage) : M Storage A := fun st =>
  match st_faults st with
  | true :: fs => (Err (StoreError "storage connection error"), mkStorage (st_blobs st) fs (st_url st) (st_bucket st))
  | false :: fs => op (mkStorage (st_blobs st) fs (st_url st) (st_bucket st))
  | [] => op st
  end.

Definition set_blobs (blobs : gmap string string) (st : Storage) : Storage :=
  mkStorage blobs (st_faults st) (st_url st) (st_bucket st).

(** [f"{get_gcs_url()}/{bucket_name}/"], the prefix of a public path. *)
Definition gcs_prefix (st : Storage) : string := st_url st +:+ "/" +:+ st_bucket st +:+ "/".

(** [upload_file(name, data, content_type)]: the blob's public path. *)
Definition upload_file (name data content_type : string) : M Storage string :=
  storage_request (fun st => (Ok (gcs_prefix st +:+ name), set_blobs (<[name := data]> (st_blobs st)) st)).

(** [delete_object(name)] and [bucket.blob(name).delete()]: a missing
    blob raises [NotFound]. *)
Definition delete_object (name : string) : M Storage unit :=
  storage_request (fun st =>
    match st_blobs st !! name with
    | Some _ => (Ok tt, set_blobs (delete name (st_blobs st)) st)
    | None => (Err (StoreError "404 Not Found"), st)
    end).

(** ** The book repository *)

Class BookRepository (B : Type) := {
  book_save : Book -> B -> B;
  book_find_by_id : string -> B -> option Book;
  book_bulk_delete : list string -> Z -> B -> list string * B
}.

Class BookRepositoryLaws (B : Type) `{BookRepository B} := {
  book_find_save b r :
    book_deleted_at b = None -> book_find_by_id (book_id b) (book_save b r) = Some b;
  book_find_save_deleted b r :
    book_deleted_at b <> None -> book_find_by_id (book_id b) (book_save b r) = None;
  book_find_save_ne b i r :
    i <> book_id b -> book_find_by_id i (book_save b r) = book_find_by_id i r;
  book_find_live i r b :
    book_find_by_id i r = Some b -> book_id b = i /\ book_deleted_at b = None;
  book_find_bulk_delete ids now r i :
    book_find_by_id i (book_bulk_delete ids now r).2 =
    if bool_decide (i ∈ ids) then None else book_find_by_id i r
}.

(** The sync target of [SyncAnnotationsUseCaseImpl]. *)
Class AnnotationRepository (A : Type) := {
  sync_annotations : Book -> A -> A
}.

(** ** The application state *)

Section State.
Context {B A : Type}.

Record BookApp := mkBookApp { ba_world : World; ba_books : B; ba_annotations : A; ba_storage : Storage }.

Definition in_storage {X} (m : M Storage X) : M BookApp X := fun s =>
  let '(r, st') := m (ba_storage s) in (r, mkBookApp (ba_world s) (ba_books s) (ba_annotations s) st').

Definition in_book_world {X} (m : M World X) : M BookApp X := fun s =>
  let '(r, w') := m (ba_world s) in (r, mkBookApp w' (ba_books s) (ba_annotations s) (ba_storage s)).

Definition modify_books (f : B -> B) : M BookApp unit :=
  modify (fun s => mkBookApp (ba_world s) (f (ba_books s)) (ba_annotations s) (ba_storage s)).

Definition modify_annotations (f : A -> A) : M BookApp unit :=
  modify (fun s => mkBookApp (ba_world s) (ba_books s) (f (ba_annotations s)) (ba_storage s)).
End State.

Arguments BookApp : clear implicits.

(** ** [CreateBookUseCaseImpl] *)

(** What [json.loads] returns: an object, with its string and [null]
    members, or another JSON value, named by its Python type. *)
Inductive JsonDoc := JObject (members : gmap string (option string)) | JOther (type_name : string).

(** [metadata_dict.get("creator") or None]: a non-dict has no [get]. *)
Definition metadata_creator (metadata_dict : JsonDoc) : res (option string) :=
  match metadata_dict with
  | JObject d =>
      Ok (match d !! "creator" with
          | Some (Some s) => if bool_decide (s = "") then None else Some s
          | _ => None
          end)
  | JOther t => Err (AttributeError ("'" +:+ t +:+ "' object has no attribute 'get'"))
  end.

(** [xs[1]]. *)
Definition py_index1 (xs : list string) : res string :=
  match xs with _ :: x :: _ => Ok x | _ => Err (IndexError "list index out of range") end.

Section CreateBook.
Context `{BookRepository B} {A : Type}.
Context (b64decode : string -> res string) (json_loads : string -> option JsonDoc).

(** The use case's local [uploaded_files] list, beside the application state. *)
Definition lift_app {X} (m : M (BookApp B A) X) : M (BookApp B A * list string) X := fun sl =>
  let '(r, s') := m sl.1 in (r, (s', sl.2)).

Definition record_upload (name : string) : M (BookApp B A * list string) unit :=
  modify (fun sl => (sl.1, sl.2 ++ [name])).

Definition uploaded_files : M (BookApp B A * list string) (list string) := fun sl => (Ok sl.2, sl).

Definition with_uploads {X} (m : M (BookApp B A * list string) X) : M (BookApp B A) X := fun s =>
  let '(r, sl') := m (s, []) in (r, sl'.1).

(** [_rollback_storage]: each deletion's error is suppressed. *)
Definition rollback_storage (file_names : list string) : M (BookApp B A) unit :=
  for_each file_names (fun file_name => try_except (in_storage (delete_object file_name)) (fun _ => mret tt)).

Definition DATA_IMAGE : string := "data:image/".

(** The cover: [cover_image.split(",")[1]] decoded and uploaded; any
    exception is logged and leaves [cover_path = None]. *)
Definition save_cover (book_base_path : string) (cover_image : option string)
    : M (BookApp B A * list string) (option string) :=
  match cover_image with
  | Some c =>
      if String.prefix DATA_IMAGE c then
        try_except
          (image_data ← lift_res (py_index1 (py_split_char (Ascii.ascii_of_nat 44) c));
           image_binary ← lift_res (b64decode image_data);
           let cover_blob_name := book_base_path +:+ "/cover.jpg" in
           cover_path ← lift_app (in_storage (upload_file cover_blob_name image_binary "image/jpeg"));
           record_upload cover_blob_name;;
           mret (Some cover_path))
          (fun e => lift_app (in_book_world (log (LogError ("Error occurred while saving cover image: " +:+ exc_str e))));;
                    mret None)
      else mret None
  | None => mret None
  end.

Definition book_base_path (user_id book_id_value : string) : string :=
  "books/" +:+ user_id +:+ "/" +:+ book_id_value.

(** The [try] block of [execute]. *)
Definition create_book_try (book_id_value : string) (now : Z) (user_id file_name : string)
    (book_name cover_image : option string) (metadata_dict : JsonDoc) (decoded_file_data : string)
    : M (BookApp B A * list string) Book :=
  let base := book_base_path user_id book_id_value in
  let epub_blob_name := base +:+ "/book.epub" in
  file_path ← lift_app (in_storage (upload_file epub_blob_name decoded_file_data "application/epub+zip"));
  record_upload epub_blob_name;;
  cover_path ← save_cover base cover_image;
  name ← lift_res (book_title_mk
            (match book_name with Some n => if bool_decide (n = "") then file_name else n | None => file_name end));
  author ← lift_res (metadata_creator metadata_dict);
  let book := book_create book_id_value name user_id file_path author cover_path
                (String.length decoded_file_data) now in
  lift_app (modify_books (book_save book));;
  mret book.

(** Its [except] block: log, roll the uploads back, re-raise. *)
Definition create_book_except (e : Exc) : M (BookApp B A * list string) Book :=
  lift_app (in_book_world (log (LogError ("Error occurred while creating book: " +:+ exc_str e))));;
  files ← uploaded_files;
  lift_app (rollback_storage files);;
  raise e.

(** [execute]; [book_id_value] is [BookId.generate()] and [now] the
    clock. *)
Definition create_book (book_id_value : string) (now : Z) (user_id file_name file_data : string)
    (book_name cover_image book_metadata : option string) : M (BookApp B A) Book :=
  decoded_file_data ← lift_res (b64decode file_data);
  let metadata_dict :=
    match book_metadata with
    | Some s => if bool_decide (s = "") then JObject ∅ else default (JObject ∅) (json_loads s)
    | None => JObject ∅
    end in
  with_uploads (try_except
    (create_book_try book_id_value now user_id file_name book_name cover_image metadata_dict decoded_file_data)
    create_book_except).
End CreateBook.

(** ** Creating a book touches no other blob *)

Lemma upload_file_only n d ct st k :
  k <> n -> st_blobs (snd (upload_file n d ct st)) !! k = st_blobs st !! k.
Proof.
  intros Hk. unfold upload_file, storage_request.
  destruct (st_faults st) as [|[] fs]; cbn; try rewrite lookup_insert_ne by congruence; done.
Qed.

Lemma delete_object_only n st k :
  k <> n -> st_blobs (snd (delete_object n st)) !! k = st_blobs st !! k.
Proof.
  intros Hk. unfold delete_object, storage_request.
  destruct (st_faults st) as [|[] fs]; cbn; [|done|];
    destruct (st_blobs _ !! n); cbn; try rewrite lookup_delete_ne by congruence; done.
Qed.

Section CreateBookFrame.
Context `{BookRepository B} {A : Type}.
Context (orig : gmap string string) (names : list string).

(** Only the [names] may differ from [orig]. *)
Definition frame_app (s : BookApp B A) : Prop :=
  forall k, k ∉ names -> st_blobs (ba_storage s) !! k = orig !! k.

(** ... and only [names] are recorded as uploaded. *)
Definition upload_frame (sl : BookApp B A * list string) : Prop :=
  frame_app sl.1 /\ (forall f, f ∈ sl.2 -> f ∈ names).

Lemma in_storage_frame {X} (m : M Storage X) :
  (forall st k, k ∉ names -> st_blobs (snd (m st)) !! k = st_blobs st !! k) ->
  preserves frame_app (in_storage m).
Proof.
  intros Hm s Hs k Hk. unfold in_storage. pose proof (Hm (ba_storage s) k Hk) as E.
  destruct (m (ba_storage s)) as [r st']. cbn in *. rewrite E. by apply Hs.
Qed.

Lemma same_storage_frame {X} (m : M (BookApp B A) X) :
  (forall s, ba_storage (snd (m s)) = ba_storage s) -> preserves frame_app m.
Proof. intros Hm s Hs k Hk. rewrite Hm. by apply Hs. Qed.

Lemma lift_app_frame {X} (m : M (BookApp B A) X) :
  preserves frame_app m -> preserves upload_frame (lift_app m).
Proof.
  intros Hm [s l] [H1 H2]. unfold lift_app. cbn. pose proof (Hm s H1) as Hs.
  destruct (m s) as [r s']. by split.
Qed.

Lemma record_upload_frame n : n ∈ names -> preserves upload_frame (record_upload n).
Proof.
  intros Hn [s l] [H1 H2]. split; [done|]. cbn. intros f [Hf|Hf%list_elem_of_singleton]%elem_of_app; [auto|by subst].
Qed.

Lemma upload_frame_step n d ct : n ∈ names -> preserves upload_frame (lift_app (in_storage (upload_file n d ct))).
Proof.
  intros Hn. apply lift_app_frame, in_storage_frame. intros st k Hk. apply upload_file_only. by intros ->.
Qed.

Lemma rollback_frame files : (forall f, f ∈ files -> f ∈ names) -> preserves frame_app (rollback_storage files).
Proof.
  unfold rollback_storage. induction files as [|f files IH]; intros Hf; cbn [for_each]; [apply mret_preserves|].
  apply bind_preserves; [|intros _; apply IH; intros x Hx; apply Hf; by right].
  apply try_except_preserves; [|intros _; apply mret_preserves].
  apply in_storage_frame. intros st k Hk. apply delete_object_only. intros ->. apply Hk, Hf. by left.
Qed.
Lemma in_book_world_frame {X} (m : M World X) : preserves upload_frame (lift_app (in_book_world m)).
Proof.
  apply lift_app_frame, same_storage_frame. intros s. unfold in_book_world. by destruct (m (ba_world s)).
Qed.

Lemma modify_books_frame f : preserves upload_frame (lift_app (modify_books f)).
Proof. by apply lift_app_frame, same_storage_frame. Qed.

Lemma uploaded_files_frame {X} (k : list string -> M (BookApp B A * list string) X) :
  (forall files, (forall f, f ∈ files -> f ∈ names) -> preserves upload_frame (k files)) ->
  preserves upload_frame (uploaded_files ≫= k).
Proof. intros Hk sl Hsl. apply Hk; [apply Hsl|exact Hsl]. Qed.

#[local] Hint Resolve upload_frame_step record_upload_frame in_book_world_frame modify_books_frame : pydb.

Lemma save_cover_frame b64decode base c :
  base +:+ "/cover.jpg" ∈ names -> preserves upload_frame (save_cover b64decode base c).
Proof. intros Hn. unfold save_cover. solve_preserves. Qed.
End CreateBookFrame.

Definition epub_blob (user_id book_id_value : string) : string := book_base_path user_id book_id_value +:+ "/book.epub".
Definition cover_blob (user_id book_id_value : string) : string := book_base_path user_id book_id_value +:+ "/cover.jpg".

Section CreateBookTheorems.
Context `{BookRepository B} {A : Type}.
Context (b64decode : string -> res string) (json_loads : string -> option JsonDoc).

(** (C30) [CreateBookUseCaseImpl.execute], whatever it returns and
    whatever the storage does, changes no blob but the book's own EPUB
    and cover. *)
Theorem create_book_frame id now user_id file_name file_data book_name cover_image book_metadata
    (s : BookApp B A) k :
  k <> epub_blob user_id id -> k <> cover_blob user_id id ->
  st_blobs (ba_storage (snd (create_book b64decode json_loads id now user_id file_name file_data
                                book_name cover_image book_metadata s))) !! k =
  st_blobs (ba_storage s) !! k.
Proof.
  intros Hk1 Hk2. set (names := [epub_blob user_id id; cover_blob user_id id]).
  assert (Hk : k ∉ names) by (unfold names; rewrite elem_of_cons, elem_of_cons, elem_of_nil; tauto).
  unfold create_book. destruct (b64decode file_data) as [data|e]; [rewrite lift_res_bind_ok|by rewrite lift_res_bind_err].
  cbn zeta. unfold with_uploads, create_book_try, create_book_except. cbn zeta.
  lazymatch goal with |- context [try_except ?body ?handler (s, [])] =>
    assert (Hp : preserves (upload_frame (st_blobs (ba_storage s)) names) (try_except body handler)) end.
  { apply try_except_preserves.
    - apply bind_preserves; [apply upload_frame_step; by left|intros fp].
      apply bind_preserves; [apply record_upload_frame; by left|intros _].
      apply bind_preserves; [apply save_cover_frame; by right; left|intros cp].
      solve_preserves.
    - intros e. apply bind_preserves; [apply in_book_world_frame|intros _].
      apply uploaded_files_frame. intros files Hf.
      apply bind_preserves; [apply lift_app_frame, rollback_frame, Hf|intros _]. apply raise_preserves. }
  assert (H0 : upload_frame (st_blobs (ba_storage s)) names (s, []))
    by (split; [done|intros f Hf; cbn in Hf; by apply elem_of_nil in Hf]).
  specialize (Hp (s, []) H0).
  destruct (try_except _ _ (s, [])) as [r [s' l']]. apply Hp, Hk.
Qed.
End CreateBookTheorems.

(** ** Creating a book is undone when the storage works *)

Lemma delete_object_nofault n st :
  st_faults st = [] -> is_Some (st_blobs st !! n) ->
  delete_object n st = (Ok tt, set_blobs (delete n (st_blobs st)) st).
Proof. intros Hf [v Hv]. unfold delete_object, storage_request. rewrite Hf. by destruct st; cbn in *; rewrite Hv. Qed.

Lemma upload_file_nofault n d ct st :
  st_faults st = [] -> upload_file n d ct st = (Ok (gcs_prefix st +:+ n), set_blobs (<[n := d]> (st_blobs st)) st).
Proof. intros Hf. unfold upload_file, storage_request. by rewrite Hf; destruct st. Qed.

Section Rollback.
Context {B A : Type}.

(** The blobs are [orig] but for [files], each present and new. *)
Definition rollback_ready (orig : gmap string string) (s : BookApp B A) (files : list string) : Prop :=
  st_faults (ba_storage s) = [] /\ NoDup files /\
  (forall k, k ∈ files -> is_Some (st_blobs (ba_storage s) !! k) /\ orig !! k = None) /\
  (forall k, k ∉ files -> st_blobs (ba_storage s) !! k = orig !! k).

Lemma rollback_restores orig files (s : BookApp B A) :
  rollback_ready orig s files ->
  st_blobs (ba_storage (snd (rollback_storage files s))) = orig /\ ba_books (snd (rollback_storage files s)) = ba_books s.
Proof.
  revert s. induction files as [|f fs IH]; intros s (Hf & Hnd & Hin & Hout).
  - split; [|done]. apply map_eq. intros k. apply Hout, not_elem_of_nil.
  - apply NoDup_cons in Hnd as [Hf_fs Hnd]. destruct (Hin f (list_elem_of_here f fs)) as [Hs Ho].
    set (s1 := mkBookApp (ba_world s) (ba_books s) (ba_annotations s)
                 (set_blobs (delete f (st_blobs (ba_storage s))) (ba_storage s))).
    assert (E : rollback_storage (f :: fs) s = rollback_storage fs s1).
    { change (rollback_storage (f :: fs) s) with
        ((try_except (in_storage (delete_object f)) (fun _ => mret tt) ≫= (fun _ => rollback_storage fs)) s).
      unfold mbind, M_bind, try_except, in_storage at 1. by rewrite (delete_object_nofault f _ Hf Hs). }
    rewrite E.
    destruct (IH s1) as [IH1 IH2]; [|by split].
    split_and!; [exact Hf|exact Hnd| |].
    + intros k Hk. assert (k <> f) by (intros ->; contradiction).
      cbn. rewrite lookup_delete_ne by congruence. apply Hin. by right.
    + intros k Hk. cbn. destruct (decide (k = f)) as [->|Hne].
      * by rewrite lookup_delete_eq.
      * rewrite lookup_delete_ne by congruence. apply Hout. intros [->|?]%elem_of_cons; contradiction.
Qed.
End Rollback.

Section CreateBookRollback.
Context `{BookRepository B} {A : Type}.
Context (b64decode : string -> res string) (json_loads : string -> option JsonDoc).

(** With a working storage the cover step returns, and either uploaded
    nothing or uploaded and recorded the cover. *)
Lemma save_cover_nofault base c (s : BookApp B A) l r sl' :
  st_faults (ba_storage s) = [] ->
  save_cover b64decode base c (s, l) = (r, sl') ->
  exists p, r = Ok p /\ ba_books sl'.1 = ba_books s /\ st_faults (ba_storage sl'.1) = [] /\
    ((sl'.2 = l /\ st_blobs (ba_storage sl'.1) = st_blobs (ba_storage s)) \/
     (sl'.2 = l ++ [base +:+ "/cover.jpg"] /\
      exists img, st_blobs (ba_storage sl'.1) = <[base +:+ "/cover.jpg" := img]> (st_blobs (ba_storage s)))).
Proof.
  intros Hf. unfold save_cover.
  destruct c as [c|]; [destruct (String.prefix DATA_IMAGE c)|]; [|intros [= <- <-]; eexists; split_and!; eauto..].
  unfold try_except.
  destruct (py_index1 _) as [image_data|e]; [rewrite lift_res_bind_ok|rewrite lift_res_bind_err].
  2: { cbv [lift_app in_book_world mbind M_bind mret M_ret log modify]. cbn. intros [= <- <-].
       eexists; split_and!; [reflexivity|reflexivity|exact Hf|left; done]. }
  destruct (b64decode image_data) as [img|e]; [rewrite lift_res_bind_ok|rewrite lift_res_bind_err].
  2: { cbv [lift_app in_book_world mbind M_bind mret M_ret log modify]. cbn. intros [= <- <-].
       eexists; split_and!; [reflexivity|reflexivity|exact Hf|left; done]. }
  cbv [lift_app in_storage mbind M_bind mret M_ret record_upload modify]. cbn.
  rewrite (upload_file_nofault _ _ _ _ Hf). cbn. intros [= <- <-].
  eexists; split_and!; [reflexivity|reflexivity|exact Hf|right; split; [done|by eexists]].
Qed.
Lemma epub_cover_ne user_id id : epub_blob user_id id <> cover_blob user_id id.
Proof. unfold epub_blob, cover_blob. intros Heq%str_app_inj_l. discriminate. Qed.

(** With a working storage, the [try] block raises only after uploading
    the EPUB (and perhaps the cover), which are then ready to roll back. *)
Lemma create_book_try_err id now user_id file_name book_name cover_image metadata_dict data
    (s : BookApp B A) e s2 l2 :
  st_faults (ba_storage s) = [] ->
  st_blobs (ba_storage s) !! epub_blob user_id id = None ->
  st_blobs (ba_storage s) !! cover_blob user_id id = None ->
  create_book_try b64decode id now user_id file_name book_name cover_image metadata_dict data (s, []) =
    (Err e, (s2, l2)) ->
  ba_books s2 = ba_books s /\ rollback_ready (st_blobs (ba_storage s)) s2 l2.
Proof.
  intros Hf He Hc Hrun. unfold create_book_try in Hrun. cbn zeta in Hrun.
  fold (epub_blob user_id id) in Hrun.
  apply bind_err_inv in Hrun as [Hu|(fp & sl1 & Hu & Hrun)];
    cbv [lift_app in_storage] in Hu; cbn in Hu; rewrite (upload_file_nofault _ _ _ _ Hf) in Hu; [discriminate|].
  injection Hu as <- <-.
  apply bind_err_inv in Hrun as [Hr|(u & sl2 & Hr & Hrun)]; [discriminate|]. injection Hr as <- <-.
  apply bind_err_inv in Hrun as [Hcv|(cp & sl3 & Hcv & Hrun)];
    [apply save_cover_nofault in Hcv as (p & ? & _); [discriminate|done]|].
  apply save_cover_nofault in Hcv as (p & [= <-] & Hb3 & Hf3 & Hcases); [|done].
  fold (cover_blob user_id id) in Hcases. cbn in Hb3, Hcases.
  assert (Hst : (s2, l2) = sl3).
  { apply bind_err_inv in Hrun as [Ht|(name & sl4 & Ht & Hrun)]; [by injection Ht as _ <-|injection Ht as _ <-].
    apply bind_err_inv in Hrun as [Ha|(author & sl5 & Ha & Hrun)]; [by injection Ha as _ <-|].
    injection Ha as _ <-. discriminate. }
  subst sl3. cbn [fst snd] in *. split; [done|].
  pose proof (epub_cover_ne user_id id) as Hne.
  destruct Hcases as [[-> Hb]|[-> [img Hb]]]; unfold rollback_ready; rewrite Hb; cbn [app];
    (split_and!; [done| | |]).
  - apply NoDup_singleton.
  - intros k ->%list_elem_of_singleton. rewrite lookup_insert_eq. by split; [eexists|].
  - intros k Hk. rewrite lookup_insert_ne; [done|]. intros Heq. subst k. by apply Hk, list_elem_of_here.
  - apply NoDup_cons. split; [|apply NoDup_singleton]. by intros Hin%list_elem_of_singleton.
  - intros k [Hk|Hk%list_elem_of_singleton]%elem_of_cons; subst k.
    + rewrite lookup_insert_ne, lookup_insert_eq by congruence. by split; [eexists|].
    + rewrite lookup_insert_eq. by split; [eexists|].
  - intros k Hk. rewrite !lookup_insert_ne; [done| |]; intros Heq; subst k; apply Hk; solve [by left|by right; left].
Qed.
End CreateBookRollback.

Section CreateBookAtomic.
Context `{BookRepository B} {A : Type}.
Context (b64decode : string -> res string) (json_loads : string -> option JsonDoc).

(** The [except] block from a state ready to roll back restores the blobs. *)
Lemma create_book_except_restores orig e0 (s2 : BookApp B A) l2 r s3 l3 :
  rollback_ready orig s2 l2 -> create_book_except e0 (s2, l2) = (r, (s3, l3)) ->
  st_blobs (ba_storage s3) = orig /\ ba_books s3 = ba_books s2.
Proof.
  intros Hready. unfold create_book_except. cbv [mbind M_bind lift_app in_book_world uploaded_files raise log modify].
  cbn [fst snd].
  lazymatch goal with |- context [rollback_storage l2 ?s2'] => set (s2x := s2') end.
  destruct (rollback_restores orig l2 s2x Hready) as [Hb Hk].
  destruct (rollback_storage l2 s2x) as [r4 s4]. cbn in Hb, Hk |- *. destruct r4; intros [= <- <- <-]; done.
Qed.

(** (C8) [CreateBookUseCaseImpl.execute] is atomic when the storage
    works: if it raises, the storage holds exactly the blobs it held
    before (the uploaded EPUB and cover are deleted again) and no book
    was saved. *)
Theorem create_book_rollback id now user_id file_name file_data book_name cover_image book_metadata
    (s : BookApp B A) e s' :
  st_faults (ba_storage s) = [] ->
  st_blobs (ba_storage s) !! epub_blob user_id id = None ->
  st_blobs (ba_storage s) !! cover_blob user_id id = None ->
  create_book b64decode json_loads id now user_id file_name file_data book_name cover_image book_metadata s =
    (Err e, s') ->
  st_blobs (ba_storage s') = st_blobs (ba_storage s) /\ ba_books s' = ba_books s.
Proof.
  intros Hf He Hc. unfold create_book.
  destruct (b64decode file_data) as [data|e0]; [rewrite lift_res_bind_ok|rewrite lift_res_bind_err; by intros [= _ <-]].
  unfold with_uploads, try_except.
  destruct (create_book_try _ _ _ _ _ _ _ _ _ (s, [])) as [[b|e1] [s2 l2]] eqn:Etry; [by intros [=]|].
  destruct (create_book_try_err b64decode _ _ _ _ _ _ _ _ s e1 s2 l2 Hf He Hc Etry) as [Hb2 Hready].
  destruct (create_book_except e1 (s2, l2)) as [r [s3 l3]] eqn:Eexc. intros [= _ <-].
  destruct (create_book_except_restores _ e1 s2 l2 r s3 l3 Hready Eexc) as [Hb3 Hk3].
  split; [done|congruence].
Qed.
End CreateBookAtomic.

(** ** A reference book table with soft deletion *)

Record BookTable := mkBookTable { book_rows : list Book }.

Definition book_live (b : Book) : bool := negb (book_is_deleted b).

Definition book_table_save (b : Book) (r : BookTable) : BookTable :=
  mkBookTable (b :: List.filter (fun x => negb (bool_decide (book_id x = book_id b))) (book_rows r)).

Definition book_table_find_by_id (i : string) (r : BookTable) : option Book :=
  find (fun x => bool_decide (book_id x = i) && book_live x) (book_rows r).

(** [bulk_delete]: the ids of the live books it marks deleted. *)
Definition book_table_bulk_delete (ids : list string) (now : Z) (r : BookTable) : list string * BookTable :=
  (List.filter (fun i => bool_decide (is_Some (book_table_find_by_id i r))) ids,
   mkBookTable (map (fun x => if bool_decide (book_id x ∈ ids) then book_mark_as_deleted now x else x)
                    (book_rows r))).

#[export] Instance book_table_repository : BookRepository BookTable := {
  book_save := book_table_save;
  book_find_by_id := book_table_find_by_id;
  book_bulk_delete := book_table_bulk_delete
}.

Lemma book_table_find_save b r :
  book_deleted_at b = None -> book_table_find_by_id (book_id b) (book_table_save b r) = Some b.
Proof.
  intros Hd. unfold book_table_find_by_id, book_table_save, book_live, book_is_deleted. cbn [book_rows find].
  by rewrite Hd, bool_decide_eq_true_2.
Qed.

Lemma book_table_find_save_deleted b r :
  book_deleted_at b <> None -> book_table_find_by_id (book_id b) (book_table_save b r) = None.
Proof.
  intros Hd. unfold book_table_find_by_id, book_table_save, book_live, book_is_deleted. cbn [book_rows find].
  destruct (book_deleted_at b) as [t|]; [|done]. rewrite andb_false_r.
  apply find_none_intro. intros x Hx. apply filter_In in Hx as [_ Hx].
  apply negb_true_iff, bool_decide_eq_false in Hx. by rewrite bool_decide_eq_false_2.
Qed.

Lemma book_table_find_save_ne b i r :
  i <> book_id b -> book_table_find_by_id i (book_table_save b r) = book_table_find_by_id i r.
Proof.
  intros Hne. unfold book_table_find_by_id, book_table_save. cbn [book_rows find].
  rewrite bool_decide_eq_false_2 by congruence. cbn [andb].
  apply find_filter_irrelevant. intros x Hx. apply negb_false_iff, bool_decide_eq_true in Hx.
  rewrite bool_decide_eq_false_2; [done|congruence].
Qed.

Lemma book_table_find_live i r b :
  book_table_find_by_id i r = Some b -> book_id b = i /\ book_deleted_at b = None.
Proof.
  unfold book_table_find_by_id. intros Hf. apply find_some in Hf as [_ Hc].
  apply andb_prop in Hc as [Hi Hl]. apply bool_decide_eq_true in Hi. split; [done|].
  unfold book_live, book_is_deleted in Hl. by destruct (book_deleted_at b).
Qed.

Lemma book_table_find_bulk_delete ids now r i :
  book_table_find_by_id i (book_table_bulk_delete ids now r).2 =
  if bool_decide (i ∈ ids) then None else book_table_find_by_id i r.
Proof.
  destruct r as [rows]. unfold book_table_find_by_id, book_table_bulk_delete. cbn [snd book_rows].
  induction rows as [|x rows IH]; [by case_bool_decide|]. cbn [map find]. rewrite IH.
  destruct (decide (book_id x ∈ ids)) as [Hx|Hx].
  - rewrite (bool_decide_eq_true_2 (book_id x ∈ ids)) by done.
    unfold book_live. rewrite book_mark_as_deleted_is_deleted, andb_false_r.
    by destruct (decide (i ∈ ids)); [rewrite bool_decide_eq_true_2|rewrite bool_decide_eq_false_2, bool_decide_eq_false_2 by congruence].
  - rewrite (bool_decide_eq_false_2 (book_id x ∈ ids)) by done. by case_bool_decide; [case_bool_decide; [congruence|]|].
Qed.

#[export] Instance book_table_laws : BookRepositoryLaws BookTable := {
  book_find_save := book_table_find_save;
  book_find_save_deleted := book_table_find_save_deleted;
  book_find_save_ne := book_table_find_save_ne;
  book_find_live := book_table_find_live;
  book_find_bulk_delete := book_table_find_bulk_delete
}.

(** ** [DeleteBookUseCaseImpl], [BulkDeleteBooksUseCaseImpl], [FindBookByIdUseCaseImpl], [SyncAnnotationsUseCaseImpl] *)

(** [MemoryService.delete_book_memories] ([memory_service.py] is not in
    the repository): the [VectorizationService] method. *)
Definition ms_delete_book_memories (user_id book_id : string) : M World unit :=
  delete_book_memories user_id book_id.

(** [[BookId(book_id) for book_id in book_ids]]: the first invalid id raises. *)
Fixpoint map_res {X Y} (f : X -> res Y) (l : list X) : res (list Y) :=
  match l with
  | [] => Ok []
  | x :: l' => match f x with Err e => Err e | Ok y => match map_res f l' with Err e => Err e | Ok ys => Ok (y :: ys) end end
  end.

(** [book.annotations = [...]]. *)
Definition book_with_annotations (annotations : list Annotation) (b : Book) : Book :=
  mkBook (book_id b) (book_name b) (book_user_id b) (book_file_path b) (book_author b) (book_cover_path b)
         (book_size b) (book_created_at b) (book_updated_at b) (book_deleted_at b) annotations.

Section BookUseCases.
Context `{BookRepository B} `{AnnotationRepository A}.
Context (is_valid_uuid : string -> bool).

(** [path.replace(f"{gcs_url}/{bucket}/", "")], then
    [with contextlib.suppress(Exception): bucket.blob(path).delete()]. *)
Definition delete_book_blob (path : string) : M (BookApp B A) unit :=
  s ← get;
  let blob_name := py_replace path (gcs_prefix (ba_storage s)) "" in
  try_except (in_storage (delete_object blob_name)) (fun _ => mret tt).

(** The file and cover deletions of one book. *)
Definition delete_book_files (book : Book) : M (BookApp B A) unit :=
  (if bool_decide (book_file_path book = "") then mret tt else delete_book_blob (book_file_path book));;
  match book_cover_path book with
  | Some c => if bool_decide (c = "") then mret tt else delete_book_blob c
  | None => mret tt
  end.

(** [DeleteBookUseCaseImpl.execute].  [get_client().bucket(name)]
    builds a bucket handle without a request to the service (the
    client library's [Client.bucket]); [GCSClient] itself is not in the
    repository, and its client is taken to be built, so only the blob
    deletions reach the storage. *)
Definition delete_book (now : Z) (book_id_str : string) : M (BookApp B A) unit :=
  book_id_obj ← lift_res (book_id_mk is_valid_uuid book_id_str);
  s ← get;
  match book_find_by_id book_id_obj (ba_books s) with
  | None => raise (book_not_found book_id_str)
  | Some book =>
      let book := book_mark_as_deleted now book in
      modify_books (book_save book);;
      delete_book_files book;;
      try_except (in_book_world (ms_delete_book_memories (book_user_id book) book_id_str))
        (fun e => in_book_world (log (LogError ("Failed to delete book memories: " +:+ exc_str e))))
  end.

(** [BulkDeleteBooksUseCaseImpl.execute]: the books are looked up one by
    one (no write in between), deleted in one repository call, then
    their files and memories are deleted with every error suppressed. *)
Definition bulk_delete_books (now : Z) (book_ids : list string) : M (BookApp B A) (list string) :=
  match book_ids with
  | [] => mret []
  | _ =>
    book_id_objects ← lift_res (map_res (book_id_mk is_valid_uuid) book_ids);
    s ← get;
    let books_to_delete := omap (fun i => book_find_by_id i (ba_books s)) book_id_objects in
    match books_to_delete with
    | [] => mret []
    | _ =>
      let '(deleted_book_ids, books') := book_bulk_delete (map book_id books_to_delete) now (ba_books s) in
      modify_books (fun _ => books');;
      for_each books_to_delete (fun book =>
        delete_book_files book;;
        try_except (in_book_world (ms_delete_book_memories (book_user_id book) (book_id book)))
          (fun e => in_book_world (log (LogError ("Failed to delete book memories for " +:+ book_id book +:+
                                                  ": " +:+ exc_str e)))));;
      mret deleted_book_ids
    end
  end.

(** [FindBookByIdUseCaseImpl.execute]. *)
Definition find_book_by_id (book_id_str : string) : M (BookApp B A) Book :=
  book_id_obj ← lift_res (book_id_mk is_valid_uuid book_id_str);
  s ← get;
  match book_find_by_id book_id_obj (ba_books s) with
  | None => raise (book_not_found book_id_str)
  | Some book => mret book
  end.

(** [SyncAnnotationsUseCaseImpl.execute]; the request's annotations are
    given already converted. *)
Definition sync_annotations_usecase (book_id_str : string) (annotations : option (list Annotation))
    : M (BookApp B A) unit :=
  book_id_obj ← lift_res (book_id_mk is_valid_uuid book_id_str);
  s ← get;
  match book_find_by_id book_id_obj (ba_books s) with
  | None => raise (book_not_found book_id_str)
  | Some book =>
      let book := match annotations with Some anns => book_with_annotations anns book | None => book end in
      modify_annotations (sync_annotations book)
  end.
End BookUseCases.

(** ** Deleting a book always completes once the book is found *)

Section DeleteBookLaws.
Context `{BookRepositoryLaws B} `{AnnotationRepository A}.
Context (is_valid_uuid : string -> bool).

(** A step that returns normally and leaves the books alone. *)
Definition quiet (m : M (BookApp B A) unit) : Prop :=
  forall s, fst (m s) = Ok tt /\ ba_books (snd (m s)) = ba_books s.

Lemma quiet_seq (m k : M (BookApp B A) unit) : quiet m -> quiet k -> quiet (m;; k).
Proof.
  intros Hm Hk s. unfold mbind, M_bind. destruct (Hm s) as [Hr Hb].
  destruct (m s) as [r s1]. cbn in Hr, Hb. subst r. destruct (Hk s1) as [Hr2 Hb2]. by rewrite Hr2, Hb2.
Qed.

Lemma mret_quiet : quiet (mret tt).
Proof. done. Qed.

Lemma delete_book_blob_quiet path : quiet (delete_book_blob path).
Proof.
  intros s. unfold delete_book_blob. rewrite get_bind. cbv zeta. unfold try_except, in_storage.
  by destruct (delete_object _ (ba_storage s)) as [[[]|e] st'].
Qed.

Lemma delete_book_files_quiet book : quiet (delete_book_files book).
Proof.
  unfold delete_book_files. apply quiet_seq.
  - case_bool_decide; [apply mret_quiet|apply delete_book_blob_quiet].
  - destruct (book_cover_path book) as [c|]; [case_bool_decide|]; auto using mret_quiet, delete_book_blob_quiet.
Qed.

Lemma memories_step_quiet (m : M World unit) (h : Exc -> M World unit) :
  (forall e w, fst (h e w) = Ok tt) -> quiet (try_except (in_book_world m) (fun e => in_book_world (h e))).
Proof.
  intros Hh s. unfold try_except, in_book_world. destruct (m (ba_world s)) as [[[]|e] w']; [done|].
  cbn. pose proof (Hh e w') as He. destruct (h e w') as [r w'']. cbn in *. by subst r.
Qed.

(** [DeleteBookUseCaseImpl.execute]: an invalid id raises
    [ValueError] and a missing book [BookNotFoundException], changing
    nothing; a found book is marked deleted, is no longer found, leaves
    every other book as it was, and the call returns normally whatever
    the blob storage and the vector store do. *)
Lemma delete_book_correct now book_id_str (s : BookApp B A) :
  match book_id_mk is_valid_uuid book_id_str with
  | Err e => delete_book is_valid_uuid now book_id_str s = (Err e, s)
  | Ok i =>
      match book_find_by_id i (ba_books s) with
      | None => delete_book is_valid_uuid now book_id_str s = (Err (book_not_found book_id_str), s)
      | Some _ =>
          exists s', delete_book is_valid_uuid now book_id_str s = (Ok tt, s') /\
            book_find_by_id i (ba_books s') = None /\
            forall j, j <> i -> book_find_by_id j (ba_books s') = book_find_by_id j (ba_books s)
      end
  end.
Proof.
  unfold delete_book. destruct (book_id_mk is_valid_uuid book_id_str) as [i|e];
    [rewrite lift_res_bind_ok|by rewrite lift_res_bind_err].
  rewrite get_bind. destruct (book_find_by_id i (ba_books s)) as [b|] eqn:Hf; [|done].
  destruct (book_find_live i _ b Hf) as [Hid Hlive].
  cbv zeta. unfold modify_books. rewrite modify_bind. cbv beta.
  set (b' := book_mark_as_deleted now b).
  set (s1 := mkBookApp (ba_world s) (book_save b' (ba_books s)) (ba_annotations s) (ba_storage s)).
  assert (Hq : quiet (delete_book_files b';;
                      try_except (in_book_world (ms_delete_book_memories (book_user_id b') book_id_str))
                        (fun e => in_book_world (log (LogError ("Failed to delete book memories: " +:+ exc_str e)))))).
  { apply quiet_seq; [apply delete_book_files_quiet|apply memories_step_quiet]. by intros e w. }
  destruct (Hq s1) as [Hr Hb]. revert Hr Hb.
  lazymatch goal with |- _ -> _ -> exists s', ?m s1 = _ /\ _ => destruct (m s1) as [r s2] end.
  cbn [fst snd]. intros -> Hb. exists s2. split; [done|].
  assert (Hb'id : book_id b' = i) by (unfold b', book_mark_as_deleted; by rewrite Hlive).
  rewrite Hb. cbn [ba_books s1]. split.
  - rewrite <- Hb'id. apply book_find_save_deleted. unfold b', book_mark_as_deleted. by rewrite Hlive.
  - intros j Hj. apply book_find_save_ne. congruence.
Qed.
End DeleteBookLaws.

(** ** Concrete runs *)

(** The annotation repository of the examples: the books synced, newest first. *)
#[export] Instance synced_books_repository : AnnotationRepository (list Book) := {
  sync_annotations b l := b :: l
}.

(** Library stand-ins for the examples: every string decodes to itself,
    no metadata parses, and only ["bad"] is not a UUID. *)
Definition example_b64decode (s : string) : res string := Ok s.
Definition example_json_loads (_ : string) : option JsonDoc := None.
Definition example_is_valid_uuid (s : string) : bool := negb (String.eqb s "bad").

Definition example_storage : Storage := mkStorage {[ "other" := "x" ]} [] "https://storage.googleapis.com" "bucket".

Definition example_book (id : string) : Book :=
  book_create id "Dune" "u" ("https://storage.googleapis.com/bucket/books/u/" +:+ id +:+ "/book.epub")
    None None 3 0.

Definition example_book_app : BookApp BookTable (list Book) :=
  mkBookApp empty_world (mkBookTable [example_book "b1"; example_book "b2"]) [] example_storage.

(** A title of 101 characters. *)
Definition example_long_name : string := String.concat "" (repeat "x" 101).

Definition example_create_fails : res Book * BookApp BookTable (list Book) :=
  create_book example_b64decode example_json_loads "b3" 0 "u" example_long_name "epub" None
    (Some "data:image/png;base64,QUJD") None example_book_app.

Lemma create_book_frame_witness :
  st_blobs (ba_storage (snd example_create_fails)) !! "other" = Some "x".
Proof.
  apply (create_book_frame example_b64decode example_json_loads "b3" 0 "u" example_long_name "epub" None
           (Some "data:image/png;base64,QUJD") None example_book_app "other");
    unfold epub_blob, cover_blob, book_base_path; simpl; discriminate.
Defined.

Lemma create_book_rollback_witness :
  st_blobs (ba_storage (snd example_create_fails)) = st_blobs (ba_storage example_book_app).
Proof.
  refine (proj1 (create_book_rollback example_b64decode example_json_loads "b3" 0 "u" example_long_name "epub"
                   None (Some "data:image/png;base64,QUJD") None example_book_app
                   (ValueError "Title must be 100 characters or less") (snd example_create_fails) _ _ _ _));
    [reflexivity|reflexivity|reflexivity|].
  vm_compute. reflexivity.
Defined.

