(* ===== verification/BookTyping.v ===== *)
(** * BookTyping: every book the use cases store has a valid title

    [Book.name] has the value-object type [BookTitle], whose
    [__post_init__] admits the non-empty titles of at most 100 code
    points.  The model keeps the name as a string, so the type is an
    invariant of the repository: every book [find_by_id] returns has a
    title [BookTitle] accepts.  [CreateBookUseCaseImpl.execute] builds
    the title with [BookTitle(...)] before it saves; the deletions only
    hide books, and the annotation sync does not touch the books.
    [book_step] is one call of a use case that writes, and the
    invariant holds in every state they reach. *)

From S2P Require Import Prelude Store BookDomain Annotations Books.

Section Typing.
Context `{BookRepositoryLaws B} `{AnnotationRepository A}.

(** [BookTitle(book.name)] returns the name. *)
Definition title_ok (b : Book) : Prop := book_title_mk (book_name b) = Ok (book_name b).

Definition books_typed (r : B) : Prop := forall i b, book_find_by_id i r = Some b -> title_ok b.

Definition typed_app (s : BookApp B A) : Prop := books_typed (ba_books s).

(** The same, for the use case's state beside its [uploaded_files]. *)
Definition typed_uploads (sl : BookApp B A * list string) : Prop := typed_app sl.1.

(** ** The repository keeps the type *)

(** A title [BookTitle] returned is one it accepts again. *)
Lemma book_title_mk_stable v w : book_title_mk v = Ok w -> book_title_mk w = Ok w.
Proof.
  unfold book_title_mk. case_bool_decide as He; [done|].
  destruct (Nat.ltb 100 (py_len v)) eqn:Hl; [done|]. intros [= <-].
  by rewrite bool_decide_eq_false_2, Hl.
Qed.

Lemma books_typed_save b r :
  books_typed r -> (book_deleted_at b = None -> title_ok b) -> books_typed (book_save b r).
Proof.
  intros Hr Hb i b' Hf. destruct (decide (i = book_id b)) as [->|Hne].
  - destruct (book_deleted_at b) eqn:Hd.
    + by rewrite book_find_save_deleted in Hf by congruence.
    + rewrite book_find_save in Hf by done. injection Hf as <-. by apply Hb.
  - rewrite book_find_save_ne in Hf by done. by apply (Hr i).
Qed.

Lemma books_typed_bulk_delete ids now r : books_typed r -> books_typed (book_bulk_delete ids now r).2.
Proof. intros Hr i b. rewrite book_find_bulk_delete. case_bool_decide; [done|]. apply Hr. Qed.

(** ** Steps that leave the books alone *)

Lemma in_storage_typed {X} (m : M Storage X) : preserves typed_app (in_storage m).
Proof. intros s Hs. unfold in_storage. by destruct (m (ba_storage s)). Qed.

Lemma in_book_world_typed {X} (m : M World X) : preserves typed_app (in_book_world m).
Proof. intros s Hs. unfold in_book_world. by destruct (m (ba_world s)). Qed.

Lemma modify_annotations_typed f : preserves typed_app (modify_annotations f).
Proof. by intros s. Qed.

Lemma lift_app_typed {X} (m : M (BookApp B A) X) : preserves typed_app m -> preserves typed_uploads (lift_app m).
Proof. intros Hm [s l] Hs. specialize (Hm s Hs). unfold lift_app. cbn. by destruct (m s). Qed.

Lemma record_upload_typed n : preserves typed_uploads (record_upload n).
Proof. by intros [s l]. Qed.

Lemma uploaded_files_typed : preserves typed_uploads uploaded_files.
Proof. by intros [s l]. Qed.

Lemma with_uploads_typed {X} (m : M (BookApp B A * list string) X) :
  preserves typed_uploads m -> preserves typed_app (with_uploads m).
Proof. intros Hm s Hs. specialize (Hm (s, []) Hs). unfold with_uploads. by destruct (m (s, [])). Qed.

(** Saving a book whose title is checked, or that is deleted. *)
Lemma modify_books_save_typed b :
  (book_deleted_at b = None -> title_ok b) -> preserves typed_app (modify_books (book_save b)).
Proof. intros Hb s Hs. by apply books_typed_save. Qed.

#[local] Hint Resolve in_storage_typed in_book_world_typed modify_annotations_typed lift_app_typed
  record_upload_typed uploaded_files_typed : pydb.

Lemma rollback_storage_typed files : preserves typed_app (rollback_storage files).
Proof. unfold rollback_storage. solve_preserves. Qed.

Lemma delete_book_files_typed book : preserves typed_app (delete_book_files book).
Proof. unfold delete_book_files, delete_book_blob. solve_preserves. Qed.

#[local] Hint Resolve rollback_storage_typed delete_book_files_typed : pydb.

(** ** Each use case keeps the type *)

Lemma create_book_typed b64decode json_loads book_id_value now user_id file_name file_data
    book_name cover_image book_metadata :
  preserves typed_app (create_book b64decode json_loads book_id_value now user_id file_name file_data
                         book_name cover_image book_metadata).
Proof.
  unfold create_book. apply bind_preserves; [apply lift_res_preserves|]. intros data.
  apply with_uploads_typed, try_except_preserves.
  - unfold create_book_try, save_cover. cbv zeta.
    do 3 (apply bind_preserves; [solve_preserves|intros ?]).
    eapply bind_preserves_hoare; [apply hoare_lift_res; intros name Hn; exact Hn|].
    intros name Hname. apply bind_preserves; [apply lift_res_preserves|]. intros author.
    apply bind_preserves; [|intros; apply mret_preserves].
    apply lift_app_typed, modify_books_save_typed. intros _. exact (book_title_mk_stable _ _ Hname).
  - intros e. unfold create_book_except. solve_preserves.
Qed.

Lemma delete_book_typed is_valid_uuid now book_id_str :
  preserves typed_app (delete_book is_valid_uuid now book_id_str).
Proof.
  unfold delete_book. solve_preserves.
  apply modify_books_save_typed. intros Hd. exfalso.
  pose proof (book_mark_as_deleted_is_deleted now b) as Hdel. unfold book_is_deleted in Hdel. by rewrite Hd in Hdel.
Qed.

Lemma bulk_delete_books_typed is_valid_uuid now book_ids :
  preserves typed_app (bulk_delete_books is_valid_uuid now book_ids).
Proof.
  unfold bulk_delete_books. destruct book_ids as [|i ids]; [apply mret_preserves|].
  apply bind_preserves; [apply lift_res_preserves|]. intros objs.
  apply (bind_preserves_hoare _ _ _ typed_app); [by apply hoare_get|]. intros s Hs.
  destruct (omap _ _) as [|b bs]; [apply mret_preserves|].
  destruct (book_bulk_delete _ now (ba_books s)) as [deleted books'] eqn:Hbd.
  apply bind_preserves; [|intros; solve_preserves].
  intros s' _. unfold typed_app. cbn. pose proof (books_typed_bulk_delete (map book_id (b :: bs)) now _ Hs) as Ht.
  by rewrite Hbd in Ht.
Qed.

Lemma sync_annotations_usecase_typed is_valid_uuid book_id_str annotations :
  preserves typed_app (sync_annotations_usecase is_valid_uuid book_id_str annotations).
Proof. unfold sync_annotations_usecase. solve_preserves. Qed.

(** ** The writing use cases, as steps of the application *)

Inductive book_step : BookApp B A -> BookApp B A -> Prop :=
| step_create_book b64decode json_loads book_id_value now user_id file_name file_data book_name cover_image
    book_metadata s :
    book_step s (snd (create_book b64decode json_loads book_id_value now user_id file_name file_data
                        book_name cover_image book_metadata s))
| step_delete_book is_valid_uuid now book_id_str s :
    book_step s (snd (delete_book is_valid_uuid now book_id_str s))
| step_bulk_delete_books is_valid_uuid now book_ids s :
    book_step s (snd (bulk_delete_books is_valid_uuid now book_ids s))
| step_sync_annotations is_valid_uuid book_id_str annotations s :
    book_step s (snd (sync_annotations_usecase is_valid_uuid book_id_str annotations s)).

Lemma book_step_typed s s' : typed_app s -> book_step s s' -> typed_app s'.
Proof.
  intros Hs Hstep. revert Hs. destruct Hstep; intros Hs.
  - by apply create_book_typed.
  - by apply delete_book_typed.
  - by apply bulk_delete_books_typed.
  - by apply sync_annotations_usecase_typed.
Qed.

(** Every book the repository returns has a title [BookTitle] accepts,
    in every state the writing use cases reach from a state where this
    holds, whatever the storage and the vector store do and whether the
    use cases return or raise: the use cases never bypass the type
    pydantic gives [Book.name]. *)
Lemma books_typed_reachable s0 s : typed_app s0 -> rtc book_step s0 s -> typed_app s.
Proof. intros Hs0 Hr. induction Hr as [|x y z Hxy _ IH]; [done|]. eauto using book_step_typed. Qed.
End Typing.

(** ** On the reference table *)

Lemma book_table_typed (rows : list Book) :
  Forall title_ok rows -> books_typed (mkBookTable rows).
Proof.
  intros Hrows i b Hf. cbn in Hf. unfold book_table_find_by_id in Hf. cbn in Hf.
  apply find_some in Hf as [Hin _]. rewrite Forall_forall in Hrows. by apply Hrows, list_elem_of_In.
Qed.

Lemma example_books_typed :
  @typed_app BookTable _ (list Book)
    (snd (delete_book example_is_valid_uuid 5 "b1"
            (snd (create_book example_b64decode example_json_loads "b3" 4 "u" "Dune.epub" "data"
                    None None None example_book_app)))).
Proof.
  apply (books_typed_reachable example_book_app).
  - apply book_table_typed. repeat constructor.
  - eapply rtc_l; [apply step_create_book|]. eapply rtc_l; [apply step_delete_book|]. apply rtc_refl.
Qed.
