(* ===== verification/Retrieval.v ===== *)
(** * Retrieval: [MemoryRetrievalService] of [infrastructure/memory/memory_retrieval_service.py]

    [search_relevant_memories] embeds the query and asks the chat memory
    store for the nearest message and summary records of the chat (3 by
    default); any exception on the way is logged and turns into an empty
    list.  [format_memory_item] renders one record for the prompt, with
    its certainty to two decimals. *)

From S2P Require Import Prelude Retry Store Base ChatMemory.

(** [search_relevant_memories]. *)
Definition search_relevant_memories (user_id chat_id query : string) (chat_limit : option nat)
    : M World (list Item) :=
  let limit := default 3 chat_limit in
  try_except
    (query_vector ← encode_text query;
     search_chat_memories user_id chat_id query_vector limit)
    (fun e => log (LogError ("Error occurred during memory search: " +:+ exc_str e));; mret []).

(** [f"{certainty:.2f}"] of a certainty in units of [1 / dist_one]:
    rounded half to even at the hundredths, like Python's formatting. *)
Definition format_2f (c : Z) : string :=
  let a := Z.abs c in
  let q := (a / 10000)%Z in
  let r := (a mod 10000)%Z in
  let h := if (5000 <? r)%Z || ((r =? 5000)%Z && Z.odd q) then (q + 1)%Z else q in
  (if (c <? 0)%Z then "-" else "") +:+ pretty (Z.to_nat (h / 100)) +:+ "." +:+ pad_digits 2 (h mod 100)%Z.

(** [format_memory_item]. *)
Definition format_memory_item (memory : Item) (prefix : string) : string :=
  let content := item_str "content" "N/A" memory in
  let formatted := prefix +:+ content in
  match item_additional memory with
  | Some (_, certainty) => formatted +:+ " (relevance: " +:+ format_2f certainty +:+ ")"
  | None => formatted
  end.

Lemma search_relevant_memories_no_raise user_id chat_id query chat_limit :
  no_raise (search_relevant_memories user_id chat_id query chat_limit).
Proof. unfold search_relevant_memories. solve_no_raise. Qed.

(** Retrieval is advisory: [search_relevant_memories] never raises;
    whatever the embedding model and the store do, it returns a list. *)
Lemma search_relevant_memories_never_raises user_id chat_id query chat_limit w :
  is_ok (fst (search_relevant_memories user_id chat_id query chat_limit w)) = true.
Proof. apply search_relevant_memories_no_raise. Qed.
