(* ===== verification/PromptBuilder.v ===== *)
(** * PromptBuilder: [PromptBuilderService] of [infrastructure/memory/prompt_builder_service.py]

    [build_memory_prompt] retrieves the related memories of the chat and
    assembles the prompt from four parts: the fixed system instruction,
    the retrieved memories (if any), the recent messages (if any) and
    the ["User: ..."] suffix, joined by newlines.  When the token
    estimate of the whole exceeds 8192, the middle parts are cut to an
    equal share of what the first and last parts leave.  Tokens are
    counted with the [cl100k_base] encoding when [tiktoken] loaded, and
    as [len(text) // 4] otherwise; [TIKTOKEN_ENCODING] is a module
    global, here the argument [enc].  The fallback estimator counts
    code points ([py_len] of the UTF-8 bytes), as Python's [len] does. *)

From S2P Require Import Prelude Domain Retry Store Base ChatMemory Summarization Retrieval.

(** A [tiktoken] encoding: text to token ids and back. *)
Record Encoding := mkEncoding { encode : string -> list Z; decode : list Z -> string }.

Definition MAX_TOKENS : Z := 8192.

(** [_estimate_tokens]. *)
Definition estimate_tokens (enc : option Encoding) (text : string) : Z :=
  match enc with
  | Some e => Z.of_nat (length (encode e text))
  | None => (Z.of_nat (py_len text) / 4)%Z
  end.

(** [_truncate_text_to_tokens]. *)
Definition truncate_text_to_tokens (enc : option Encoding) (text : string) (max_tokens : Z) : string :=
  match enc with
  | Some e =>
      let tokens := encode e text in
      if (Z.of_nat (length tokens) <=? max_tokens)%Z then text
      else decode e (take (Z.to_nat max_tokens) tokens) +:+ "..."
  | None =>
      let max_chars := (max_tokens * 4)%Z in
      if (Z.of_nat (py_len text) <=? max_chars)%Z then text
      else py_take (Z.to_nat max_chars) text +:+ "..."
  end.

(** [_apply_token_limit]: [prompt_parts[0]] of an empty list raises. *)
Definition apply_token_limit (enc : option Encoding) (full_prompt : string) (prompt_parts : list string)
    : res string :=
  if (estimate_tokens enc full_prompt <=? MAX_TOKENS)%Z then Ok full_prompt else
  match prompt_parts with
  | [] => Err (IndexError "list index out of range")
  | first :: _ =>
    let final := List.last prompt_parts first in
    let remain_tokens := (MAX_TOKENS - estimate_tokens enc (first +:+ final))%Z in
    match drop 1 (removelast prompt_parts) with
    | [] => Ok full_prompt
    | middle =>
        let per_part := Z.max (remain_tokens / Z.of_nat (length middle)) 1 in
        let truncated := map (fun p => truncate_text_to_tokens enc p per_part) middle in
        Ok (first +:+ NL +:+ py_join NL truncated +:+ final)
    end
  end.

Definition system_prompt : string :=
  "Please answer the question considering the user's profile information, past conversations, and recent chat history. " +:+
  "Strive to provide consistent and personalized responses while utilizing the provided information.".

(** The label of a retrieved memory: the code asks the result dict for
    a ["type"] key. *)
Definition memory_prefix (mem : Item) : string :=
  "[Past " +:+ (if bool_decide (item_props mem !! "type" = Some (VStr "message")) then "message" else "summary")
  +:+ " by " +:+
  (if bool_decide (item_props mem !! "sender" = Some (VStr "user")) then "User"
   else if bool_decide (item_props mem !! "sender" = Some (VStr "assistant")) then "AI" else "System")
  +:+ "]: ".

Definition history_line (msg : Message) : string :=
  (if bool_decide (msg_sender_type msg = SUser) then "User" else "AI") +:+ ": " +:+ msg_content msg.

Definition query_suffix (user_query : string) : string := NL +:+ "User: " +:+ user_query +:+ NL +:+ "AI:".

(** The block of retrieved memories. *)
Definition memory_block (chat_memories : list Item) : list string :=
  match chat_memories with
  | [] => []
  | _ => [NL +:+ "--- Related Past Conversations ---" +:+ NL +:+
          py_join NL (map (fun mem => format_memory_item mem (memory_prefix mem)) chat_memories)]
  end.

(** The messages the history block lists: [reversed(buffer)], deleted
    ones left out. *)
Definition history_messages (buffer : list Message) : list Message :=
  List.filter (fun m => negb (message_is_deleted m)) (rev buffer).

Definition history_block (buffer : list Message) : list string :=
  match buffer with
  | [] => []
  | _ => [NL +:+ "--- Recent Chat History (Oldest First) ---" +:+ NL +:+
          py_join NL (map history_line (history_messages buffer))]
  end.

(** The parts of [_create_memory_prompt], in order. *)
Definition prompt_parts (buffer : list Message) (chat_memories : list Item) (user_query : string)
    : list string :=
  system_prompt :: (memory_block chat_memories ++ history_block buffer) ++ [query_suffix user_query].

(** [_create_memory_prompt]. *)
Definition create_memory_prompt (enc : option Encoding) (buffer : list Message)
    (chat_memories : list Item) (user_query : string) : res string :=
  let parts := prompt_parts buffer chat_memories user_query in
  apply_token_limit enc (py_join NL parts) parts.

(** [build_memory_prompt]. *)
Definition build_memory_prompt (enc : option Encoding) (buffer : list Message)
    (user_query user_id chat_id : string) : M World string :=
  chat_memories ← search_relevant_memories user_id chat_id user_query None;
  match create_memory_prompt enc buffer chat_memories user_query with
  | Ok p => mret p
  | Err e => raise e
  end.

(** ** The shape of the prompt *)

(** [_apply_token_limit] on parts [first :: middle ++ [final]], its
    index arithmetic done. *)
Lemma apply_token_limit_parts enc first middle final :
  apply_token_limit enc (py_join NL (first :: middle ++ [final])) (first :: middle ++ [final]) =
  if (estimate_tokens enc (py_join NL (first :: middle ++ [final])) <=? MAX_TOKENS)%Z
  then Ok (py_join NL (first :: middle ++ [final])) else
  match middle with
  | [] => Ok (py_join NL (first :: middle ++ [final]))
  | _ =>
    let per_part := Z.max ((MAX_TOKENS - estimate_tokens enc (first +:+ final)) /
                           Z.of_nat (length middle)) 1 in
    Ok (first +:+ NL +:+ py_join NL (map (fun p => truncate_text_to_tokens enc p per_part) middle)
         +:+ final)
  end.
Proof.
  unfold apply_token_limit. destruct (_ <=? _)%Z; [done|].
  replace (List.last _ first) with final by (rewrite app_comm_cons; symmetry; apply List.last_last).
  replace (removelast _) with (first :: middle) by (rewrite app_comm_cons; symmetry; apply removelast_last).
  cbn [drop]. by destruct middle.
Qed.

(** The prompt always starts with the system instruction and ends
    with the ["User: <query>" / "AI:"] suffix, whatever the token
    limit cuts from the memories and the history in between. *)
Lemma create_memory_prompt_frame enc buffer chat_memories user_query :
  exists mid, create_memory_prompt enc buffer chat_memories user_query =
              Ok (system_prompt +:+ mid +:+ query_suffix user_query).
Proof.
  unfold create_memory_prompt, prompt_parts. rewrite apply_token_limit_parts.
  destruct (py_join_frame NL system_prompt (memory_block chat_memories ++ history_block buffer)
              (query_suffix user_query)) as [mid Hmid].
  rewrite Hmid. destruct (_ <=? _)%Z; [exists mid; reflexivity|].
  destruct (memory_block chat_memories ++ history_block buffer); [exists mid; reflexivity|].
  cbv zeta. eexists (NL +:+ _). rewrite str_app_assoc. reflexivity.
Qed.

(** Under the budget the prompt is the parts joined by newlines. *)
Lemma create_memory_prompt_under_budget enc buffer chat_memories user_query :
  (estimate_tokens enc (py_join NL (prompt_parts buffer chat_memories user_query)) <= MAX_TOKENS)%Z ->
  create_memory_prompt enc buffer chat_memories user_query =
  Ok (py_join NL (prompt_parts buffer chat_memories user_query)).
Proof. intros Hle. unfold create_memory_prompt, apply_token_limit. by rewrite (proj2 (Z.leb_le _ _) Hle). Qed.

(** The parts always have a first and a last element, so the index
    arithmetic of [_apply_token_limit] never fails. *)
Lemma create_memory_prompt_ok enc buffer chat_memories user_query :
  is_ok (create_memory_prompt enc buffer chat_memories user_query) = true.
Proof.
  unfold create_memory_prompt, prompt_parts. rewrite apply_token_limit_parts.
  destruct (_ <=? _)%Z; [done|]. by destruct (memory_block chat_memories ++ history_block buffer).
Qed.

Lemma build_memory_prompt_no_raise enc buffer user_query user_id chat_id :
  no_raise (build_memory_prompt enc buffer user_query user_id chat_id).
Proof.
  unfold build_memory_prompt. apply no_raise_bind; [apply search_relevant_memories_no_raise|].
  intros ms. pose proof (create_memory_prompt_ok enc buffer ms user_query) as Hok.
  destruct (create_memory_prompt enc buffer ms user_query); [apply no_raise_ret|done].
Qed.

(** ** The token budget under the fallback estimator *)

Lemma truncate_fallback_le text per :
  (0 <= per)%Z ->
  (Z.of_nat (py_len (truncate_text_to_tokens None text per)) <= 4 * per + 3)%Z.
Proof.
  intros Hper. cbn [truncate_text_to_tokens].
  destruct (Z.leb_spec (Z.of_nat (py_len text)) (per * 4)); [lia|].
  rewrite py_len_app, py_take_len. change (py_len "...") with 3. lia.
Qed.

(** Text longer than the share is cut to exactly [4 * per] characters
    and the three dots. *)
Lemma truncate_fallback_cut text per :
  (0 <= per)%Z -> (4 * per < Z.of_nat (py_len text))%Z ->
  Z.of_nat (py_len (truncate_text_to_tokens None text per)) = (4 * per + 3)%Z.
Proof.
  intros Hper Hlt. cbn [truncate_text_to_tokens].
  destruct (Z.leb_spec (Z.of_nat (py_len text)) (per * 4)); [lia|].
  rewrite py_len_app, py_take_len. change (py_len "...") with 3. lia.
Qed.

(** The length of the cut prompt: the fixed parts, one newline after the
    first, the cut parts and the newlines between them. *)
Lemma cut_prompt_length first middle final per :
  middle <> [] ->
  Z.of_nat (py_len (first +:+ NL +:+
      py_join NL (map (fun p => truncate_text_to_tokens None p per) middle) +:+ final)) =
  (Z.of_nat (py_len first + py_len final) + Z.of_nat (length middle) +
   Z.of_nat (py_len_sum (map (fun p => truncate_text_to_tokens None p per) middle)))%Z.
Proof.
  intros Hne. rewrite !py_len_app, py_join_len, length_map.
  rewrite py_len_NL. destruct middle as [|x l]; [done|]. cbn [length]. lia.
Qed.

Lemma estimate_fallback_app a b :
  estimate_tokens None (a +:+ b) = (Z.of_nat (py_len a + py_len b) / 4)%Z.
Proof. cbn [estimate_tokens]. by rewrite py_len_app. Qed.

(** The arithmetic of the cut: [k] parts of at most [4 * per + 3]
    characters each, with [k * per] within what the fixed parts leave. *)
Lemma fallback_budget_arith (a k per tot : Z) :
  (0 <= a -> 0 < k -> k <= MAX_TOKENS - a / 4 ->
   per = Z.max ((MAX_TOKENS - a / 4) / k) 1 -> tot <= k * (4 * per + 3) ->
   (a + k + tot) / 4 <= MAX_TOKENS + k)%Z.
Proof.
  unfold MAX_TOKENS. intros Ha Hk Hrem -> Htot.
  assert (Hkp : (k * Z.max ((8192 - a / 4) / k) 1 <= 8192 - a / 4)%Z).
  { destruct (Z.max_spec ((8192 - a / 4) / k) 1) as [[_ ->]|[_ ->]]; [lia|].
    apply Z.mul_div_le. lia. }
  remember (Z.max ((8192 - a / 4) / k) 1) as per.
  assert (Htot' : (tot <= 4 * (k * per) + 3 * k)%Z) by lia.
  enough ((a + k + tot) / 4 < 8192 + k + 1)%Z by lia.
  apply Z.div_lt_upper_bound; [lia|]. pose proof (Z.mul_div_le a 4). pose proof (Z.mod_pos_bound a 4).
  pose proof (Z.div_mod a 4). lia.
Qed.

(** The estimate of the cut prompt, without [tiktoken]. *)
Lemma cut_prompt_estimate first middle final :
  middle <> [] ->
  (Z.of_nat (length middle) <= MAX_TOKENS - estimate_tokens None (first +:+ final))%Z ->
  (estimate_tokens None (first +:+ NL +:+
     py_join NL (map (fun p => truncate_text_to_tokens None p
                      (Z.max ((MAX_TOKENS - estimate_tokens None (first +:+ final)) /
                              Z.of_nat (length middle)) 1)) middle) +:+ final)
   <= MAX_TOKENS + Z.of_nat (length middle))%Z.
Proof.
  intros Hne Hk. rewrite (estimate_fallback_app first final) in *.
  cbn [estimate_tokens]. rewrite cut_prompt_length by done.
  eapply fallback_budget_arith; [lia| |exact Hk|reflexivity|].
  - destruct middle; [done|]. cbn [length]. lia.
  - apply py_len_sum_map_le. intros x _. apply truncate_fallback_le. lia.
Qed.

(** (C26) Without [tiktoken], when the prompt has a memory or history
    block and the fixed parts leave at least one token per block, the
    prompt [_apply_token_limit] returns is estimated at most
    [8192 + k] tokens for its [k] blocks (so at most 8194): the cut
    overshoots the limit by at most one token per block. *)
Theorem create_memory_prompt_fallback_bound buffer chat_memories user_query p :
  create_memory_prompt None buffer chat_memories user_query = Ok p ->
  memory_block chat_memories ++ history_block buffer <> [] ->
  (Z.of_nat (length (memory_block chat_memories ++ history_block buffer)) <=
     MAX_TOKENS - estimate_tokens None (system_prompt +:+ query_suffix user_query))%Z ->
  (estimate_tokens None p <=
     MAX_TOKENS + Z.of_nat (length (memory_block chat_memories ++ history_block buffer)))%Z.
Proof.
  unfold create_memory_prompt, prompt_parts. rewrite apply_token_limit_parts.
  remember (memory_block chat_memories ++ history_block buffer) as middle eqn:Hm.
  intros Hp Hne Hk. destruct (_ <=? MAX_TOKENS)%Z eqn:Hle.
  - apply Ok_inj in Hp as <-. apply Z.leb_le in Hle. lia.
  - destruct middle as [|b bs]; [done|].
    apply Ok_inj in Hp as <-. by apply cut_prompt_estimate.
Qed.

(** With one block cut, the cut prompt's character count is [4 * 8192 + 4]
    plus what the division of the fixed parts by 4 left over. *)
Lemma fallback_overshoot_arith (a : Z) :
  (0 <= a -> (a + 1 + (4 * (MAX_TOKENS - a / 4) + 3)) / 4 = MAX_TOKENS + 1)%Z.
Proof. unfold MAX_TOKENS. intros Ha. Z.div_mod_to_equations. lia. Qed.

(** (C27) The budget is never met when a single block is cut.  Without
    [tiktoken], when the prompt has a history block and no memories, is
    over the 8192-token budget, and the history block is longer than the
    [4 * remain] characters the fixed parts leave, the returned prompt is
    estimated at exactly 8193 tokens: one more than the limit the
    truncation is meant to enforce. *)
Theorem create_memory_prompt_fallback_overshoot buffer h user_query p :
  history_block buffer = [h] ->
  create_memory_prompt None buffer [] user_query = Ok p ->
  (MAX_TOKENS < estimate_tokens None (py_join NL (prompt_parts buffer [] user_query)))%Z ->
  (1 <= MAX_TOKENS - estimate_tokens None (system_prompt +:+ query_suffix user_query))%Z ->
  (4 * (MAX_TOKENS - estimate_tokens None (system_prompt +:+ query_suffix user_query)) <
     Z.of_nat (py_len h))%Z ->
  estimate_tokens None p = (MAX_TOKENS + 1)%Z.
Proof.
  unfold create_memory_prompt. intros Hh Hp Hover Hrem Hlong.
  unfold prompt_parts in Hp, Hover. rewrite apply_token_limit_parts in Hp.
  cbn [memory_block app] in Hp, Hover. rewrite Hh in Hp, Hover.
  rewrite (proj2 (Z.leb_gt _ _) Hover) in Hp. apply Ok_inj in Hp as <-.
  rewrite (estimate_fallback_app system_prompt (query_suffix user_query)) in *.
  cbn [estimate_tokens]. rewrite cut_prompt_length by done. unfold py_len_sum. cbn [length map foldr].
  rewrite Z.div_1_r, Z.max_l by lia.
  rewrite Nat.add_0_r, truncate_fallback_cut by lia.
  apply fallback_overshoot_arith. lia.
Qed.

(** ** The labels of retrieved memories *)

(** The search asks for [search_return_properties], which has no
    ["type"]. *)
Lemma hit_item_no_type hit : item_props (hit_item search_return_properties hit) !! "type" = None.
Proof.
  unfold hit_item, restrict. cbn [item_props]. apply map_lookup_filter_None_2. right.
  intros x _. cbn. apply (bool_decide_eq_false_1 _). vm_compute. reflexivity.
Qed.

Lemma search_chat_memories_no_type user_id chat_id qv limit :
  hoare (fun _ => True) (search_chat_memories user_id chat_id qv limit)
    (Forall (fun m => item_props m !! "type" = None)).
Proof.
  unfold search_chat_memories, retry_default.
  apply retry_on_error_hoare; [|auto with pydb].
  eapply hoare_bind; [apply (remote_returns _ (fun _ => True)); done|].
  intros hits _. apply hoare_ret. apply Forall_map, Forall_forall. intros hit _. apply hit_item_no_type.
Qed.

Lemma search_relevant_memories_no_type user_id chat_id query chat_limit :
  hoare (fun _ => True) (search_relevant_memories user_id chat_id query chat_limit)
    (Forall (fun m => item_props m !! "type" = None)).
Proof.
  unfold search_relevant_memories. apply hoare_try.
  - eapply hoare_bind; [apply hoare_preserves; auto with pydb|].
    intros qv _. apply search_chat_memories_no_type.
  - intros e. eapply hoare_bind; [apply hoare_preserves; auto with pydb|].
    intros _ _. by apply hoare_ret.
Qed.

Lemma memory_prefix_no_type mem :
  item_props mem !! "type" = None ->
  exists who, memory_prefix mem = "[Past summary by " +:+ who +:+ "]: ".
Proof.
  intros Hnone. unfold memory_prefix. rewrite Hnone.
  rewrite bool_decide_eq_false_2 by done. eexists. reflexivity.
Qed.

(** (C28) Every retrieved memory is labelled a summary.  The prompt
    labels a memory ["message"] when its result dict has [type ==
    'message'], but the search returns the stored [memory_type] and never
    a ["type"] key, so every memory [search_relevant_memories] returns,
    message records included, is introduced as ["[Past summary by ...]"]. *)
Theorem retrieved_memories_labelled_summary user_id chat_id query chat_limit w ms :
  fst (search_relevant_memories user_id chat_id query chat_limit w) = Ok ms ->
  Forall (fun m => exists who, memory_prefix m = "[Past summary by " +:+ who +:+ "]: ") ms.
Proof.
  intros Hms.
  destruct (search_relevant_memories_no_type user_id chat_id query chat_limit w I) as [_ HQ].
  eapply Forall_impl; [exact (HQ ms Hms)|]. apply memory_prefix_no_type.
Qed.

(** ** The order of the history block *)

(** [reversed(buffer)] turns a buffer in chronological order into one
    newest first. *)
Lemma history_messages_newest_first buffer :
  StronglySorted (fun a b => msg_created_at a <= msg_created_at b)%Z buffer ->
  StronglySorted (fun a b => msg_created_at b <= msg_created_at a)%Z (history_messages buffer).
Proof. intros Hs. apply StronglySorted_filter_bool, (StronglySorted_rev _ _ Hs). Qed.

(** ** Concrete prompts *)

Fixpoint str_repeat (n : nat) (c : Ascii.ascii) : string :=
  match n with O => "" | S n' => String.String c (str_repeat n' c) end.

(** A chat whose only message is 40000 characters long. *)
Definition example_long_buffer : list Message :=
  [message_create "m1" 1 (str_repeat (40 * 1000) (Ascii.ascii_of_nat 97)) SUser "c" "u"].

Definition example_long_memory : Item :=
  mkItem {[ "content" := VStr (str_repeat (40 * 1000) (Ascii.ascii_of_nat 98)); "memory_type" := VStr "message" ]} 0 None.

Definition prompt_of (r : res string) : string := match r with Ok p => p | Err _ => "" end.

Lemma prompt_of_ok r : is_ok r = true -> r = Ok (prompt_of r).
Proof. by destruct r. Qed.

Lemma nonempty_of_length {A} (l : list A) : length l <> 0 -> l <> [].
Proof. by destruct l. Qed.

Lemma create_memory_prompt_fallback_bound_witness :
  (estimate_tokens None (prompt_of (create_memory_prompt None example_long_buffer [example_long_memory] "Why?"))
     <= MAX_TOKENS + 2)%Z.
Proof.
  apply (create_memory_prompt_fallback_bound example_long_buffer [example_long_memory] "Why?").
  - apply prompt_of_ok. vm_compute. reflexivity.
  - apply nonempty_of_length. vm_compute. discriminate.
  - vm_compute. discriminate.
Defined.

Lemma create_memory_prompt_fallback_overshoot_witness :
  estimate_tokens None (prompt_of (create_memory_prompt None example_long_buffer [] "Why?")) = 8193%Z.
Proof.
  apply (create_memory_prompt_fallback_overshoot example_long_buffer
           (hd "" (history_block example_long_buffer)) "Why?").
  - reflexivity.
  - apply prompt_of_ok. vm_compute. reflexivity.
  - vm_compute. reflexivity.
  - vm_compute. discriminate.
  - vm_compute. reflexivity.
Defined.

(** Three message records of the chat are retrieved, and each is
    introduced as a summary. *)
Definition example_retrieval : res (list Item) * World :=
  search_relevant_memories "u" "c" "hello" None (example_chat_world 3).

Lemma retrieved_memories_labelled_summary_witness :
  Forall (fun m => exists who, memory_prefix m = "[Past summary by " +:+ who +:+ "]: ")
    (match fst example_retrieval with Ok ms => ms | Err _ => [] end).
Proof.
  apply (retrieved_memories_labelled_summary "u" "c" "hello" None (example_chat_world 3)).
  vm_compute. reflexivity.
Defined.

Example example_retrieval_message_records :
  match fst example_retrieval with
  | Ok ms => length ms = 3 /\ Forall (fun m => item_props m !! "memory_type" = Some (VStr TYPE_MESSAGE)) ms
  | Err _ => False
  end.
Proof. vm_compute. split; [reflexivity|repeat constructor]. Qed.
