(* ===== verification/MessageFlow.v ===== *)
(** * MessageFlow: creating a message, from the user's text to the saved answer

    [usecase/message/create_message_usecase.py] orchestrates one chat
    turn: [ChatManager.ensure_chat_exists] creates the chat (titled by
    the language model) if it is new, [MessageProcessor] saves and
    vectorizes the user's message, asks for a summarization with the
    chat's message count, and reads the five latest messages back in
    chronological order; the [MemoryService] facade builds the prompt,
    [AIResponseGenerator] streams the answer, and once the stream is
    exhausted the answer is saved and vectorized as the AI's message.
    [execute] is an async generator: nothing runs before the consumer
    asks for the first chunk, and a consumer that stops after [k] chunks
    leaves the generator suspended at its [k]-th [yield], so the code
    after the loop never runs.  The model takes the number of chunks the
    consumer asks for ([requests]) as an argument.

    The state is the vector store's [World], the message repository and
    the chat repository; the use case is proved against the repository
    interfaces ([MessageRepositoryLaws], [ChatRepositoryLaws]).  The
    value objects [ChatId], [UserId], [ChatTitle], [BookId] and
    [MessageContent], whose classes are not in the sources, are the
    constructors of [ChatValueObjects] and [MessageValueObjects]
    ([Domain.v]), which may raise.  [execute_turn] is the body of
    [execute] with its [process_summarization] step as a parameter, so
    that the turn can be compared with the same turn without it.  The
    [MemoryService] facade ([infrastructure/memory/memory_service.py])
    is not in the sources; its three delegations are modelled from the
    spec.  The model's streaming answer is a capability ([Generator])
    that returns all chunks or fails before the first.  The last
    section shows which turns answer: every turn without a book, and no
    turn about a book once the embedding model is down. *)

From S2P Require Import Prelude Domain MessageRepo ChatRepo Retry Store Base Collections ChatMemory Annotations Summarization Vectorization Retrieval PromptBuilder.

(** ** The [MemoryService] facade *)

Definition ms_vectorize_message (m : Message) : M World unit := vectorize_message m.
Definition ms_summarize_chat (chat_id user_id : string) (message_count : nat) : M World unit :=
  summarize_chat chat_id user_id message_count.
Definition ms_build_memory_prompt (enc : option Encoding) (buffer : list Message)
    (user_query user_id chat_id : string) : M World string :=
  build_memory_prompt enc buffer user_query user_id chat_id.

(** ** The application state *)

Section Flow.
Context `{MessageRepository R} `{ChatRepository C}.
Context (cvo : ChatValueObjects) (mvo : MessageValueObjects).

Record App := mkApp { app_world : World; app_msgs : R; app_chats : C }.

(** A vector-store computation, run on the application's world. *)
Definition in_world {A} (m : M World A) : M App A := fun s =>
  let '(r, w') := m (app_world s) in (r, mkApp w' (app_msgs s) (app_chats s)).

Definition modify_msgs (f : R -> R) : M App unit :=
  modify (fun s => mkApp (app_world s) (f (app_msgs s)) (app_chats s)).

Definition modify_chats (f : C -> C) : M App unit :=
  modify (fun s => mkApp (app_world s) (app_msgs s) (f (app_chats s))).

(** ** [MessageProcessor] *)

(** [save_user_message]: check the [MessageContent], create, save,
    vectorize.  The new message's id and timestamp are [uuid4()] and
    [datetime.now()]. *)
Definition save_user_message (content sender_id chat_id : string) (id : string) (now : Z) : M App Message :=
  lift_res (message_content_valid mvo content);;
  let user_message := message_create id now content SUser chat_id sender_id in
  modify_msgs (repo_save user_message);;
  in_world (ms_vectorize_message user_message);;
  mret user_message.

(** [save_ai_message]. *)
Definition save_ai_message (content sender_id chat_id : string) (id : string) (now : Z) : M App Message :=
  lift_res (message_content_valid mvo content);;
  let ai_message := message_create id now content SAssistant chat_id sender_id in
  modify_msgs (repo_save ai_message);;
  in_world (ms_vectorize_message ai_message);;
  mret ai_message.

(** [process_summarization]. *)
Definition process_summarization (chat_id sender_id : string) : M App unit :=
  s ← get;
  in_world (ms_summarize_chat chat_id sender_id (repo_count_by_chat_id chat_id (app_msgs s))).

(** [get_latest_messages]: the five newest, re-sorted oldest first. *)
Definition get_latest_messages (chat_id : string) : M App (list Message) :=
  s ← get;
  mret (sort_by_key msg_created_at (repo_find_latest_by_chat_id chat_id 5 (app_msgs s))).

(** ** [ChatManager] *)

(** [_generate_chat_title]: one call of the language model. *)
Definition generate_chat_title (question : string) : M World string :=
  w ← get;
  match w_llm w question with
  | Some title => mret title
  | None => raise (ServiceError "chat title generation failed")
  end.

(** [BookId(book_id) if book_id else None]. *)
Definition chat_book_id_opt (book_id : option string) : res (option string) :=
  match book_id with
  | Some b => if bool_decide (b = "") then Ok None
              else match chat_book_id_mk cvo b with Ok v => Ok (Some v) | Err e => Err e end
  | None => Ok None
  end.

(** [ensure_chat_exists]: the [ChatId] first, then, for a new chat, the
    title and the value objects of [Chat(...)] in argument order. *)
Definition ensure_chat_exists (chat_id sender_id : string) (book_id : option string) (content : string)
    (now : Z) : M App unit :=
  chat_id_obj ← lift_res (chat_id_mk cvo chat_id);
  s ← get;
  match chat_find_by_id chat_id_obj (app_chats s) with
  | Some _ => mret tt
  | None =>
      chat_title ← in_world (generate_chat_title content);
      user_id ← lift_res (user_id_mk cvo sender_id);
      title ← lift_res (chat_title_mk cvo chat_title);
      book ← lift_res (chat_book_id_opt book_id);
      modify_chats (chat_save (mkChat chat_id_obj user_id title book now now None))
  end.
End Flow.

Arguments App : clear implicits.
Arguments mkApp {R C} _ _ _.

(** ** [AIResponseGenerator] *)

(** [_create_llm]: the configured provider; OpenAI needs a key. *)
Inductive LLMProvider := ProviderOpenAI (api_key : option string) | ProviderOllama | ProviderHuggingFace.

(** The language model behind the two LangChain chains, and the book
    content retriever of the hybrid chain ([k=4] chunks of the user's
    tenant filtered on the book). *)
Record Generator := mkGenerator {
  gen_memory : string -> option (list string);
  gen_hybrid : string -> string -> list string -> option (list string);
  retrieve_book : string -> string -> string -> list string
}.

Definition create_llm (provider : LLMProvider) : res unit :=
  match provider with
  | ProviderOpenAI (Some key) =>
      if bool_decide (key = "") then Err (ValueError "OPENAI_API_KEY is required when using OpenAI LLM")
      else Ok tt
  | ProviderOpenAI None => Err (ValueError "OPENAI_API_KEY is required when using OpenAI LLM")
  | _ => Ok tt
  end.

(** [_format_documents_as_string]. *)
Definition format_documents_as_string (documents : list string) : string := py_join (NL +:+ NL) documents.

Definition stream_result (r : option (list string)) : M World (list string) :=
  match r with Some chunks => mret chunks | None => raise (ServiceError "generation failed") end.

(** [stream_ai_response]: memory-based without a book, hybrid with one.
    [get_book_content_vector_store()] wraps the shared client, which
    exists once the store is built at start-up; its retriever is
    [retrieve_book]. *)
Definition stream_ai_response (provider : LLMProvider) (gen : Generator) (question user_id : string)
    (book_id : option string) : M World (list string) :=
  lift_res (create_llm provider);;
  match book_id with
  | None => stream_result (gen_memory gen question)
  | Some book =>
      highlight_texts ← search_relevant_highlights question user_id book 3;
      let book_content := format_documents_as_string (retrieve_book gen question user_id book) in
      stream_result (gen_hybrid gen question book_content highlight_texts)
  end.

(** ** [CreateMessageUseCaseImpl.execute] *)

(** The identifiers and clock readings one turn draws. *)
Record TurnIds := mkTurnIds {
  user_message_id : string; ai_message_id : string;
  chat_now : Z; user_now : Z; ai_now : Z
}.

Section Execute.
Context `{MessageRepository R} `{ChatRepository C}.
Context (cvo : ChatValueObjects) (mvo : MessageValueObjects).
Context (enc : option Encoding) (provider : LLMProvider) (gen : Generator).

(** The body of [execute], for a consumer that asks for [requests]
    chunks: the chunks it receives.  [summarization] is the step between
    saving the user's message and reading the latest messages, the call
    of [process_summarization] in the code. *)
Definition execute_turn (summarization : M (App R C) unit) (content sender_id chat_id : string)
    (book_id : option string) (ids : TurnIds) (requests : nat) : M (App R C) (list string) :=
  match requests with
  | O => mret []
  | S _ =>
    ensure_chat_exists cvo chat_id sender_id book_id content (chat_now ids);;
    save_user_message mvo content sender_id chat_id (user_message_id ids) (user_now ids);;
    summarization;;
    latest_messages ← get_latest_messages chat_id;
    memory_prompt ← in_world (ms_build_memory_prompt enc latest_messages content sender_id chat_id);
    ai_response_chunks ← in_world (stream_ai_response provider gen memory_prompt sender_id book_id);
    if Nat.leb requests (length ai_response_chunks) then mret (take requests ai_response_chunks)
    else
      save_ai_message mvo (String.concat "" ai_response_chunks) sender_id chat_id
        (ai_message_id ids) (ai_now ids);;
      mret ai_response_chunks
  end.

(** [CreateMessageUseCaseImpl.execute]. *)
Definition execute (content sender_id chat_id : string) (book_id : option string) (ids : TurnIds)
    (requests : nat) : M (App R C) (list string) :=
  execute_turn (process_summarization chat_id sender_id) content sender_id chat_id book_id ids requests.
End Execute.

(** ** What each step does to the message repository *)

Section MsgsFrame.
Context `{MessageRepository R} `{ChatRepository C} (cvo : ChatValueObjects).

Definition msgs_are (r0 : R) (s : App R C) : Prop := app_msgs s = r0.

Lemma in_world_msgs {A} r0 (m : M World A) : preserves (msgs_are r0) (in_world m).
Proof. intros s Hs. unfold in_world. by destruct (m (app_world s)). Qed.

Lemma modify_chats_msgs r0 f : preserves (msgs_are r0) (modify_chats f).
Proof. by intros s Hs. Qed.

#[local] Hint Resolve in_world_msgs modify_chats_msgs : pydb.

Lemma ensure_chat_exists_msgs r0 chat_id sender_id book_id content now :
  preserves (msgs_are r0) (ensure_chat_exists cvo chat_id sender_id book_id content now).
Proof. unfold ensure_chat_exists. solve_preserves. Qed.

Lemma process_summarization_msgs r0 chat_id sender_id :
  preserves (msgs_are r0) (process_summarization chat_id sender_id).
Proof. unfold process_summarization. solve_preserves. Qed.

Lemma get_latest_messages_msgs r0 chat_id : preserves (msgs_are r0) (get_latest_messages chat_id).
Proof. unfold get_latest_messages. solve_preserves. Qed.

(** A save that passed its content check: the repository gets the
    message, whatever the vectorization does. *)
Lemma save_message_msgs (c : res unit) (m : Message) (s s' : App R C) a :
  (lift_res c;; modify_msgs (repo_save m);; in_world (ms_vectorize_message m);; mret m) s = (Ok a, s') ->
  app_msgs s' = repo_save m (app_msgs s) /\ a = m.
Proof.
  intros Hrun. run_step Hrun u0 s0 Hc0. cbv [lift_res] in Hc0. destruct c; [injection Hc0 as _ <-|done].
  run_step Hrun u1 s1 H1. run_step Hrun u2 s2 H2.
  cbv [modify_msgs modify] in H1. injection H1 as _ <-. injection Hrun as <- <-. split; [|done].
  pose proof (in_world_msgs (repo_save m (app_msgs s)) (ms_vectorize_message m) (mkApp (app_world s) (repo_save m (app_msgs s)) (app_chats s)) eq_refl) as Hp.
  by rewrite H2 in Hp.
Qed.
End MsgsFrame.

(** ** One turn, seen from the message repository *)

(** The two messages a turn saves. *)
Definition turn_user_message (content sender_id chat_id : string) (ids : TurnIds) : Message :=
  message_create (user_message_id ids) (user_now ids) content SUser chat_id sender_id.

Definition turn_ai_message (chunks : list string) (sender_id chat_id : string) (ids : TurnIds) : Message :=
  message_create (ai_message_id ids) (ai_now ids) (String.concat "" chunks) SAssistant chat_id sender_id.

Section ExecuteMsgs.
Context `{MessageRepository R} `{ChatRepository C}.
Context (cvo : ChatValueObjects) (mvo : MessageValueObjects).
Context (enc : option Encoding) (provider : LLMProvider) (gen : Generator).

Lemma msgs_step {A} (m : M (App R C) A) s r s' :
  (forall r0, preserves (msgs_are r0) m) -> m s = (r, s') -> app_msgs s' = app_msgs s.
Proof. intros Hp Hm. pose proof (Hp (app_msgs s) s eq_refl) as Hs. by rewrite Hm in Hs. Qed.

(** A turn that returns either served a consumer that stopped early,
    and only the user's message was saved, or ran to the end of the
    stream, and both messages were saved, the answer last. *)
(** One step of a turn, seen from the message repository. *)
Ltac frame_step Hrun :=
  let a := fresh "a" in let s1 := fresh "s" in let Hs := fresh "Hs" in
  run_step Hrun a s1 Hs;
  first [apply save_message_msgs in Hs as [Hs ->]
        |apply msgs_step in Hs; [|intros; first [apply ensure_chat_exists_msgs | apply process_summarization_msgs
                                                 | apply get_latest_messages_msgs | apply in_world_msgs]]].

Lemma execute_msgs content sender_id chat_id book_id ids requests s chunks s' :
  requests <> 0 ->
  execute cvo mvo enc provider gen content sender_id chat_id book_id ids requests s = (Ok chunks, s') ->
  (length chunks = requests /\
   app_msgs s' = repo_save (turn_user_message content sender_id chat_id ids) (app_msgs s)) \/
  (length chunks < requests /\
   app_msgs s' = repo_save (turn_ai_message chunks sender_id chat_id ids)
                   (repo_save (turn_user_message content sender_id chat_id ids) (app_msgs s))).
Proof.
  intros Hn Hrun. destruct requests as [|n]; [done|]. unfold execute, execute_turn in Hrun.
  repeat frame_step Hrun. cbv beta in Hrun.
  lazymatch type of Hrun with context [Nat.leb (S n) (length ?allc)] => destruct (Nat.leb (S n) (length allc)) eqn:Hle end.
  - injection Hrun as <- <-. left. apply Nat.leb_le in Hle. rewrite length_take.
    split; [lia|]. unfold turn_user_message. congruence.
  - repeat frame_step Hrun. injection Hrun as <- <-. right. apply Nat.leb_gt in Hle.
    split; [lia|]. unfold turn_user_message, turn_ai_message. congruence.
Qed.
End ExecuteMsgs.

(** ** Completed turns, and the summarization threshold

    A turn whose consumer reads the stream to its end saves two live
    messages of the chat: the user's before the summarization check and
    the answer after it.  From a state where every chat has an even
    number of messages, completed turns keep every count even, so the
    count [process_summarization] reads, one past an even number, is odd
    and never a multiple of [MEMORY_SUMMARIZE_THRESHOLD = 20]. *)

Section Turns.
Context `{MessageRepositoryLaws R} `{ChatRepository C}.
Context (cvo : ChatValueObjects) (mvo : MessageValueObjects).
Context (enc : option Encoding) (provider : LLMProvider) (gen : Generator).

(** A completed turn, with fresh message ids. *)
Inductive turn_step : App R C -> App R C -> Prop :=
| turn_completed content sender_id chat_id book_id ids requests chunks s s' :
    repo_find_by_id (user_message_id ids) (app_msgs s) = None ->
    repo_find_by_id (ai_message_id ids) (app_msgs s) = None ->
    user_message_id ids <> ai_message_id ids ->
    execute cvo mvo enc provider gen content sender_id chat_id book_id ids requests s = (Ok chunks, s') ->
    length chunks < requests ->
    turn_step s s'.

Definition even_counts (s : App R C) : Prop :=
  repo_wf (app_msgs s) /\ forall c, Nat.Even (repo_count_by_chat_id c (app_msgs s)).

(** Saving a fresh live message of chat [c'] adds one to [c'] and nothing elsewhere. *)
Lemma count_save_fresh (m : Message) c r :
  repo_wf r -> repo_find_by_id (msg_id m) r = None -> msg_deleted_at m = None ->
  repo_count_by_chat_id c (repo_save m r) =
  repo_count_by_chat_id c r + (if bool_decide (msg_chat_id m = c) then 1 else 0).
Proof. intros Hwf Hf Hd. apply repo_count_save_new; [done|done|by unfold message_is_deleted; rewrite Hd]. Qed.

Lemma turn_step_even_counts s s' : even_counts s -> turn_step s s' -> even_counts s'.
Proof.
  intros Hinv Hstep. revert Hinv.
  destruct Hstep as [content sender_id chat_id book_id ids requests chunks s0 s1 Hu Ha Hne Hrun Hlt].
  intros [Hwf Hev]. unfold even_counts.
  destruct (execute_msgs cvo mvo enc provider gen content sender_id chat_id book_id ids requests _ _ _
              ltac:(lia) Hrun) as [[Hl _]|[_ ->]]; [lia|].
  split; [by do 2 apply repo_wf_save|]. intros c.
  set (um := turn_user_message content sender_id chat_id ids).
  set (am := turn_ai_message chunks sender_id chat_id ids).
  assert (Ha' : repo_find_by_id (msg_id am) (repo_save um (app_msgs s0)) = None)
    by (rewrite repo_find_save_ne; [exact Ha|by cbn]).
  rewrite (count_save_fresh am), (count_save_fresh um) by (done || by apply repo_wf_save).
  cbn [um am turn_user_message turn_ai_message message_create msg_chat_id].
  destruct (Hev c) as [k Hk]. case_bool_decide; [exists (S k)|exists k]; lia.
Qed.

Lemma even_counts_reachable s0 s : even_counts s0 -> rtc turn_step s0 s -> even_counts s.
Proof. intros Hs0 Hr. induction Hr; eauto using turn_step_even_counts. Qed.

Lemma summarization_due_odd n : Nat.Odd n -> summarization_due n = false.
Proof.
  intros Ho. destruct (summarization_due n) eqn:Hd; [|done]. exfalso.
  apply summarization_due_iff in Hd as (k & _ & ->). apply (Nat.Even_Odd_False (memory_summarize_threshold * k)); [|exact Ho].
  unfold memory_summarize_threshold. exists (10 * k). lia.
Qed.

Lemma process_summarization_skip chat_id sender_id (s1 : App R C) :
  summarization_due (repo_count_by_chat_id chat_id (app_msgs s1)) = false ->
  process_summarization chat_id sender_id s1 = (Ok tt, s1).
Proof.
  intros Hd. unfold process_summarization, ms_summarize_chat, summarize_chat. cbv [mbind M_bind get].
  rewrite Hd. by destruct s1.
Qed.
(** The first two steps of a turn, on a state where the user's message
    id is fresh: [ensure_chat_exists] leaves the messages alone and
    [save_user_message] adds the user's message. *)
Lemma turn_prefix_msgs content sender_id chat_id book_id ids (s s1 s2 : App R C) u um :
  ensure_chat_exists cvo chat_id sender_id book_id content (chat_now ids) s = (Ok u, s1) ->
  save_user_message mvo content sender_id chat_id (user_message_id ids) (user_now ids) s1 = (Ok um, s2) ->
  app_msgs s2 = repo_save (turn_user_message content sender_id chat_id ids) (app_msgs s).
Proof.
  intros Hst1 Hst2. apply msgs_step in Hst1; [|intros; apply ensure_chat_exists_msgs].
  apply save_message_msgs in Hst2 as [-> _]. by rewrite Hst1.
Qed.

(** (C2) The summarization threshold is never reached by completed turns:
    from a state where every chat holds an even number of live messages,
    after any sequence of completed turns, the next turn (with a fresh
    id for the user's message) runs exactly as the same turn without its
    [process_summarization] step, which sees an odd count and does
    nothing. *)
Theorem completed_turns_never_summarize s0 s content sender_id chat_id book_id ids requests :
  even_counts s0 -> rtc turn_step s0 s ->
  repo_find_by_id (user_message_id ids) (app_msgs s) = None ->
  execute cvo mvo enc provider gen content sender_id chat_id book_id ids requests s =
  execute_turn cvo mvo enc provider gen (mret tt) content sender_id chat_id book_id ids requests s.
Proof.
  intros Hs0 Hr Hu. destruct requests as [|n]; [done|]. unfold execute, execute_turn.
  destruct (ensure_chat_exists cvo chat_id sender_id book_id content (chat_now ids) s) as [[u|e] s1] eqn:Hst1;
    [rewrite (bind_ok_l _ _ _ _ _ Hst1), (bind_ok_l _ _ _ _ _ Hst1)
    |by rewrite (bind_err_l _ _ _ _ _ Hst1), (bind_err_l _ _ _ _ _ Hst1)].
  destruct (save_user_message mvo content sender_id chat_id (user_message_id ids) (user_now ids) s1)
    as [[um|e] s2] eqn:Hst2;
    [rewrite (bind_ok_l _ _ _ _ _ Hst2), (bind_ok_l _ _ _ _ _ Hst2)
    |by rewrite (bind_err_l _ _ _ _ _ Hst2), (bind_err_l _ _ _ _ _ Hst2)].
  assert (Hodd : summarization_due (repo_count_by_chat_id chat_id (app_msgs s2)) = false).
  2: by rewrite (bind_ok_l _ _ _ _ _ (process_summarization_skip chat_id sender_id s2 Hodd)), ret_bind.
  apply summarization_due_odd. destruct (even_counts_reachable _ _ Hs0 Hr) as [Hwf Hev].
  rewrite (turn_prefix_msgs _ _ _ _ _ _ _ _ _ _ Hst1 Hst2), count_save_fresh by done.
  cbn [turn_user_message message_create msg_chat_id].
  rewrite bool_decide_eq_true_2 by done. destruct (Hev chat_id) as [k Hk]. exists k. lia.
Qed.

(** (C23) A turn whose consumer reads the stream to its end saves the
    user's message and the answer, the concatenated chunks, each found
    by its id. *)
Theorem completed_turn_saves_both content sender_id chat_id book_id ids requests s chunks s' :
  repo_find_by_id (ai_message_id ids) (app_msgs s) = None ->
  user_message_id ids <> ai_message_id ids ->
  execute cvo mvo enc provider gen content sender_id chat_id book_id ids requests s = (Ok chunks, s') ->
  length chunks < requests ->
  repo_find_by_id (user_message_id ids) (app_msgs s') = Some (turn_user_message content sender_id chat_id ids) /\
  repo_find_by_id (ai_message_id ids) (app_msgs s') = Some (turn_ai_message chunks sender_id chat_id ids).
Proof.
  intros Ha Hne Hrun Hlt.
  destruct (execute_msgs cvo mvo enc provider gen content sender_id chat_id book_id ids requests _ _ _
              ltac:(lia) Hrun) as [[Hl _]|[_ ->]]; [lia|].
  split.
  - rewrite repo_find_save_ne by done. apply (repo_find_save (turn_user_message _ _ _ _)).
  - apply (repo_find_save (turn_ai_message _ _ _ _)).
Qed.

(** (C24) A consumer that stops after the chunks it asked for, without
    asking past the last one, leaves the generator suspended: the user's
    message is saved but the answer never is. *)
Theorem stopped_stream_drops_answer content sender_id chat_id book_id ids requests s chunks s' :
  requests <> 0 -> user_message_id ids <> ai_message_id ids ->
  repo_find_by_id (ai_message_id ids) (app_msgs s) = None ->
  execute cvo mvo enc provider gen content sender_id chat_id book_id ids requests s = (Ok chunks, s') ->
  length chunks = requests ->
  repo_find_by_id (user_message_id ids) (app_msgs s') = Some (turn_user_message content sender_id chat_id ids) /\
  repo_find_by_id (ai_message_id ids) (app_msgs s') = None.
Proof.
  intros Hn Hne Ha Hrun Hl.
  destruct (execute_msgs cvo mvo enc provider gen content sender_id chat_id book_id ids requests _ _ _ Hn Hrun)
    as [[_ ->]|[Hlt _]]; [|lia].
  split; [apply (repo_find_save (turn_user_message _ _ _ _))|].
  by rewrite repo_find_save_ne by done.
Qed.
End Turns.

(** (C29) The history block lists the latest messages newest first,
    under the heading "(Oldest First)": [get_latest_messages] sorts them
    oldest first and [_create_memory_prompt] walks them reversed. *)
Theorem history_block_newest_first `{MessageRepository R} `{ChatRepository C} chat_id (s : App R C) l s' :
  get_latest_messages chat_id s = (Ok l, s') ->
  StronglySorted (fun a b => msg_created_at b <= msg_created_at a)%Z (history_messages l).
Proof.
  cbv [get_latest_messages mbind M_bind get mret M_ret]. intros [= <- _].
  apply history_messages_newest_first, sort_by_key_sorted.
Qed.

(** ** Turns that answer, and turns that raise

    Every step of a book-less turn after [ensure_chat_exists] returns:
    vectorization, summarization and memory retrieval catch their
    exceptions, and the prompt's index arithmetic cannot fail.  With a
    book, [search_relevant_highlights] embeds the question outside its
    [try], so a failing embedding model ends the turn. *)

Section Answers.
Context `{MessageRepository R} `{ChatRepository C}.
Context (cvo : ChatValueObjects) (mvo : MessageValueObjects).
Context (enc : option Encoding) (provider : LLMProvider) (gen : Generator).

Lemma in_world_no_raise {A} (m : M World A) : no_raise m -> no_raise (in_world m : M (App R C) A).
Proof. intros Hm s. specialize (Hm (app_world s)). unfold in_world. by destruct (m (app_world s)). Qed.

Lemma in_world_world {A} (Q : World -> Prop) (m : M World A) :
  preserves Q m -> preserves (fun s : App R C => Q (app_world s)) (in_world m).
Proof. intros Hm s Hs. specialize (Hm _ Hs). unfold in_world. by destruct (m (app_world s)). Qed.

Lemma in_world_raises {A} (Q : World -> Prop) (m : M World A) e :
  raises Q m e -> raises (fun s : App R C => Q (app_world s)) (in_world m) e.
Proof. intros Hm s Hs. specialize (Hm _ Hs). unfold in_world. by destruct (m (app_world s)); cbn in *. Qed.

Lemma modify_msgs_world (Q : World -> Prop) f : preserves (fun s : App R C => Q (app_world s)) (modify_msgs f).
Proof. by intros s. Qed.

Lemma modify_chats_world (Q : World -> Prop) f : preserves (fun s : App R C => Q (app_world s)) (modify_chats f).
Proof. by intros s. Qed.

#[local] Hint Resolve in_world_no_raise in_world_world modify_msgs_world modify_chats_world
  vectorize_message_no_raise summarize_chat_no_raise build_memory_prompt_no_raise : pydb.

(** No step of the turn touches the embedding model. *)
Lemma vectorize_message_no_embed m : preserves no_embed (vectorize_message m).
Proof.
  apply no_embed_of_on_db. intros w. exists (fun _ => True). split; [done|].
  unfold vectorize_message, vectorize_message_background. solve_preserves.
Qed.

Lemma summarize_chat_no_embed ch u n : preserves no_embed (summarize_chat ch u n).
Proof. apply no_embed_of_on_db. intros w. exists (evolves (w_db w)). split; [apply evolves_refl|apply summarize_chat_evolves]. Qed.

Lemma build_memory_prompt_no_embed buffer q u ch : preserves no_embed (build_memory_prompt enc buffer q u ch).
Proof.
  apply no_embed_of_on_db. intros w. exists (fun _ => True). split; [done|].
  unfold build_memory_prompt, search_relevant_memories. solve_preserves.
Qed.

Lemma generate_chat_title_no_embed q : preserves no_embed (generate_chat_title q).
Proof. unfold generate_chat_title. solve_preserves. Qed.

Lemma modify_msgs_no_raise f : no_raise (modify_msgs f : M (App R C) unit).
Proof. done. Qed.

#[local] Hint Resolve vectorize_message_no_embed summarize_chat_no_embed build_memory_prompt_no_embed
  generate_chat_title_no_embed modify_msgs_no_raise : pydb.

(** The inputs [ensure_chat_exists] accepts: a valid [ChatId], and a
    chat found under it or a generated title and valid [UserId],
    [ChatTitle] and [BookId]. *)
Definition chat_accepted (chat_id sender_id : string) (book_id : option string) (content : string)
    (s : App R C) : Prop :=
  exists cid, chat_id_mk cvo chat_id = Ok cid /\
    (chat_find_by_id cid (app_chats s) <> None \/
     exists t, w_llm (app_world s) content = Some t /\ is_ok (user_id_mk cvo sender_id) = true /\
       is_ok (chat_title_mk cvo t) = true /\ is_ok (chat_book_id_opt cvo book_id) = true).

Lemma ensure_chat_exists_ok chat_id sender_id book_id content now (s : App R C) :
  chat_accepted chat_id sender_id book_id content s ->
  exists s', ensure_chat_exists cvo chat_id sender_id book_id content now s = (Ok tt, s').
Proof.
  intros (cid & Hcid & Hc). unfold ensure_chat_exists. rewrite Hcid, lift_res_bind_ok. cbv beta. rewrite get_bind.
  destruct (chat_find_by_id cid (app_chats s)); [by eexists|].
  destruct Hc as [Hc|(t & Ht & Hu & Htt & Hb)]; [done|].
  assert (Hgen : in_world (generate_chat_title content) s = (Ok t, s)).
  { cbv [in_world generate_chat_title mbind M_bind get mret M_ret]. rewrite Ht. by destruct s. }
  rewrite (bind_ok_l _ _ _ _ _ Hgen).
  destruct (user_id_mk cvo sender_id); [|done]. rewrite lift_res_bind_ok.
  destruct (chat_title_mk cvo t); [|done]. rewrite lift_res_bind_ok.
  destruct (chat_book_id_opt cvo book_id); [|done]. rewrite lift_res_bind_ok. by eexists.
Qed.

Lemma ensure_chat_exists_no_embed chat_id sender_id book_id content now :
  preserves (fun s : App R C => no_embed (app_world s)) (ensure_chat_exists cvo chat_id sender_id book_id content now).
Proof. unfold ensure_chat_exists, ms_vectorize_message. solve_preserves. Qed.

(** A message whose content is valid is saved without raising. *)
Lemma save_message_no_raise content sender_id chat_id id now :
  message_content_valid mvo content = Ok tt ->
  no_raise (save_user_message mvo content sender_id chat_id id now : M (App R C) Message) /\
  no_raise (save_ai_message mvo content sender_id chat_id id now : M (App R C) Message).
Proof. intros Hc. unfold save_user_message, save_ai_message, ms_vectorize_message. rewrite Hc. split; solve_no_raise. Qed.

Lemma save_message_no_embed content sender_id chat_id id now :
  preserves (fun s : App R C => no_embed (app_world s)) (save_user_message mvo content sender_id chat_id id now).
Proof. unfold save_user_message, ms_vectorize_message. solve_preserves. Qed.


Lemma stream_ai_response_book_raises question user_id book :
  create_llm provider = Ok tt -> user_id <> "" -> book <> "" ->
  raises no_embed (stream_ai_response provider gen question user_id (Some book)) (ValueError "embedding failed").
Proof.
  intros Hl Hu Hb. unfold stream_ai_response. rewrite Hl.
  apply raises_bind_r; [apply no_raise_lift_ok|apply lift_res_preserves|]. intros _.
  apply raises_bind_l. unfold search_relevant_highlights.
  rewrite !bool_decide_eq_false_2 by done. apply raises_bind_l, encode_text_raises.
Qed.

Ltac unfold_turn :=
  unfold save_user_message, save_ai_message, process_summarization, get_latest_messages,
    ms_vectorize_message, ms_summarize_chat, ms_build_memory_prompt; cbv zeta.



(** (C17) A turn about a book raises when the embedding model is down:
    the question's embedding in [search_relevant_highlights] is outside
    the [try], so [execute] ends with the embedding error, after the
    user's message was saved, and the consumer receives no answer. *)
Theorem book_turn_raises_without_embeddings content sender_id chat_id book ids requests (s : App R C) :
  requests <> 0 -> create_llm provider = Ok tt -> sender_id <> "" -> book <> "" ->
  no_embed (app_world s) ->
  chat_accepted chat_id sender_id (Some book) content s -> message_content_valid mvo content = Ok tt ->
  exists s', execute cvo mvo enc provider gen content sender_id chat_id (Some book) ids requests s =
             (Err (ValueError "embedding failed"), s').
Proof.
  intros Hn Hl Hu Hb He Hc Hcv. destruct requests as [|n]; [done|]. unfold execute, execute_turn.
  destruct (ensure_chat_exists_ok chat_id sender_id (Some book) content (chat_now ids) s Hc) as [s1 Hs1].
  rewrite (bind_ok_l _ _ _ _ _ Hs1). apply (raises_run (fun s : App R C => no_embed (app_world s))).
  - apply raises_bind_r; [exact (proj1 (save_message_no_raise _ _ _ _ _ Hcv))|apply save_message_no_embed|intros ?].
    do 3 (apply raises_bind_r; [unfold_turn; solve_no_raise|unfold_turn; solve_preserves|intros ?]).
    by apply raises_bind_l, in_world_raises, stream_ai_response_book_raises.
  - pose proof (ensure_chat_exists_no_embed chat_id sender_id (Some book) content (chat_now ids) s He) as H1.
    by rewrite Hs1 in H1.
Qed.
End Answers.

(** ** A concrete turn *)

(** Value objects that reject the empty string, as the repository's
    [BookTitle] does. *)
Definition nonempty_value (what v : string) : res string :=
  if bool_decide (v = "") then Err (ValueError (what +:+ " cannot be empty")) else Ok v.

Definition example_chat_vo : ChatValueObjects :=
  mkChatValueObjects (nonempty_value "UserId") (nonempty_value "ChatTitle") (nonempty_value "BookId")
    (nonempty_value "ChatId").

Definition example_turn_vo : MessageValueObjects :=
  mkMessageValueObjects (fun v => nonempty_value "MessageId" v ≫= fun _ => Ok tt)
    (fun v => nonempty_value "MessageContent" v ≫= fun _ => Ok tt).

Lemma example_turn_vo_raises :
  raises_value_error (message_id_valid example_turn_vo) /\ raises_value_error (message_content_valid example_turn_vo).
Proof.
  split; intros v e; cbn; unfold nonempty_value; (case_bool_decide; [intros [= <-]; by eexists|done]).
Qed.

(** A model that answers in two chunks, on a store whose collections
    exist, with an empty message table and no chat yet. *)
Definition example_generator : Generator :=
  mkGenerator (fun _ => Some ["Hello"; " there"]) (fun _ _ _ => Some ["x"]) (fun _ _ _ => []).

Definition example_app : App PgMessages ChatTable :=
  mkApp (snd (ensure_collections empty_world)) (mkPgMessages []) (mkChatTable []).

Definition example_ids : TurnIds := mkTurnIds "um1" "am1" 1 2 3.
Definition example_ids' : TurnIds := mkTurnIds "um2" "am2" 4 5 6.

Definition example_turn (requests : nat) : res (list string) * App PgMessages ChatTable :=
  execute example_chat_vo example_turn_vo None ProviderOllama example_generator "hi" "u" "c" None example_ids
    requests example_app.

Lemma example_app_even_counts : even_counts example_app.
Proof. split; [vm_compute; constructor|intros c; exists 0; reflexivity]. Qed.

(** The turn after a completed one runs without its summarization step. *)
Lemma completed_turns_never_summarize_witness :
  execute example_chat_vo example_turn_vo None ProviderOllama example_generator "again" "u" "c" None example_ids' 3
    (snd (example_turn 3)) =
  execute_turn example_chat_vo example_turn_vo None ProviderOllama example_generator (mret tt) "again" "u" "c" None
    example_ids' 3 (snd (example_turn 3)).
Proof.
  apply (completed_turns_never_summarize example_chat_vo example_turn_vo None ProviderOllama example_generator
           example_app (snd (example_turn 3)) "again" "u" "c" None example_ids' 3).
  - apply example_app_even_counts.
  - apply rtc_once. apply (turn_completed example_chat_vo example_turn_vo None ProviderOllama example_generator
                             "hi" "u" "c" None example_ids 3 ["Hello"; " there"]);
      [vm_compute; reflexivity..|discriminate| |simpl; lia].
    vm_compute. reflexivity.
  - vm_compute. reflexivity.
Defined.

Lemma completed_turn_saves_both_witness :
  repo_find_by_id "am1" (app_msgs (snd (example_turn 3))) =
  Some (turn_ai_message ["Hello"; " there"] "u" "c" example_ids).
Proof.
  apply (completed_turn_saves_both example_chat_vo example_turn_vo None ProviderOllama example_generator
           "hi" "u" "c" None example_ids 3 example_app); [vm_compute; reflexivity|discriminate| |simpl; lia].
  vm_compute. reflexivity.
Defined.

Lemma stopped_stream_drops_answer_witness :
  repo_find_by_id "am1" (app_msgs (snd (example_turn 2))) = None.
Proof.
  apply (stopped_stream_drops_answer example_chat_vo example_turn_vo None ProviderOllama example_generator
           "hi" "u" "c" None example_ids 2 example_app ["Hello"; " there"]);
    [lia|discriminate|vm_compute; reflexivity| |reflexivity].
  vm_compute. reflexivity.
Defined.

Lemma history_block_newest_first_witness :
  StronglySorted (fun a b => msg_created_at b <= msg_created_at a)%Z
    (history_messages [turn_user_message "hi" "u" "c" example_ids;
                       turn_ai_message ["Hello"; " there"] "u" "c" example_ids]).
Proof.
  apply (history_block_newest_first "c" (snd (example_turn 3)) _ (snd (example_turn 3))).
  vm_compute. reflexivity.
Defined.

(** The example store with its embedding model down. *)
Definition example_down_app : App PgMessages ChatTable :=
  let w := app_world example_app in
  mkApp (mkWorld (w_db w) (w_faults w) (w_slept w) (w_log w) (fun _ => None) (w_llm w) (w_now w))
        (mkPgMessages []) (mkChatTable []).

Lemma example_chat_accepted book_id :
  is_ok (chat_book_id_opt example_chat_vo book_id) = true ->
  chat_accepted example_chat_vo "c" "u" book_id "hi" example_down_app.
Proof.
  intros Hb. exists "c". split; [reflexivity|]. right.
  exists (default "" (w_llm (app_world example_down_app) "hi")).
  split_and!; [vm_compute; reflexivity|reflexivity|vm_compute; reflexivity|exact Hb].
Qed.


Lemma book_turn_raises_without_embeddings_witness :
  exists s', execute example_chat_vo example_turn_vo None ProviderOllama example_generator "hi" "u" "c" (Some "b1")
               example_ids 3 example_down_app = (Err (ValueError "embedding failed"), s').
Proof.
  apply (book_turn_raises_without_embeddings example_chat_vo example_turn_vo None ProviderOllama example_generator
           "hi" "u" "c" "b1" example_ids 3 example_down_app); [lia|reflexivity|discriminate|discriminate| | |].
  - intros t. reflexivity.
  - by apply example_chat_accepted.
  - reflexivity.
Defined.
