(* ===== verification/Routing.v ===== *)
(** * Routing: how a FastAPI router picks the handler of a request, and answers

    The handlers of [presentation/api/handlers/] are registered on an
    [APIRouter] by their decorators ([@router.get(path)], ...), in the
    order of the file.  Starlette's [Router] tries the routes in that
    order: the first route whose path and method both match handles the
    request; a route whose path matches but whose method does not is
    remembered, and the request is answered [405] when no route matches
    fully, [404] when no path matches.  A path parameter [{name}] with
    the default [str] convertor matches one non-empty segment.  This is
    the framework's behaviour, not code of the repository; a route table
    ([list (Route H)]) is the code's, one entry per decorator.  Paths are
    lists of segments, relative to the router's prefix.  A handler
    returns a value, which FastAPI sends with the route's status code,
    or raises [HTTPException], which it answers with the exception's
    status and [{"detail": ...}] ([to_reply]). *)

From S2P Require Import Prelude.

Inductive Method := GET | POST | PUT | PATCH | DELETE.

#[export] Instance Method_eq_dec : EqDecision Method.
Proof. solve_decision. Defined.

(** A segment of a route's path: literal text or a [{name}] parameter. *)
Inductive Segment := Lit (s : string) | Param (name : string).

Record Route (H : Type) := mkRoute {
  route_method : Method;
  route_path : list Segment;
  route_handler : H
}.
Arguments mkRoute {H} _ _ _.
Arguments route_method {H} _.
Arguments route_path {H} _.
Arguments route_handler {H} _.

(** The path parameters of a matching path, in the route's order. *)
Fixpoint match_path (tmpl : list Segment) (path : list string) : option (list (string * string)) :=
  match tmpl, path with
  | [], [] => Some []
  | Lit l :: t, s :: p => if bool_decide (l = s) then match_path t p else None
  | Param n :: t, s :: p => if bool_decide (s = "") then None else (fun ps => (n, s) :: ps) <$> match_path t p
  | _, _ => None
  end.

Inductive Dispatch (H : Type) :=
| Handle (h : H) (params : list (string * string))
| MethodNotAllowed
| NotFound.
Arguments Handle {H} _ _.
Arguments MethodNotAllowed {H}.
Arguments NotFound {H}.

(** [Router.__call__]: [partial] records a route matched by path only. *)
Fixpoint dispatch_from {H} (partial : bool) (routes : list (Route H)) (m : Method) (path : list string)
    : Dispatch H :=
  match routes with
  | [] => if partial then MethodNotAllowed else NotFound
  | r :: rs =>
      match match_path (route_path r) path with
      | Some ps => if bool_decide (route_method r = m) then Handle (route_handler r) ps
                   else dispatch_from true rs m path
      | None => dispatch_from partial rs m path
      end
  end.

Definition dispatch {H} (routes : list (Route H)) (m : Method) (path : list string) : Dispatch H :=
  dispatch_from false routes m path.

(** ** Responses *)

(** [HTTPException(status_code=..., detail=...)]. *)
Record HTTPException := mkHTTPException { status_code : Z; detail : string }.

(** What a handler gives FastAPI: the value it returns, sent with the
    route's status code, or the [HTTPException] it raises. *)
Inductive Response (A : Type) :=
| Respond (status : Z) (body : A)
| Raise (e : HTTPException).
Arguments Respond {A} _ _.
Arguments Raise {A} _.

(** What the client receives. *)
Record ApiReply (Body : Type) := mkApiReply { reply_status : Z; reply_body : Body }.
Arguments mkApiReply {Body} _ _.
Arguments reply_status {Body} _.
Arguments reply_body {Body} _.

(** FastAPI's answer to a handler's outcome: an [HTTPException] becomes
    its status with the body [{"detail": detail}]. *)
Definition to_reply {A Body} (detail_body : string -> Body) (f : A -> Body) (r : Response A) : ApiReply Body :=
  match r with
  | Respond st b => mkApiReply st (f b)
  | Raise e => mkApiReply (status_code e) (detail_body (detail e))
  end.

(** ** Which route handles a request *)

(** A route that matches fully is the handler, or an earlier one is. *)
Lemma dispatch_from_handle {H} partial (routes : list (Route H)) m path h ps :
  dispatch_from partial routes m path = Handle h ps ->
  exists i r, routes !! i = Some r /\ route_handler r = h /\ route_method r = m /\
    match_path (route_path r) path = Some ps /\
    forall j r', j < i -> routes !! j = Some r' -> route_method r' = m -> match_path (route_path r') path = None.
Proof.
  revert partial. induction routes as [|r rs IH]; intros partial; cbn; [by destruct partial|].
  destruct (match_path (route_path r) path) as [ps'|] eqn:Hm; [case_bool_decide as Hmeth|].
  - intros [= <- <-]. exists 0, r. split_and!; try done. intros j r' Hj. lia.
  - intros (i & r' & Hi & Hh & Hme & Hp & Hbefore)%IH. exists (S i), r'. split_and!; try done.
    intros [|j] r'' Hj; cbn; [by intros [= <-]|]. intros Hr'' Hm''. apply (Hbefore j); [lia|done|done].
  - intros (i & r' & Hi & Hh & Hme & Hp & Hbefore)%IH. exists (S i), r'. split_and!; try done.
    intros [|j] r'' Hj; cbn; [by intros [= <-]|]. intros Hr'' Hm''. apply (Hbefore j); [lia|done|done].
Qed.

(** A route is never reached when an earlier route of its method matches
    every path it matches. *)
Lemma dispatch_shadowed {H} (routes : list (Route H)) i j ri rj m path ps :
  i < j -> routes !! i = Some ri -> routes !! j = Some rj -> route_method ri = m ->
  (forall path ps, match_path (route_path rj) path = Some ps -> is_Some (match_path (route_path ri) path)) ->
  (forall k rk, routes !! k = Some rk -> route_handler rk = route_handler rj -> k = j) ->
  dispatch routes m path <> Handle (route_handler rj) ps.
Proof.
  intros Hij Hi Hj Hmi Hcover Huniq Hd.
  apply dispatch_from_handle in Hd as (k & rk & Hk & Hh & Hm & Hp & Hbefore).
  pose proof (Huniq k rk Hk Hh) as ->. rewrite Hj in Hk. injection Hk as <-.
  destruct (Hcover _ _ Hp) as [ps' Hps']. by rewrite (Hbefore i ri Hij Hi Hmi) in Hps'.
Qed.
