(* ===== verification/MessageApi.v ===== *)
(** * MessageApi: [presentation/api/handlers/message_api_route_handler.py]

    The message router's four handlers, run on the application state of
    [MessageFlow.v] ([App]: world, messages, chats).  A handler returns a
    value, which FastAPI sends with the route's [status_code], or raises
    [HTTPException], which FastAPI answers with its status and [detail]
    ([Response]); any other exception is [Err] of the monad and reaches
    the framework, which answers [500].  [MessageErrorMessage] is
    [presentation/api/error_messages/message_error_message.py].

    [stream_create_message] calls [CreateMessageUseCase.execute], an
    async generator function: the call runs none of its body, so the
    handler's [except] can catch nothing, and the turn runs only when
    [StreamingResponse] iterates it, after the status line is sent
    ([send_streaming]).  The router registers [DELETE /{message_id}]
    before [DELETE /bulk] ([message_routes]), so [message_api], the
    router in front of the handlers, gives [DELETE /bulk] to
    [delete_message] with the id ["bulk"].  [MessageResponse] leaves out
    [metadata], which [Message] does not keep. *)

From S2P Require Import Prelude Store Base Domain MessageRepo MessageUseCases ChatRepo PromptBuilder MessageFlow Routing.

(** [MessageErrorMessage]. *)
Definition MESSAGE_NOT_FOUND : string := "Message not found.".
Definition MESSAGE_CREATE_FAILED : string := "Failed to create message.".
Definition MESSAGE_DELETE_FAILED : string := "Failed to delete message.".

(** [f"{MessageErrorMessage.X} {str(e)}"]. *)
Definition failed_detail (msg : string) (e : Exc) : string := msg +:+ " " +:+ exc_str e.

(** [MessageResponse] and [MessageListResponse]. *)
Record MessageResponse := mkMessageResponse {
  mr_id : string; mr_content : string; mr_sender_id : string;
  mr_sender_type : string; mr_chat_id : string; mr_created_at : Z
}.

Record MessageListResponse := mkMessageListResponse { mlr_messages : list MessageResponse; mlr_total : Z }.

Definition message_response (m : Message) : MessageResponse :=
  mkMessageResponse (msg_id m) (msg_content m) (msg_sender_id m) (sender_type_value (msg_sender_type m))
    (msg_chat_id m) (msg_created_at m).

(** ** The routes *)

Inductive MessageHandler := StreamCreateMessage | GetMessagesByChatId | DeleteMessage | BulkDeleteMessages.

#[export] Instance MessageHandler_eq_dec : EqDecision MessageHandler.
Proof. solve_decision. Defined.

(** The decorators, in the order of the file. *)
Definition message_routes : list (Route MessageHandler) :=
  [mkRoute POST [] StreamCreateMessage;
   mkRoute GET [Param "chat_id"] GetMessagesByChatId;
   mkRoute DELETE [Param "message_id"] DeleteMessage;
   mkRoute DELETE [Lit "bulk"] BulkDeleteMessages].

(** ** The handlers *)

Section Handlers.
Context `{MessageRepository R} `{ChatRepository C}.
Context (cvo : ChatValueObjects) (mvo : MessageValueObjects).
Context (enc : option Encoding) (provider : LLMProvider) (gen : Generator).

(** A message use case, on the application's messages. *)
Definition in_msgs {X} (m : M R X) : M (App R C) X := fun s =>
  let '(r, msgs') := m (app_msgs s) in (r, mkApp (app_world s) msgs' (app_chats s)).

(** [StreamingResponse(response_stream, media_type=...)]: the generator,
    run for as many chunks as the client reads. *)
Record StreamingResponse := mkStreamingResponse {
  sr_body : nat -> M (App R C) (list string);
  sr_media_type : string
}.

(** [stream_create_message]. *)
Definition stream_create_message (content sender_id chat_id : string) (book_id : option string) (ids : TurnIds)
    : M (App R C) (Response StreamingResponse) :=
  try_except
    (let response_stream := execute cvo mvo enc provider gen content sender_id chat_id book_id ids in
     mret (Respond 200 (mkStreamingResponse response_stream "text/event-stream")))
    (fun e => mret (Raise (mkHTTPException 500 (failed_detail MESSAGE_CREATE_FAILED e)))).

(** [get_messages_by_chat_id]: no [try]. *)
Definition get_messages_by_chat_id (chat_id : string) : M (App R C) (Response MessageListResponse) :=
  messages ← in_msgs (execute_find_by_chat_id chat_id);
  mret (Respond 200 (mkMessageListResponse (message_response <$> messages) (Z.of_nat (length messages)))).

(** [delete_message]. *)
Definition delete_message_handler (now : Z) (message_id : string) : M (App R C) (Response (list (string * string))) :=
  try_except
    (in_msgs (delete_message mvo now message_id);; mret (Respond 200 [("status", "success")]))
    (fun e => if exc_isinstance e "MessageNotFoundException"
              then mret (Raise (mkHTTPException 404 MESSAGE_NOT_FOUND))
              else mret (Raise (mkHTTPException 400 (failed_detail MESSAGE_DELETE_FAILED e)))).

(** [bulk_delete_messages]. *)
Definition bulk_delete_messages (now : Z) (message_ids : list string) : M (App R C) (Response (list string)) :=
  try_except
    (failed_ids ← in_msgs (delete_messages_bulk mvo now message_ids); mret (Respond 200 failed_ids))
    (fun e => mret (Raise (mkHTTPException 400 (failed_detail MESSAGE_DELETE_FAILED e)))).

(** ** In front of the handlers *)

(** The request bodies the handlers declare: [MessageCreate] and
    [MessageBulkDelete]. *)
Inductive MessageRequestBody :=
| NoBody
| MessageCreateBody (content sender_id chat_id : string) (book_id : option string)
| MessageBulkDeleteBody (message_ids : list string).

(** What the client receives: the status and a body, which for a stream
    is the chunks or the exception that cuts it. *)
Inductive ApiBody :=
| BodyDetail (detail : string)
| BodyDict (d : list (string * string))
| BodyFailedIds (failed_ids : list string)
| BodyMessages (messages : MessageListResponse)
| BodyStream (chunks : res (list string)).

(** Starlette's [StreamingResponse.__call__]: the status line first, then
    the body for [requests] chunks. *)
Definition send_streaming (status : Z) (resp : StreamingResponse) (requests : nat) : M (App R C) (ApiReply ApiBody) :=
  fun s => let '(r, s') := sr_body resp requests s in (Ok (mkApiReply status (BodyStream r)), s').

(** The router and the handlers: FastAPI's body validation answers [422]
    a body of the wrong shape; the clock, the new ids and the client's
    reads are arguments. *)
Definition message_api (now : Z) (ids : TurnIds) (requests : nat)
    (meth : Method) (path : list string) (body : MessageRequestBody) : M (App R C) (ApiReply ApiBody) :=
  match dispatch message_routes meth path with
  | NotFound => mret (mkApiReply 404 (BodyDetail "Not Found"))
  | MethodNotAllowed => mret (mkApiReply 405 (BodyDetail "Method Not Allowed"))
  | Handle h ps =>
      let arg := default "" (snd <$> head ps) in
      match h, body with
      | StreamCreateMessage, MessageCreateBody content sender_id chat_id book_id =>
          r ← stream_create_message content sender_id chat_id book_id ids;
          match r with
          | Respond st resp => send_streaming st resp requests
          | Raise e => mret (mkApiReply (status_code e) (BodyDetail (detail e)))
          end
      | GetMessagesByChatId, _ => r ← get_messages_by_chat_id arg; mret (to_reply BodyDetail BodyMessages r)
      | DeleteMessage, _ => r ← delete_message_handler now arg; mret (to_reply BodyDetail BodyDict r)
      | BulkDeleteMessages, MessageBulkDeleteBody message_ids =>
          r ← bulk_delete_messages now message_ids; mret (to_reply BodyDetail BodyFailedIds r)
      | _, _ => mret (mkApiReply 422 (BodyDetail "Field required"))
      end
  end.
End Handlers.

(** ** The router *)

(** [DELETE /{message_id}] takes every one-segment path. *)
Lemma dispatch_delete_one i :
  i <> "" -> dispatch message_routes DELETE [i] = Handle DeleteMessage [("message_id", i)].
Proof. intros Hi. cbn. by rewrite !bool_decide_false by done. Qed.

(** (C14) [bulk_delete_messages] is never called: [DELETE /{message_id}],
    registered before it, matches every path [DELETE /bulk] matches, so
    the router gives [DELETE /bulk] to [delete_message]. *)
Theorem bulk_delete_messages_unreachable meth path ps :
  dispatch message_routes meth path <> Handle BulkDeleteMessages ps.
Proof.
  destruct (decide (meth = DELETE)) as [->|Hm].
  - apply (dispatch_shadowed message_routes 2 3 (mkRoute DELETE [Param "message_id"] DeleteMessage)
             (mkRoute DELETE [Lit "bulk"] BulkDeleteMessages)); [lia|done|done|done| |].
    + intros [|s [|]] ps'; cbn; [done| |by case_bool_decide].
      case_bool_decide as Hs; [|done]. subst s. intros _. rewrite bool_decide_false by done. by eexists.
    + intros k rk Hk Hh. do 4 (destruct k as [|k]; [by injection Hk as <-|]). by cbn in Hk.
  - intros Hd. apply dispatch_from_handle in Hd as (k & rk & Hk & Hh & Hmeth & _).
    do 4 (destruct k as [|k]; [by injection Hk as <-; subst|]). by cbn in Hk.
Qed.

(** ** The handlers on the use cases *)

Section Delete.
Context `{MessageRepositoryLaws R} `{ChatRepository C}.

Lemma in_msgs_run {X} (m : M R X) (s : App R C) r msgs' :
  m (app_msgs s) = (r, msgs') -> in_msgs m s = (r, mkApp (app_world s) msgs' (app_chats s)).
Proof. intros Hm. unfold in_msgs. by rewrite Hm. Qed.

Lemma message_not_found_isinstance i : exc_isinstance (message_not_found i) "MessageNotFoundException" = true.
Proof. reflexivity. Qed.

(** An id the [MessageId] check rejects: [400], nothing changes. *)
Lemma delete_message_handler_invalid mvo now i (s : App R C) msg :
  message_id_valid mvo i = Err (ValueError msg) ->
  delete_message_handler mvo now i s =
    (Ok (Raise (mkHTTPException 400 (failed_detail MESSAGE_DELETE_FAILED (ValueError msg)))), s).
Proof.
  intros Hv. unfold delete_message_handler.
  rewrite (try_except_err _ _ _ (ValueError msg) s); [done|].
  unfold mbind, M_bind. rewrite (in_msgs_run _ _ _ _ (delete_message_invalid mvo now i (app_msgs s) _ Hv)).
  by destruct s.
Qed.

(** A valid id of no live message: [404], nothing changes. *)
Lemma delete_message_handler_missing mvo now i (s : App R C) :
  message_id_valid mvo i = Ok tt -> repo_find_by_id i (app_msgs s) = None ->
  delete_message_handler mvo now i s = (Ok (Raise (mkHTTPException 404 MESSAGE_NOT_FOUND)), s).
Proof.
  intros Hv Hf. unfold delete_message_handler.
  rewrite (try_except_err _ _ _ (message_not_found i) s); [by rewrite message_not_found_isinstance|].
  unfold mbind, M_bind. rewrite (in_msgs_run _ _ _ _ (delete_message_missing mvo now i (app_msgs s) Hv Hf)).
  by destruct s.
Qed.

(** A live message: [200], and the message is deleted as by the use case. *)
Lemma delete_message_handler_live mvo now i (s : App R C) m :
  message_id_valid mvo i = Ok tt -> repo_find_by_id i (app_msgs s) = Some m ->
  exists m', message_mark_as_deleted now m = Ok m' /\ msg_id m' = i /\ message_is_deleted m' = true /\
    delete_message_handler mvo now i s =
      (Ok (Respond 200 [("status", "success")]), mkApp (app_world s) (repo_save m' (app_msgs s)) (app_chats s)).
Proof.
  intros Hv Hf. destruct (delete_message_run mvo now i (app_msgs s) m Hv Hf) as (m' & Hm' & Hid & Hdel & Hrun).
  exists m'. split_and!; [done..|]. unfold delete_message_handler.
  apply try_except_ok. unfold mbind, M_bind at 1. by rewrite (in_msgs_run _ _ _ _ Hrun).
Qed.

(** (C10) [DELETE /{i}], for any one-segment path [i] and any body,
    [DELETE /bulk] included, when [MessageId] raises [ValueError] only:
    an id it rejects gets [400] with the error; a live message is
    deleted, the client gets [200] and every other message is found as
    before; otherwise the client gets [404]; nothing changes unless the
    answer is [200]. *)
Theorem message_api_delete cvo mvo enc provider gen now ids requests i body (s : App R C) :
  i <> "" -> raises_value_error (message_id_valid mvo) ->
  match message_id_valid mvo i with
  | Err e => message_api cvo mvo enc provider gen now ids requests DELETE [i] body s =
               (Ok (mkApiReply 400 (BodyDetail (failed_detail MESSAGE_DELETE_FAILED e))), s)
  | Ok _ =>
    match repo_find_by_id i (app_msgs s) with
    | Some _ =>
        exists s', message_api cvo mvo enc provider gen now ids requests DELETE [i] body s =
                     (Ok (mkApiReply 200 (BodyDict [("status", "success")])), s') /\
          repo_find_by_id i (app_msgs s') = None /\
          (forall j, j <> i -> repo_find_by_id j (app_msgs s') = repo_find_by_id j (app_msgs s)) /\
          app_chats s' = app_chats s /\ app_world s' = app_world s
    | None => message_api cvo mvo enc provider gen now ids requests DELETE [i] body s =
                (Ok (mkApiReply 404 (BodyDetail MESSAGE_NOT_FOUND)), s)
    end
  end.
Proof.
  intros Hi Hve. unfold message_api. rewrite dispatch_delete_one by done. cbn [head fmap option_fmap option_map snd default].
  destruct (message_id_valid mvo i) as [[]|e] eqn:Hv.
  2: { destruct (Hve _ _ Hv) as [msg ->]. by rewrite (bind_ok_l _ _ _ _ _ (delete_message_handler_invalid mvo now i s msg Hv)). }
  destruct (repo_find_by_id i (app_msgs s)) as [m|] eqn:Hf.
  - destruct (delete_message_handler_live mvo now i s m Hv Hf) as (m' & _ & Hid & Hdel & Hrun).
    eexists. rewrite (bind_ok_l _ _ _ _ _ Hrun). split; [reflexivity|]. cbn [app_msgs app_chats app_world].
    split_and!; [|intros j Hj; apply repo_find_save_ne; congruence|done|done].
    rewrite <- Hid, repo_find_save. by rewrite Hdel.
  - by rewrite (bind_ok_l _ _ _ _ _ (delete_message_handler_missing mvo now i s Hv Hf)).
Qed.
End Delete.

(** ** The stream *)

(** [POST /] always answers [200]: calling the async generator runs
    nothing, so [stream_create_message] cannot reach its [except] and its
    [500] is never sent; the client then reads the turn of [execute] as
    the body, and when the turn raises, the stream ends with that
    exception after the [200]. *)
Lemma message_api_stream_200 `{MessageRepository R} `{ChatRepository C} cvo mvo enc provider gen now ids requests
    content sender_id chat_id book_id (s : App R C) :
  message_api cvo mvo enc provider gen now ids requests POST [] (MessageCreateBody content sender_id chat_id book_id) s =
  let '(r, s') := execute cvo mvo enc provider gen content sender_id chat_id book_id ids requests s in
  (Ok (mkApiReply 200 (BodyStream r)), s').
Proof. reflexivity. Qed.

(** ** On the Postgres implementation *)

Definition example_api_app : App PgMessages ChatTable :=
  mkApp (app_world example_app) example_messages (mkChatTable []).

(** [DELETE /bulk] with a body that names both messages deletes neither. *)
Lemma message_api_delete_witness :
  message_api example_chat_vo example_turn_vo None ProviderOllama example_generator 9 example_ids 1 DELETE ["bulk"]
    (MessageBulkDeleteBody ["m1"; "m2"]) example_api_app =
  (Ok (mkApiReply 404 (BodyDetail MESSAGE_NOT_FOUND)), example_api_app).
Proof.
  pose proof (message_api_delete example_chat_vo example_turn_vo None ProviderOllama example_generator 9
                example_ids 1 "bulk" (MessageBulkDeleteBody ["m1"; "m2"]) example_api_app
                ltac:(discriminate) (proj1 example_turn_vo_raises)) as H.
  vm_compute in H |- *. exact H.
Defined.

(** A book turn with the embedding model down: [200], then the error. *)
Lemma example_book_turn_reply :
  fst (message_api example_chat_vo example_turn_vo None ProviderOllama example_generator 9 example_ids 3 POST []
         (MessageCreateBody "hi" "u" "c" (Some "b1")) example_down_app) =
  Ok (mkApiReply 200 (BodyStream (Err (ValueError "embedding failed")))).
Proof. vm_compute. reflexivity. Qed.
