(* ===== verification/BookApi.v ===== *)
(** * BookApi: [presentation/api/handlers/book_api_route_handler.py]

    The book router's handlers over the use cases of [Books.v], run on
    the book application state ([BookApp]: world, books, annotations,
    blob storage).  [handle_domain_exception] and the handlers' [except]
    clauses test the exception's class ([exc_isinstance]); the messages
    are [presentation/api/error_messages/book_error_message.py], whose
    templates are filled with [str.format(error=str(e))].

    [get_books_by_user], [get_covers] and [put_book] call use cases whose
    files ([find_books_usecase.py], [update_book_usecase.py]) are not in
    the repository: the router ([book_api]) leaves them to a parameter.
    [GCSClient] is not in the repository either: [use_emulator] is a
    parameter, and [generate_signed_url] a storage request whose signing
    function is a parameter ([sign]).  The book's [model_dump] is the
    [Book] record. *)

From S2P Require Import Prelude Store Base BookDomain Annotations Books Routing.

(** [book_error_message.py]. *)
Definition BOOK_NOT_FOUND : string := "Book with the specified ID was not found.".
Definition BOOK_ACCESS_DENIED : string := "You do not have permission to access this book.".
Definition BOOK_FILE_NOT_FOUND : string := "File for this book was not found.".
Definition BOOK_ALREADY_STARTED : string := "This book has already been started.".
Definition BOOK_ALREADY_COMPLETED : string := "This book has already been completed.".
Definition BOOK_CREATE_ERROR : string := "An error occurred while creating the book: {error}".
Definition BOOK_DELETE_ERROR : string := "An error occurred while deleting the book: {error}".
Definition BOOK_BULK_DELETE_ERROR : string := "An error occurred while bulk deleting books: {error}".
Definition SIGNED_URL_GENERATION_ERROR : string := "An error occurred while generating the signed URL: {error}".

(** [TEMPLATE.format(error=str(e))]. *)
Definition format_error (template : string) (e : Exc) : string := py_replace template "{error}" (exc_str e).

(** [handle_domain_exception]. *)
Definition handle_domain_exception (e : Exc) : HTTPException :=
  if exc_isinstance e "BookNotFoundException" then mkHTTPException 404 BOOK_NOT_FOUND
  else if exc_isinstance e "BookPermissionDeniedException" then mkHTTPException 403 BOOK_ACCESS_DENIED
  else if exc_isinstance e "BookFileNotFoundException" then mkHTTPException 404 BOOK_FILE_NOT_FOUND
  else if exc_isinstance e "BookAlreadyStartedException" then mkHTTPException 400 BOOK_ALREADY_STARTED
  else if exc_isinstance e "BookAlreadyCompletedException" then mkHTTPException 400 BOOK_ALREADY_COMPLETED
  else if exc_isinstance e "BookDomainException" then mkHTTPException 400 (exc_str e)
  else mkHTTPException 500 (exc_str e).

(** The bodies the handlers return: [BookResponse(book_detail=...)],
    [BookFileResponse(url=...)], the [JSONResponse] of [delete_book] and
    [BulkDeleteResponse(deleted_ids=..., count=...)]; [{"detail": ...}]
    for an [HTTPException]. *)
Inductive BookApiBody :=
| BookBodyDetail (detail : string)
| BookBodyBook (book_detail : Book)
| BookBodyFile (url : string)
| BookBodyDeleted (success : bool) (message : string)
| BookBodyBulkDeleted (deleted_ids : list string) (count : Z).

(** ** The handlers *)

Section Handlers.
Context `{BookRepository B} `{AnnotationRepository A}.
Context (is_valid_uuid : string -> bool) (b64decode : string -> res string) (json_loads : string -> option JsonDoc).

(** [get_book]. *)
Definition get_book (book_id : string) : M (BookApp B A) (Response BookApiBody) :=
  try_except
    (book ← find_book_by_id is_valid_uuid book_id; mret (Respond 200 (BookBodyBook book)))
    (fun e => mret (Raise (handle_domain_exception e))).

(** [blob.generate_signed_url(version="v4", expiration=3600, method="GET")]. *)
Definition generate_signed_url (sign : string -> string) (path : string) : M (BookApp B A) string :=
  in_storage (storage_request (fun st => (Ok (sign path), st))).

(** [get_book_file]: the file, then the ownership, then the URL.
    [GCSClient()], whose class is not in the repository, is taken to be
    built; the bucket and blob handles make no request, the signing
    does ([generate_signed_url]). *)
Definition get_book_file (use_emulator : bool) (sign : string -> string) (book_id user_id : string)
    : M (BookApp B A) (Response BookApiBody) :=
  try_except
    (book ← find_book_by_id is_valid_uuid book_id;
     if bool_decide (book_file_path book = "") then raise book_file_not_found
     else if bool_decide (book_user_id book <> user_id) then raise book_permission_denied
     else if use_emulator then mret (Respond 200 (BookBodyFile (book_file_path book)))
     else
       s ← get;
       let path := py_replace (book_file_path book) (gcs_prefix (ba_storage s)) "" in
       signed_url ← generate_signed_url sign path;
       mret (Respond 200 (BookBodyFile signed_url)))
    (fun e => mret (Raise
       (if exc_isinstance e "BookFileNotFoundException" then mkHTTPException 404 BOOK_FILE_NOT_FOUND
        else if exc_isinstance e "BookPermissionDeniedException" then mkHTTPException 403 BOOK_ACCESS_DENIED
        else if exc_isinstance e "BookNotFoundException" then mkHTTPException 404 BOOK_NOT_FOUND
        else mkHTTPException 500 (format_error SIGNED_URL_GENERATION_ERROR e)))).

(** [post_book]. *)
Definition post_book (book_id_value : string) (now : Z) (user_id file_name file_data : string)
    (book_name cover_image book_metadata : option string) : M (BookApp B A) (Response BookApiBody) :=
  try_except
    (book ← create_book b64decode json_loads book_id_value now user_id file_name file_data
              book_name cover_image book_metadata;
     mret (Respond 200 (BookBodyBook book)))
    (fun e => if exc_isinstance e "ValueError" then mret (Raise (mkHTTPException 400 (exc_str e)))
              else mret (Raise (mkHTTPException 500 (format_error BOOK_CREATE_ERROR e)))).

(** [bulk_delete_books_endpoint]. *)
Definition bulk_delete_books_endpoint (now : Z) (book_ids : list string) : M (BookApp B A) (Response BookApiBody) :=
  try_except
    (deleted_ids ← bulk_delete_books is_valid_uuid now book_ids;
     mret (Respond 200 (BookBodyBulkDeleted deleted_ids (Z.of_nat (length deleted_ids)))))
    (fun e => mret (Raise (mkHTTPException 500 (format_error BOOK_BULK_DELETE_ERROR e)))).

(** [delete_book]. *)
Definition delete_book_handler (now : Z) (book_id : string) : M (BookApp B A) (Response BookApiBody) :=
  try_except
    (delete_book is_valid_uuid now book_id;; mret (Respond 200 (BookBodyDeleted true "Book successfully deleted")))
    (fun e => if exc_isinstance e "BookNotFoundException" then mret (Raise (mkHTTPException 404 BOOK_NOT_FOUND))
              else mret (Raise (mkHTTPException 500 (format_error BOOK_DELETE_ERROR e)))).
End Handlers.

(** ** The routes *)

Inductive BookHandler :=
| GetBooksByUser | GetCovers | GetBook | GetBookFile | PostBook | PutBook | BulkDeleteBooksEndpoint | DeleteBook.

#[export] Instance BookHandler_eq_dec : EqDecision BookHandler.
Proof. solve_decision. Defined.

(** The decorators, in the order of the file. *)
Definition book_routes : list (Route BookHandler) :=
  [mkRoute GET [Lit "user"; Param "user_id"] GetBooksByUser;
   mkRoute GET [Lit "covers"] GetCovers;
   mkRoute GET [Param "book_id"] GetBook;
   mkRoute GET [Param "book_id"; Lit "file"] GetBookFile;
   mkRoute POST [] PostBook;
   mkRoute PUT [Param "book_id"] PutBook;
   mkRoute DELETE [Lit "bulk-delete"] BulkDeleteBooksEndpoint;
   mkRoute DELETE [Param "book_id"] DeleteBook].

(** The request bodies: [BookCreateRequest] and [BulkDeleteRequestBody]. *)
Inductive BookRequestBody :=
| NoBookBody
| BookCreateBody (user_id file_name file_data : string) (book_name cover_image book_metadata : option string)
| BulkDeleteBody (book_ids : list string).

Section Router.
Context `{BookRepository B} `{AnnotationRepository A}.
Context (is_valid_uuid : string -> bool) (b64decode : string -> res string) (json_loads : string -> option JsonDoc).
Context (use_emulator : bool) (sign : string -> string).
(** The handlers whose use cases are not in the repository. *)
Context (unmodelled : BookHandler -> list (string * string) -> M (BookApp B A) (ApiReply BookApiBody)).

(** The router and the handlers; [user_id] is the query parameter of
    [get_book_file], [422] when it is missing or the body has the wrong
    shape. *)
Definition book_api (now : Z) (book_id_value : string) (meth : Method) (path : list string)
    (query_user_id : option string) (body : BookRequestBody) : M (BookApp B A) (ApiReply BookApiBody) :=
  let answer r := mret (to_reply BookBodyDetail (fun b => b) r) in
  match dispatch book_routes meth path with
  | NotFound => mret (mkApiReply 404 (BookBodyDetail "Not Found"))
  | MethodNotAllowed => mret (mkApiReply 405 (BookBodyDetail "Method Not Allowed"))
  | Handle h ps =>
      let arg := default "" (snd <$> head ps) in
      match h, body, query_user_id with
      | GetBook, _, _ => get_book is_valid_uuid arg ≫= answer
      | GetBookFile, _, Some user_id => get_book_file is_valid_uuid use_emulator sign arg user_id ≫= answer
      | PostBook, BookCreateBody user_id file_name file_data book_name cover_image book_metadata, _ =>
          post_book b64decode json_loads book_id_value now user_id file_name file_data book_name cover_image
            book_metadata ≫= answer
      | BulkDeleteBooksEndpoint, BulkDeleteBody book_ids, _ => bulk_delete_books_endpoint is_valid_uuid now book_ids ≫= answer
      | DeleteBook, _, _ => delete_book_handler is_valid_uuid now arg ≫= answer
      | (GetBooksByUser | GetCovers | PutBook), _, _ => unmodelled h ps
      | _, _, _ => mret (mkApiReply 422 (BookBodyDetail "Field required"))
      end
  end.
End Router.

(** ** The router *)

(** [DELETE /bulk-delete] is registered first, so it is reached; every
    other one-segment path goes to [delete_book]. *)
Lemma dispatch_book_delete_one i :
  i <> "" -> i <> "bulk-delete" -> dispatch book_routes DELETE [i] = Handle DeleteBook [("book_id", i)].
Proof. intros Hi Hb. cbn. repeat (case_bool_decide; try congruence); done. Qed.

Lemma dispatch_book_bulk_delete : dispatch book_routes DELETE ["bulk-delete"] = Handle BulkDeleteBooksEndpoint [].
Proof. reflexivity. Qed.

(** ** The handlers on the use cases *)

(** [BookId] raises only [ValueError]. *)
Lemma book_id_mk_value_error is_valid_uuid v e : book_id_mk is_valid_uuid v = Err e -> exists msg, e = ValueError msg.
Proof. unfold book_id_mk. case_bool_decide; [|destruct (negb _)]; intros [= <-]; by eexists. Qed.

Lemma book_not_found_isinstance i : exc_isinstance (book_not_found i) "BookNotFoundException" = true.
Proof. reflexivity. Qed.

Section DeleteHandler.
Context `{BookRepositoryLaws B} `{AnnotationRepository A}.
Context (is_valid_uuid : string -> bool).

(** [delete_book]: the use case's three outcomes, as statuses. *)
Lemma delete_book_handler_outcome now i (s : BookApp B A) :
  match book_id_mk is_valid_uuid i with
  | Err e => delete_book_handler is_valid_uuid now i s =
               (Ok (Raise (mkHTTPException 500 (format_error BOOK_DELETE_ERROR e))), s)
  | Ok j =>
      match book_find_by_id j (ba_books s) with
      | None => delete_book_handler is_valid_uuid now i s = (Ok (Raise (mkHTTPException 404 BOOK_NOT_FOUND)), s)
      | Some _ =>
          exists s', delete_book_handler is_valid_uuid now i s =
                       (Ok (Respond 200 (BookBodyDeleted true "Book successfully deleted")), s') /\
            book_find_by_id j (ba_books s') = None /\
            forall k, k <> j -> book_find_by_id k (ba_books s') = book_find_by_id k (ba_books s)
      end
  end.
Proof.
  pose proof (delete_book_correct is_valid_uuid now i s) as Hc. unfold delete_book_handler.
  destruct (book_id_mk is_valid_uuid i) as [j|e] eqn:Hid.
  - destruct (book_find_by_id j (ba_books s)) as [b|].
    + destruct Hc as (s' & Hrun & Hgone & Hother). exists s'. split_and!; [|done|done].
      apply try_except_ok. by rewrite (bind_ok_l _ _ _ _ _ Hrun).
    + rewrite (try_except_err _ _ _ (book_not_found i) s); [done|]. unfold mbind, M_bind. by rewrite Hc.
  - destruct (book_id_mk_value_error _ _ _ Hid) as [msg ->].
    rewrite (try_except_err _ _ _ (ValueError msg) s); [done|]. unfold mbind, M_bind. by rewrite Hc.
Qed.
End DeleteHandler.

(** (C33) [DELETE /{i}], for a one-segment path other than
    [bulk-delete]: an id [BookId] rejects is answered [500], the
    server-error status, with the [ValueError]'s message in
    [BOOK_DELETE_ERROR]; a valid id of no live book [404]; a found book
    is deleted, no longer found, every other book is left, and the client
    gets [200].  Nothing changes but on [200]. *)
Theorem book_api_delete `{BookRepositoryLaws B} `{AnnotationRepository A} is_valid_uuid b64decode json_loads
    use_emulator sign unmodelled now book_id_value i query_user_id body (s : BookApp B A) :
  i <> "" -> i <> "bulk-delete" ->
  let run := book_api is_valid_uuid b64decode json_loads use_emulator sign unmodelled now book_id_value
               DELETE [i] query_user_id body s in
  match book_id_mk is_valid_uuid i with
  | Err e => run = (Ok (mkApiReply 500 (BookBodyDetail (format_error BOOK_DELETE_ERROR e))), s)
  | Ok j =>
      match book_find_by_id j (ba_books s) with
      | None => run = (Ok (mkApiReply 404 (BookBodyDetail BOOK_NOT_FOUND)), s)
      | Some _ =>
          exists s', run = (Ok (mkApiReply 200 (BookBodyDeleted true "Book successfully deleted")), s') /\
            book_find_by_id j (ba_books s') = None /\
            forall k, k <> j -> book_find_by_id k (ba_books s') = book_find_by_id k (ba_books s)
      end
  end.
Proof.
  intros Hi Hb run. subst run. unfold book_api. rewrite dispatch_book_delete_one by done.
  cbn [head fmap option_fmap option_map snd default].
  pose proof (delete_book_handler_outcome is_valid_uuid now i s) as Ho.
  destruct (book_id_mk is_valid_uuid i) as [j|e]; [destruct (book_find_by_id j (ba_books s))|].
  - destruct Ho as (s' & Hrun & Ho). exists s'. split; [by rewrite (bind_ok_l _ _ _ _ _ Hrun)|done].
  - by rewrite (bind_ok_l _ _ _ _ _ Ho).
  - by rewrite (bind_ok_l _ _ _ _ _ Ho).
Qed.

(** ** The book file goes to its owner only *)

Section File.
Context `{BookRepository B} `{AnnotationRepository A}.
Context (is_valid_uuid : string -> bool).

(** [FindBookByIdUseCaseImpl.execute] returns the live book of the id
    and changes nothing. *)
Lemma find_book_by_id_ok book_id (s : BookApp B A) b s' :
  find_book_by_id is_valid_uuid book_id s = (Ok b, s') ->
  s' = s /\ book_id_mk is_valid_uuid book_id = Ok book_id /\ book_find_by_id book_id (ba_books s) = Some b.
Proof.
  unfold find_book_by_id, book_id_mk. case_bool_decide; [done|]. destruct (negb _); [done|].
  rewrite lift_res_bind_ok, get_bind. destruct (book_find_by_id book_id (ba_books s)); [|done].
  by intros [= <- <-].
Qed.

(** A handler that raises [HTTPException] answers no [Respond]. *)
Lemma mret_raise_not_respond (h : HTTPException) (s : BookApp B A) st r s' :
  (mret (Raise h) : M (BookApp B A) (Response BookApiBody)) s <> (Ok (Respond st r), s').
Proof. by intros [=]. Qed.

(** (C31) [get_book_file] sends a file URL only to the book's owner: an
    answer [200] means the id names a live book with a file whose
    [user_id] is the caller's, and with the emulator the URL is the
    book's [file_path]; a caller who is not the owner gets [403], or
    [404] when the book has no file. *)
Theorem get_book_file_owner_only use_emulator sign book_id user_id (s : BookApp B A) st r s' :
  get_book_file is_valid_uuid use_emulator sign book_id user_id s = (Ok (Respond st r), s') ->
  exists b, book_find_by_id book_id (ba_books s) = Some b /\ book_user_id b = user_id /\
    book_file_path b <> "" /\ (use_emulator = true -> r = BookBodyFile (book_file_path b)).
Proof.
  unfold get_book_file, try_except, mbind, M_bind at 1.
  destruct (find_book_by_id is_valid_uuid book_id s) as [[b|e] s1] eqn:Hf;
    [|by intros ?%mret_raise_not_respond].
  apply find_book_by_id_ok in Hf as (-> & _ & Hfound).
  case_bool_decide as Hp; [by intros ?%mret_raise_not_respond|].
  case_bool_decide as Ho; [by intros ?%mret_raise_not_respond|].
  intros Hrun. exists b. split_and!; [done..|]. intros ->. by injection Hrun as <-.
Qed.
End File.

(** ** On the reference table *)

(** The handlers the router leaves to a parameter, in the examples. *)
Definition example_unmodelled (h : BookHandler) (ps : list (string * string))
    : M (BookApp BookTable (list Book)) (ApiReply BookApiBody) :=
  mret (mkApiReply 200 (BookBodyDetail "")).

(** A malformed id: the server-error status. *)
Lemma book_api_delete_witness :
  book_api example_is_valid_uuid example_b64decode example_json_loads true (fun p => p) example_unmodelled 5 "b3"
    DELETE ["bad"] None NoBookBody example_book_app =
  (Ok (mkApiReply 500 (BookBodyDetail "An error occurred while deleting the book: BookId must be a valid UUID format")),
   example_book_app).
Proof.
  pose proof (book_api_delete example_is_valid_uuid example_b64decode example_json_loads true (fun p => p)
                example_unmodelled 5 "b3" "bad" None NoBookBody example_book_app
                ltac:(discriminate) ltac:(discriminate)) as H.
  assert (Hid : book_id_mk example_is_valid_uuid "bad" = Err (ValueError "BookId must be a valid UUID format"))
    by reflexivity.
  cbv zeta in H. rewrite Hid in H. rewrite H. vm_compute. reflexivity.
Defined.

Lemma get_book_file_owner_only_witness :
  exists b, book_find_by_id "b1" (ba_books example_book_app) = Some b /\ book_user_id b = "u" /\
    book_file_path b <> "" /\ (true = true -> BookBodyFile (book_file_path (example_book "b1")) = BookBodyFile (book_file_path b)).
Proof.
  apply (get_book_file_owner_only example_is_valid_uuid true (fun p => p) "b1" "u" example_book_app 200 _
           example_book_app).
  vm_compute. reflexivity.
Defined.

(** Another user asking for the same file is refused. *)
Lemma example_get_book_file_other_user :
  fst (get_book_file example_is_valid_uuid true (fun p => p) "b1" "other" example_book_app) =
  Ok (Raise (mkHTTPException 403 BOOK_ACCESS_DENIED)).
Proof. vm_compute. reflexivity. Qed.
