(* ===== verification/ChatApi.v ===== *)
(** * ChatApi: [presentation/api/handlers/chat_api_route_handler.py]

    The chat router's six handlers over the chat use cases of
    [ChatRepo.v].  The value objects [UserId], [ChatTitle], [ChatId] and
    the chat's [BookId] are not in the repository: their constructors
    are parameters ([ChatValueObjects]) that return the value or raise,
    and the theorems assume they raise [ValueError] only, as every value
    object of the repository does.  [ChatNotFoundError] and
    [ChatValidationError] are not in the repository either; the first is
    the class [chat_not_found] raises.  [ChatErrorMessage] is
    [presentation/api/error_messages/chat_error_message.py]; the
    responses are [presentation/api/schemas/chat_schema.py]. *)

From S2P Require Import Prelude Base Domain ChatRepo Routing.

(** [ChatErrorMessage]. *)
Definition CHAT_NOT_FOUND : string := "Chat not found".
Definition CHAT_ID_INVALID : string := "Invalid chat ID".
Definition USER_ID_INVALID : string := "Invalid user ID".
Definition BOOK_ID_INVALID : string := "Invalid book ID".

(** [ChatResponse]. *)
Record ChatResponse := mkChatResponse {
  cr_id : string; cr_user_id : string; cr_title : string; cr_book_id : option string;
  cr_created_at : Z; cr_updated_at : Z
}.

Definition chat_response (c : Chat) : ChatResponse :=
  mkChatResponse (chat_id c) (chat_user_id c) (chat_title c) (chat_book_id c) (chat_created_at c)
    (chat_updated_at c).

(** The bodies: a chat, a list of chats ([ChatsResponse] or the bare
    list), nothing ([204]), or [{"detail": ...}]. *)
Inductive ChatApiBody :=
| ChatBodyDetail (detail : string)
| ChatBodyChat (chat : ChatResponse)
| ChatBodyChats (chats : list ChatResponse)
| ChatBodyNone.

(** [request.title or "Untitled"]. *)
Definition title_or_untitled (title : option string) : string :=
  match title with Some t => if bool_decide (t = "") then "Untitled" else t | None => "Untitled" end.

Section Handlers.
Context `{ChatRepository C} (vo : ChatValueObjects).

(** The [except ValueError] / [except ChatNotFoundError] pair of the
    handlers that look a chat up; any other exception propagates. *)
Definition chat_lookup_except (invalid : Exc -> string) (e : Exc) : M C (Response ChatApiBody) :=
  if exc_isinstance e "ValueError" then mret (Raise (mkHTTPException 400 (invalid e)))
  else if exc_isinstance e "ChatNotFoundError" then mret (Raise (mkHTTPException 404 CHAT_NOT_FOUND))
  else raise e.

(** [create_chat]; the new chat's id and time are [uuid4()] and
    [datetime.now()]. *)
Definition create_chat_handler (new_id : string) (now : Z) (req_user_id : string)
    (req_title req_book_id : option string) : M C (Response ChatApiBody) :=
  try_except
    (user_id ← lift_res (user_id_mk vo req_user_id);
     title ← lift_res (chat_title_mk vo (title_or_untitled req_title));
     book_id ← match req_book_id with
               | Some b => if bool_decide (b = "") then mret None
                           else b' ← lift_res (chat_book_id_mk vo b); mret (Some b')
               | None => mret None
               end;
     chat ← create_chat new_id now user_id title book_id;
     mret (Respond 201 (ChatBodyChat (chat_response chat))))
    (fun e => if exc_isinstance e "ValueError" then mret (Raise (mkHTTPException 400 (exc_str e)))
              else if exc_isinstance e "ChatValidationError" then mret (Raise (mkHTTPException 400 (exc_str e)))
              else raise e).

(** [get_chat_by_id]. *)
Definition get_chat_by_id (chat_id : string) : M C (Response ChatApiBody) :=
  try_except
    (i ← lift_res (chat_id_mk vo chat_id); chat ← find_chat_by_id i; mret (Respond 200 (ChatBodyChat (chat_response chat))))
    (chat_lookup_except (fun _ => CHAT_ID_INVALID)).

(** [get_chats_by_user_id]. *)
Definition get_chats_by_user_id (user_id : string) : M C (Response ChatApiBody) :=
  try_except
    (u ← lift_res (user_id_mk vo user_id); chats ← find_chats_by_user_id u;
     mret (Respond 200 (ChatBodyChats (chat_response <$> chats))))
    (fun e => if exc_isinstance e "ValueError" then mret (Raise (mkHTTPException 400 USER_ID_INVALID)) else raise e).

(** [get_chats_by_user_id_and_book_id]: both value objects in one [try]. *)
Definition get_chats_by_user_id_and_book_id (user_id book_id : string) : M C (Response ChatApiBody) :=
  try_except
    (u ← lift_res (user_id_mk vo user_id); b ← lift_res (chat_book_id_mk vo book_id);
     chats ← find_chats_by_user_id_and_book_id u b;
     mret (Respond 200 (ChatBodyChats (chat_response <$> chats))))
    (fun e => if exc_isinstance e "ValueError" then mret (Raise (mkHTTPException 400 USER_ID_INVALID)) else raise e).

(** [update_chat_title]: the update, then the chat read back. *)
Definition update_chat_title_handler (now : Z) (chat_id title : string) : M C (Response ChatApiBody) :=
  try_except
    (chat_id_obj ← lift_res (chat_id_mk vo chat_id);
     t ← lift_res (chat_title_mk vo title);
     update_chat_title now chat_id_obj t;;
     chat ← find_chat_by_id chat_id_obj;
     mret (Respond 200 (ChatBodyChat (chat_response chat))))
    (chat_lookup_except exc_str).

(** [delete_chat]. *)
Definition delete_chat_handler (now : Z) (chat_id : string) : M C (Response ChatApiBody) :=
  try_except
    (i ← lift_res (chat_id_mk vo chat_id); delete_chat now i;; mret (Respond 204 ChatBodyNone))
    (chat_lookup_except (fun _ => CHAT_ID_INVALID)).
End Handlers.

(** ** The routes *)

Inductive ChatHandler :=
| CreateChat | GetChatById | GetChatsByUserId | GetChatsByUserIdAndBookId | UpdateChatTitle | DeleteChat.

#[export] Instance ChatHandler_eq_dec : EqDecision ChatHandler.
Proof. solve_decision. Defined.

Definition chat_routes : list (Route ChatHandler) :=
  [mkRoute POST [] CreateChat;
   mkRoute GET [Param "chat_id"] GetChatById;
   mkRoute GET [Lit "user"; Param "user_id"] GetChatsByUserId;
   mkRoute GET [Lit "user"; Param "user_id"; Lit "book"; Param "book_id"] GetChatsByUserIdAndBookId;
   mkRoute PATCH [Param "chat_id"; Lit "title"] UpdateChatTitle;
   mkRoute DELETE [Param "chat_id"] DeleteChat].

(** [ChatCreateRequest] and [ChatUpdateTitleRequest]. *)
Inductive ChatRequestBody :=
| NoChatBody
| ChatCreateBody (user_id : string) (title book_id : option string)
| ChatUpdateTitleBody (title : string).

(** [Field(..., max_length=255)] of both request titles. *)
Definition title_fits (t : string) : bool := Nat.leb (py_len t) 255.

Section Router.
Context `{ChatRepository C} (vo : ChatValueObjects).

Definition param (ps : list (string * string)) (name : string) : string :=
  default "" (snd <$> List.find (fun kv => bool_decide (kv.1 = name)) ps).

(** The router and the handlers; FastAPI answers [422] a body that does
    not validate. *)
Definition chat_api (new_id : string) (now : Z) (meth : Method) (path : list string) (body : ChatRequestBody)
    : M C (ApiReply ChatApiBody) :=
  let answer r := mret (to_reply ChatBodyDetail (fun b => b) r) in
  let invalid := mret (mkApiReply 422 (ChatBodyDetail "Unprocessable Entity")) in
  match dispatch chat_routes meth path with
  | NotFound => mret (mkApiReply 404 (ChatBodyDetail "Not Found"))
  | MethodNotAllowed => mret (mkApiReply 405 (ChatBodyDetail "Method Not Allowed"))
  | Handle h ps =>
      match h, body with
      | CreateChat, ChatCreateBody user_id title book_id =>
          if negb (default true (title_fits <$> title)) then invalid
          else create_chat_handler vo new_id now user_id title book_id ≫= answer
      | GetChatById, _ => get_chat_by_id vo (param ps "chat_id") ≫= answer
      | GetChatsByUserId, _ => get_chats_by_user_id vo (param ps "user_id") ≫= answer
      | GetChatsByUserIdAndBookId, _ =>
          get_chats_by_user_id_and_book_id vo (param ps "user_id") (param ps "book_id") ≫= answer
      | UpdateChatTitle, ChatUpdateTitleBody title =>
          if negb (title_fits title) then invalid
          else update_chat_title_handler vo now (param ps "chat_id") title ≫= answer
      | DeleteChat, _ => delete_chat_handler vo now (param ps "chat_id") ≫= answer
      | _, _ => invalid
      end
  end.
End Router.

(** ** The router *)

Lemma dispatch_chat_title i :
  i <> "" -> dispatch chat_routes PATCH [i; "title"] = Handle UpdateChatTitle [("chat_id", i)].
Proof. intros Hi. cbn. repeat (case_bool_decide; try congruence); done. Qed.

(** ** The handlers on the use cases *)

Lemma chat_not_found_class i :
  exc_isinstance (chat_not_found i) "ValueError" = false /\
  exc_isinstance (chat_not_found i) "ChatNotFoundError" = true.
Proof. done. Qed.

Section TitleHandler.
Context `{ChatRepositoryLaws C} (vo : ChatValueObjects).

Lemma chat_lookup_except_value_error (invalid : Exc -> string) e (r : C) :
  exc_isinstance e "ValueError" = true ->
  chat_lookup_except invalid e r = (Ok (Raise (mkHTTPException 400 (invalid e))), r).
Proof. intros He. unfold chat_lookup_except. by rewrite He. Qed.

(** [update_chat_title]: the outcomes of the value objects and the use
    case, as statuses. *)
Lemma update_chat_title_handler_outcome now i t (r : C) :
  value_objects_ok vo ->
  match chat_id_mk vo i, chat_title_mk vo t with
  | Err e, _ | Ok _, Err e =>
      update_chat_title_handler vo now i t r = (Ok (Raise (mkHTTPException 400 (exc_str e))), r)
  | Ok j, Ok t' =>
      match chat_find_by_id j r with
      | None => update_chat_title_handler vo now i t r = (Ok (Raise (mkHTTPException 404 CHAT_NOT_FOUND)), r)
      | Some c =>
          exists r', update_chat_title_handler vo now i t r =
                       (Ok (Respond 200 (ChatBodyChat (chat_response (chat_update_title now t' c)))), r') /\
            chat_find_by_id j r' = Some (chat_update_title now t' c) /\
            forall k, k <> j -> chat_find_by_id k r' = chat_find_by_id k r
      end
  end.
Proof.
  intros (_ & Ht & _ & Hi). unfold update_chat_title_handler.
  destruct (chat_id_mk vo i) as [j|e] eqn:Hj.
  2:{ rewrite (try_except_err _ _ r e r) by done. by apply chat_lookup_except_value_error, (Hi i). }
  destruct (chat_title_mk vo t) as [t'|e] eqn:Ht'.
  2:{ rewrite (try_except_err _ _ r e r) by done. by apply chat_lookup_except_value_error, (Ht t). }
  pose proof (update_chat_title_correct now j t' r) as Hu.
  destruct (chat_find_by_id j r) as [c|] eqn:Hf.
  - destruct Hu as (r' & Hrun & Hfound & Hother). exists r'. split_and!; [|done|done].
    apply try_except_ok. rewrite !lift_res_bind_ok, (bind_ok_l _ _ _ _ _ Hrun).
    unfold find_chat_by_id. unfold_m. by rewrite Hfound.
  - rewrite (try_except_err _ _ r (chat_not_found j) r).
    + unfold chat_lookup_except. by rewrite !(proj1 (chat_not_found_class j)), (proj2 (chat_not_found_class j)).
    + rewrite !lift_res_bind_ok. unfold mbind, M_bind. by rewrite Hu.
Qed.
End TitleHandler.

(** (C37) [PATCH /{i}/title] with [{"title": t}]: a title over 255 code
    points is refused [422] by the request schema; an id or title the
    value objects reject is answered [400] with the [ValueError]'s
    message; a missing chat [404]; otherwise the chat gets the title and
    a new [updated_at], is answered [200] as read back, and no other
    chat changes.  Nothing changes but on [200]. *)
Theorem chat_api_update_title `{ChatRepositoryLaws C} vo new_id now i t (r : C) :
  value_objects_ok vo -> i <> "" ->
  let run := chat_api vo new_id now PATCH [i; "title"] (ChatUpdateTitleBody t) r in
  if negb (title_fits t) then run = (Ok (mkApiReply 422 (ChatBodyDetail "Unprocessable Entity")), r)
  else
  match chat_id_mk vo i, chat_title_mk vo t with
  | Err e, _ | Ok _, Err e => run = (Ok (mkApiReply 400 (ChatBodyDetail (exc_str e))), r)
  | Ok j, Ok t' =>
      match chat_find_by_id j r with
      | None => run = (Ok (mkApiReply 404 (ChatBodyDetail CHAT_NOT_FOUND)), r)
      | Some c =>
          exists r', run = (Ok (mkApiReply 200 (ChatBodyChat (chat_response (chat_update_title now t' c)))), r') /\
            chat_find_by_id j r' = Some (chat_update_title now t' c) /\
            forall k, k <> j -> chat_find_by_id k r' = chat_find_by_id k r
      end
  end.
Proof.
  intros Hvo Hi run. subst run. unfold chat_api. rewrite dispatch_chat_title by done. cbv zeta.
  destruct (negb (title_fits t)); [done|].
  pose proof (update_chat_title_handler_outcome vo now i t r Hvo) as Ho. unfold param. cbn.
  destruct (chat_id_mk vo i) as [j|e]; [destruct (chat_title_mk vo t) as [t'|e]|].
  - destruct (chat_find_by_id j r).
    + destruct Ho as (r' & Hrun & Ho). exists r'. split; [by rewrite (bind_ok_l _ _ _ _ _ Hrun)|done].
    + by rewrite (bind_ok_l _ _ _ _ _ Ho).
  - by rewrite (bind_ok_l _ _ _ _ _ Ho).
  - by rewrite (bind_ok_l _ _ _ _ _ Ho).
Qed.


(** An invalid book id is reported as an invalid user id. *)
Lemma chats_by_invalid_book_id `{ChatRepository C} (vo : ChatValueObjects) user_id book_id u e (r : C) :
  user_id_mk vo user_id = Ok u -> chat_book_id_mk vo book_id = Err e -> exc_isinstance e "ValueError" = true ->
  get_chats_by_user_id_and_book_id vo user_id book_id r = (Ok (Raise (mkHTTPException 400 USER_ID_INVALID)), r).
Proof.
  intros Hu Hb He. unfold get_chats_by_user_id_and_book_id.
  rewrite (try_except_err _ _ r e r); [by rewrite He|]. by rewrite Hu, lift_res_bind_ok, Hb.
Qed.

(** ** On the reference table *)

(** Value objects that accept every value but the empty title. *)
Definition example_chat_value_objects : ChatValueObjects :=
  mkChatValueObjects Ok (fun v => if bool_decide (v = "") then Err (ValueError "Title is required") else Ok v) Ok Ok.

Lemma example_chat_value_objects_ok : value_objects_ok example_chat_value_objects.
Proof.
  split_and!; intros v e; cbn; [done| |done|done].
  case_bool_decide; [|done]. by intros [= <-].
Qed.

Lemma chat_api_update_title_witness :
  fst (chat_api example_chat_value_objects "n" 5 PATCH ["c"; "title"] (ChatUpdateTitleBody "renamed")
         example_chat_table) =
  Ok (mkApiReply 200 (ChatBodyChat (chat_response (mkChat "c" "u" "renamed" None 0 5 None)))).
Proof.
  pose proof (chat_api_update_title example_chat_value_objects "n" 5 "c" "renamed" example_chat_table
                example_chat_value_objects_ok ltac:(discriminate)) as H.
  cbv zeta in H.
  assert (E1 : title_fits "renamed" = true) by reflexivity.
  assert (E2 : chat_id_mk example_chat_value_objects "c" = Ok "c") by reflexivity.
  assert (E3 : chat_title_mk example_chat_value_objects "renamed" = Ok "renamed") by reflexivity.
  assert (E4 : chat_find_by_id "c" example_chat_table = Some (mkChat "c" "u" "title" None 0 0 None))
    by reflexivity.
  rewrite E1, E2, E3, E4 in H. cbn [negb] in H. destruct H as (r' & Hrun & _). rewrite Hrun. reflexivity.
Defined.
