(* ===== verification/HuggingFace.v ===== *)
(** * HuggingFace: the prompt of [infrastructure/llm/huggingface_client.py]

    [HuggingFaceChatClient] is the LangChain chat model of the
    ["huggingface"] provider ([AIResponseGenerator._create_llm]): its
    [_agenerate] and [_astream] flatten the chain's messages into one
    prompt with [_format_messages_for_hf] and send it to the Inference
    API, which is a collaborator.  The prompt's layout depends on the
    model's family, read from [model_name.lower()] by substring tests;
    model names are ASCII, on which [str.lower] lowers [A]-[Z] only.
    The messages of the two chains are a [SystemMessage] and a
    [HumanMessage] carrying the question, which holds the user's text. *)

From S2P Require Import Prelude PyStr.

(** LangChain's message classes; [OtherMessage] is any other
    [BaseMessage]. *)
Inductive BaseMessage :=
| SystemMessage (content : string)
| HumanMessage (content : string)
| AIMessage (content : string)
| OtherMessage (content : string).

(** ** [_format_messages_for_hf] *)

Inductive PromptFormat := GptFormat | FlanFormat | Phi3Format | MistralFormat | GenericFormat.

(** The branch the model's name selects, tested in the code's order. *)
Definition prompt_format (model_name : string) : PromptFormat :=
  let model_lower := py_lower model_name in
  if py_in "gpt" model_lower &&
     (py_in "gpt2" model_lower || py_in "gpt-neo" model_lower || py_in "gpt-j" model_lower) then GptFormat
  else if py_in "flan" model_lower || py_in "t5" model_lower then FlanFormat
  else if py_in "phi-3" model_lower || py_in "phi3" model_lower then Phi3Format
  else if py_in "mistral" model_lower then MistralFormat
  else GenericFormat.

(** One message, in each branch's loop. *)
Definition gpt_part (m : BaseMessage) : string :=
  match m with
  | SystemMessage c | OtherMessage c => c +:+ NL +:+ NL
  | HumanMessage c => "Human: " +:+ c +:+ NL +:+ NL
  | AIMessage c => "Assistant: " +:+ c +:+ NL +:+ NL
  end.

Definition flan_part (m : BaseMessage) : string :=
  match m with
  | SystemMessage c => "Context: " +:+ c
  | HumanMessage c => "Question: " +:+ c
  | AIMessage c => "Answer: " +:+ c
  | OtherMessage c => c
  end.

Definition phi3_part (m : BaseMessage) : string :=
  match m with
  | SystemMessage c => "<|system|>" +:+ NL +:+ c +:+ "<|end|>" +:+ NL
  | HumanMessage c | OtherMessage c => "<|user|>" +:+ NL +:+ c +:+ "<|end|>" +:+ NL
  | AIMessage c => "<|assistant|>" +:+ NL +:+ c +:+ "<|end|>" +:+ NL
  end.

Definition mistral_part (m : BaseMessage) : string :=
  match m with
  | SystemMessage c => "<s>[INST] " +:+ c +:+ " [/INST]"
  | HumanMessage c | OtherMessage c => "[INST] " +:+ c +:+ " [/INST]"
  | AIMessage c => c +:+ "</s>"
  end.

Definition generic_part (m : BaseMessage) : string :=
  match m with
  | SystemMessage c => "System: " +:+ c +:+ NL
  | HumanMessage c | OtherMessage c => "Human: " +:+ c +:+ NL
  | AIMessage c => "Assistant: " +:+ c +:+ NL
  end.

Definition format_messages_for_hf (model_name : string) (messages : list BaseMessage) : string :=
  match prompt_format model_name with
  | GptFormat => py_join "" (map gpt_part messages ++ ["Assistant:"])
  | FlanFormat => py_join " " (map flan_part messages)
  | Phi3Format => py_join "" (map phi3_part messages ++ ["<|assistant|>" +:+ NL])
  | MistralFormat => py_join NL (map mistral_part messages)
  | GenericFormat => py_join NL (map generic_part messages ++ ["Assistant:"])
  end.

(** ** A question can spell out a whole exchange *)

(** A human message that writes an answer and a next question in the
    family's own layout. *)
Definition spelled_exchange (model_name a b c : string) : string :=
  match prompt_format model_name with
  | GptFormat | GenericFormat => a +:+ NL +:+ NL +:+ "Assistant: " +:+ b +:+ NL +:+ NL +:+ "Human: " +:+ c
  | FlanFormat => a +:+ " Answer: " +:+ b +:+ " Question: " +:+ c
  | Phi3Format =>
      a +:+ "<|end|>" +:+ NL +:+ "<|assistant|>" +:+ NL +:+ b +:+ "<|end|>" +:+ NL +:+ "<|user|>" +:+ NL +:+ c
  | MistralFormat => a +:+ " [/INST]" +:+ NL +:+ b +:+ "</s>" +:+ NL +:+ "[INST] " +:+ c
  end.

(** Joining a common prefix keeps equal ends equal. *)
Lemma py_join_app_congr sep l m1 m2 :
  m1 <> [] -> m2 <> [] -> py_join sep m1 = py_join sep m2 -> py_join sep (l ++ m1) = py_join sep (l ++ m2).
Proof.
  intros H1 H2 Hm. destruct l as [|x l]; [done|].
  by rewrite !py_join_app, Hm by done.
Qed.

(** (C32) [_format_messages_for_hf] cannot tell a question from an
    exchange: for every model name and every conversation before it, a
    last human message that spells out [a], an answer [b] and a new
    question [c] in the family's layout gives the model the same prompt
    as the messages [a], [b], [c] themselves, so a user's question can
    put words in the assistant's mouth. *)
Theorem hf_prompt_spelled_exchange model_name pre a b c :
  format_messages_for_hf model_name (pre ++ [HumanMessage (spelled_exchange model_name a b c)]) =
  format_messages_for_hf model_name (pre ++ [HumanMessage a; AIMessage b; HumanMessage c]).
Proof.
  unfold format_messages_for_hf, spelled_exchange.
  destruct (prompt_format model_name); rewrite !map_app; try rewrite <- !app_assoc;
    (apply py_join_app_congr; [done|done|]); cbn [map app py_join gpt_part flan_part phi3_part
    mistral_part generic_part]; rewrite !str_app_assoc; reflexivity.
Qed.

(** ** The configured and other model names *)

(** [huggingface_llm_model] defaults to ["gpt2"]. *)
Lemma prompt_format_default : prompt_format "gpt2" = GptFormat.
Proof. reflexivity. Qed.

Lemma prompt_format_examples :
  prompt_format "mistralai/Mistral-7B-Instruct-v0.2" = MistralFormat /\
  prompt_format "microsoft/Phi-3-mini-4k-instruct" = Phi3Format /\
  prompt_format "google/flan-t5-large" = FlanFormat /\
  prompt_format "mistralai/Mixtral-8x7B-Instruct-v0.1" = MistralFormat.
Proof. repeat split; reflexivity. Qed.
