(* ===== verification/PodcastPrompts.v ===== *)
(** * PodcastPrompts: [infrastructure/external/gemini/prompts/podcast_prompts.py]

    The prompt templates of the podcast generation.  Each builder is an
    f-string that puts the language rule in front of its text, in which
    [{{name}}] leaves the replacement field [{name}] for the
    [str.format] the Gemini client applies later.  [PodcastLanguage]
    ([domain/podcast/value_objects/language.py]) is not in the
    repository: its three members the code names, and any other by its
    [value].  A template is also given as its pieces ([TemplatePiece]):
    the literal text and the fields, which [str.format] fills. *)

From S2P Require Import Prelude PyStr.

Inductive PodcastLanguage := EN_US | JA_JP | CMN_CN | OtherLanguage (value : string).

(** [build_language_prompts]. *)
Definition build_language_prompts (language : PodcastLanguage) : string :=
  let language_instruction :=
    match language with
    | EN_US => "Generate all content in English."
    | JA_JP => "Generate all content in Japanese (日本語で生成してください)."
    | CMN_CN => "Generate all content in Simplified Chinese (请用简体中文生成)."
    | OtherLanguage v => "Generate all content in the language: " +:+ v +:+ "."
    end in
  "
Important Rules:
- " +:+ language_instruction +:+ "
- Keep content family-friendly and educational.
- Focus on positive, constructive discussion.
- Avoid any controversial or sensitive topics.
".

(** [_build_chapter_summary_prompt]. *)
Definition build_chapter_summary_prompt (language_rule : string) : string :=
  language_rule +:+ "

Please provide a concise and informative summary of the following book chapter.
Focus on the main ideas, key arguments, and important details.
Keep the summary clear, well-structured, and family-friendly.

{chapter_content}

Summary:
".

(** [_build_book_summary_prompt]. *)
Definition build_book_summary_prompt (language_rule : string) : string :=
  language_rule +:+ "

Based on the following chapter summaries, create a comprehensive overview of the book " +:+ DQ +:+ "{book_title}" +:+ DQ +:+ ".
Synthesize the key themes, main arguments, character development (if applicable), and important takeaways.
Present the summary in a clear, engaging, and family-friendly manner that captures the essence of the book.

Chapter Summaries:
{chapter_summaries}

Book Overview:
".

(** [_build_system_prompt]. *)
Definition build_system_prompt (language_rule : string) : string :=
  language_rule +:+ "

You are an expert podcast scriptwriter creating engaging, family-friendly dialogues about books.
Your task is to transform book summaries into natural, conversational podcasts between two hosts.

Guidelines:
- Speaker HOST is the main host who leads the discussion
- Speaker GUEST is the co-host who provides insights and asks questions
- Keep the conversation natural, engaging, and family-friendly
- Include specific examples and interesting details from the book
- Balance information with entertainment
- Use conversational language and natural transitions
- Ensure all content is suitable for general audiences
- Focus on positive, educational, and constructive discussion
".

(** [_build_script_prompt]. *)
Definition build_script_prompt (language_rule : string) : string :=
  language_rule +:+ "

Create a family-friendly podcast dialogue about " +:+ DQ +:+ "{book_title}" +:+ DQ +:+ " for approximately {target_words} words.

Book Summary:
{book_summary}

Requirements:
- Natural conversation flow between speakers HOST and GUEST
- Engaging opening that hooks the listener
- Clear explanation of the book's main themes
- Interesting insights and analysis
- Personal reactions and recommendations
- Smooth conclusion with key takeaways
- All content must be family-friendly and educational
- Focus on positive, constructive discussion

Generate the dialogue in a structured format with speaker labels and their text.
".

(** The dictionary [get_prompts_with_language] returns. *)
Record PodcastPrompts := mkPodcastPrompts {
  pp_chapter_summary : string;
  pp_book_summary : string;
  pp_system : string;
  pp_script : string;
  pp_openings : list string;
  pp_closings : list string
}.

(** [get_prompts_with_language]. *)
Definition get_prompts_with_language (language : PodcastLanguage) : PodcastPrompts :=
  let language_rule := build_language_prompts language in
  mkPodcastPrompts (build_chapter_summary_prompt language_rule) (build_book_summary_prompt language_rule)
    (build_system_prompt language_rule) (build_script_prompt language_rule)
    ["Welcome to our book discussion podcast! Today we're diving into {book_title}.";
     "Hello everyone! We have an exciting book to talk about today: {book_title}.";
     "Welcome back to another episode! This time we're exploring {book_title}."]
    ["That's all for today's discussion of {book_title}. Thanks for listening!";
     "We hope you enjoyed our conversation about {book_title}. Until next time!";
     "Thank you for joining us as we explored {book_title}. Happy reading!"].

(** ** The script template, cut at its fields *)

Definition script_pieces (language_rule : string) : list TemplatePiece :=
  [TLit (language_rule +:+ "

Create a family-friendly podcast dialogue about " +:+ DQ); TField "book_title";
   TLit (DQ +:+ " for approximately "); TField "target_words";
   TLit " words.

Book Summary:
"; TField "book_summary"; TLit "

Requirements:
- Natural conversation flow between speakers HOST and GUEST
- Engaging opening that hooks the listener
- Clear explanation of the book's main themes
- Interesting insights and analysis
- Personal reactions and recommendations
- Smooth conclusion with key takeaways
- All content must be family-friendly and educational
- Focus on positive, constructive discussion

Generate the dialogue in a structured format with speaker labels and their text.
"].

Lemma build_script_prompt_pieces language_rule :
  build_script_prompt language_rule = render_template (script_pieces language_rule).
Proof. unfold build_script_prompt, render_template, script_pieces. cbn [foldr render_piece]. by rewrite !str_app_assoc. Qed.

(** The language's value, for a language the code does not name, holds
    no brace. *)
Definition language_plain (language : PodcastLanguage) : Prop :=
  match language with OtherLanguage v => no_braces v = true | _ => True end.

Lemma language_rule_no_braces language :
  language_plain language -> no_braces (build_language_prompts language) = true.
Proof.
  destruct language as [| | |v]; cbn [language_plain]; intros Hv; [reflexivity..|].
  unfold build_language_prompts. rewrite !no_braces_app, Hv. reflexivity.
Qed.
