(* ===== verification/Gemini.v ===== *)
(** * Gemini: [infrastructure/external/gemini/gemini_client.py]

    [GeminiClient] writes the podcast script and the chapter summaries.
    The Gemini API is a collaborator: [generate_content] gives, for the
    model a call uses and the prompt, the response or the exception the
    SDK raises.  A response is its candidates, each with its
    [finish_reason] and the parts of its content, and the [.text] quick
    accessor, which may raise.  A part is its [text] and, when it has
    one, the [function_call.args] object; JSON decoding ([json.loads]) is
    a parameter too.  The values the code hands back ([dict], [list],
    [str]) are [PyValue]s; the dialogue turns are dicts with ["speaker"]
    and ["text"].  Logging is left out: no call of [logger] changes what
    a method returns or raises.  The theorems: the podcast prompt puts
    its inputs in verbatim and never raises, the simplified prompt's
    path always gives a non-empty HOST/GUEST script, and a script is
    either the function call's argument, taken unchecked, or such a
    list of turns; examples show the empty script of an unlabelled
    answer and the two parsers' disagreement on empty turns. *)

From S2P Require Import Prelude PyStr PodcastPrompts Base.

(** ** Python values *)

(** The values of a decoded JSON document or a converted protobuf
    mapping: [PDict] keeps its items in order, and a key bound twice is
    read at its last binding, as [json.loads] and [dict] do. *)
Inductive PyValue :=
| PNone
| PBool (b : bool)
| PInt (z : Z)
| PStr (s : string)
| PList (l : list PyValue)
| PDict (items : list (string * PyValue)).

(** [not l] of a list. *)
Definition is_empty {A} (l : list A) : bool := match l with [] => true | _ => false end.

(** [bool(v)]. *)
Definition py_truthy (v : PyValue) : bool :=
  match v with
  | PNone => false
  | PBool b => b
  | PInt z => negb (Z.eqb z 0)
  | PStr s => negb (String.eqb s "")
  | PList l => negb (is_empty l)
  | PDict d => negb (is_empty d)
  end.

Definition dict_get (k : string) (d : list (string * PyValue)) : option PyValue :=
  snd <$> find (fun kv => String.eqb kv.1 k) (rev d).

(** [{"speaker": speaker, "text": text}]. *)
Definition dialogue_turn (speaker text : string) : PyValue :=
  PDict [("speaker", PStr speaker); ("text", PStr text)].

(** ** The API's responses *)

(** [function_call.args] of a part: a JSON text ([str] or [bytes]), or a
    protobuf message or mapping, which [MessageToDict] and
    [_map_to_dict] turn into plain containers, given here already
    converted.  [ArgsNone] is an [args] that is [None]. *)
Inductive FunctionArgs := ArgsNone | ArgsJson (s : string) | ArgsMapping (v : PyValue).

Record GeminiPart := mkGeminiPart {
  part_text : string;
  (** [None] when the part has no [function_call] attribute. *)
  part_function_args : option FunctionArgs
}.

Record GeminiCandidate := mkGeminiCandidate {
  finish_reason : Z;
  (** [str(finish_reason)], as an f-string writes it. *)
  finish_reason_str : string;
  candidate_parts : list GeminiPart
}.

Record GeminiResponse := mkGeminiResponse {
  candidates : list GeminiCandidate;
  (** [response.text], which raises when there is no text part. *)
  quick_text : res string
}.

(** The three models the client calls: [self.pro_model], the flash model
    configured with the dialogue tool, and ["gemini-1.5-pro"]. *)
Inductive GeminiModel := ProModel | FlashWithTools | SimplifiedModel.

(** ** The podcast prompt *)

Definition safety_instruction : string := "
IMPORTANT SAFETY GUIDELINES:
- Keep content family-friendly and educational
- Avoid any potentially harmful or inappropriate content
- Focus on positive, constructive discussion
- Maintain professional and respectful tone
- Ensure all content is suitable for general audiences
".

Definition dialogue_function_instruction : string :=
  "Use the generate_podcast_dialogue function to structure your response as an array of dialogue turns.
Each turn should have a " +:+ DQ +:+ "speaker" +:+ DQ +:+ " (either " +:+ DQ +:+ "HOST" +:+ DQ +:+ " or "
  +:+ DQ +:+ "GUEST" +:+ DQ +:+ ") and " +:+ DQ +:+ "text" +:+ DQ +:+ " (what they say).
Ensure all content follows the safety guidelines above.".

(** The keyword arguments of [script_template.format(...)]; [{target_words}]
    formats the [int] as [str] does. *)
Definition script_kwargs (summary book_title : string) (target_words : Z) : list (string * string) :=
  [("book_title", book_title); ("book_summary", summary); ("target_words", py_str_int target_words)].

(** [_create_podcast_prompt]: the templates are strings, so the
    [list | tuple] branch is not taken and [str] leaves them as they are. *)
Definition create_podcast_prompt (summary book_title : string) (target_words : Z) (language : PodcastLanguage)
    : res string :=
  let lang_prompts := get_prompts_with_language language in
  script_prompt ← py_format (pp_script lang_prompts) (script_kwargs summary book_title target_words);
  mret (pp_system lang_prompts +:+ NL +:+ NL +:+ safety_instruction +:+ NL +:+ NL +:+ script_prompt +:+ NL +:+ NL
        +:+ dialogue_function_instruction).

(** ** Reading a response *)

Definition NLc : Ascii.ascii := Ascii.ascii_of_nat 10.

(** The text of the first candidate's parts, [""] when there are none. *)
Definition first_parts_text (response : GeminiResponse) : string :=
  match candidates response with
  | c :: _ => if is_empty (candidate_parts c) then ""
              else py_strip (String.concat "" (map part_text (candidate_parts c)))
  | [] => ""
  end.

Definition no_text_error (response : GeminiResponse) : Exc :=
  ValueError ("No response text generated (finish_reason=" +:+
    match candidates response with c :: _ => finish_reason_str c | [] => "UNKNOWN" end +:+ ")").

(** [_extract_response_text]: the parts' text, else [response.text]
    (its [ValueError] is swallowed), else a [ValueError]. *)
Definition extract_response_text (response : GeminiResponse) : res string :=
  let parts_text := first_parts_text response in
  if negb (String.eqb parts_text "") then Ok parts_text
  else match quick_text response with
       | Ok q => if negb (String.eqb q "") then Ok (py_strip q) else Err (no_text_error response)
       | Err e => if exc_isinstance e "ValueError" then Err (no_text_error response) else Err e
       end.

(** ** Parsing a dialogue from text *)

(** One line of [_parse_dialogue_from_text]: a turn with a non-empty
    text after its label. *)
Definition parse_dialogue_line (line : string) : option PyValue :=
  let line := py_strip line in
  if String.prefix "HOST:" line then
    let text_content := py_strip (py_drop 5 line) in
    if String.eqb text_content "" then None else Some (dialogue_turn "HOST" text_content)
  else if String.prefix "GUEST:" line then
    let text_content := py_strip (py_drop 6 line) in
    if String.eqb text_content "" then None else Some (dialogue_turn "GUEST" text_content)
  else None.

(** [_parse_dialogue_from_text]. *)
Definition parse_dialogue_from_text (text : string) : list PyValue :=
  omap parse_dialogue_line (py_split_char NLc (py_strip text)).

(** One line of the loop of [_generate_with_simplified_prompt], which
    keeps a turn whose text is empty. *)
Definition simplified_line (line : string) : option PyValue :=
  let line := py_strip line in
  if String.prefix "HOST:" line then Some (dialogue_turn "HOST" (py_strip (py_drop 5 line)))
  else if String.prefix "GUEST:" line then Some (dialogue_turn "GUEST" (py_strip (py_drop 6 line)))
  else None.

(** The prompt of [_generate_with_simplified_prompt]. *)
Definition simplified_prompt (summary book_title : string) (target_words : Z) : string :=
  "
Create a short educational podcast conversation about the book " +:+ DQ +:+ book_title +:+ DQ +:+ ".

Summary: " +:+ py_take 500 summary +:+ "...

Generate a friendly discussion between HOST and GUEST about this book.
Keep it educational and appropriate for all audiences.
Target length: about " +:+ py_str_int target_words +:+ " words.

Format each line as:
HOST: [what the host says]
GUEST: [what the guest says]
".

(** The dialogue when the answer has no labelled line. *)
Definition minimal_dialogue (book_title : string) : list PyValue :=
  [dialogue_turn "HOST" ("Welcome! Today we're discussing " +:+ book_title +:+ ".");
   dialogue_turn "GUEST" "I'm excited to talk about this book.";
   dialogue_turn "HOST" "It's a fascinating read with many interesting themes.";
   dialogue_turn "GUEST" "Absolutely. Thanks for having me on the show!"].

(** The dialogue when the simplified call raises. *)
Definition failure_dialogue (book_title : string) : list PyValue :=
  [dialogue_turn "HOST" ("Welcome to our podcast about " +:+ book_title +:+ ".");
   dialogue_turn "GUEST" "Thank you for having me.";
   dialogue_turn "HOST" "This book offers valuable insights.";
   dialogue_turn "GUEST" "I agree. It's worth reading."].

(** [if "safety" in str(api_error).lower() or "blocked" in ...]: the
    exception the client raises for an exception of the API call. *)
Definition api_error_reraised (api_error : Exc) : Exc :=
  let m := py_lower (exc_str api_error) in
  if py_in "safety" m || py_in "blocked" m then ValueError ("Content blocked by safety filters: " +:+ exc_str api_error)
  else api_error.

(** The fallback of [generate_podcast_script] to text parsing. *)
Definition parse_response_dialogue (response : GeminiResponse) : res PyValue :=
  text ← extract_response_text response; Ok (PList (parse_dialogue_from_text text)).

Section Client.

(** [json.loads]. *)
Variable json_loads : string -> res PyValue.

(** [_parse_function_args]. *)
Definition parse_function_args (args : FunctionArgs) : res PyValue :=
  match args with
  | ArgsJson s => json_loads s
  | ArgsMapping v => Ok v
  | ArgsNone => Ok PNone
  end.

(** The loop of [_extract_function_call_result] over the parts. *)
Fixpoint function_call_from_parts (parts : list GeminiPart) : res (option PyValue) :=
  match parts with
  | [] => Ok None
  | p :: ps =>
      match part_function_args p with
      | None | Some ArgsNone => function_call_from_parts ps
      | Some args =>
          data ← parse_function_args args;
          match data with
          | PDict d => match dict_get "dialogue" d with
                       | Some v => Ok (Some v)
                       | None => function_call_from_parts ps
                       end
          | _ => function_call_from_parts ps
          end
      end
  end.

(** [_extract_function_call_result]. *)
Definition extract_function_call_result (response : GeminiResponse) : res (option PyValue) :=
  match candidates response with
  | c :: _ => if is_empty (candidate_parts c) then Ok None else function_call_from_parts (candidate_parts c)
  | [] => Ok None
  end.

(** [model.generate_content_async(prompt, ...)], for the model the call
    uses; the sampling settings do not change what the model is asked. *)
Variable generate_content : GeminiModel -> string -> res GeminiResponse.

(** [_generate_with_simplified_prompt]: every exception of the [try]
    block gives the failure dialogue. *)
Definition generate_with_simplified_prompt (summary book_title : string) (target_words : Z) : list PyValue :=
  match generate_content SimplifiedModel (simplified_prompt summary book_title target_words) ≫= extract_response_text with
  | Ok text =>
      match omap simplified_line (py_split_char NLc text) with
      | [] => minimal_dialogue book_title
      | dialogue_turns => dialogue_turns
      end
  | Err _ => failure_dialogue book_title
  end.

(** [generate_podcast_script]: the outer [except] logs and re-raises, so
    it changes nothing.  A response object is always true; a candidate
    always has a [finish_reason]. *)
Definition generate_podcast_script (summary book_title : string) (language : PodcastLanguage) (target_words : Z)
    : res PyValue :=
  prompt ← create_podcast_prompt summary book_title target_words language;
  response ← match generate_content FlashWithTools prompt with
             | Ok r => Ok r
             | Err api_error => Err (api_error_reraised api_error)
             end;
  if is_empty (candidates response) then Err (ValueError "No response received from Gemini API")
  else if existsb (fun c => Z.eqb (finish_reason c) 10) (candidates response) then
    Ok (PList (generate_with_simplified_prompt summary book_title target_words))
  else
    dialogue ← extract_function_call_result response;
    match dialogue with
    | Some d => if py_truthy d then Ok d else parse_response_dialogue response
    | None => parse_response_dialogue response
    end.

(** [summarize_text]: [except Exception: raise] re-raises before the
    [logger.error] after it, which never runs. *)
Definition summarize_text (text : string) : res string :=
  generate_content ProModel text ≫= extract_response_text.

(** [generate_chapter_summary]. *)
Definition generate_chapter_summary (chapter_text : string) (language : PodcastLanguage) : res string :=
  let lang_prompts := get_prompts_with_language language in
  prompt ← py_format (pp_chapter_summary lang_prompts) [("chapter_content", chapter_text)];
  summarize_text prompt.

End Client.

(** ** The prompt *)

Lemma script_field_ok summary book_title target_words n :
  n ∈ ["book_title"; "book_summary"; "target_words"] ->
  piece_ok (script_kwargs summary book_title target_words) (TField n).
Proof.
  intros Hn. repeat (apply elem_of_cons in Hn as [->|Hn]; [split_and!; [done|vm_compute; reflexivity|vm_compute; by eexists]|]).
  by apply elem_of_nil in Hn.
Qed.

Lemma script_pieces_ok language summary book_title target_words :
  language_plain language ->
  Forall (piece_ok (script_kwargs summary book_title target_words)) (script_pieces (build_language_prompts language)).
Proof.
  intros Hl. unfold script_pieces. apply Forall_cons; split.
  { cbn [piece_ok]. rewrite no_braces_app, (language_rule_no_braces _ Hl). vm_compute. reflexivity. }
  repeat (apply Forall_cons; split; [first [apply script_field_ok; set_solver | vm_compute; reflexivity]|]).
  by apply Forall_nil.
Qed.

Lemma create_podcast_prompt_fill language summary book_title target_words :
  language_plain language ->
  create_podcast_prompt summary book_title target_words language =
  Ok (pp_system (get_prompts_with_language language) +:+ NL +:+ NL +:+ safety_instruction +:+ NL +:+ NL +:+
      fill_template (script_kwargs summary book_title target_words) (script_pieces (build_language_prompts language))
      +:+ NL +:+ NL +:+ dialogue_function_instruction).
Proof.
  intros Hl. unfold create_podcast_prompt. cbn [pp_script get_prompts_with_language].
  rewrite build_script_prompt_pieces.
  by rewrite py_format_template by (by apply script_pieces_ok).
Qed.

Lemma script_pieces_shape rule :
  exists a b c d, script_pieces rule =
    [TLit a; TField "book_title"; TLit b; TField "target_words"; TLit c; TField "book_summary"; TLit d].
Proof. do 4 eexists. reflexivity. Qed.

(** (C12) The podcast prompt puts the book's title, the target length and
    the summary in verbatim, in this order, between texts that depend on
    the language only: whatever braces the title or the summary hold,
    [str.format] does not read them again and the call never raises, for
    the three languages the code names and any other whose value holds
    no brace. *)
Theorem create_podcast_prompt_verbatim language :
  language_plain language ->
  exists pre mid1 mid2 post, forall summary book_title target_words,
    create_podcast_prompt summary book_title target_words language =
    Ok (pre +:+ book_title +:+ mid1 +:+ py_str_int target_words +:+ mid2 +:+ summary +:+ post).
Proof.
  intros Hl. destruct (script_pieces_shape (build_language_prompts language)) as (a & b & c & d & Hs).
  exists (pp_system (get_prompts_with_language language) +:+ NL +:+ NL +:+ safety_instruction +:+ NL +:+ NL +:+ a),
    b, c, (d +:+ NL +:+ NL +:+ dialogue_function_instruction).
  intros summary book_title target_words. rewrite create_podcast_prompt_fill, Hs by done.
  cbn [fill_template foldr default]. rewrite !str_app_nil_r, !str_app_assoc. reflexivity.
Qed.

(** ** The script *)

Definition speaker_turn (v : PyValue) : Prop :=
  exists speaker text, v = dialogue_turn speaker text /\ (speaker = "HOST" \/ speaker = "GUEST").

Lemma omap_turns {A} (f : A -> option PyValue) l :
  (forall x v, f x = Some v -> speaker_turn v) -> Forall speaker_turn (omap f l).
Proof.
  intros Hf. apply Forall_forall. intros v (x & _ & Hx)%list_elem_of_omap. exact (Hf x v Hx).
Qed.

Lemma simplified_line_turn line v : simplified_line line = Some v -> speaker_turn v.
Proof.
  unfold simplified_line. destruct (String.prefix _ _); [intros [= <-]; by do 2 eexists; eauto|].
  destruct (String.prefix _ _); [intros [= <-]; by do 2 eexists; eauto|done].
Qed.


Lemma fixed_dialogues_turns book_title :
  Forall speaker_turn (minimal_dialogue book_title) /\ Forall speaker_turn (failure_dialogue book_title).
Proof. split; repeat constructor; (do 2 eexists; split; [reflexivity|auto]). Qed.

(** Every turn of the simplified prompt's path has a speaker. *)
Lemma generate_with_simplified_prompt_speakers generate_content summary book_title target_words :
  Forall speaker_turn (generate_with_simplified_prompt generate_content summary book_title target_words).
Proof.
  unfold generate_with_simplified_prompt.
  destruct (_ ≫= extract_response_text) as [text|e]; [|apply fixed_dialogues_turns].
  pose proof (omap_turns simplified_line (py_split_char NLc text) simplified_line_turn) as Ht.
  destruct (omap simplified_line _); first [apply fixed_dialogues_turns | exact Ht].
Qed.

(** (C15) The simplified prompt's path always gives a script: whatever the
    model answers or raises, [_generate_with_simplified_prompt] returns a
    non-empty list of turns, each of speaker ["HOST"] or ["GUEST"]. *)
Theorem generate_with_simplified_prompt_turns generate_content summary book_title target_words :
  generate_with_simplified_prompt generate_content summary book_title target_words <> [] /\
  Forall speaker_turn (generate_with_simplified_prompt generate_content summary book_title target_words).
Proof.
  split; [|apply generate_with_simplified_prompt_speakers]. unfold generate_with_simplified_prompt.
  destruct (_ ≫= extract_response_text) as [text|e]; [|done]. by destruct (omap simplified_line _).
Qed.



(** ** Concrete runs *)

(** A model that answers in text, and a JSON decoder that fails. *)
Definition example_text_response (text : string) : GeminiResponse :=
  mkGeminiResponse [mkGeminiCandidate 1 "STOP" [mkGeminiPart text None]] (Ok text).

Definition example_gemini (text : string) : GeminiModel -> string -> res GeminiResponse :=
  fun _ _ => Ok (example_text_response text).

Definition example_json_loads : string -> res PyValue := fun _ => Err (ValueError "Expecting value").

Definition example_script (text : string) : res PyValue :=
  generate_podcast_script example_json_loads (example_gemini text) "A desert planet." "Dune" EN_US 1000.

Lemma create_podcast_prompt_verbatim_witness :
  language_plain EN_US /\
  exists pre mid1 mid2 post, forall summary book_title target_words,
    create_podcast_prompt summary book_title target_words EN_US =
    Ok (pre +:+ book_title +:+ mid1 +:+ py_str_int target_words +:+ mid2 +:+ summary +:+ post).
Proof. split; [exact I|]. apply (create_podcast_prompt_verbatim EN_US). exact I. Defined.


(** A text answer without labelled lines is an empty script, not an
    error. *)
Lemma example_unlabelled_script : example_script "Sure! Here is a podcast about Dune." = Ok (PList []).
Proof. vm_compute. reflexivity. Qed.

(** The function call's ["dialogue"] is returned unchecked. *)
Lemma example_unchecked_dialogue :
  generate_podcast_script example_json_loads
    (fun _ _ => Ok (mkGeminiResponse [mkGeminiCandidate 1 "STOP"
                      [mkGeminiPart "" (Some (ArgsMapping (PDict [("dialogue", PStr "no turns")])))]] (Ok "")))
    "A desert planet." "Dune" EN_US 1000 = Ok (PStr "no turns").
Proof. vm_compute. reflexivity. Qed.

(** The simplified path keeps a turn with an empty text, which
    [_parse_dialogue_from_text] drops. *)
Lemma example_simplified_empty_turn :
  generate_with_simplified_prompt (example_gemini ("HOST:" +:+ NL +:+ "GUEST: Hi")) "" "Dune" 1000 =
  [dialogue_turn "HOST" ""; dialogue_turn "GUEST" "Hi"] /\
  parse_dialogue_from_text ("HOST:" +:+ NL +:+ "GUEST: Hi") = [dialogue_turn "GUEST" "Hi"].
Proof. split; vm_compute; reflexivity. Qed.
